(** * Sistema de gestao orcamental: a shallow embedding of the backend

    The development follows the layout of [Backend/app]:
    - [Text] and [Dec]: Python [str] operations and [decimal.Decimal]
      literals, as used by [services/importer.py];
    - [models.py]: enumerations and table rows, one record per mapped class,
      and the database as a record of tables;
    - [services/rubrica_service.py], [services/despesa_service.py],
      [crud.py], [api/dotacao_global.py], [api/despesas_confirm.py],
      [api/despesas.py], [api/rubricas.py], [services/importer.py]:
      one definition per function, with the source's name.

    Conventions.
    - Monetary columns are [Numeric(18,2)]: a stored amount is the integer
      number of hundredths ([Z]).  The amounts that the bodies of
      [POST /dotacao_global], of the reservation requests and of
      [POST /despesas] carry are [Decimal]s with whatever digits they came
      with ([Dec.Decimal]): they are compared as they are, and rounded to
      hundredths, ties away from zero, when they reach a column.  The
      18-digit range check of the column is not modelled.
    - A nullable column is an [option]; Python truthiness ([if not x],
      [x or d]) is written out with [truthy_id] and [default].
    - A session holds the rows as last committed and the rows as its own
      queries see them: [flush] makes a change visible to the queries that
      follow, [commit] makes it durable, and an exception that leaves a
      request gives back the database of the last commit.  The session of a
      request is the one its dependencies have used: when the body of an
      endpoint starts, [get_current_user] has queried the user on it and its
      transaction has begun.
    - Text is a byte string holding UTF-8. *)

From Stdlib Require Import ZArith NArith String Ascii List Lia Bool DecimalString.
From stdpp Require Import gmap list.
Import ListNotations.

Local Open Scope Z_scope.

(** ** Python [str] operations, on the UTF-8 bytes of the text *)

Module Text.

Local Open Scope string_scope.

Definition is_empty (s : string) : bool :=
  match s with EmptyString => true | _ => false end.

Definition of_bytes (l : list nat) : string :=
  fold_right (fun n s => String (ascii_of_nat n) s) EmptyString l.

(** The characters that [str.isspace] accepts, which [str.strip] removes,
    in UTF-8: U+0009 to U+000D, U+001C to U+0020, U+0085, U+00A0, U+1680,
    U+2000 to U+200A, U+2028, U+2029, U+202F, U+205F and U+3000. *)
Definition white_space : list string :=
  List.map of_bytes
    [ [9%nat]; [10%nat]; [11%nat]; [12%nat]; [13%nat];
      [28%nat]; [29%nat]; [30%nat]; [31%nat]; [32%nat];
      [194; 133]%nat; [194; 160]%nat; [225; 154; 128]%nat;
      [226; 128; 128]%nat; [226; 128; 129]%nat; [226; 128; 130]%nat;
      [226; 128; 131]%nat; [226; 128; 132]%nat; [226; 128; 133]%nat;
      [226; 128; 134]%nat; [226; 128; 135]%nat; [226; 128; 136]%nat;
      [226; 128; 137]%nat; [226; 128; 138]%nat;
      [226; 128; 168]%nat; [226; 128; 169]%nat; [226; 128; 175]%nat;
      [226; 129; 159]%nat; [227; 128; 128]%nat ].

(** [s] without the prefix [p], when it starts with it. *)
Fixpoint strip_prefix (p s : string) : option string :=
  match p, s with
  | EmptyString, _ => Some s
  | String a p', String b s' => if Ascii.eqb a b then strip_prefix p' s' else None
  | String _ _, EmptyString => None
  end.

(** [s] without the first of the texts [ws] that it starts with. *)
Fixpoint drop_first (ws : list string) (s : string) : option string :=
  match ws with
  | [] => None
  | w :: ws' =>
      match strip_prefix w s with
      | Some rest => Some rest
      | None => drop_first ws' s
      end
  end.

(** [s] without the longest prefix made of the texts [ws]; one step per
    byte is enough. *)
Fixpoint drop_all (ws : list string) (fuel : nat) (s : string) : string :=
  match fuel with
  | O => s
  | S fuel' =>
      match drop_first ws s with
      | Some rest => drop_all ws fuel' rest
      | None => s
      end
  end.

Fixpoint rev (s : string) : string :=
  match s with
  | EmptyString => EmptyString
  | String c s' => rev s' ++ String c EmptyString
  end.

Definition lstrip (s : string) : string := drop_all white_space (String.length s) s.

(** The same from the end: the bytes are read backwards. *)
Definition rstrip (s : string) : string :=
  rev (drop_all (List.map rev white_space) (String.length s) (rev s)).

Definition strip (s : string) : string := rstrip (lstrip s).

Fixpoint starts_with (p s : string) : bool :=
  match p, s with
  | EmptyString, _ => true
  | String a p', String b s' => if Ascii.eqb a b then starts_with p' s' else false
  | String _ _, EmptyString => false
  end.

(** [s.replace(old, new)] for a non-empty [old]: leftmost, non-overlapping.
    [skip] counts the bytes of a match that are still to be dropped. *)
Fixpoint replace_from (old new : string) (skip : nat) (s : string) : string :=
  match s with
  | EmptyString => EmptyString
  | String c s' =>
      match skip with
      | S k => replace_from old new k s'
      | O =>
          if starts_with old s
          then new ++ replace_from old new (String.length old - 1) s'
          else String c (replace_from old new 0 s')
      end
  end.

Definition replace (old new s : string) : string := replace_from old new 0 s.

(** [c in s] for a one-character [c]. *)
Fixpoint contains (c : ascii) (s : string) : bool :=
  match s with
  | EmptyString => false
  | String d s' => Ascii.eqb c d || contains c s'
  end.

(** [s.rfind(c)]: index of the last occurrence, [-1] when there is none. *)
Fixpoint rfind_from (c : ascii) (i : Z) (last : Z) (s : string) : Z :=
  match s with
  | EmptyString => last
  | String d s' => rfind_from c (i + 1) (if Ascii.eqb c d then i else last) s'
  end.

Definition rfind (c : ascii) (s : string) : Z := rfind_from c 0 (-1) s.

(** [str.upper] on ASCII letters. *)
Definition upper_char (c : ascii) : ascii :=
  let n := nat_of_ascii c in
  if ((97 <=? n)%nat && (n <=? 122)%nat) then ascii_of_nat (n - 32) else c.

Fixpoint upper (s : string) : string :=
  match s with
  | EmptyString => EmptyString
  | String c s' => String (upper_char c) (upper s')
  end.

End Text.

(** ** [decimal.Decimal] values and the [Decimal(str)] constructor *)

Module Dec.

(** A [Decimal] is a signed coefficient with a power-of-ten exponent, an
    infinity, or a NaN. *)
Inductive Decimal : Type :=
| Finite (sign : bool) (coefficient : N) (exponent : Z)
| Infinity (sign : bool)
| NaN (sign : bool) (signaling : bool) (payload : N).

Definition digit_of (c : ascii) : option N :=
  let n := nat_of_ascii c in
  if ((48 <=? n)%nat && (n <=? 57)%nat) then Some (N.of_nat (n - 48)) else None.

(** Longest prefix of digits: its value, its length, and the rest. *)
Fixpoint take_digits (acc : N) (len : nat) (s : string) : N * nat * string :=
  match s with
  | String c s' =>
      match digit_of c with
      | Some d => take_digits (10 * acc + d)%N (S len) s'
      | None => (acc, len, s)
      end
  | EmptyString => (acc, len, s)
  end.

Definition take_sign (s : string) : bool * string :=
  match s with
  | String "-"%char s' => (true, s')
  | String "+"%char s' => (false, s')
  | _ => (false, s)
  end.

(** An exponent mark, an optional sign and at least one digit, up to the
    end of the text. *)
Definition parse_exponent (s : string) : option Z :=
  match s with
  | EmptyString => Some 0
  | String e s' =>
      if Ascii.eqb (Text.upper_char e) "E"%char then
        let '(neg, s1) := take_sign s' in
        match take_digits 0 0 s1 with
        | (_, O, _) => None
        | (v, S _, EmptyString) => Some (if neg then - Z.of_N v else Z.of_N v)
        | (_, S _, String _ _) => None
        end
      else None
  end.

(** The finite branch of the grammar: digits, an optional point and more
    digits, with a digit on at least one side of the point, then an optional
    exponent. *)
Definition parse_finite (sign : bool) (s : string) : option Decimal :=
  let '(ip, ilen, s1) := take_digits 0 0 s in
  match s1 with
  | String "."%char s2 =>
      let '(cf, flen, s3) := take_digits ip 0 s2 in
      if (Nat.eqb ilen 0 && Nat.eqb flen 0)%bool then None
      else
        match parse_exponent s3 with
        | Some e => Some (Finite sign cf (e - Z.of_nat flen))
        | None => None
        end
  | _ =>
      if Nat.eqb ilen 0 then None
      else
        match parse_exponent s1 with
        | Some e => Some (Finite sign ip e)
        | None => None
        end
  end.

Definition parse_special (sign : bool) (s : string) : option Decimal :=
  let u := Text.upper s in
  if (String.eqb u "INF" || String.eqb u "INFINITY")%bool then Some (Infinity sign)
  else if Text.starts_with "NAN" u then
    match take_digits 0 0 (String.substring 3 (String.length u - 3) u) with
    | (p, _, EmptyString) => Some (NaN sign false p)
    | _ => None
    end
  else if Text.starts_with "SNAN" u then
    match take_digits 0 0 (String.substring 4 (String.length u - 4) u) with
    | (p, _, EmptyString) => Some (NaN sign true p)
    | _ => None
    end
  else None.

(** [Decimal(text)]: surrounding white space and underscores are dropped
    first; [None] stands for [InvalidOperation]. *)
Definition of_string (text : string) : option Decimal :=
  let s := Text.replace "_" "" (Text.strip text) in
  let '(sign, body) := take_sign s in
  match parse_finite sign body with
  | Some d => Some d
  | None => parse_special sign body
  end.

(** Comparison with zero; [None] is the [InvalidOperation] that an ordering
    comparison with a NaN raises. *)
Definition le_zero (d : Decimal) : option bool :=
  match d with
  | Finite s c _ => Some (N.eqb c 0 || s)
  | Infinity s => Some s
  | NaN _ _ _ => None
  end.

(** Rounding a quotient to the nearest integer, ties away from zero: the
    rule by which the database stores an exact value in a [Numeric(18,2)]
    column. *)
Definition round_div (num den : Z) : Z :=
  if 0 <=? num then (2 * num + den) / (2 * den)
  else - ((2 * (- num) + den) / (2 * den)).

(** The amount, in hundredths, that a finite [Decimal] becomes when it is
    written to a [Numeric(18,2)] column. *)
Definition to_cents (d : Decimal) : option Z :=
  match d with
  | Finite s c e =>
      let m := if s then - Z.of_N c else Z.of_N c in
      Some (if 0 <=? e + 2 then m * 10 ^ (e + 2) else round_div m (10 ^ (- (e + 2))))
  | _ => None
  end.

(** The signed coefficient of a finite [Decimal]. *)
Definition mantissa (s : bool) (c : N) : Z := if s then - Z.of_N c else Z.of_N c.

Definition is_finite (d : Decimal) : bool :=
  match d with Finite _ _ _ => true | _ => false end.

(** [-d] *)
Definition neg (d : Decimal) : Decimal :=
  match d with
  | Finite s c e => Finite (negb s) c e
  | Infinity s => Infinity (negb s)
  | NaN s g p => NaN (negb s) g p
  end.

(** [d > z], where [z] is an amount read from a [Numeric(18,2)] column, in
    hundredths: the comparison is exact.  [None] is the [InvalidOperation]
    of an ordering comparison with a NaN. *)
Definition gt_cents (d : Decimal) (z : Z) : option bool :=
  match d with
  | Finite s c e =>
      Some (if 0 <=? e + 2 then z <? mantissa s c * 10 ^ (e + 2)
            else z * 10 ^ (- (e + 2)) <? mantissa s c)
  | Infinity s => Some (negb s)
  | NaN _ _ _ => None
  end.

(** [d == z], exact. *)
Definition eq_cents (d : Decimal) (z : Z) : bool :=
  match d with
  | Finite s c e =>
      if 0 <=? e + 2 then z =? mantissa s c * 10 ^ (e + 2)
      else z * 10 ^ (- (e + 2)) =? mantissa s c
  | _ => false
  end.

(** The hundredths that the exact sum [z + d] becomes when it is written to
    a [Numeric(18,2)] column, [z] being an amount in hundredths: whole
    hundredths are kept, smaller digits are rounded, ties away from zero.
    The 28 significant digits of the arithmetic context are not
    modelled. *)
Definition add_cents (z : Z) (d : Decimal) : option Z :=
  match d with
  | Finite s c e =>
      Some (if 0 <=? e + 2 then z + mantissa s c * 10 ^ (e + 2)
            else round_div (z * 10 ^ (- (e + 2)) + mantissa s c) (10 ^ (- (e + 2))))
  | _ => None
  end.

(** The hundredths of a [Decimal] that has no digit below them. *)
Definition exact_cents (d : Decimal) : option Z :=
  match d with
  | Finite s c e =>
      if 0 <=? e + 2 then Some (mantissa s c * 10 ^ (e + 2))
      else if mantissa s c mod 10 ^ (- (e + 2)) =? 0
           then Some (mantissa s c / 10 ^ (- (e + 2)))
           else None
  | _ => None
  end.

End Dec.

(** ** [services/importer.py]: text normalisation and currency parsing *)

Local Open Scope string_scope.

(** The euro sign, U+20AC, in UTF-8. *)
Definition euro : string :=
  String (ascii_of_nat 226) (String (ascii_of_nat 130) (String (ascii_of_nat 172) EmptyString)).

Definition normalize_code (codigo : string) : string :=
  if Text.is_empty codigo then "" else Text.upper (Text.strip codigo).

Definition parse_currency (valor_str : string) : option Dec.Decimal :=
  if Text.is_empty valor_str then None
  else
    let valor_str := Text.replace " " "" (Text.replace "$" "" (Text.replace euro "" (Text.strip valor_str))) in
    if Text.is_empty valor_str then None
    else
      let valor_str :=
        if (Text.contains "." valor_str && Text.contains "," valor_str)%bool then
          let last_dot := Text.rfind "." valor_str in
          let last_comma := Text.rfind "," valor_str in
          if Z.ltb last_comma last_dot
          then Text.replace "," "" valor_str
          else Text.replace "," "." (Text.replace "." "" valor_str)
        else if Text.contains "," valor_str then
          Text.replace "," "." (Text.replace "." "" valor_str)
        else valor_str in
      Dec.of_string valor_str.

Local Close Scope string_scope.


(** ** [models.py]: enumerations and rows *)

Inductive TipoRubrica : Set := RECEITA | DESPESA.

Inductive StatusRubrica : Set := ATIVA | PROVISORIA | INATIVA.

Inductive StatusDespesa : Set := PENDENTE | CONFIRMADA | CANCELADA.

Inductive TipoDotacaoGlobalMov : Set :=
| AJUSTE | DESPESA_CONFIRMADA | DESPESA_CANCELADA | RESERVA | RESERVA_CANCELADA.

#[global] Instance StatusRubrica_eq_dec : EqDecision StatusRubrica.
Proof. solve_decision. Defined.

#[global] Instance StatusDespesa_eq_dec : EqDecision StatusDespesa.
Proof. solve_decision. Defined.

#[global] Instance TipoDotacaoGlobalMov_eq_dec : EqDecision TipoDotacaoGlobalMov.
Proof. solve_decision. Defined.

(** A calendar date, as [datetime.date]. *)
Record Date : Set := mkDate { year : Z; month : Z; day : Z }.

Definition date_gt (a b : Date) : bool :=
  (year b <? year a)
  || ((year a =? year b) && ((month b <? month a)
                             || ((month a =? month b) && (day b <? day a)))).

(** Python truthiness of a nullable integer: [None] and [0] are false. *)
Definition truthy_id (o : option Z) : bool :=
  match o with Some k => negb (k =? 0) | None => false end.

(** [column == k] in a query filter: a NULL never matches. *)
Definition col_is (o : option Z) (k : Z) : bool :=
  match o with Some p => p =? k | None => false end.

Module Rubrica.
Record t : Type := mk {
  id : Z;
  codigo : string;
  designacao : string;
  tipo : TipoRubrica;
  parent_id : option Z;
  nivel : Z;
  dotacao_inicial : option Z;
  dotacao_calculada : option Z;
  exercicio : Z;
  status : StatusRubrica
}.

Definition set_dotacao_calculada (v : option Z) (r : t) : t :=
  mk (id r) (codigo r) (designacao r) (tipo r) (parent_id r) (nivel r)
     (dotacao_inicial r) v (exercicio r) (status r).

Definition set_dotacao_inicial (v : option Z) (r : t) : t :=
  mk (id r) (codigo r) (designacao r) (tipo r) (parent_id r) (nivel r)
     v (dotacao_calculada r) (exercicio r) (status r).

Definition set_status (v : StatusRubrica) (r : t) : t :=
  mk (id r) (codigo r) (designacao r) (tipo r) (parent_id r) (nivel r)
     (dotacao_inicial r) (dotacao_calculada r) (exercicio r) v.

Definition set_designacao (v : string) (r : t) : t :=
  mk (id r) (codigo r) v (tipo r) (parent_id r) (nivel r)
     (dotacao_inicial r) (dotacao_calculada r) (exercicio r) (status r).
End Rubrica.

Module Despesa.
Record t : Type := mk {
  id : Z;
  rubrica_id : option Z;
  fornecedor_id : option Z;
  fornecedor_text : option string;
  requisicao : option string;
  justificativo : option string;
  ordem_pagamento : option string;
  valor : Z;
  data_emissao : option Date;
  exercicio : Z;
  mes : Z;
  batch_id : option Z;
  status : StatusDespesa
}.

Definition set_status (v : StatusDespesa) (d : t) : t :=
  mk (id d) (rubrica_id d) (fornecedor_id d) (fornecedor_text d) (requisicao d)
     (justificativo d) (ordem_pagamento d) (valor d) (data_emissao d)
     (exercicio d) (mes d) (batch_id d) v.
End Despesa.

Module ExecucaoMensal.
Record t : Type := mk {
  id : Z;
  rubrica_id : Z;
  mes : Z;
  ano : Z;
  dotacao : Z;
  gasto : Z;
  saldo : Z
}.

Definition set_gasto_saldo (g s : Z) (e : t) : t :=
  mk (id e) (rubrica_id e) (mes e) (ano e) (dotacao e) g s.
End ExecucaoMensal.

Module DotacaoGlobal.
Record t : Type := mk {
  id : Z;
  exercicio : Z;
  valor_anual : Z;
  saldo : Z;
  reservado : Z
}.

Definition set_saldo (v : Z) (d : t) : t :=
  mk (id d) (exercicio d) (valor_anual d) v (reservado d).

Definition set_reservado (v : Z) (d : t) : t :=
  mk (id d) (exercicio d) (valor_anual d) (saldo d) v.

Definition set_valor_anual (v : Z) (d : t) : t :=
  mk (id d) (exercicio d) v (saldo d) (reservado d).
End DotacaoGlobal.

(** The text of a movement's [descricao] is an f-string; it is kept as the
    template and its arguments. *)
Inductive Descricao : Type :=
| DescAjuste (valor_antigo : Z) (valor_novo : Dec.Decimal)
| DescCriacao (exercicio : Z)
| DescDespesaConfirmada (despesa_id valor : Z)
| DescReserva (valor : Dec.Decimal)
| DescCancelamento (valor : Dec.Decimal)
| DescTexto (texto : string).

Module DotacaoGlobalMov.
Record t : Type := mk {
  id : Z;
  dotacao_global_id : Z;
  tipo : TipoDotacaoGlobalMov;
  referencia : option string;
  valor : Z;
  descricao : Descricao;
  usuario_id : option Z
}.
End DotacaoGlobalMov.

Module Usuario.
Record t : Type := mk {
  id : Z;
  nome : string;
  nuit : option string
}.
End Usuario.

Module Fornecedor.
Record t : Type := mk {
  id : Z;
  usuario_id : option Z;
  codigo_interno : option string;
  activo : bool
}.
End Fornecedor.

Module ImportBatch.
Record t : Type := mk {
  id : Z;
  user_id : Z;
  linhas_processadas : Z;
  criadas : Z;
  atualizadas : Z;
  erros : Z
}.
End ImportBatch.

(** The database: one list per table, in row order.  [usuario_papel] is the
    join of the association table with [papel]: a user id and a role name.
    Server-side timestamps are not part of the rows. *)
Record DB : Type := mkDB {
  rubricas : list Rubrica.t;
  despesas : list Despesa.t;
  execucoes_mensais : list ExecucaoMensal.t;
  dotacoes_globais : list DotacaoGlobal.t;
  movimentos : list DotacaoGlobalMov.t;
  usuarios : list Usuario.t;
  usuario_papeis : list (Z * string);
  fornecedores : list Fornecedor.t;
  import_batches : list ImportBatch.t
}.

Definition with_rubricas (v : list Rubrica.t) (db : DB) : DB :=
  mkDB v (despesas db) (execucoes_mensais db) (dotacoes_globais db)
       (movimentos db) (usuarios db) (usuario_papeis db) (fornecedores db)
       (import_batches db).

Definition with_despesas (v : list Despesa.t) (db : DB) : DB :=
  mkDB (rubricas db) v (execucoes_mensais db) (dotacoes_globais db)
       (movimentos db) (usuarios db) (usuario_papeis db) (fornecedores db)
       (import_batches db).

Definition with_execucoes_mensais (v : list ExecucaoMensal.t) (db : DB) : DB :=
  mkDB (rubricas db) (despesas db) v (dotacoes_globais db)
       (movimentos db) (usuarios db) (usuario_papeis db) (fornecedores db)
       (import_batches db).

Definition with_dotacoes_globais (v : list DotacaoGlobal.t) (db : DB) : DB :=
  mkDB (rubricas db) (despesas db) (execucoes_mensais db) v
       (movimentos db) (usuarios db) (usuario_papeis db) (fornecedores db)
       (import_batches db).

Definition with_movimentos (v : list DotacaoGlobalMov.t) (db : DB) : DB :=
  mkDB (rubricas db) (despesas db) (execucoes_mensais db) (dotacoes_globais db)
       v (usuarios db) (usuario_papeis db) (fornecedores db) (import_batches db).

Definition with_import_batches (v : list ImportBatch.t) (db : DB) : DB :=
  mkDB (rubricas db) (despesas db) (execucoes_mensais db) (dotacoes_globais db)
       (movimentos db) (usuarios db) (usuario_papeis db) (fornecedores db) v.

(** An auto-increment primary key: one more than the largest key in use. *)
Definition next_id (ids : list Z) : Z := 1 + fold_right Z.max 0 ids.

(** [query(...).filter(...).first()] *)
Definition first {A : Type} (p : A -> bool) (rows : list A) : option A :=
  List.find p rows.

(** Replace the rows that satisfy [p] by their image under [f]: the write of
    an object that was loaded by its key. *)
Definition update_where {A : Type} (p : A -> bool) (f : A -> A) (rows : list A) : list A :=
  List.map (fun r => if p r then f r else r) rows.

Definition sum_Z (l : list Z) : Z := fold_right Z.add 0 l.

(** ** Exceptions, and requests as a state-and-error monad *)

(** Where an exception is raised: the message of the source, by its place. *)
Inductive Detail : Set :=
| DespesaNaoEncontrada
| DespesaCancelada
| DotacaoGlobalNaoEncontrada
| SaldoInsuficiente
| ApenasAdminOverride
| CancelarMaiorQueReservado
| RubricaNaoEncontrada
| RubricaPaiNaoEncontrada
| RubricaJaExiste
| DespesaSemRubrica
| EditarDespesaConfirmada
| RemoverDespesaConfirmada
| ValorNaoPositivo
| RubricaObrigatoria
| RubricaInativa
| RubricaNaoFolha
| FornecedorNaoEncontrado
| FornecedorInativo
| DataFutura
| DataForaDoExercicio
| PaiComDotacaoInicial
| DotacaoInicialNegativa
| ChaveEstrangeira
| FornecedorSemUsuario
| ComparacaoComNaN
| AtributoDotacao
| ColunaObrigatoria
| TipoInvalido
| DadosInvalidos
| ComparacaoComNone
| TransacaoJaIniciada.

Inductive Exception : Set :=
| HTTPException (status_code : Z) (detail : Detail)
| ValueError (detail : Detail)
| IntegrityError (detail : Detail)
| AttributeError (detail : Detail)
| InvalidOperation (detail : Detail)
| TypeError (detail : Detail)
| InvalidRequestError (detail : Detail)
| RecursionError
| NonTermination.

(** [except Exception] catches everything that is raised; a loop that never
    ends raises nothing. *)
Definition catchable (e : Exception) : bool :=
  match e with NonTermination => false | _ => true end.

Inductive Result (A : Type) : Type :=
| Ok (a : A)
| Raise (e : Exception).
Arguments Ok {A} a.
Arguments Raise {A} e.

(** A session: the rows as last committed, and the rows as the session sees
    them (loaded, changed and flushed objects). *)
Record Session : Type := mkSession { persisted : DB; working : DB }.

Definition M (A : Type) : Type := Session -> Result A * Session.

Definition ret {A : Type} (a : A) : M A := fun s => (Ok a, s).

Definition bind {A B : Type} (m : M A) (k : A -> M B) : M B :=
  fun s => match m s with
           | (Ok a, s') => k a s'
           | (Raise e, s') => (Raise e, s')
           end.

Definition raise {A : Type} (e : Exception) : M A := fun s => (Raise e, s).

Definition query {A : Type} (q : DB -> A) : M A := fun s => (Ok (q (working s)), s).

Definition write (f : DB -> DB) : M unit :=
  fun s => (Ok tt, mkSession (persisted s) (f (working s))).

Definition commit : M unit :=
  fun s => (Ok tt, mkSession (working s) (working s)).

Definition rollback : M unit :=
  fun s => (Ok tt, mkSession (persisted s) (persisted s)).

(** [try: body except Exception as e: handler(e)] *)
Definition try_except {A : Type} (body : M A) (handler : Exception -> M A) : M A :=
  fun s => match body s with
           | (Ok a, s') => (Ok a, s')
           | (Raise e, s') => if catchable e then handler e s' else (Raise e, s')
           end.

(** [with db.begin(): body], where an endpoint reaches it.  [get_db] is
    resolved once per request, so the session of the endpoint is the one on
    which [Depends(get_current_user)] has looked the user up: its
    transaction has begun (autobegin), and [Session.begin()] raises
    [InvalidRequestError] ("A transaction is already begun on this
    Session").  The block is not entered and nothing is written. *)
Definition with_begin {A : Type} (body : M A) : M A :=
  raise (InvalidRequestError TransacaoJaIniciada).

Declare Scope request_scope.
Delimit Scope request_scope with request.
Notation "x <- m ;; k" := (bind m (fun x => k))
  (at level 90, m at level 80, right associativity) : request_scope.
Notation "m ;;; k" := (bind m (fun _ => k))
  (at level 90, right associativity) : request_scope.
Local Open Scope request_scope.

(** A request runs in a session of its own on the database, which the
    dependencies of the endpoint have used before its body runs; when the
    request ends the session is closed, and what was not committed is
    lost. *)
Definition run_request {A : Type} (m : M A) (db : DB) : Result A * DB :=
  let '(r, s) := m (mkSession db db) in (r, persisted s).

(** ** [services/rubrica_service.py] *)

Definition get_rubrica (db : DB) (rubrica_id : Z) : option Rubrica.t :=
  first (fun r => Rubrica.id r =? rubrica_id) (rubricas db).

Definition get_children (db : DB) (rubrica_id : Z) : list Rubrica.t :=
  List.filter (fun r => col_is (Rubrica.parent_id r) rubrica_id) (rubricas db).

(** The rows that the recursive query of [get_ancestors] visits: the
    rubrica itself, then its parent, up to the root (the loop of the
    fallback branch walks the same way).  A walk that has not ended after
    one step per row of the table is going around a cycle of parent links:
    the query fails, the loop of the fallback never ends, and that is
    [None]. *)
Fixpoint ancestors_walk (fuel : nat) (db : DB) (current_id : option Z)
  : option (list Rubrica.t) :=
  match fuel with
  | O => None
  | S fuel' =>
      if truthy_id current_id then
        match get_rubrica db (default 0 current_id) with
        | None => Some []
        | Some rubrica =>
            match ancestors_walk fuel' db (Rubrica.parent_id rubrica) with
            | Some ancestors => Some (rubrica :: ancestors)
            | None => None
            end
        end
      else Some []
  end.

(** [get_ancestors], by its first branch: the recursive query gives the
    keys of the walk, and the rows come from
    [query(Rubrica).filter(Rubrica.id.in_(ids)).all()], in the order of the
    table (the order of the primary key), not in the order of the walk: the
    first of them is the row of the chain that the table stores first, the
    root when keys grow from parent to child.  No bound on the depth of the
    recursive query is modelled. *)
Definition get_ancestors (db : DB) (rubrica_id : Z) : option (list Rubrica.t) :=
  match ancestors_walk (S (length (rubricas db))) db (Some rubrica_id) with
  | Some walk =>
      let ids := List.map Rubrica.id walk in
      Some (List.filter (fun r => List.existsb (Z.eqb (Rubrica.id r)) ids) (rubricas db))
  | None => None
  end.

(** [{r.id: r for r in all_rubricas}.get(node_id)]: the last row wins. *)
Fixpoint rubricas_dict (all_rubricas : list Rubrica.t) (node_id : Z) : option Rubrica.t :=
  match all_rubricas with
  | [] => None
  | r :: rest =>
      match rubricas_dict rest node_id with
      | Some r' => Some r'
      | None => if Rubrica.id r =? node_id then Some r else None
      end
  end.

(** The direct children [calculate_node] sums over: same fiscal year, active. *)
Definition active_children (all_rubricas : list Rubrica.t) (node : Rubrica.t) : list Rubrica.t :=
  List.filter (fun r => col_is (Rubrica.parent_id r) (Rubrica.id node)
                        && (Rubrica.exercicio r =? Rubrica.exercicio node)
                        && bool_decide (Rubrica.status r = ATIVA))
              all_rubricas.

(** The loop over the children of a parent: each child is computed through
    [calc] (the recursive call), written to the cache, and added up.  A
    failed call gives [None] with the cache as it stood. *)
Fixpoint sum_children (calc : gmap Z Z -> Z -> option Z * gmap Z Z)
    (children : list Rubrica.t) (total : Z) (calculated_cache : gmap Z Z)
  : option Z * gmap Z Z :=
  match children with
  | [] => (Some total, calculated_cache)
  | child :: rest =>
      match calc calculated_cache (Rubrica.id child) with
      | (Some child_calc, cache1) =>
          sum_children calc rest (total + child_calc)
                       (<[Rubrica.id child := child_calc]> cache1)
      | (None, cache1) => (None, cache1)
      end
  end.

(** [calculate_node]: the value of a node, and the cache after the call.
    Every assignment to a row's [dotacao_calculada] in the source is paired
    with the same assignment to [calculated_cache], and the function never
    reads [dotacao_calculada]; the rows written are the entries of the
    cache, and [flush_calculated] below writes them.  [fuel] bounds the
    depth of the recursion; [None] is the [RecursionError] of a descent that
    does not end. *)
Fixpoint calculate_node (fuel : nat) (all_rubricas : list Rubrica.t)
    (calculated_cache : gmap Z Z) (node_id : Z) : option Z * gmap Z Z :=
  match fuel with
  | O => (None, calculated_cache)
  | S fuel' =>
      match calculated_cache !! node_id with
      | Some v => (Some v, calculated_cache)
      | None =>
          match rubricas_dict all_rubricas node_id with
          | None => (Some 0, calculated_cache)
          | Some node =>
              match active_children all_rubricas node with
              | [] =>
                  let result := default 0 (Rubrica.dotacao_inicial node) in
                  (Some result, <[node_id := result]> calculated_cache)
              | children =>
                  match sum_children (calculate_node fuel' all_rubricas) children 0
                                     calculated_cache with
                  | (Some total, cache1) => (Some total, <[node_id := total]> cache1)
                  | (None, cache1) => (None, cache1)
                  end
              end
          end
      end
  end.

(** [sorted(ancestors, key=lambda r: r.nivel, reverse=True)]: stable. *)
Fixpoint insert_by_nivel (x : Rubrica.t) (l : list Rubrica.t) : list Rubrica.t :=
  match l with
  | [] => [x]
  | y :: l' =>
      if Rubrica.nivel x <? Rubrica.nivel y then y :: insert_by_nivel x l'
      else x :: l
  end.

Definition sorted_by_nivel_desc (l : list Rubrica.t) : list Rubrica.t :=
  fold_right insert_by_nivel [] l.

(** [for ancestor in ancestors_sorted: calculate_node(ancestor.id)] *)
Fixpoint calculate_ancestors (fuel : nat) (all_rubricas : list Rubrica.t)
    (ancestors_sorted : list Rubrica.t) (calculated_cache : gmap Z Z)
  : bool * gmap Z Z :=
  match ancestors_sorted with
  | [] => (true, calculated_cache)
  | ancestor :: rest =>
      match calculate_node fuel all_rubricas calculated_cache (Rubrica.id ancestor) with
      | (Some _, cache1) => calculate_ancestors fuel all_rubricas rest cache1
      | (None, cache1) => (false, cache1)
      end
  end.

(** The rows of the fiscal year that the recalculation has written. *)
Definition flush_calculated (exercicio : Z) (calculated_cache : gmap Z Z)
    (rows : list Rubrica.t) : list Rubrica.t :=
  List.map (fun r =>
              if Rubrica.exercicio r =? exercicio then
                match calculated_cache !! Rubrica.id r with
                | Some v => Rubrica.set_dotacao_calculada (Some v) r
                | None => r
                end
              else r)
           rows.

Definition recalculate_dotacao_chain (rubrica_id : Z) : M unit :=
  db <- query (fun db => db) ;;
  match get_ancestors db rubrica_id with
  | None => raise NonTermination
  | Some found =>
      let ancestors :=
        match found with
        | [] => match get_rubrica db rubrica_id with Some r => [r] | None => [] end
        | _ => found
        end in
      match ancestors with
      | [] => ret tt
      | first_ancestor :: _ =>
          let exercicio := Rubrica.exercicio first_ancestor in
          let all_rubricas :=
            List.filter (fun r => Rubrica.exercicio r =? exercicio) (rubricas db) in
          let ancestors_sorted := sorted_by_nivel_desc ancestors in
          match calculate_ancestors (S (length all_rubricas)) all_rubricas
                                    ancestors_sorted ∅ with
          | (true, cache) =>
              write (fun d => with_rubricas (flush_calculated exercicio cache (rubricas d)) d)
          | (false, cache) =>
              write (fun d => with_rubricas (flush_calculated exercicio cache (rubricas d)) d) ;;;
              raise RecursionError
          end
      end
  end.

Definition is_leaf_rubrica (db : DB) (rubrica_id : Z) : bool :=
  Nat.eqb (length (get_children db rubrica_id)) 0.

Definition has_children (db : DB) (rubrica_id : Z) : bool :=
  negb (is_leaf_rubrica db rubrica_id).

(** [despesa_service.is_rubrica_leaf] *)
Definition is_rubrica_leaf (db : DB) (rubrica_id : Z) : bool :=
  negb (has_children db rubrica_id).

(** ** [schemas.py] and [crud.py]: rubricas *)

Module RubricaCreate.
Record t : Type := mk {
  codigo : string;
  designacao : string;
  tipo : TipoRubrica;
  parent_id : option Z;
  nivel : Z;
  dotacao_inicial : option Z;
  exercicio : Z;
  status : StatusRubrica
}.
End RubricaCreate.

(** [RubricaUpdate] after [model_dump(exclude_unset=True)]: a field that was
    not sent is [None]; a field sent as null is [Some None]. *)
Module RubricaUpdate.
Record t : Type := mk {
  designacao : option (option string);
  dotacao_inicial : option (option Z);
  status : option (option StatusRubrica)
}.
End RubricaUpdate.

Definition get_rubrica_by_codigo_exercicio (db : DB) (codigo : string) (exercicio : Z)
  : option Rubrica.t :=
  first (fun r => String.eqb (Rubrica.codigo r) codigo && (Rubrica.exercicio r =? exercicio))
        (rubricas db).

(** What the table checks when a new row is committed: the parent key
    refers to a row, and the pair (codigo, exercicio) is not taken. *)
Definition rubrica_insert_allowed (db : DB) (r : Rubrica.t) : bool :=
  match Rubrica.parent_id r with
  | Some p => match get_rubrica db p with Some _ => true | None => false end
  | None => true
  end
  && match get_rubrica_by_codigo_exercicio db (Rubrica.codigo r) (Rubrica.exercicio r) with
     | Some _ => false
     | None => true
     end.

Definition create_rubrica (novo : RubricaCreate.t) : M Rubrica.t :=
  db <- query (fun db => db) ;;
  let nivel :=
    if truthy_id (RubricaCreate.parent_id novo) then
      match get_rubrica db (default 0 (RubricaCreate.parent_id novo)) with
      | Some parent =>
          (if Rubrica.nivel parent =? 0 then 1 else Rubrica.nivel parent) + 1
      | None => 1
      end
    else 1 in
  let dotacao_inicial := RubricaCreate.dotacao_inicial novo in
  if match RubricaCreate.parent_id novo, dotacao_inicial with
     | None, Some v => 0 <? v
     | _, _ => false
     end
  then raise (ValueError PaiComDotacaoInicial)
  else if match dotacao_inicial with Some v => v <? 0 | None => false end
  then raise (ValueError DotacaoInicialNegativa)
  else
    let dotacao_inicial :=
      match RubricaCreate.parent_id novo with
      | None => 0
      | Some _ => default 0 dotacao_inicial
      end in
    let dotacao_calculada :=
      match RubricaCreate.parent_id novo with
      | None => 0
      | Some _ => dotacao_inicial
      end in
    let db_rubrica :=
      Rubrica.mk (next_id (List.map Rubrica.id (rubricas db)))
                 (RubricaCreate.codigo novo) (RubricaCreate.designacao novo)
                 (RubricaCreate.tipo novo) (RubricaCreate.parent_id novo) nivel
                 (Some dotacao_inicial) (Some dotacao_calculada)
                 (RubricaCreate.exercicio novo) (RubricaCreate.status novo) in
    if negb (rubrica_insert_allowed db db_rubrica)
    then rollback ;;; raise (IntegrityError ChaveEstrangeira)
    else
      write (fun d => with_rubricas (rubricas d ++ [db_rubrica]) d) ;;;
      commit ;;;
      (if negb (Rubrica.id db_rubrica =? 0) then
         recalculate_dotacao_chain (Rubrica.id db_rubrica) ;;;
         commit ;;;
         (* [if db_rubrica.dotacao is not None]: [Rubrica] has no attribute
            [dotacao] (models.py leaves the column out and excludes the
            name from the mapper), so the read raises once the row and its
            recalculation are committed. *)
         raise (AttributeError AtributoDotacao)
       else
         r <- query (fun d => default db_rubrica (get_rubrica d (Rubrica.id db_rubrica))) ;;
         ret r).

Definition apply_rubrica_update (u : RubricaUpdate.t) (r : Rubrica.t) : Rubrica.t :=
  let r := match RubricaUpdate.designacao u with
           | Some (Some v) => Rubrica.set_designacao v r
           | _ => r
           end in
  let r := match RubricaUpdate.dotacao_inicial u with
           | Some v => Rubrica.set_dotacao_inicial v r
           | None => r
           end in
  match RubricaUpdate.status u with
  | Some (Some v) => Rubrica.set_status v r
  | _ => r
  end.

(** [designacao] and [status] are NOT NULL columns. *)
Definition rubrica_update_allowed (u : RubricaUpdate.t) : bool :=
  match RubricaUpdate.designacao u with Some None => false | _ => true end
  && match RubricaUpdate.status u with Some None => false | _ => true end.

Definition update_rubrica (rubrica_id : Z) (rubrica_update : RubricaUpdate.t)
  : M (option Rubrica.t) :=
  db <- query (fun db => db) ;;
  match get_rubrica db rubrica_id with
  | None => ret None
  | Some db_rubrica =>
      if match RubricaUpdate.dotacao_inicial rubrica_update, Rubrica.parent_id db_rubrica with
         | Some _, None => true
         | _, _ => false
         end
      then raise (ValueError PaiComDotacaoInicial)
      else if match RubricaUpdate.dotacao_inicial rubrica_update with
              | Some (Some v) => v <? 0
              | _ => false
              end
      then raise (ValueError DotacaoInicialNegativa)
      else
        let updated := apply_rubrica_update rubrica_update db_rubrica in
        let updated :=
          match RubricaUpdate.dotacao_inicial rubrica_update, Rubrica.parent_id updated with
          | Some _, Some _ =>
              Rubrica.set_dotacao_calculada
                (Some (default 0 (Rubrica.dotacao_inicial updated))) updated
          | _, _ => updated
          end in
        if negb (rubrica_update_allowed rubrica_update)
        then rollback ;;; raise (IntegrityError ColunaObrigatoria)
        else
          write (fun d => with_rubricas
                            (update_where (fun r => Rubrica.id r =? rubrica_id)
                                          (fun _ => updated) (rubricas d)) d) ;;;
          commit ;;;
          recalculate_dotacao_chain rubrica_id ;;;
          commit ;;;
          query (fun d => get_rubrica d rubrica_id)
  end.

(** ** [crud.py] and [services/despesa_service.py]: monthly execution *)

(** [str(n)] for an integer. *)
Definition str_of_int (n : Z) : string := NilZero.string_of_int (Z.to_int n).

(** [sum(Despesa.valor)] over the confirmed expenses of a rubrica, month and
    year, with [or Decimal("0.00")] for the empty sum. *)
Definition gasto_confirmado (db : DB) (rubrica_id mes ano : Z) : Z :=
  sum_Z (List.map Despesa.valor
           (List.filter (fun d => col_is (Despesa.rubrica_id d) rubrica_id
                                  && (Despesa.mes d =? mes)
                                  && (Despesa.exercicio d =? ano)
                                  && bool_decide (Despesa.status d = CONFIRMADA))
                        (despesas db))).

Definition get_execucao (db : DB) (rubrica_id mes ano : Z) : option ExecucaoMensal.t :=
  first (fun e => (ExecucaoMensal.rubrica_id e =? rubrica_id)
                  && (ExecucaoMensal.mes e =? mes)
                  && (ExecucaoMensal.ano e =? ano))
        (execucoes_mensais db).

Definition is_execucao (rubrica_id mes ano : Z) (e : ExecucaoMensal.t) : bool :=
  (ExecucaoMensal.rubrica_id e =? rubrica_id)
  && (ExecucaoMensal.mes e =? mes) && (ExecucaoMensal.ano e =? ano).

Definition add_execucao (rubrica_id mes ano dotacao gasto saldo : Z) (db : DB) : DB :=
  with_execucoes_mensais
    (execucoes_mensais db ++
       [ExecucaoMensal.mk (next_id (List.map ExecucaoMensal.id (execucoes_mensais db)))
                          rubrica_id mes ano dotacao gasto saldo]) db.

(** The row that [get_execucao] finds gets a new [gasto], and its [saldo]
    from its own stored [dotacao]. *)
Definition update_execucao (found : ExecucaoMensal.t) (gasto_total : Z) (db : DB) : DB :=
  with_execucoes_mensais
    (update_where (fun e => ExecucaoMensal.id e =? ExecucaoMensal.id found)
                  (fun e => ExecucaoMensal.set_gasto_saldo
                              gasto_total (ExecucaoMensal.dotacao e - gasto_total) e)
                  (execucoes_mensais db)) db.

(** [crud.recalculate_execucao_mensal].  The quotient by twelve and the
    balance computed from it reach the table rounded to hundredths. *)
Definition recalculate_execucao_mensal (rubrica_id mes ano : Z)
  : M (option ExecucaoMensal.t) :=
  db <- query (fun db => db) ;;
  match get_rubrica db rubrica_id with
  | None => raise (ValueError RubricaNaoEncontrada)
  | Some _ =>
      try_except (recalculate_dotacao_chain rubrica_id ;;; commit) (fun _ => ret tt) ;;;
      db <- query (fun db => db) ;;
      let gasto_total := gasto_confirmado db rubrica_id mes ano in
      match get_execucao db rubrica_id mes ano with
      | None =>
          if 0 <? gasto_total then
            let dotacao_calculada :=
              match get_rubrica db rubrica_id with
              | Some rubrica => default 0 (Rubrica.dotacao_calculada rubrica)
              | None => 0
              end in
            write (add_execucao rubrica_id mes ano
                                (Dec.round_div dotacao_calculada 12) gasto_total
                                (Dec.round_div (dotacao_calculada - 12 * gasto_total) 12)) ;;;
            commit ;;;
            query (fun d => get_execucao d rubrica_id mes ano)
          else ret None
      | Some execucao =>
          write (update_execucao execucao gasto_total) ;;;
          commit ;;;
          query (fun d => get_execucao d rubrica_id mes ano)
      end
  end.

(** [despesa_service.update_execucao_mensal] *)
Definition update_execucao_mensal (rubrica_id mes ano : Z) : M ExecucaoMensal.t :=
  db <- query (fun db => db) ;;
  match get_rubrica db rubrica_id with
  | None => raise (ValueError RubricaNaoEncontrada)
  | Some rubrica =>
      let gasto_total := gasto_confirmado db rubrica_id mes ano in
      let dotacao_valor := default 0 (Rubrica.dotacao_calculada rubrica) in
      match get_execucao db rubrica_id mes ano with
      | None =>
          write (add_execucao rubrica_id mes ano dotacao_valor gasto_total
                              (dotacao_valor - gasto_total)) ;;;
          query (fun d =>
                   default (ExecucaoMensal.mk 0 rubrica_id mes ano dotacao_valor gasto_total
                                              (dotacao_valor - gasto_total))
                           (get_execucao d rubrica_id mes ano))
      | Some execucao =>
          write (update_execucao execucao gasto_total) ;;;
          query (fun d => default execucao (get_execucao d rubrica_id mes ano))
      end
  end.

(** One turn of the loop of [update_ancestors_execucao_mensal]. *)
Definition update_ancestor_execucao (mes ano : Z) (ancestor : Rubrica.t) : M unit :=
  db <- query (fun db => db) ;;
  let children := get_children db (Rubrica.id ancestor) in
  let gasto_filhos :=
    sum_Z (List.map (fun child =>
                       match get_execucao db (Rubrica.id child) mes ano with
                       | Some child_exec => ExecucaoMensal.gasto child_exec
                       | None => 0
                       end) children) in
  let despesas_diretas := gasto_confirmado db (Rubrica.id ancestor) mes ano in
  let gasto_total := gasto_filhos + despesas_diretas in
  let ancestor_dotacao := default 0 (Rubrica.dotacao_calculada ancestor) in
  match get_execucao db (Rubrica.id ancestor) mes ano with
  | None =>
      write (add_execucao (Rubrica.id ancestor) mes ano ancestor_dotacao gasto_total
                          (ancestor_dotacao - gasto_total))
  | Some ancestor_exec =>
      write (update_execucao ancestor_exec gasto_total)
  end.

Fixpoint for_each {A : Type} (body : A -> M unit) (l : list A) : M unit :=
  match l with
  | [] => ret tt
  | x :: rest => body x ;;; for_each body rest
  end.

Definition update_ancestors_execucao_mensal (rubrica_id mes ano : Z) : M unit :=
  db <- query (fun db => db) ;;
  match get_ancestors db rubrica_id with
  | None => raise NonTermination
  | Some ancestors => for_each (update_ancestor_execucao mes ano) ancestors
  end.

Definition get_despesa (db : DB) (despesa_id : Z) : option Despesa.t :=
  first (fun d => Despesa.id d =? despesa_id) (despesas db).

Definition set_despesa_status (despesa_id : Z) (v : StatusDespesa) (db : DB) : DB :=
  with_despesas (update_where (fun d => Despesa.id d =? despesa_id)
                             (Despesa.set_status v) (despesas db)) db.

(** [despesa_service.confirm_despesa_with_execucao] *)
Definition confirm_despesa_with_execucao (despesa_id : Z) : M Despesa.t :=
  db <- query (fun db => db) ;;
  match get_despesa db despesa_id with
  | None => raise (ValueError DespesaNaoEncontrada)
  | Some despesa =>
      if bool_decide (Despesa.status despesa = CONFIRMADA) then ret despesa
      else if negb (truthy_id (Despesa.rubrica_id despesa))
      then raise (ValueError DespesaSemRubrica)
      else
        let rubrica_id := default 0 (Despesa.rubrica_id despesa) in
        write (set_despesa_status despesa_id CONFIRMADA) ;;;
        update_execucao_mensal rubrica_id (Despesa.mes despesa) (Despesa.exercicio despesa) ;;;
        update_ancestors_execucao_mensal rubrica_id (Despesa.mes despesa)
                                         (Despesa.exercicio despesa) ;;;
        commit ;;;
        query (fun d => default despesa (get_despesa d despesa_id))
  end.

(** [crud.confirm_despesa]: the service, then the record read again. *)
Definition confirm_despesa (despesa_id : Z) : M (option Despesa.t) :=
  confirm_despesa_with_execucao despesa_id ;;;
  query (fun d => get_despesa d despesa_id).

(** [POST /despesas/{id}/confirmar]: a [ValueError] becomes a 400. *)
Definition confirm_despesa_endpoint (despesa_id : Z) : M Despesa.t :=
  fun s =>
    match confirm_despesa despesa_id s with
    | (Ok (Some despesa), s') => (Ok despesa, s')
    | (Ok None, s') => (Raise (HTTPException 404 DespesaNaoEncontrada), s')
    | (Raise (ValueError detail), s') => (Raise (HTTPException 400 detail), s')
    | (Raise e, s') => (Raise e, s')
    end.

(** ** [api/dotacao_global.py] *)

Definition get_dotacao (db : DB) (exercicio : Z) : option DotacaoGlobal.t :=
  first (fun d => DotacaoGlobal.exercicio d =? exercicio) (dotacoes_globais db).

Definition update_dotacao (dotacao_id : Z) (f : DotacaoGlobal.t -> DotacaoGlobal.t)
    (db : DB) : DB :=
  with_dotacoes_globais
    (update_where (fun d => DotacaoGlobal.id d =? dotacao_id) f (dotacoes_globais db)) db.

(** [db.add(DotacaoGlobalMov(...))] *)
Definition add_movimento (dotacao_global_id : Z) (tipo : TipoDotacaoGlobalMov)
    (referencia : option string) (valor : Z) (descricao : Descricao) (usuario_id : Z)
    (db : DB) : DB :=
  with_movimentos
    (movimentos db ++
       [DotacaoGlobalMov.mk (next_id (List.map DotacaoGlobalMov.id (movimentos db)))
                            dotacao_global_id tipo referencia valor descricao
                            (Some usuario_id)]) db.

(** The body of a request has passed validation before the endpoint runs:
    a [Decimal] field that is a NaN or an infinity is refused with a 422. *)
Definition validated_decimal (d : Dec.Decimal) : M unit :=
  if Dec.is_finite d then ret tt else raise (HTTPException 422 DadosInvalidos).

(** [POST /dotacao_global].  [valor_anual] is the [Decimal] of the body,
    with whatever digits it came; the differences and sums are exact, and
    each value is rounded to hundredths on its own when it reaches its
    column. *)
Definition create_or_update_dotacao_global (exercicio : Z) (valor_anual : Dec.Decimal)
    (current_user : Z) : M DotacaoGlobal.t :=
  validated_decimal valor_anual ;;;
  db <- query (fun db => db) ;;
  match get_dotacao db exercicio with
  | Some dotacao =>
      let valor_antigo := DotacaoGlobal.valor_anual dotacao in
      write (update_dotacao (DotacaoGlobal.id dotacao)
               (fun d => DotacaoGlobal.set_saldo
                           (default 0 (Dec.add_cents (DotacaoGlobal.saldo d - valor_antigo)
                                                     valor_anual))
                           (DotacaoGlobal.set_valor_anual
                              (default 0 (Dec.to_cents valor_anual)) d))) ;;;
      (if negb (Dec.eq_cents valor_anual valor_antigo) then
         write (add_movimento (DotacaoGlobal.id dotacao) AJUSTE None
                              (default 0 (Dec.add_cents (- valor_antigo) valor_anual))
                              (DescAjuste valor_antigo valor_anual) current_user)
       else ret tt) ;;;
      commit ;;;
      query (fun d => default dotacao (get_dotacao d exercicio))
  | None =>
      let dotacao :=
        DotacaoGlobal.mk (next_id (List.map DotacaoGlobal.id (dotacoes_globais db)))
                         exercicio (default 0 (Dec.to_cents valor_anual))
                         (default 0 (Dec.to_cents valor_anual)) 0 in
      write (fun d => with_dotacoes_globais (dotacoes_globais d ++ [dotacao]) d) ;;;
      write (add_movimento (DotacaoGlobal.id dotacao) AJUSTE None
                           (default 0 (Dec.to_cents valor_anual))
                           (DescCriacao exercicio) current_user) ;;;
      commit ;;;
      query (fun d => default dotacao (get_dotacao d exercicio))
  end.

Module ReservaRequest.
Record t : Type := mk {
  exercicio : Z;
  valor : Dec.Decimal;
  descricao : option string;
  referencia : option string
}.
End ReservaRequest.

Module ReservaCancelRequest.
Record t : Type := mk {
  exercicio : Z;
  reserva_id : option Z;
  valor : Dec.Decimal;
  descricao : option string
}.
End ReservaCancelRequest.

(** The body of a reservation answer: available balance and reserved amount. *)
Record ReservaResponse : Type := mkReservaResponse {
  saldo_disponivel : Z;
  reservado_total : Z
}.

(** [data.descricao or default]: an empty text counts as absent. *)
Definition descricao_or (o : option string) (d : Descricao) : Descricao :=
  match o with
  | Some s => if Text.is_empty s then d else DescTexto s
  | None => d
  end.

Definition reserva_response (db : DB) (exercicio : Z) : ReservaResponse :=
  match get_dotacao db exercicio with
  | Some d => mkReservaResponse (DotacaoGlobal.saldo d - DotacaoGlobal.reservado d)
                                (DotacaoGlobal.reservado d)
  | None => mkReservaResponse 0 0
  end.

(** [POST /dotacao_global/reserva].  The amount is the [Decimal] of the
    body: it is compared as it came, and the new [reservado] and the
    movement are rounded to hundredths when they reach their columns. *)
Definition criar_reserva (data : ReservaRequest.t) (current_user : Z) : M ReservaResponse :=
  validated_decimal (ReservaRequest.valor data) ;;;
  db <- query (fun db => db) ;;
  match get_dotacao db (ReservaRequest.exercicio data) with
  | None => raise (HTTPException 404 DotacaoGlobalNaoEncontrada)
  | Some dotacao =>
      let saldo_disponivel := DotacaoGlobal.saldo dotacao - DotacaoGlobal.reservado dotacao in
      match Dec.gt_cents (ReservaRequest.valor data) saldo_disponivel with
      | None => raise (InvalidOperation ComparacaoComNaN)
      | Some true => raise (HTTPException 400 SaldoInsuficiente)
      | Some false =>
          write (update_dotacao (DotacaoGlobal.id dotacao)
                   (fun d => DotacaoGlobal.set_reservado
                               (default 0 (Dec.add_cents (DotacaoGlobal.reservado d)
                                                         (ReservaRequest.valor data))) d)) ;;;
          write (add_movimento (DotacaoGlobal.id dotacao) RESERVA
                               (ReservaRequest.referencia data)
                               (default 0 (Dec.to_cents (Dec.neg (ReservaRequest.valor data))))
                               (descricao_or (ReservaRequest.descricao data)
                                             (DescReserva (ReservaRequest.valor data)))
                               current_user) ;;;
          commit ;;;
          query (fun d => reserva_response d (ReservaRequest.exercicio data))
      end
  end.

(** [POST /dotacao_global/reserva/cancel] *)
Definition cancelar_reserva (data : ReservaCancelRequest.t) (current_user : Z)
  : M ReservaResponse :=
  validated_decimal (ReservaCancelRequest.valor data) ;;;
  db <- query (fun db => db) ;;
  match get_dotacao db (ReservaCancelRequest.exercicio data) with
  | None => raise (HTTPException 404 DotacaoGlobalNaoEncontrada)
  | Some dotacao =>
      match Dec.gt_cents (ReservaCancelRequest.valor data) (DotacaoGlobal.reservado dotacao) with
      | None => raise (InvalidOperation ComparacaoComNaN)
      | Some true => raise (HTTPException 400 CancelarMaiorQueReservado)
      | Some false =>
          write (update_dotacao (DotacaoGlobal.id dotacao)
                   (fun d => DotacaoGlobal.set_reservado
                               (default 0 (Dec.add_cents (DotacaoGlobal.reservado d)
                                             (Dec.neg (ReservaCancelRequest.valor data)))) d)) ;;;
          write (add_movimento (DotacaoGlobal.id dotacao) RESERVA_CANCELADA
                               (if truthy_id (ReservaCancelRequest.reserva_id data)
                                then Some (str_of_int
                                             (default 0 (ReservaCancelRequest.reserva_id data)))
                                else None)
                               (default 0 (Dec.to_cents (ReservaCancelRequest.valor data)))
                               (descricao_or (ReservaCancelRequest.descricao data)
                                             (DescCancelamento (ReservaCancelRequest.valor data)))
                               current_user) ;;;
          commit ;;;
          query (fun d => reserva_response d (ReservaCancelRequest.exercicio data))
      end
  end.

(** ** [api/despesas_confirm.py] *)

Inductive ConfirmResponse : Type :=
| JaEstavaConfirmada (despesa_id saldo_restante : Z)
| ConfirmadaComSucesso (despesa_id valor saldo_restante saldo_total reservado : Z).

(** [crud.get_usuario_papeis] *)
Definition get_usuario_papeis (db : DB) (usuario_id : Z) : list string :=
  List.map snd (List.filter (fun up => fst up =? usuario_id) (usuario_papeis db)).

Definition tem_papel (nome : string) (papeis : list string) : bool :=
  List.existsb (String.eqb nome) papeis.

(** Step 8 of the confirmation: the monthly execution of the expense's
    rubrica, then its computed allocations, when the expense has a rubrica. *)
Definition recalcula_execucao_da_despesa (despesa : Despesa.t) : M unit :=
  if truthy_id (Despesa.rubrica_id despesa) then
    recalculate_execucao_mensal (default 0 (Despesa.rubrica_id despesa))
                                (Despesa.mes despesa) (Despesa.exercicio despesa) ;;;
    recalculate_dotacao_chain (default 0 (Despesa.rubrica_id despesa))
  else ret tt.

(** The ledger entry of a confirmation (step 6). *)
Definition registra_despesa_confirmada (dotacao : DotacaoGlobal.t) (despesa_id : Z)
    (despesa : Despesa.t) (current_user : Z) (db : DB) : DB :=
  add_movimento (DotacaoGlobal.id dotacao) DESPESA_CONFIRMADA
                (Some (str_of_int despesa_id))
                (- Despesa.valor despesa)
                (DescDespesaConfirmada despesa_id (Despesa.valor despesa))
                current_user db.

(** [POST /despesas/{id}/confirm] *)
Definition confirm_despesa_with_dotacao (despesa_id : Z) (override : bool)
    (current_user : Z) : M ConfirmResponse :=
  r <- with_begin (
    db <- query (fun db => db) ;;
    match get_despesa db despesa_id with
    | None => raise (HTTPException 404 DespesaNaoEncontrada)
    | Some despesa =>
        if bool_decide (Despesa.status despesa = CONFIRMADA) then
          ret (Some (JaEstavaConfirmada (Despesa.id despesa)
                       (match get_dotacao db (Despesa.exercicio despesa) with
                        | Some dotacao => DotacaoGlobal.saldo dotacao - DotacaoGlobal.reservado dotacao
                        | None => 0
                        end)))
        else if bool_decide (Despesa.status despesa = CANCELADA) then
          raise (HTTPException 400 DespesaCancelada)
        else
          match get_dotacao db (Despesa.exercicio despesa) with
          | None => raise (HTTPException 404 DotacaoGlobalNaoEncontrada)
          | Some dotacao =>
              let saldo_disponivel :=
                DotacaoGlobal.saldo dotacao - DotacaoGlobal.reservado dotacao in
              if negb override && (saldo_disponivel <? Despesa.valor despesa)
              then raise (HTTPException 400 SaldoInsuficiente)
              else if override && negb (tem_papel "admin" (get_usuario_papeis db current_user))
              then raise (HTTPException 403 ApenasAdminOverride)
              else
                write (update_dotacao (DotacaoGlobal.id dotacao)
                         (fun d => DotacaoGlobal.set_saldo
                                     (DotacaoGlobal.saldo d - Despesa.valor despesa) d)) ;;;
                write (registra_despesa_confirmada dotacao despesa_id despesa current_user) ;;;
                write (set_despesa_status despesa_id CONFIRMADA) ;;;
                recalcula_execucao_da_despesa despesa ;;;
                ret None
          end
    end) ;;
  match r with
  | Some already => ret already
  | None =>
      query (fun db =>
               match get_despesa db despesa_id with
               | Some despesa =>
                   match get_dotacao db (Despesa.exercicio despesa) with
                   | Some dotacao =>
                       ConfirmadaComSucesso (Despesa.id despesa) (Despesa.valor despesa)
                         (DotacaoGlobal.saldo dotacao - DotacaoGlobal.reservado dotacao)
                         (DotacaoGlobal.saldo dotacao) (DotacaoGlobal.reservado dotacao)
                   | None => ConfirmadaComSucesso despesa_id 0 0 0 0
                   end
               | None => ConfirmadaComSucesso despesa_id 0 0 0 0
               end)
  end.

(** ** [crud.py]: despesas *)

Module DespesaCreate.
Record t : Type := mk {
  rubrica_id : Z;
  fornecedor_id : option Z;
  fornecedor_text : option string;
  requisicao : option string;
  justificativo : option string;
  ordem_pagamento : option string;
  valor : Dec.Decimal;
  data_emissao : option Date;
  exercicio : option Z;
  mes : option Z
}.
End DespesaCreate.

Definition get_fornecedor (db : DB) (fornecedor_id : Z) : option Fornecedor.t :=
  first (fun f => Fornecedor.id f =? fornecedor_id) (fornecedores db).

(** The supplier checks shared by creation and update. *)
Definition validar_fornecedor (db : DB) (fornecedor_id : option Z) : option Detail :=
  if truthy_id fornecedor_id then
    match get_fornecedor db (default 0 fornecedor_id) with
    | None => Some FornecedorNaoEncontrado
    | Some fornecedor =>
        if negb (Fornecedor.activo fornecedor) then Some FornecedorInativo else None
    end
  else None.

(** What the table checks when a new row is committed: a supplier key
    that is not null refers to a row.  (The rubrica key has been looked up
    by then.) *)
Definition despesa_insert_allowed (db : DB) (d : Despesa.t) : bool :=
  match Despesa.fornecedor_id d with
  | Some k => match get_fornecedor db k with Some _ => true | None => false end
  | None => true
  end.

(** [crud.create_despesa]; [today] is [date.today()].  The amount is the
    [Decimal] of the schema, and reaches the table in hundredths.  The
    supplier is looked up only when its key is truthy: a key of 0 passes
    the guards and is left to the foreign key of the table. *)
Definition create_despesa (today : Date) (despesa : DespesaCreate.t) : M Despesa.t :=
  db <- query (fun db => db) ;;
  if negb (bool_decide (Dec.le_zero (DespesaCreate.valor despesa) = Some false))
  then match Dec.le_zero (DespesaCreate.valor despesa) with
       | None => raise (InvalidOperation ComparacaoComNaN)
       | Some _ => raise (ValueError ValorNaoPositivo)
       end
  else if DespesaCreate.rubrica_id despesa =? 0 then raise (ValueError RubricaObrigatoria)
  else
    match get_rubrica db (DespesaCreate.rubrica_id despesa) with
    | None => raise (ValueError RubricaNaoEncontrada)
    | Some rubrica =>
        if negb (bool_decide (Rubrica.status rubrica = ATIVA))
        then raise (ValueError RubricaInativa)
        else if negb (is_rubrica_leaf db (DespesaCreate.rubrica_id despesa))
        then raise (ValueError RubricaNaoFolha)
        else
          match validar_fornecedor db (DespesaCreate.fornecedor_id despesa) with
          | Some detail => raise (ValueError detail)
          | None =>
              let mes :=
                match DespesaCreate.data_emissao despesa with
                | Some d => if truthy_id (DespesaCreate.mes despesa)
                            then DespesaCreate.mes despesa else Some (month d)
                | None => DespesaCreate.mes despesa
                end in
              let exercicio :=
                match DespesaCreate.data_emissao despesa with
                | Some d => if truthy_id (DespesaCreate.exercicio despesa)
                            then DespesaCreate.exercicio despesa else Some (year d)
                | None => DespesaCreate.exercicio despesa
                end in
              if match DespesaCreate.data_emissao despesa with
                 | Some d => date_gt d today
                 | None => false
                 end
              then raise (ValueError DataFutura)
              else if match DespesaCreate.data_emissao despesa with
                      | Some d => truthy_id exercicio && negb (year d =? default 0 exercicio)
                      | None => false
                      end
              then raise (ValueError DataForaDoExercicio)
              else
                match exercicio, mes with
                | Some exercicio, Some mes =>
                    let db_despesa :=
                      Despesa.mk (next_id (List.map Despesa.id (despesas db)))
                                 (Some (DespesaCreate.rubrica_id despesa))
                                 (DespesaCreate.fornecedor_id despesa)
                                 (DespesaCreate.fornecedor_text despesa)
                                 (DespesaCreate.requisicao despesa)
                                 (DespesaCreate.justificativo despesa)
                                 (DespesaCreate.ordem_pagamento despesa)
                                 (default 0 (Dec.to_cents (DespesaCreate.valor despesa)))
                                 (DespesaCreate.data_emissao despesa)
                                 exercicio mes None PENDENTE in
                    if negb (despesa_insert_allowed db db_despesa)
                    then rollback ;;; raise (IntegrityError ChaveEstrangeira)
                    else
                      write (fun d => with_despesas (despesas d ++ [db_despesa]) d) ;;;
                      commit ;;;
                      ret db_despesa
                | _, _ => rollback ;;; raise (IntegrityError ColunaObrigatoria)
                end
          end
    end.

(** [DespesaUpdate] after [model_dump(exclude_unset=True)]: [None] for a
    field that was not sent, [Some None] for one sent as null. *)
Module DespesaUpdate.
Record t : Type := mk {
  rubrica_id : option (option Z);
  fornecedor_id : option (option Z);
  fornecedor_text : option (option string);
  requisicao : option (option string);
  justificativo : option (option string);
  ordem_pagamento : option (option string);
  valor : option (option Z);
  data_emissao : option (option Date);
  exercicio : option (option Z);
  mes : option (option Z)
}.
End DespesaUpdate.

(** [for key, value in update_data.items(): setattr(db_despesa, key, value)],
    with the month and year taken from the date where the source adds them.
    [None] when a NOT NULL column would be set to null. *)
Definition apply_despesa_update (u : DespesaUpdate.t) (d : Despesa.t) : option Despesa.t :=
  let pick {A : Type} (sent : option (option A)) (old : option A) : option A :=
    match sent with Some v => v | None => old end in
  let data := DespesaUpdate.data_emissao u in
  let mes : option Z :=
    match DespesaUpdate.mes u, data with
    | Some v, _ => v
    | None, Some (Some dt) => Some (month dt)
    | None, _ => Some (Despesa.mes d)
    end in
  let exercicio : option Z :=
    match DespesaUpdate.exercicio u, data with
    | Some v, _ => v
    | None, Some (Some dt) => Some (year dt)
    | None, _ => Some (Despesa.exercicio d)
    end in
  let valor : option Z :=
    match DespesaUpdate.valor u with Some v => v | None => Some (Despesa.valor d) end in
  match valor, exercicio, mes with
  | Some valor, Some exercicio, Some mes =>
      Some (Despesa.mk (Despesa.id d)
                       (pick (DespesaUpdate.rubrica_id u) (Despesa.rubrica_id d))
                       (pick (DespesaUpdate.fornecedor_id u) (Despesa.fornecedor_id d))
                       (pick (DespesaUpdate.fornecedor_text u) (Despesa.fornecedor_text d))
                       (pick (DespesaUpdate.requisicao u) (Despesa.requisicao d))
                       (pick (DespesaUpdate.justificativo u) (Despesa.justificativo d))
                       (pick (DespesaUpdate.ordem_pagamento u) (Despesa.ordem_pagamento d))
                       valor
                       (pick data (Despesa.data_emissao d))
                       exercicio mes (Despesa.batch_id d) (Despesa.status d))
  | _, _, _ => None
  end.

(** [crud.update_despesa].  The parameter [is_admin] is received and not
    read anywhere in the body. *)
Definition update_despesa (today : Date) (despesa_id : Z)
    (despesa_update : DespesaUpdate.t) (is_admin : bool) : M (option Despesa.t) :=
  db <- query (fun db => db) ;;
  match get_despesa db despesa_id with
  | None => ret None
  | Some db_despesa =>
      if bool_decide (Despesa.status db_despesa = CONFIRMADA)
      then raise (ValueError EditarDespesaConfirmada)
      else
        match DespesaUpdate.valor despesa_update with
        | Some None => raise (TypeError ComparacaoComNone)
        | Some (Some v) =>
            if v <=? 0 then raise (ValueError ValorNaoPositivo) else ret tt
        | None => ret tt
        end ;;;
        match DespesaUpdate.rubrica_id despesa_update with
        | None => ret tt
        | Some sent =>
            match match sent with Some k => get_rubrica db k | None => None end with
            | None => raise (ValueError RubricaNaoEncontrada)
            | Some rubrica =>
                if negb (bool_decide (Rubrica.status rubrica = ATIVA))
                then raise (ValueError RubricaInativa)
                else if negb (is_rubrica_leaf db (Rubrica.id rubrica))
                then raise (ValueError RubricaNaoFolha)
                else ret tt
            end
        end ;;;
        match DespesaUpdate.fornecedor_id despesa_update with
        | Some sent =>
            match validar_fornecedor db sent with
            | Some detail => raise (ValueError detail)
            | None => ret tt
            end
        | None => ret tt
        end ;;;
        match DespesaUpdate.data_emissao despesa_update with
        | Some (Some dt) =>
            if date_gt dt today then raise (ValueError DataFutura)
            else
              let exercicio_atual :=
                match DespesaUpdate.exercicio despesa_update with
                | Some v => v
                | None => Some (year dt)
                end in
              if negb (col_is exercicio_atual (year dt))
              then raise (ValueError DataForaDoExercicio)
              else ret tt
        | _ => ret tt
        end ;;;
        match apply_despesa_update despesa_update db_despesa with
        | None => rollback ;;; raise (IntegrityError ColunaObrigatoria)
        | Some updated =>
            write (fun d => with_despesas
                              (update_where (fun x => Despesa.id x =? despesa_id)
                                            (fun _ => updated) (despesas d)) d) ;;;
            commit ;;;
            query (fun d => get_despesa d despesa_id)
        end
  end.

(** [crud.delete_despesa]: a physical removal. *)
Definition delete_despesa (despesa_id : Z) : M (option Despesa.t) :=
  db <- query (fun db => db) ;;
  match get_despesa db despesa_id with
  | None => ret None
  | Some db_despesa =>
      if bool_decide (Despesa.status db_despesa = CONFIRMADA)
      then raise (ValueError RemoverDespesaConfirmada)
      else
        write (fun d => with_despesas
                          (List.filter (fun x => negb (Despesa.id x =? despesa_id))
                                       (despesas d)) d) ;;;
        commit ;;;
        ret (Some db_despesa)
  end.

(** ** [api/despesas.py] *)

Inductive ErroAtualizar : Set := ErroAoAtualizarDespesa.

(** [PUT /despesas/{id}]: the admin flag is computed from the caller's roles
    and handed to [update_despesa]; a [ValueError] becomes a 400, and so does
    every other exception, the 404 of a missing expense included. *)
Definition update_despesa_endpoint (today : Date) (despesa_id : Z)
    (despesa_data : DespesaUpdate.t) (current_user : Z) : M Despesa.t :=
  papeis <- query (fun db => get_usuario_papeis db current_user) ;;
  let is_admin := tem_papel "admin" papeis in
  fun s =>
    match update_despesa today despesa_id despesa_data is_admin s with
    | (Ok (Some despesa), s') => (Ok despesa, s')
    | (Ok None, s') => (Raise (HTTPException 400 DespesaNaoEncontrada), s')
    | (Raise (ValueError detail), s') => (Raise (HTTPException 400 detail), s')
    | (Raise e, s') =>
        if catchable e
        then (Raise (HTTPException 400 match e with
                                       | HTTPException _ d | IntegrityError d
                                       | AttributeError d | InvalidOperation d
                                       | TypeError d | ValueError d => d
                                       | _ => DespesaNaoEncontrada
                                       end), s')
        else (Raise e, s')
    end.

(** [DELETE /despesas/{id}]: no role is looked at. *)
Definition delete_despesa_endpoint (despesa_id : Z) (current_user : Z) : M unit :=
  db <- query (fun db => db) ;;
  match get_despesa db despesa_id with
  | None => raise (HTTPException 404 DespesaNaoEncontrada)
  | Some _ =>
      fun s =>
        match delete_despesa despesa_id s with
        | (Ok (Some _), s') => (Ok tt, s')
        | (Ok None, s') => (Raise (HTTPException 404 DespesaNaoEncontrada), s')
        | (Raise (ValueError detail), s') => (Raise (HTTPException 400 detail), s')
        | (Raise e, s') => (Raise e, s')
        end
  end.

(** ** [api/rubricas.py]: the endpoints that change the hierarchy *)

(** [Depends(require_admin)] *)
Definition require_admin (current_user : Z) : M unit :=
  papeis <- query (fun db => get_usuario_papeis db current_user) ;;
  if tem_papel "admin" papeis then ret tt
  else raise (HTTPException 403 ApenasAdminOverride).

(** [except ValueError as e: raise HTTPException(400, str(e))] *)
Definition value_error_400 {A : Type} (m : M A) : M A :=
  fun s =>
    match m s with
    | (Raise (ValueError detail), s') => (Raise (HTTPException 400 detail), s')
    | other => other
    end.

(** [POST /rubricas] *)
Definition create_rubrica_endpoint (novo : RubricaCreate.t) (current_user : Z)
  : M Rubrica.t :=
  require_admin current_user ;;;
  db <- query (fun db => db) ;;
  match get_rubrica_by_codigo_exercicio db (RubricaCreate.codigo novo)
                                        (RubricaCreate.exercicio novo) with
  | Some _ => raise (HTTPException 400 RubricaJaExiste)
  | None => value_error_400 (create_rubrica novo)
  end.

Module RubricaBatchItem.
Record t : Type := mk {
  codigo : string;
  designacao : string;
  dotacao : option Z
}.
End RubricaBatchItem.

(** [tipo] is the member of [TipoRubrica] that the text names, if any. *)
Module RubricaBatchCreate.
Record t : Type := mk {
  parent_id : Z;
  exercicio : Z;
  tipo : option TipoRubrica;
  items : list RubricaBatchItem.t
}.
End RubricaBatchCreate.

Record RubricaBatchResponse : Type := mkRubricaBatchResponse {
  batch_criadas : Z;
  batch_erros : Z
}.

(** One turn of the loop of [create_rubricas_batch], on the two counters.
    An exception before [criadas += 1] counts one error; one after it counts
    the creation and one error. *)
Definition create_rubricas_batch_item (parent_id exercicio : Z) (tipo : TipoRubrica)
    (acc : RubricaBatchResponse) (item : RubricaBatchItem.t) : M RubricaBatchResponse :=
  let criadas := batch_criadas acc in
  let erros := batch_erros acc in
  try_except
    (db <- query (fun db => db) ;;
     match get_rubrica_by_codigo_exercicio db (RubricaBatchItem.codigo item) exercicio with
     | Some _ => ret (mkRubricaBatchResponse criadas (erros + 1))
     | None =>
         create_rubrica
           (RubricaCreate.mk (RubricaBatchItem.codigo item) (RubricaBatchItem.designacao item)
                             tipo (Some parent_id) 1 (Some 0) exercicio ATIVA) ;;;
         try_except
           (recalculate_dotacao_chain parent_id ;;;
            commit ;;;
            ret (mkRubricaBatchResponse (criadas + 1) erros))
           (fun _ => ret (mkRubricaBatchResponse (criadas + 1) (erros + 1)))
     end)
    (fun _ => ret (mkRubricaBatchResponse criadas (erros + 1))).

Fixpoint fold_m {A S : Type} (body : S -> A -> M S) (l : list A) (acc : S) : M S :=
  match l with
  | [] => ret acc
  | x :: rest => acc' <- body acc x ;; fold_m body rest acc'
  end.

(** [POST /rubricas/batch] *)
Definition create_rubricas_batch (batch_data : RubricaBatchCreate.t) (current_user : Z)
  : M RubricaBatchResponse :=
  require_admin current_user ;;;
  match RubricaBatchCreate.tipo batch_data with
  | None => raise (HTTPException 400 TipoInvalido)
  | Some tipo_enum =>
      db <- query (fun db => db) ;;
      match get_rubrica db (RubricaBatchCreate.parent_id batch_data) with
      | None => raise (HTTPException 404 RubricaPaiNaoEncontrada)
      | Some _ =>
          fold_m (create_rubricas_batch_item (RubricaBatchCreate.parent_id batch_data)
                                             (RubricaBatchCreate.exercicio batch_data)
                                             tipo_enum)
                 (RubricaBatchCreate.items batch_data)
                 (mkRubricaBatchResponse 0 0)
      end
  end.

(** [PUT /rubricas/{id}] *)
Definition update_rubrica_endpoint (rubrica_id : Z) (rubrica_update : RubricaUpdate.t)
    (current_user : Z) : M Rubrica.t :=
  require_admin current_user ;;;
  value_error_400 (
    r <- update_rubrica rubrica_id rubrica_update ;;
    match r with
    | None => raise (HTTPException 404 RubricaNaoEncontrada)
    | Some rubrica =>
        recalculate_dotacao_chain rubrica_id ;;;
        commit ;;;
        query (fun d => default rubrica (get_rubrica d rubrica_id))
    end).

(** [DELETE /rubricas/{id}]: a soft delete. *)
Definition delete_rubrica_endpoint (rubrica_id : Z) (current_user : Z) : M unit :=
  require_admin current_user ;;;
  db <- query (fun db => db) ;;
  match get_rubrica db rubrica_id with
  | None => raise (HTTPException 404 RubricaNaoEncontrada)
  | Some rubrica =>
      let parent_id := Rubrica.parent_id rubrica in
      write (fun d => with_rubricas
                        (update_where (fun r => Rubrica.id r =? rubrica_id)
                                      (Rubrica.set_status INATIVA) (rubricas d)) d) ;;;
      commit ;;;
      if truthy_id parent_id then
        recalculate_dotacao_chain (default 0 parent_id) ;;;
        commit
      else ret tt
  end.

(** ** [services/importer.py]: matchers, row processor, import *)

Module ColumnMapping.
Record t : Type := mk {
  codigo_rubrica : string;
  fornecedor : string;
  valor : string;
  data : option string;
  ordem_pagamento : option string;
  justificativo : option string;
  requisicao : option string
}.
End ColumnMapping.

(** A row of the data frame as [row.to_dict()], each cell already through
    [str(...)]: column name and text. *)
Definition Row : Type := list (string * string).

(** [str(row.get(column, "")).strip()] *)
Definition cell (row : Row) (column : string) : string :=
  Text.strip (match List.find (fun kv => String.eqb (fst kv) column) row with
              | Some kv => snd kv
              | None => EmptyString
              end).

(** [... if mapping.column else None] for an optional column. *)
Definition optional_cell (row : Row) (column : option string) : option string :=
  match column with
  | Some c => if Text.is_empty c then None else Some (cell row c)
  | None => None
  end.

Inductive ErroLinha : Type :=
| CodigoRubricaVazio
| NomeFornecedorVazio
| ValorInvalido (texto : string)
| ValorDeveSerPositivo (valor : Dec.Decimal)
| ErroAoCriarDespesa (e : Exception).

Inductive AvisoLinha : Type :=
| DataNaoReconhecida (texto : string)
| RubricaProvisoriaCriada (codigo : string)
| FornecedorNaoEncontradoAviso (nome : string).

(** The [despesa_data] dictionary of a processed row. *)
Module DespesaData.
Record t : Type := mk {
  rubrica_id : Z;
  fornecedor_id : option Z;
  fornecedor_text : option string;
  requisicao : option string;
  justificativo : option string;
  ordem_pagamento : option string;
  valor : Dec.Decimal;
  data_emissao : option (Date * bool);
  exercicio : Z;
  mes : Z
}.
End DespesaData.

Module Resultado.
Record t : Type := mk {
  linha_numero : Z;
  erros : list ErroLinha;
  warnings : list AvisoLinha;
  despesa_data : option DespesaData.t;
  fornecedor_id : option Z;
  rubrica_id : option Z;
  rubrica_criada : bool
}.
End Resultado.

Record DetalheErro : Type := mkDetalheErro {
  detalhe_linha : Z;
  detalhe_erros : list ErroLinha;
  detalhe_warnings : list AvisoLinha
}.

Record ImportResult : Type := mkImportResult {
  total_rows : Z;
  import_criadas : Z;
  import_atualizadas : Z;
  import_erros : Z;
  detalhes : list DetalheErro
}.

Section Importer.

(** What the importer takes from outside the repository: the clock, the
    date formats of [datetime.strptime] and the pandas fallback behind
    [parse_date] (a date and whether its time of day is midnight), the
    Unicode tables behind [normalize_name], and the scorer of the fuzzy
    matcher ([process.extract] with [fuzz.ratio] and [limit=5]). *)
Variable today : Date.
Variable now_month : Z.
Variable parse_date : string -> option (Date * bool).
Variable normalize_name : string -> string.
Variable fuzz_extract : string -> list string -> list (string * Z).

(** [FornecedorMatcher._load_fornecedores]: the active suppliers with the
    normalised name of their account; a supplier without an account stops
    the load with an [AttributeError]. *)
Fixpoint load_fornecedores (db : DB) (fs : list Fornecedor.t) : option (list (Z * string)) :=
  match fs with
  | [] => Some []
  | f :: rest =>
      match match Fornecedor.usuario_id f with
            | Some u => List.find (fun x => Usuario.id x =? u) (usuarios db)
            | None => None
            end with
      | None => None
      | Some usuario =>
          match load_fornecedores db rest with
          | Some cache =>
              Some ((Fornecedor.id f,
                     if Text.is_empty (Usuario.nome usuario) then EmptyString
                     else normalize_name (Usuario.nome usuario)) :: cache)
          | None => None
          end
      end
  end.

(** [FornecedorMatcher.match(nome)], as the row processor calls it (no tax
    number, no internal code): exact normalised name, then the first fuzzy
    candidate with a score of 90 or more. *)
Definition fornecedor_match (db : DB) (nome : string) : Result (option Z) :=
  match load_fornecedores db (List.filter Fornecedor.activo (fornecedores db)) with
  | None => Raise (AttributeError FornecedorSemUsuario)
  | Some cache =>
      let nome_norm := normalize_name nome in
      match List.find (fun f => String.eqb (snd f) nome_norm) cache with
      | Some f => Ok (Some (fst f))
      | None =>
          if Text.is_empty nome_norm then Ok None
          else
            let names := List.filter (fun n => negb (Text.is_empty n)) (List.map snd cache) in
            Ok (List.fold_right
                  (fun (m : string * Z) (later : option Z) =>
                     if 90 <=? snd m then
                       match List.find (fun f => String.eqb (snd f) (fst m)) cache with
                       | Some f => Some (fst f)
                       | None => later
                       end
                     else later)
                  None (fuzz_extract nome_norm names))
      end
  end.

(** The designation of a provisional rubrica, before its code; the "o" of
    "provisoria" carries an acute accent, U+00F3. *)
Definition rubrica_provisoria : string :=
  "Rubrica provis" ++ Text.of_bytes [195%nat; 179%nat] ++ "ria ".

(** [RubricaMatcher.match]: the id of the rubrica with that code in the
    fiscal year, and whether it had to be created. *)
Definition rubrica_match (exercicio : Z) (codigo : string) : M (Z * bool) :=
  let codigo_norm := normalize_code codigo in
  db <- query (fun db => db) ;;
  match get_rubrica_by_codigo_exercicio db codigo_norm exercicio with
  | Some rubrica => ret (Rubrica.id rubrica, false)
  | None =>
      nova_rubrica <- create_rubrica
        (RubricaCreate.mk codigo_norm (rubrica_provisoria ++ codigo_norm) DESPESA None 1
                          (Some 0) exercicio PROVISORIA) ;;
      ret (Rubrica.id nova_rubrica, true)
  end.

(** [ImportProcessor.process_row] *)
Definition process_row (exercicio : Z) (row : Row) (mapping : ColumnMapping.t)
    (linha_numero : Z) : M Resultado.t :=
  let codigo_rubrica := cell row (ColumnMapping.codigo_rubrica mapping) in
  let fornecedor_nome := cell row (ColumnMapping.fornecedor mapping) in
  let valor_str := cell row (ColumnMapping.valor mapping) in
  let data_str := optional_cell row (ColumnMapping.data mapping) in
  let ordem_pagamento := optional_cell row (ColumnMapping.ordem_pagamento mapping) in
  let justificativo := optional_cell row (ColumnMapping.justificativo mapping) in
  let requisicao := optional_cell row (ColumnMapping.requisicao mapping) in
  let erros1 := if Text.is_empty codigo_rubrica then [CodigoRubricaVazio] else [] in
  let erros2 := if Text.is_empty fornecedor_nome then [NomeFornecedorVazio] else [] in
  let valor := parse_currency valor_str in
  match match valor with
        | None => Some [ValorInvalido valor_str]
        | Some v =>
            match Dec.le_zero v with
            | None => None
            | Some true => Some [ValorDeveSerPositivo v]
            | Some false => Some []
            end
        end with
  | None => raise (InvalidOperation ComparacaoComNaN)
  | Some erros3 =>
      let data_emissao :=
        match data_str with
        | Some s => if Text.is_empty s then None else parse_date s
        | None => None
        end in
      let warnings1 :=
        match data_str, data_emissao with
        | Some s, None => if Text.is_empty s then [] else [DataNaoReconhecida s]
        | _, _ => []
        end in
      let erros := erros1 ++ erros2 ++ erros3 in
      match erros, valor with
      | [], Some valor =>
          m <- rubrica_match exercicio codigo_rubrica ;;
          let '(rubrica_id, rubrica_criada) := m in
          let warnings2 :=
            if rubrica_criada then [RubricaProvisoriaCriada codigo_rubrica] else [] in
          db <- query (fun db => db) ;;
          match fornecedor_match db fornecedor_nome with
          | Raise e => raise e
          | Ok fornecedor_id =>
              let warnings3 :=
                if truthy_id fornecedor_id then []
                else [FornecedorNaoEncontradoAviso fornecedor_nome] in
              let mes :=
                match data_emissao with
                | Some dt => month (fst dt)
                | None => now_month
                end in
              ret (Resultado.mk linha_numero [] (warnings1 ++ warnings2 ++ warnings3)
                     (Some (DespesaData.mk rubrica_id fornecedor_id
                              (if truthy_id fornecedor_id then None else Some fornecedor_nome)
                              requisicao justificativo ordem_pagamento valor data_emissao
                              exercicio mes))
                     fornecedor_id (Some rubrica_id) rubrica_criada)
          end
      | _, _ =>
          ret (Resultado.mk linha_numero erros warnings1 None None None false)
      end
  end.

(** The [DespesaCreate] built from [despesa_data] and [batch_id]: the schema has no
    [batch_id] and no [status] field, so both are dropped; a value that is
    not finite, a date with a time of day, and a month outside 1..12 are
    validation errors ([None]). *)
Definition despesa_create_of (data : DespesaData.t) (batch_id : Z) : option DespesaCreate.t :=
  match DespesaData.valor data with
  | Dec.Finite _ _ _ =>
      if match DespesaData.data_emissao data with
         | Some (_, midnight) => negb midnight
         | None => false
         end
      then None
      else if negb ((1 <=? DespesaData.mes data) && (DespesaData.mes data <=? 12)) then None
      else
        Some (DespesaCreate.mk (DespesaData.rubrica_id data)
                               (DespesaData.fornecedor_id data)
                               (DespesaData.fornecedor_text data)
                               (DespesaData.requisicao data)
                               (DespesaData.justificativo data)
                               (DespesaData.ordem_pagamento data)
                               (DespesaData.valor data)
                               (option_map fst (DespesaData.data_emissao data))
                               (Some (DespesaData.exercicio data))
                               (Some (DespesaData.mes data)))
  | _ => None
  end.

(** [crud.update_import_batch] with the counters of a finished import. *)
Definition update_import_batch (batch_id : Z) (r : ImportResult) : M unit :=
  db <- query (fun db => db) ;;
  match first (fun b => ImportBatch.id b =? batch_id) (import_batches db) with
  | None => ret tt
  | Some _ =>
      write (fun d => with_import_batches
                        (update_where (fun b => ImportBatch.id b =? batch_id)
                           (fun b => ImportBatch.mk (ImportBatch.id b) (ImportBatch.user_id b)
                                       (total_rows r) (import_criadas r)
                                       (import_atualizadas r) (import_erros r))
                           (import_batches d)) d) ;;;
      commit
  end.

(** One turn of the loop of [execute_import], for the row at index [idx]. *)
Definition import_row (exercicio : Z) (mapping : ColumnMapping.t) (batch_id : Z)
    (dry_run : bool) (acc : ImportResult) (indexed : Z * Row) : M ImportResult :=
  let linha_numero := fst indexed + 2 in
  resultado <- process_row exercicio (snd indexed) mapping linha_numero ;;
  match Resultado.erros resultado with
  | _ :: _ =>
      ret (mkImportResult (total_rows acc) (import_criadas acc) (import_atualizadas acc)
             (import_erros acc + 1)
             (detalhes acc ++ [mkDetalheErro linha_numero (Resultado.erros resultado)
                                             (Resultado.warnings resultado)]))
  | [] =>
      match dry_run, Resultado.despesa_data resultado with
      | false, Some data =>
          try_except
            (match despesa_create_of data batch_id with
             | None => raise (ValueError DadosInvalidos)
             | Some despesa_create =>
                 create_despesa today despesa_create ;;;
                 ret (mkImportResult (total_rows acc) (import_criadas acc + 1)
                        (import_atualizadas acc) (import_erros acc) (detalhes acc))
             end)
            (fun e =>
               ret (mkImportResult (total_rows acc) (import_criadas acc)
                      (import_atualizadas acc) (import_erros acc + 1)
                      (detalhes acc ++ [mkDetalheErro linha_numero [ErroAoCriarDespesa e] []])))
      | _, _ => ret acc
      end
  end.

(** [ImportProcessor.execute_import], on the rows that [read_file] returned,
    each with its index label. *)
Definition execute_import (exercicio : Z) (df : list (Z * Row)) (mapping : ColumnMapping.t)
    (batch_id : Z) (dry_run : bool) : M ImportResult :=
  r <- fold_m (import_row exercicio mapping batch_id dry_run) df
              (mkImportResult (Z.of_nat (length df)) 0 0 0 []) ;;
  (if negb dry_run then update_import_batch batch_id r else ret tt) ;;;
  ret r.

End Importer.

(** ** [api/rubricas.py]: the recalculation of a fiscal year *)

(** The answer of [POST /rubricas/recalcular-dotacao]: the early answer
    when the fiscal year has no active rubrica, or the counts after the
    loop.  An entry of [erros] is the rubrica's key and code with the
    exception; [erros if erros else None] is the [option]. *)
Inductive RecalculoResponse : Type :=
| NenhumaRubricaAtiva (exercicio recalculadas : Z)
| RecalculoConcluido (exercicio recalculadas total : Z)
                     (erros : option (list (Z * string * Exception))).

Definition rubricas_ativas (db : DB) (exercicio : Z) : list Rubrica.t :=
  List.filter (fun r => (Rubrica.exercicio r =? exercicio)
                        && bool_decide (Rubrica.status r = ATIVA))
              (rubricas db).

(** One round of the loop: [recalculadas += 1] after a call that returned,
    an entry of [erros] for one that raised. *)
Definition recalcular_rubrica (acc : Z * list (Z * string * Exception)) (rubrica : Rubrica.t)
  : M (Z * list (Z * string * Exception)) :=
  let '(recalculadas, erros) := acc in
  try_except
    (recalculate_dotacao_chain (Rubrica.id rubrica) ;;;
     ret (recalculadas + 1, erros))
    (fun e => ret (recalculadas, erros ++ [(Rubrica.id rubrica, Rubrica.codigo rubrica, e)])).

(** [POST /rubricas/recalcular-dotacao]: open to every authenticated user. *)
Definition recalcular_dotacao_exercicio (exercicio : Z) (current_user : Z)
  : M RecalculoResponse :=
  all_rubricas <- query (fun db => rubricas_ativas db exercicio) ;;
  match all_rubricas with
  | [] => ret (NenhumaRubricaAtiva exercicio 0)
  | _ =>
      let rubricas_ordenadas := sorted_by_nivel_desc all_rubricas in
      acc <- fold_m recalcular_rubrica rubricas_ordenadas (0, []) ;;
      let '(recalculadas, erros) := acc in
      commit ;;;
      ret (RecalculoConcluido exercicio recalculadas (Z.of_nat (length all_rubricas))
             (match erros with [] => None | _ => Some erros end))
  end.

(** ** [api/dotacao_global.py]: the allocation as reported *)

(** [DotacaoGlobalResponse], without the timestamps. *)
Module DotacaoGlobalResponse.
Record t : Type := mk {
  id : Z;
  exercicio : Z;
  valor_anual : Z;
  saldo : Z;
  reservado : Z;
  gasto_total : Z
}.
End DotacaoGlobalResponse.

(** [func.sum(Despesa.valor)] over the confirmed expenses of the fiscal
    year, with [or Decimal("0.00")] for the empty sum. *)
Definition gasto_total_exercicio (db : DB) (exercicio : Z) : Z :=
  sum_Z (List.map Despesa.valor
           (List.filter (fun d => (Despesa.exercicio d =? exercicio)
                                  && bool_decide (Despesa.status d = CONFIRMADA))
                        (despesas db))).

(** [GET /dotacao_global]: the balance in the answer is computed from the
    annual value, the confirmed spending and the reservations; the stored
    [saldo] is not read. *)
Definition get_dotacao_global (exercicio : Z) : M DotacaoGlobalResponse.t :=
  dotacao <- query (fun db => get_dotacao db exercicio) ;;
  gasto_total <- query (fun db => gasto_total_exercicio db exercicio) ;;
  match dotacao with
  | None =>
      ret (DotacaoGlobalResponse.mk 0 exercicio 0 (0 - gasto_total) 0 gasto_total)
  | Some dotacao =>
      let saldo_calculado :=
        DotacaoGlobal.valor_anual dotacao - gasto_total - DotacaoGlobal.reservado dotacao in
      ret (DotacaoGlobalResponse.mk (DotacaoGlobal.id dotacao)
             (DotacaoGlobal.exercicio dotacao) (DotacaoGlobal.valor_anual dotacao)
             saldo_calculado (DotacaoGlobal.reservado dotacao) gasto_total)
  end.

(** ** [api/despesas.py]: the creation endpoint *)

(** The detail of the 400 that [except Exception] answers with. *)
Definition detail_of (e : Exception) : Detail :=
  match e with
  | HTTPException _ d | IntegrityError d | AttributeError d | InvalidOperation d
  | TypeError d | InvalidRequestError d | ValueError d => d
  | _ => DadosInvalidos
  end.

(** [POST /despesas]: the amount and the year of the date are looked at
    before [create_despesa] looks at them again; every exception that is
    raised in the block, the endpoint's own 400s included, is answered with
    a 400. *)
Definition create_despesa_endpoint (today : Date) (despesa_data : DespesaCreate.t)
    (current_user : Z) : M Despesa.t :=
  fun s =>
    match (match Dec.le_zero (DespesaCreate.valor despesa_data) with
           | None => raise (InvalidOperation ComparacaoComNaN)
           | Some true => raise (HTTPException 400 ValorNaoPositivo)
           | Some false =>
               if match DespesaCreate.data_emissao despesa_data with
                  | Some d =>
                      truthy_id (DespesaCreate.exercicio despesa_data)
                      && negb (year d =? default 0 (DespesaCreate.exercicio despesa_data))
                  | None => false
                  end
               then raise (HTTPException 400 DataForaDoExercicio)
               else create_despesa today despesa_data
           end) s with
    | (Ok despesa, s') => (Ok despesa, s')
    | (Raise e, s') =>
        if catchable e then (Raise (HTTPException 400 (detail_of e)), s')
        else (Raise e, s')
    end.

(** ** [api/rubricas.py]: populating the monthly execution *)

(** The answer of [POST /execucao-mensal/popular]. *)
Inductive PopularResponse : Type :=
| NenhumaRubricaParaPopular (exercicio criadas atualizadas : Z)
| ExecucaoPopulada (exercicio criadas atualizadas : Z)
                   (erros : option (list (Z * Z * Exception))).

(** The keys of the dictionary [despesas_por_rubrica_mes], in the order in
    which the loop over the expenses inserts them. *)
Fixpoint chaves_rubrica_mes (despesas : list Despesa.t) : list (Z * Z) :=
  match despesas with
  | [] => []
  | despesa :: rest =>
      let key := (default 0 (Despesa.rubrica_id despesa), Despesa.mes despesa) in
      key :: List.filter (fun k => negb ((fst k =? fst key) && (snd k =? snd key)))
                         (chaves_rubrica_mes rest)
  end.

(** One round of the loop over the keys. *)
Definition popular_chave (exercicio : Z) (acc : Z * Z * list (Z * Z * Exception))
    (key : Z * Z) : M (Z * Z * list (Z * Z * Exception)) :=
  let '(criadas, atualizadas, erros) := acc in
  let '(rubrica_id, mes) := key in
  try_except
    (execucao_existente <- query (fun db => get_execucao db rubrica_id mes exercicio) ;;
     execucao <- recalculate_execucao_mensal rubrica_id mes exercicio ;;
     match execucao, execucao_existente with
     | Some _, None => ret (criadas + 1, atualizadas, erros)
     | Some _, Some _ => ret (criadas, atualizadas + 1, erros)
     | None, _ => ret (criadas, atualizadas, erros)
     end)
    (fun e => ret (criadas, atualizadas, erros ++ [(rubrica_id, mes, e)])).

(** [POST /execucao-mensal/popular] *)
Definition popular_execucao_mensal (exercicio : Z) (current_user : Z) : M PopularResponse :=
  require_admin current_user ;;;
  rubricas <- query (fun db => rubricas_ativas db exercicio) ;;
  match rubricas with
  | [] => ret (NenhumaRubricaParaPopular exercicio 0 0)
  | _ =>
      for_each (fun rubrica =>
                  try_except (recalculate_dotacao_chain (Rubrica.id rubrica))
                             (fun _ => ret tt))
               (sorted_by_nivel_desc rubricas) ;;;
      commit ;;;
      despesas_confirmadas <-
        query (fun db =>
                 List.filter (fun d => (Despesa.exercicio d =? exercicio)
                                       && bool_decide (Despesa.status d = CONFIRMADA)
                                       && match Despesa.rubrica_id d with
                                          | Some _ => true
                                          | None => false
                                          end)
                             (despesas db)) ;;
      acc <- fold_m (popular_chave exercicio) (chaves_rubrica_mes despesas_confirmadas)
                    (0, 0, []) ;;
      let '(criadas, atualizadas, erros) := acc in
      commit ;;;
      ret (ExecucaoPopulada exercicio criadas atualizadas
             (match erros with [] => None | _ => Some erros end))
  end.

(** * Vocabulary of the properties *)

(** What the statements below are written with: the databases they are
    read on, the outcomes of requests, and the invariants. *)

(** ** Outcomes of requests *)

(** A property of the rows a session holds that a request keeps, whatever
    its outcome.  (For requests that never roll back.) *)
Definition preserves (Q : DB -> Prop) {A : Type} (m : M A) : Prop :=
  forall s r s', Q (working s) -> m s = (r, s') -> Q (working s').

(** The database after a reservation of [r] hundredths that went through,
    and after a cancellation that went through. *)
Definition apos_reserva (dotacao : DotacaoGlobal.t) (data : ReservaRequest.t) (r : Z)
    (user : Z) (db : DB) : DB :=
  add_movimento (DotacaoGlobal.id dotacao) RESERVA (ReservaRequest.referencia data)
    (- r)
    (descricao_or (ReservaRequest.descricao data) (DescReserva (ReservaRequest.valor data)))
    user
    (update_dotacao (DotacaoGlobal.id dotacao)
       (fun d => DotacaoGlobal.set_reservado (DotacaoGlobal.reservado d + r) d) db).

Definition apos_cancelamento (dotacao : DotacaoGlobal.t) (data : ReservaCancelRequest.t)
    (r : Z) (user : Z) (db : DB) : DB :=
  add_movimento (DotacaoGlobal.id dotacao) RESERVA_CANCELADA
    (if truthy_id (ReservaCancelRequest.reserva_id data)
     then Some (str_of_int (default 0 (ReservaCancelRequest.reserva_id data)))
     else None)
    r
    (descricao_or (ReservaCancelRequest.descricao data)
                  (DescCancelamento (ReservaCancelRequest.valor data)))
    user
    (update_dotacao (DotacaoGlobal.id dotacao)
       (fun d => DotacaoGlobal.set_reservado (DotacaoGlobal.reservado d - r) d) db).

(** The available balance of a fiscal year's allocation, 0.00 when the year
    has none. *)
Definition saldo_restante_de (db : DB) (exercicio : Z) : Z :=
  match get_dotacao db exercicio with
  | Some dotacao => DotacaoGlobal.saldo dotacao - DotacaoGlobal.reservado dotacao
  | None => 0
  end.

(** ** Well-formed hierarchies and the recalculation *)

(** A parent row is created before its children and [parent_id] is never
    updated: the key of a parent is smaller than the key of its child. *)
Definition parent_precedes (rows : list Rubrica.t) : Prop :=
  forall r p, In r rows -> Rubrica.parent_id r = Some p -> p < Rubrica.id r.

(** The rows whose key is at most [k]: the measure of the upward walk. *)
Definition rows_upto (rows : list Rubrica.t) (k : Z) : nat :=
  length (List.filter (fun r => Rubrica.id r <=? k) rows).

(** A request that always answers, successfully. *)
Definition succeeds {A : Type} (m : M A) : Prop :=
  forall s, exists a s', m s = (Ok a, s').

(** The tables that the monthly-execution updates leave alone. *)
Definition same_books (ref db : DB) : Prop :=
  despesas db = despesas ref /\ rubricas db = rubricas ref.

(** The value the source gives a node, read off a cache that holds its
    children. *)
Definition node_value (all_rubricas : list Rubrica.t) (cache : gmap Z Z) (n : Rubrica.t) : Z :=
  match active_children all_rubricas n with
  | [] => default 0 (Rubrica.dotacao_inicial n)
  | children => sum_Z (List.map (fun c => default 0 (cache !! Rubrica.id c)) children)
  end.

(** Every entry of the cache is the value of its node, and the children of a
    cached node are cached. *)
Definition cache_ok (all_rubricas : list Rubrica.t) (cache : gmap Z Z) : Prop :=
  forall k v, cache !! k = Some v ->
    exists n, rubricas_dict all_rubricas k = Some n
              /\ (forall c, In c (active_children all_rubricas n) ->
                            is_Some (cache !! Rubrica.id c))
              /\ v = node_value all_rubricas cache n.

(** Every cached key is one of the keys in [S] (the calls made from the
    outside) or the child of a cached key. *)
Definition reach (all_rubricas : list Rubrica.t) (S : Z -> Prop) (cache : gmap Z Z) : Prop :=
  forall k, is_Some (cache !! k) ->
    S k \/ exists n p, rubricas_dict all_rubricas k = Some n
                       /\ Rubrica.parent_id n = Some p /\ is_Some (cache !! p).

(** The rows whose key is at least [k]: the measure of the descent. *)
Definition rows_from (all_rubricas : list Rubrica.t) (k : Z) : nat :=
  length (List.filter (fun r => k <=? Rubrica.id r) all_rubricas).

(** What a call of [calculate_node] on key [k] guarantees, from a cache
    that is right. *)
Definition call_ok (all_rubricas : list Rubrica.t) (S : Z -> Prop) (cache : gmap Z Z) (k : Z)
    (out : option Z * gmap Z Z) : Prop :=
  exists v cache',
    out = (Some v, cache')
    /\ cache ⊆ cache'
    /\ cache_ok all_rubricas cache'
    /\ reach all_rubricas (fun j => S j \/ j = k) cache'
    /\ (forall j, is_Some (cache' !! j) -> is_Some (cache !! j) \/ k <= j)
    /\ (forall n, rubricas_dict all_rubricas k = Some n -> cache' !! k = Some v).

(** The computed allocation of a rubrica is the sum of the computed
    allocations of its active children of the same fiscal year when it has
    any, and its initial allocation (0.00 when absent) when it has none. *)
Definition inv_at (rows : list Rubrica.t) (r : Rubrica.t) : Prop :=
  Rubrica.dotacao_calculada r
  = Some (match active_children rows r with
          | [] => default 0 (Rubrica.dotacao_inicial r)
          | children =>
              sum_Z (List.map (fun c => default 0 (Rubrica.dotacao_calculada c)) children)
          end).

Definition hierarchy_inv (rows : list Rubrica.t) : Prop :=
  forall r, In r rows -> inv_at rows r.

(** A well-formed rubrica table: unique positive keys, parents before
    children. *)
Definition hierarchy_wf (rows : list Rubrica.t) : Prop :=
  NoDup (List.map Rubrica.id rows)
  /\ (forall r, In r rows -> 0 < Rubrica.id r)
  /\ parent_precedes rows.

(** The write of the recalculation to one row. *)
Definition apply_cache (cache : gmap Z Z) (r : Rubrica.t) : Rubrica.t :=
  match cache !! Rubrica.id r with
  | Some v => Rubrica.set_dotacao_calculada (Some v) r
  | None => r
  end.

(** Each row of the list is followed by its parent. *)
Fixpoint linked (l : list Rubrica.t) : Prop :=
  match l with
  | a :: (b :: _) as rest => Rubrica.parent_id a = Some (Rubrica.id b) /\ linked rest
  | _ => True
  end.

(** The rows that [get_ancestors] answers the recalculation from [x]
    with: the rubrica of key [x] and its ancestors, in the order of the
    table. *)
Definition chain_from (db : DB) (x : Z) : list Rubrica.t :=
  default [] (get_ancestors db x).

(** The rows with a claim on the recalculation from [x]: those of its
    rows that are in the fiscal year of the first of them, which is the
    fiscal year that the recalculation works on. *)
Definition on_chain (db : DB) (x : Z) (r : Rubrica.t) : Prop :=
  exists first_ancestor rest,
    chain_from db x = first_ancestor :: rest
    /\ In r (first_ancestor :: rest)
    /\ Rubrica.exercicio r = Rubrica.exercicio first_ancestor.

(** A property of sessions that a request maintains, whatever its outcome. *)
Definition maintains (P : Session -> Prop) {A : Type} (m : M A) : Prop :=
  forall s r s', P s -> m s = (r, s') -> P s'.

(** Every rubrica is in the fiscal year of its parent. *)
Definition same_year (rows : list Rubrica.t) : Prop :=
  forall r p, In r rows -> In p rows -> Rubrica.parent_id r = Some (Rubrica.id p) ->
              Rubrica.exercicio p = Rubrica.exercicio r.

(** The same, but for the children of the row of key [P], which may be in
    any fiscal year. *)
Definition years_but (P : Z) (rows : list Rubrica.t) : Prop :=
  forall r p, In r rows -> In p rows -> Rubrica.parent_id r = Some (Rubrica.id p) ->
              Rubrica.exercicio p = Rubrica.exercicio r \/ Rubrica.id p = P.

(** A session with nothing pending, on a well-formed table that satisfies
    the invariant, in which every rubrica that is not a child of the row of
    key [P] is in the fiscal year of its parent. *)
Definition settled (P : Z) (s : Session) : Prop :=
  persisted s = working s
  /\ hierarchy_wf (rubricas (working s))
  /\ hierarchy_inv (rubricas (working s))
  /\ years_but P (rubricas (working s)).

(** [r] has [c] among the children it sums over. *)
Definition sums_over (r c : Rubrica.t) : bool :=
  col_is (Rubrica.parent_id c) (Rubrica.id r)
  && (Rubrica.exercicio c =? Rubrica.exercicio r)
  && bool_decide (Rubrica.status c = ATIVA).

(** [found] is a child of [r] in the fiscal year of [r], whatever its
    status. *)
Definition child_of (r found : Rubrica.t) : bool :=
  col_is (Rubrica.parent_id found) (Rubrica.id r)
  && (Rubrica.exercicio found =? Rubrica.exercicio r).

(** ** Mutations of the hierarchy *)

(** The requests that change the hierarchy and run the recalculation. *)
Inductive RubricaMutation : Type :=
| MutCreate (novo : RubricaCreate.t) (current_user : Z)
| MutBatchCreate (batch_data : RubricaBatchCreate.t) (current_user : Z)
| MutUpdate (rubrica_id : Z) (rubrica_update : RubricaUpdate.t) (current_user : Z)
| MutSoftDelete (rubrica_id : Z) (current_user : Z).

(** The database after the request, whatever it answered. *)
Definition after_mutation (q : RubricaMutation) (db : DB) : DB :=
  match q with
  | MutCreate novo u => snd (run_request (create_rubrica_endpoint novo u) db)
  | MutBatchCreate batch_data u => snd (run_request (create_rubricas_batch batch_data u) db)
  | MutUpdate rubrica_id rubrica_update u =>
      snd (run_request (update_rubrica_endpoint rubrica_id rubrica_update u) db)
  | MutSoftDelete rubrica_id u => snd (run_request (delete_rubrica_endpoint rubrica_id u) db)
  end.

(** The invariant with the leaf test of [is_leaf_rubrica]: a leaf is a row
    with no child at all, whatever the child's status or fiscal year. *)
Definition leaf_sum_inv_at (db : DB) (r : Rubrica.t) : Prop :=
  if is_leaf_rubrica db (Rubrica.id r)
  then Rubrica.dotacao_calculada r = Some (default 0 (Rubrica.dotacao_inicial r))
  else Rubrica.dotacao_calculada r
       = Some (sum_Z (List.map (fun c => default 0 (Rubrica.dotacao_calculada c))
                               (active_children (rubricas db) r))).

Definition leaf_sum_inv (db : DB) (exercicio : Z) : Prop :=
  forall r, In r (rubricas db) -> Rubrica.exercicio r = exercicio -> leaf_sum_inv_at db r.

(** A root, a child of it entered with an initial allocation of 50.00, and
    a child of that child with 100.00, created in this order by an
    administrator on an empty database. *)
Definition three_levels : DB :=
  let db0 := mkDB [] [] [] [] [] [] [(1, "admin"%string)] [] [] in
  let db1 := after_mutation
               (MutCreate (RubricaCreate.mk "1" "Root" DESPESA None 1 None 2024 ATIVA) 1) db0 in
  let db2 := after_mutation
               (MutCreate (RubricaCreate.mk "1.1" "Middle" DESPESA (Some 1) 1 (Some 5000)
                                            2024 ATIVA) 1) db1 in
  after_mutation
    (MutCreate (RubricaCreate.mk "1.1.1" "Leaf" DESPESA (Some 2) 1 (Some 10000) 2024 ATIVA) 1)
    db2.

(** A root of 2024 and a child of it entered in 2025, created in this order
    by an administrator on an empty database. *)
Definition two_years : DB :=
  let db0 := mkDB [] [] [] [] [] [] [(1, "admin"%string)] [] [] in
  let db1 := after_mutation
               (MutCreate (RubricaCreate.mk "1" "Root" DESPESA None 1 None 2024 ATIVA) 1) db0 in
  after_mutation
    (MutCreate (RubricaCreate.mk "1.1" "Middle" DESPESA (Some 1) 1 None 2025 ATIVA) 1) db1.

(** ** Concrete states *)

Module Scenario.

(** An empty database with one user, 1, who holds the role [admin]. *)
Definition empty : DB := mkDB [] [] [] [] [] [] [(1, "admin"%string)] [] [].

Definition today : Date := mkDate 2024 6 1.

(** Rubrica "1", a root, and under it "1.1" with 100 000.00. *)
Definition with_root : DB :=
  snd (run_request
         (create_rubrica_endpoint
            (RubricaCreate.mk "1" "Root" DESPESA None 1 None 2024 ATIVA) 1) empty).

Definition with_leaf : DB :=
  snd (run_request
         (create_rubrica_endpoint
            (RubricaCreate.mk "1.1" "Leaf" DESPESA (Some 1) 1 (Some 10000000) 2024 ATIVA) 1)
         with_root).

(** A global allocation of 1 000 000.00 for 2024. *)
Definition with_allocation : DB :=
  snd (run_request (create_or_update_dotacao_global 2024 (Dec.Finite false 100000000 (-2)) 1)
                   with_leaf).

(** An expense of 50 000.00 against "1.1", in March. *)
Definition with_expense : DB :=
  snd (run_request
         (create_despesa today
            (DespesaCreate.mk 2 None (Some "ACME"%string) None None None
                              (Dec.Finite false 5000000 (-2)) (Some (mkDate 2024 3 15))
                              (Some 2024) None))
         with_allocation).

(** The expense confirmed, by [POST /despesas/1/confirmar]. *)
Definition confirmed : DB :=
  snd (run_request (confirm_despesa_endpoint 1) with_expense).

End Scenario.

(** The allocation of the scenario after a reservation of -100.00, which
    [criar_reserva] accepts: it is within the available balance, and no
    check asks the amount to be positive. *)
Definition negative_reserve : DB :=
  snd (run_request (criar_reserva (ReservaRequest.mk 2024 (Dec.Finite true 10000 (-2))
                                                     None None) 1)
                   Scenario.with_allocation).

Module TwoExpenses.

(** Two pending expenses of 2024 against "1.1", 50 000.00 and 25 000.00,
    before any allocation exists. *)
Definition db0 : DB :=
  snd (run_request
         (create_despesa Scenario.today
            (DespesaCreate.mk 2 None (Some "ACME"%string) None None None
                              (Dec.Finite false 2500000 (-2)) (Some (mkDate 2024 4 2))
                              (Some 2024) None))
         (snd (run_request
                 (create_despesa Scenario.today
                    (DespesaCreate.mk 2 None (Some "ACME"%string) None None None
                                      (Dec.Finite false 5000000 (-2))
                                      (Some (mkDate 2024 3 15)) (Some 2024) None))
                 Scenario.with_leaf))).

(** The same with an allocation of 1 000 000.00 for 2024. *)
Definition db1 : DB :=
  snd (run_request (create_or_update_dotacao_global 2024 (Dec.Finite false 100000000 (-2)) 1)
                   db0).

Definition d1 : Despesa.t :=
  Despesa.mk 1 (Some 2) None (Some "ACME"%string) None None None 5000000
             (Some (mkDate 2024 3 15)) 2024 3 None PENDENTE.

Definition d2 : Despesa.t :=
  Despesa.mk 2 (Some 2) None (Some "ACME"%string) None None None 2500000
             (Some (mkDate 2024 4 2)) 2024 4 None PENDENTE.

End TwoExpenses.

(** The scenario with an expense of 2 000 000.00, twice the allocation. *)
Definition over_budget : DB :=
  snd (run_request
         (create_despesa Scenario.today
            (DespesaCreate.mk 2 None (Some "ACME"%string) None None None
                              (Dec.Finite false 200000000 (-2)) (Some (mkDate 2024 3 15))
                              (Some 2024) None))
         Scenario.with_allocation).

(** The scenario with its expense in status [CANCELADA]. *)
Definition cancelled : DB :=
  set_despesa_status 1 CANCELADA Scenario.with_expense.

(** ** Monthly execution rows *)

(** What identifies a monthly-execution row, with the allocation it stores. *)
Definition stored_dotacao (e : ExecucaoMensal.t) : Z * Z * Z * Z * Z :=
  (ExecucaoMensal.id e, ExecucaoMensal.rubrica_id e, ExecucaoMensal.mes e,
   ExecucaoMensal.ano e, ExecucaoMensal.dotacao e).

(** Every row of [before] is in [after], in its place, with the allocation
    it stored; [after] may have rows behind them. *)
Definition keeps_stored_dotacoes (before after : DB) : Prop :=
  exists created,
    List.map stored_dotacao (execucoes_mensais after)
    = List.map stored_dotacao (execucoes_mensais before) ++ created.

(** The computed annual allocation of a rubrica, 0 when it is null. *)
Definition dotacao_calculada_de (db : DB) (rubrica_id : Z) : Z :=
  match get_rubrica db rubrica_id with
  | Some rubrica => default 0 (Rubrica.dotacao_calculada rubrica)
  | None => 0
  end.

(** The scenario with its expense marked [CONFIRMADA] and no monthly
    execution row written yet. *)
Definition confirmed_unposted : DB :=
  set_despesa_status 1 CONFIRMADA Scenario.with_expense.

(** ** The import of a row *)

(** The month and fiscal year that [create_despesa] stores. *)
Definition despesa_mes (despesa : DespesaCreate.t) : option Z :=
  match DespesaCreate.data_emissao despesa with
  | Some d => if truthy_id (DespesaCreate.mes despesa)
              then DespesaCreate.mes despesa else Some (month d)
  | None => DespesaCreate.mes despesa
  end.

Definition despesa_exercicio (despesa : DespesaCreate.t) : option Z :=
  match DespesaCreate.data_emissao despesa with
  | Some d => if truthy_id (DespesaCreate.exercicio despesa)
              then DespesaCreate.exercicio despesa else Some (year d)
  | None => DespesaCreate.exercicio despesa
  end.

(** The guards of [create_despesa], together: a positive amount, a rubrica
    that exists, is active and has no children, a supplier that, if given,
    exists and is active, and a date that, if given, is not in the future
    and lies in the fiscal year. *)
Definition create_despesa_accepts (today : Date) (db : DB) (despesa : DespesaCreate.t) : bool :=
  bool_decide (Dec.le_zero (DespesaCreate.valor despesa) = Some false)
  && negb (DespesaCreate.rubrica_id despesa =? 0)
  && match get_rubrica db (DespesaCreate.rubrica_id despesa) with
     | Some rubrica => bool_decide (Rubrica.status rubrica = ATIVA)
     | None => false
     end
  && is_rubrica_leaf db (DespesaCreate.rubrica_id despesa)
  && match validar_fornecedor db (DespesaCreate.fornecedor_id despesa) with
     | None => true
     | Some _ => false
     end
  && match DespesaCreate.data_emissao despesa with
     | Some d =>
         negb (date_gt d today)
         && negb (truthy_id (despesa_exercicio despesa)
                  && negb (year d =? default 0 (despesa_exercicio despesa)))
     | None => true
     end.

(** The row that [create_despesa] stores. *)
Definition despesa_row (db : DB) (despesa : DespesaCreate.t) (exercicio mes : Z) : Despesa.t :=
  Despesa.mk (next_id (List.map Despesa.id (despesas db)))
             (Some (DespesaCreate.rubrica_id despesa))
             (DespesaCreate.fornecedor_id despesa)
             (DespesaCreate.fornecedor_text despesa)
             (DespesaCreate.requisicao despesa)
             (DespesaCreate.justificativo despesa)
             (DespesaCreate.ordem_pagamento despesa)
             (default 0 (Dec.to_cents (DespesaCreate.valor despesa)))
             (DespesaCreate.data_emissao despesa)
             exercicio mes None PENDENTE.

(** The [despesa_data] of a row whose cells passed the checks, once its
    rubrica and supplier are known. *)
Definition row_data (now_month : Z) (parse_date : string -> option (Date * bool))
    (exercicio : Z) (mapping : ColumnMapping.t) (row : Row)
    (rubrica_id : Z) (fornecedor_id : option Z) (valor : Dec.Decimal) : DespesaData.t :=
  let data_str := optional_cell row (ColumnMapping.data mapping) in
  let data_emissao :=
    match data_str with
    | Some s => if Text.is_empty s then None else parse_date s
    | None => None
    end in
  DespesaData.mk rubrica_id fornecedor_id
    (if truthy_id fornecedor_id then None
     else Some (cell row (ColumnMapping.fornecedor mapping)))
    (optional_cell row (ColumnMapping.requisicao mapping))
    (optional_cell row (ColumnMapping.justificativo mapping))
    (optional_cell row (ColumnMapping.ordem_pagamento mapping))
    valor data_emissao exercicio
    (match data_emissao with Some dt => month (fst dt) | None => now_month end).

(** The counters after a row that [create_despesa] refused. *)
Definition row_errored (acc : ImportResult) (linha_numero : Z) (e : Exception) : ImportResult :=
  mkImportResult (total_rows acc) (import_criadas acc) (import_atualizadas acc)
                 (import_erros acc + 1)
                 (detalhes acc ++ [mkDetalheErro linha_numero [ErroAoCriarDespesa e] []]).

(** The counters after a row that was stored. *)
Definition row_created (acc : ImportResult) : ImportResult :=
  mkImportResult (total_rows acc) (import_criadas acc + 1) (import_atualizadas acc)
                 (import_erros acc) (detalhes acc).

Module ImportExample.

(** A clock on 1 June 2024, no date format recognised, names compared as
    written, and a fuzzy matcher without candidates. *)
Definition today : Date := mkDate 2024 6 1.
Definition now_month : Z := 6.
Definition parse_date (texto : string) : option (Date * bool) := None.
Definition normalize_name (nome : string) : string := nome.
Definition fuzz_extract (nome : string) (names : list string) : list (string * Z) := [].

Definition mapping : ColumnMapping.t :=
  ColumnMapping.mk "codigo" "fornecedor" "valor" None None None None.

Definition row_of (codigo : string) : Row :=
  [("codigo", codigo); ("fornecedor", "ACME"); ("valor", "1.234,56")]%string.

Definition start : ImportResult := mkImportResult 1 0 0 0 [].

(** The import of the one-row file with that rubrica code, as batch 7 of
    fiscal year 2024, on the scenario with its root and its leaf. *)
Definition import_of (codigo : string) : Result ImportResult * DB :=
  run_request (execute_import today now_month parse_date normalize_name fuzz_extract
                              2024 [(0, row_of codigo)] mapping 7 false)
              Scenario.with_leaf.

(** What the row processor answers for that row. *)
Definition processed (codigo : string) : Result Resultado.t :=
  fst (process_row now_month parse_date normalize_name fuzz_extract
                   2024 (row_of codigo) mapping 2
                   (mkSession Scenario.with_leaf Scenario.with_leaf)).

End ImportExample.

(** The scenario again, its expense entered with a justification text. *)
Definition confirmed_with_note : DB :=
  snd (run_request (confirm_despesa_endpoint 1)
         (snd (run_request
                 (create_despesa Scenario.today
                    (DespesaCreate.mk 2 None (Some "ACME"%string) None (Some "obra"%string)
                                      None (Dec.Finite false 5000000 (-2))
                                      (Some (mkDate 2024 3 15)) (Some 2024) None))
                 Scenario.with_allocation))).

(** ** Recalculation from any table *)

(** The invariant at the row of key [k], when the table has one. *)
Definition inv_id (rows : list Rubrica.t) (k : Z) : Prop :=
  forall r, In r rows -> Rubrica.id r = k -> inv_at rows r.

(** The rows up to their computed allocations. *)
Definition without_calculada (rows : list Rubrica.t) : list Rubrica.t :=
  List.map (Rubrica.set_dotacao_calculada None) rows.

(** ** Whole requests *)

(** A property of the database that holds of what is committed and of what
    the session sees. *)
Definition both (Q : DB -> Prop) (s : Session) : Prop :=
  Q (persisted s) /\ Q (working s).

(** ** The ledger of the global allocation *)

(** The movements that are posted with a change of [saldo], and those
    posted with a change of [reservado]. *)
Definition moves_saldo (t : TipoDotacaoGlobalMov) : bool :=
  match t with AJUSTE | DESPESA_CONFIRMADA => true | _ => false end.

Definition moves_reservado (t : TipoDotacaoGlobalMov) : bool :=
  match t with RESERVA | RESERVA_CANCELADA => true | _ => false end.

(** The sum of the movements of an allocation, by kind. *)
Definition ledger_sum (p : TipoDotacaoGlobalMov -> bool) (dotacao_id : Z)
    (movs : list DotacaoGlobalMov.t) : Z :=
  sum_Z (List.map DotacaoGlobalMov.valor
           (List.filter (fun m => (DotacaoGlobalMov.dotacao_global_id m =? dotacao_id)
                                  && p (DotacaoGlobalMov.tipo m))
                        movs)).

(** The ledger accounts for the allocations: keys are unique, every
    movement belongs to an allocation, [saldo] is the sum of the
    adjustments and confirmations, and [reservado] is what the reservations
    took less what the cancellations gave back. *)
Definition ledger_balanced (db : DB) : Prop :=
  NoDup (List.map DotacaoGlobal.id (dotacoes_globais db))
  /\ (forall m, In m (movimentos db) ->
        In (DotacaoGlobalMov.dotacao_global_id m)
           (List.map DotacaoGlobal.id (dotacoes_globais db)))
  /\ (forall d, In d (dotacoes_globais db) ->
        DotacaoGlobal.saldo d = ledger_sum moves_saldo (DotacaoGlobal.id d) (movimentos db)
        /\ DotacaoGlobal.reservado d
           = - ledger_sum moves_reservado (DotacaoGlobal.id d) (movimentos db)).

(** The requests that write the allocation tables. *)
Inductive LedgerRequest : Type :=
| PostDotacaoGlobal (exercicio : Z) (valor_anual : Dec.Decimal) (current_user : Z)
| PostReserva (data : ReservaRequest.t) (current_user : Z)
| PostReservaCancel (data : ReservaCancelRequest.t) (current_user : Z)
| PostConfirm (despesa_id : Z) (override : bool) (current_user : Z).

Definition after_ledger_request (q : LedgerRequest) (db : DB) : DB :=
  match q with
  | PostDotacaoGlobal exercicio valor_anual current_user =>
      snd (run_request (create_or_update_dotacao_global exercicio valor_anual current_user) db)
  | PostReserva data current_user => snd (run_request (criar_reserva data current_user) db)
  | PostReservaCancel data current_user =>
      snd (run_request (cancelar_reserva data current_user) db)
  | PostConfirm despesa_id override current_user =>
      snd (run_request (confirm_despesa_with_dotacao despesa_id override current_user) db)
  end.

(** The amount that a request carries, and the requests whose amount has no
    digit below the hundredth. *)
Definition ledger_amount (q : LedgerRequest) : option Dec.Decimal :=
  match q with
  | PostDotacaoGlobal _ valor_anual _ => Some valor_anual
  | PostReserva data _ => Some (ReservaRequest.valor data)
  | PostReservaCancel data _ => Some (ReservaCancelRequest.valor data)
  | PostConfirm _ _ _ => None
  end.

Definition in_hundredths (q : LedgerRequest) : Prop :=
  forall valor, ledger_amount q = Some valor -> exists r, Dec.exact_cents valor = Some r.

(** ** Answers and frames *)

(** The tables that the simple path has no business with. *)
Definition same_allocations (ref db : DB) : Prop :=
  dotacoes_globais db = dotacoes_globais ref
  /\ movimentos db = movimentos ref
  /\ rubricas db = rubricas ref.

(** The exceptions a request can end with. *)
Definition raises_only (ok : Exception -> Prop) {A : Type} (m : M A) : Prop :=
  forall s e s', m s = (Raise e, s') -> ok e.

Definition is_404 {A : Type} (r : Result A) : bool :=
  match r with
  | Raise (HTTPException 404 _) => true
  | _ => false
  end.

(** ** Requests on expenses *)

(** The requests on expenses. *)
Inductive DespesaRequest : Type :=
| CriarDespesa (today : Date) (despesa_data : DespesaCreate.t) (current_user : Z)
| AtualizarDespesa (today : Date) (despesa_id : Z) (despesa_data : DespesaUpdate.t)
             (current_user : Z)
| RemoverDespesa (despesa_id : Z) (current_user : Z)
| ConfirmarDespesa (despesa_id : Z)
| ConfirmarComDotacao (despesa_id : Z) (override : bool) (current_user : Z).

Definition after_despesa_request (q : DespesaRequest) (db : DB) : DB :=
  match q with
  | CriarDespesa today despesa_data current_user =>
      snd (run_request (create_despesa_endpoint today despesa_data current_user) db)
  | AtualizarDespesa today despesa_id despesa_data current_user =>
      snd (run_request (update_despesa_endpoint today despesa_id despesa_data current_user) db)
  | RemoverDespesa despesa_id current_user =>
      snd (run_request (delete_despesa_endpoint despesa_id current_user) db)
  | ConfirmarDespesa despesa_id =>
      snd (run_request (confirm_despesa_endpoint despesa_id) db)
  | ConfirmarComDotacao despesa_id override current_user =>
      snd (run_request (confirm_despesa_with_dotacao despesa_id override current_user) db)
  end.

(** The request was answered with a 403 and the database is untouched. *)
Definition refused {A : Type} (db : DB) (outcome : Result A * DB) : Prop :=
  (exists detail, fst outcome = Raise (HTTPException 403 detail)) /\ snd outcome = db.

Definition is_ok {A : Type} (r : Result A) : bool :=
  match r with Ok _ => true | Raise _ => false end.

(** The row that [create_rubrica] adds. *)
Definition nova_rubrica (db : DB) (novo : RubricaCreate.t) : Rubrica.t :=
  let nivel :=
    if truthy_id (RubricaCreate.parent_id novo) then
      match get_rubrica db (default 0 (RubricaCreate.parent_id novo)) with
      | Some parent => (if Rubrica.nivel parent =? 0 then 1 else Rubrica.nivel parent) + 1
      | None => 1
      end
    else 1 in
  let dotacao_inicial :=
    match RubricaCreate.parent_id novo with
    | None => 0
    | Some _ => default 0 (RubricaCreate.dotacao_inicial novo)
    end in
  Rubrica.mk (next_id (List.map Rubrica.id (rubricas db)))
             (RubricaCreate.codigo novo) (RubricaCreate.designacao novo)
             (RubricaCreate.tipo novo) (RubricaCreate.parent_id novo) nivel
             (Some dotacao_inicial) (Some dotacao_inicial)
             (RubricaCreate.exercicio novo) (RubricaCreate.status novo).

(** ** The import as a whole *)

(** The counters of an import, after [k] rows, against the session. *)
Definition import_counted (n0 : nat) (total : Z) (k : nat) (acc : ImportResult)
    (s : Session) : Prop :=
  persisted s = working s
  /\ total_rows acc = total
  /\ import_criadas acc + import_erros acc = Z.of_nat k
  /\ 0 <= import_criadas acc
  /\ import_atualizadas acc = 0
  /\ Z.of_nat (length (detalhes acc)) = import_erros acc
  /\ Z.of_nat (length (despesas (working s))) = Z.of_nat n0 + import_criadas acc.

(** The tables that a dry run leaves alone. *)
Definition same_records (ref db : DB) : Prop :=
  despesas db = despesas ref
  /\ import_batches db = import_batches ref
  /\ execucoes_mensais db = execucoes_mensais ref
  /\ dotacoes_globais db = dotacoes_globais ref
  /\ movimentos db = movimentos ref.

(** ** Text *)

(** The texts of the list are bytes that [str.upper] leaves alone. *)
Definition no_letter (c : ascii) : bool :=
  let n := nat_of_ascii c in
  negb (((65 <=? n)%nat && (n <=? 90)%nat) || ((97 <=? n)%nat && (n <=? 122)%nat)).

Fixpoint no_letters (s : string) : bool :=
  match s with
  | EmptyString => true
  | String c s' => no_letter c && no_letters s'
  end.

(** Text within ASCII, where [str.upper] is the byte operation of
    [Text]. *)
Fixpoint is_ascii (s : string) : bool :=
  match s with
  | EmptyString => true
  | String c s' => (nat_of_ascii c <? 128)%nat && is_ascii s'
  end.

Definition tables_wf (db : DB) : Prop := hierarchy_wf (rubricas db).

(** ** The monthly execution, populated *)

(** What the population keeps of the database [db] it started on: the
    expenses, the rubricas up to computed allocations, and unique keys in
    the monthly execution. *)
Definition populating (db w : DB) : Prop :=
  despesas w = despesas db
  /\ hierarchy_wf (rubricas w)
  /\ without_calculada (rubricas w) = without_calculada (rubricas db)
  /\ NoDup (List.map ExecucaoMensal.id (execucoes_mensais w)).

(** The monthly row of a rubrica, when there is one, carries the confirmed
    spending of [db]; there is none only when that spending is not positive. *)
Definition execucao_em_dia (db w : DB) (rubrica_id mes ano : Z) : Prop :=
  match get_execucao w rubrica_id mes ano with
  | Some row => ExecucaoMensal.gasto row = gasto_confirmado db rubrica_id mes ano
  | None => gasto_confirmado db rubrica_id mes ano <= 0
  end.

(** ** Further concrete states *)

(** The three-level hierarchy with every computed allocation at zero. *)
Definition stale_levels : DB :=
  with_rubricas (List.map (Rubrica.set_dotacao_calculada (Some 0)) (rubricas three_levels))
                three_levels.

(** Two suppliers of one account, the second one inactive. *)
Definition with_suppliers : DB :=
  mkDB [] [] [] [] [] [Usuario.mk 5 "ACME"%string None] []
       [Fornecedor.mk 1 (Some 5) None true; Fornecedor.mk 2 (Some 5) None false] [].

(** * Properties *)

(** ** Running requests: unfolding and frame rules *)

Ltac run_step :=
  unfold run_request, with_begin, try_except, bind, ret, raise, query, write,
    commit, rollback;
  cbn [working persisted fst snd].

Section Preserves.
Variable Q : DB -> Prop.

Lemma preserves_ret {A : Type} (a : A) : preserves Q (ret a).
Proof. intros s r s' Hw H. injection H as <- <-. auto. Qed.

Lemma preserves_raise {A : Type} (e : Exception) : preserves Q (@raise A e).
Proof. intros s r s' Hw H. injection H as <- <-. auto. Qed.

Lemma preserves_query {A : Type} (q : DB -> A) : preserves Q (query q).
Proof. intros s r s' Hw H. injection H as <- <-. auto. Qed.

Lemma preserves_commit : preserves Q commit.
Proof. intros s r s' Hw H. injection H as <- <-. auto. Qed.

Lemma preserves_write (f : DB -> DB) :
  (forall db, Q db -> Q (f db)) -> preserves Q (write f).
Proof. intros Hf s r s' Hw H. injection H as <- <-. simpl. auto. Qed.

Lemma preserves_bind {A B : Type} (m : M A) (k : A -> M B) :
  preserves Q m -> (forall a, preserves Q (k a)) -> preserves Q (bind m k).
Proof.
  intros Hm Hk s r s' Hw H. unfold bind in H.
  destruct (m s) as [[a|e] s1] eqn:Hms.
  - exact (Hk a _ _ _ (Hm _ _ _ Hw Hms) H).
  - injection H as <- <-. exact (Hm _ _ _ Hw Hms).
Qed.

Lemma preserves_try_except {A : Type} (body : M A) (handler : Exception -> M A) :
  preserves Q body -> (forall e, preserves Q (handler e)) ->
  preserves Q (try_except body handler).
Proof.
  intros Hb Hh s r s' Hw H. unfold try_except in H.
  destruct (body s) as [[a|e] s1] eqn:Hbs.
  - injection H as <- <-. exact (Hb _ _ _ Hw Hbs).
  - pose proof (Hb _ _ _ Hw Hbs) as Hw1.
    destruct (catchable e).
    + exact (Hh e _ _ _ Hw1 H).
    + injection H as <- <-. auto.
Qed.

Lemma preserves_for_each {A : Type} (body : A -> M unit) (l : list A) :
  (forall x, preserves Q (body x)) -> preserves Q (for_each body l).
Proof.
  intros Hb. induction l as [|x l IH]; simpl.
  - apply preserves_ret.
  - apply preserves_bind; auto.
Qed.

Lemma preserves_fold_m {A S : Type} (body : S -> A -> M S) (l : list A) (acc : S) :
  (forall acc x, preserves Q (body acc x)) -> preserves Q (fold_m body l acc).
Proof.
  intros Hb. revert acc. induction l as [|x l IH]; intros acc; simpl.
  - apply preserves_ret.
  - apply preserves_bind; auto.
Qed.

End Preserves.

(** Splits a request along its binds, tries and branches. *)
Ltac frame :=
  repeat first
    [ apply preserves_ret | apply preserves_raise | apply preserves_query
    | apply preserves_commit
    | apply preserves_bind; [|intros ?]
    | apply preserves_try_except; [|intros ?]
    | apply preserves_for_each; intros ?
    | apply preserves_fold_m; intros ? ?
    | match goal with
      | |- preserves _ (match ?x with _ => _ end) => destruct x
      | |- preserves _ (if ?x then _ else _) => destruct x
      end ].

(** The recalculation of computed allocations writes the rubrica table and
    nothing else. *)
Lemma recalculate_dotacao_chain_frame (Q : DB -> Prop) (rubrica_id : Z) :
  (forall db v, Q db -> Q (with_rubricas v db)) ->
  preserves Q (recalculate_dotacao_chain rubrica_id).
Proof.
  intros HQ. unfold recalculate_dotacao_chain.
  apply preserves_bind; [apply preserves_query|intros db].
  destruct (get_ancestors db rubrica_id) as [found|]; [|apply preserves_raise].
  match goal with |- preserves _ (match ?a with _ => _ end) => destruct a end;
    [apply preserves_ret|].
  match goal with
  | |- preserves _ (match ?a with _ => _ end) => destruct a as [[] cache]
  end.
  - apply preserves_write. intros; apply HQ; assumption.
  - apply preserves_bind; [|intros; apply preserves_raise].
    apply preserves_write. intros; apply HQ; assumption.
Qed.

Lemma recalculate_execucao_mensal_frame (Q : DB -> Prop) (rubrica_id mes ano : Z) :
  (forall db v, Q db -> Q (with_rubricas v db)) ->
  (forall db v, Q db -> Q (with_execucoes_mensais v db)) ->
  preserves Q (recalculate_execucao_mensal rubrica_id mes ano).
Proof.
  intros HQ1 HQ2. unfold recalculate_execucao_mensal.
  apply preserves_bind; [apply preserves_query|intros db].
  destruct (get_rubrica db rubrica_id); [|apply preserves_raise].
  apply preserves_bind.
  { apply preserves_try_except; [|intros; apply preserves_ret].
    apply preserves_bind; [|intros; apply preserves_commit].
    apply recalculate_dotacao_chain_frame; assumption. }
  intros _. apply preserves_bind; [apply preserves_query|intros db1].
  destruct (get_execucao db1 rubrica_id mes ano).
  - frame. apply preserves_write. intros; apply HQ2; assumption.
  - destruct (0 <? gasto_confirmado db1 rubrica_id mes ano); [|apply preserves_ret].
    frame. apply preserves_write. intros; apply HQ2; assumption.
Qed.

Lemma update_execucao_mensal_frame (Q : DB -> Prop) (rubrica_id mes ano : Z) :
  (forall db v, Q db -> Q (with_execucoes_mensais v db)) ->
  preserves Q (update_execucao_mensal rubrica_id mes ano).
Proof.
  intros HQ. unfold update_execucao_mensal.
  apply preserves_bind; [apply preserves_query|intros db].
  destruct (get_rubrica db rubrica_id); [|apply preserves_raise].
  destruct (get_execucao db rubrica_id mes ano); frame;
    apply preserves_write; intros; apply HQ; assumption.
Qed.

Lemma update_ancestors_execucao_mensal_frame (Q : DB -> Prop) (rubrica_id mes ano : Z) :
  (forall db v, Q db -> Q (with_execucoes_mensais v db)) ->
  preserves Q (update_ancestors_execucao_mensal rubrica_id mes ano).
Proof.
  intros HQ. unfold update_ancestors_execucao_mensal.
  apply preserves_bind; [apply preserves_query|intros db].
  destruct (get_ancestors db rubrica_id); [|apply preserves_raise].
  apply preserves_for_each. intros ancestor. unfold update_ancestor_execucao.
  apply preserves_bind; [apply preserves_query|intros db1].
  destruct (get_execucao db1 (Rubrica.id ancestor) mes ano);
    apply preserves_write; intros; apply HQ; assumption.
Qed.

(** ** Lookups in updated tables *)

Section QueryLemmas.
Context {A : Type}.

Lemma first_update_where (p q : A -> bool) (f : A -> A) (rows : list A) (x : A) :
  (forall r, p (f r) = p r) ->
  first p rows = Some x ->
  q x = true ->
  first p (update_where q f rows) = Some (f x).
Proof.
  intros Hp. induction rows as [|r rows IH]; simpl; intros Hfirst Hq.
  - discriminate.
  - destruct (p r) eqn:Hpr.
    + injection Hfirst as ->. rewrite Hq, Hp, Hpr. reflexivity.
    + destruct (q r); [rewrite Hp|]; rewrite Hpr; apply IH; assumption.
Qed.

Lemma first_update_where_none (p q : A -> bool) (f : A -> A) (rows : list A) :
  (forall r, p (f r) = p r) ->
  first p rows = None ->
  first p (update_where q f rows) = None.
Proof.
  intros Hp. induction rows as [|r rows IH]; simpl; intros Hfirst.
  - reflexivity.
  - destruct (p r) eqn:Hpr; [discriminate|].
    destruct (q r); [rewrite Hp|]; rewrite Hpr; apply IH; assumption.
Qed.

Lemma first_some_true (p : A -> bool) (rows : list A) (x : A) :
  first p rows = Some x -> p x = true /\ In x rows.
Proof.
  unfold first. intros H. apply find_some in H. tauto.
Qed.

End QueryLemmas.

(** ** Amounts with and without digits below the hundredth *)

Lemma round_div_exact (k n : Z) : 0 < k -> Dec.round_div (k * n) k = n.
Proof.
  intros Hk. unfold Dec.round_div. destruct (Z.leb_spec 0 (k * n)) as [Hn|Hn].
  - replace (2 * (k * n) + k) with (k + n * (2 * k)) by lia.
    rewrite Z.div_add by lia. rewrite Z.div_small by lia. lia.
  - replace (2 * - (k * n) + k) with (k + (- n) * (2 * k)) by lia.
    rewrite Z.div_add by lia. rewrite Z.div_small by lia. lia.
Qed.

(** Rounding never takes a value above a whole number that bounds it. *)
Lemma round_div_le (k x n : Z) : 0 < k -> x <= n * k -> Dec.round_div x k <= n.
Proof.
  intros Hk Hx. unfold Dec.round_div. destruct (Z.leb_spec 0 x) as [H0|H0].
  - apply Z.lt_succ_r. apply Z.div_lt_upper_bound; lia.
  - destruct (Z.le_gt_cases 0 n) as [Hn|Hn].
    + assert (0 <= (2 * - x + k) / (2 * k)) by (apply Z.div_pos; lia). lia.
    + assert (- n <= (2 * - x + k) / (2 * k)); [|lia].
      apply Z.div_le_lower_bound; nia.
Qed.

Lemma pow10_pos (n : Z) : 0 < 10 ^ n \/ n < 0.
Proof. destruct (Z.le_gt_cases 0 n); [left; apply Z.pow_pos_nonneg; lia|right; lia]. Qed.

Lemma exact_cents_finite (d : Dec.Decimal) (r : Z) :
  Dec.exact_cents d = Some r -> Dec.is_finite d = true.
Proof. destruct d; [reflexivity|discriminate|discriminate]. Qed.

(** A coefficient with no digit below the hundredth is a multiple of the
    power of ten that scales it. *)
Lemma exact_cents_scaled (s : bool) (c : N) (e r : Z) :
  Dec.exact_cents (Dec.Finite s c e) = Some r -> e + 2 < 0 ->
  Dec.mantissa s c = 10 ^ (- (e + 2)) * r /\ 0 < 10 ^ (- (e + 2)).
Proof.
  intros Hr He. cbn [Dec.exact_cents] in Hr.
  destruct (Z.leb_spec 0 (e + 2)) as [|_]; [lia|].
  assert (Hk : 0 < 10 ^ (- (e + 2))) by (apply Z.pow_pos_nonneg; lia).
  destruct (Z.eqb_spec (Dec.mantissa s c mod 10 ^ (- (e + 2))) 0) as [Hmod|];
    [|discriminate].
  injection Hr as <-. split; [|exact Hk].
  pose proof (Z.div_mod (Dec.mantissa s c) (10 ^ (- (e + 2)))) as Hdm. lia.
Qed.

Lemma exact_cents_whole (s : bool) (c : N) (e r : Z) :
  Dec.exact_cents (Dec.Finite s c e) = Some r -> 0 <= e + 2 ->
  r = Dec.mantissa s c * 10 ^ (e + 2).
Proof.
  intros Hr He. cbn [Dec.exact_cents] in Hr.
  destruct (Z.leb_spec 0 (e + 2)); [|lia]. injection Hr as <-. reflexivity.
Qed.

Lemma exact_cents_gt (d : Dec.Decimal) (r z : Z) :
  Dec.exact_cents d = Some r -> Dec.gt_cents d z = Some (z <? r).
Proof.
  destruct d as [s c e| |]; [|discriminate|discriminate]. intros Hr.
  cbn [Dec.gt_cents]. destruct (Z.leb_spec 0 (e + 2)) as [He|He].
  - rewrite (exact_cents_whole s c e r Hr He). reflexivity.
  - destruct (exact_cents_scaled s c e r Hr He) as [-> Hk]. f_equal.
    destruct (Z.ltb_spec z r), (Z.ltb_spec (z * 10 ^ (- (e + 2))) (10 ^ (- (e + 2)) * r));
      try reflexivity; nia.
Qed.

Lemma exact_cents_eq (d : Dec.Decimal) (r z : Z) :
  Dec.exact_cents d = Some r -> Dec.eq_cents d z = (z =? r).
Proof.
  destruct d as [s c e| |]; [|discriminate|discriminate]. intros Hr.
  cbn [Dec.eq_cents]. destruct (Z.leb_spec 0 (e + 2)) as [He|He].
  - rewrite (exact_cents_whole s c e r Hr He). reflexivity.
  - destruct (exact_cents_scaled s c e r Hr He) as [-> Hk].
    destruct (Z.eqb_spec z r), (Z.eqb_spec (z * 10 ^ (- (e + 2))) (10 ^ (- (e + 2)) * r));
      try reflexivity; nia.
Qed.

Lemma exact_cents_add (d : Dec.Decimal) (r z : Z) :
  Dec.exact_cents d = Some r -> Dec.add_cents z d = Some (z + r).
Proof.
  destruct d as [s c e| |]; [|discriminate|discriminate]. intros Hr.
  cbn [Dec.add_cents]. destruct (Z.leb_spec 0 (e + 2)) as [He|He].
  - rewrite (exact_cents_whole s c e r Hr He). reflexivity.
  - destruct (exact_cents_scaled s c e r Hr He) as [-> Hk]. f_equal.
    replace (z * 10 ^ (- (e + 2)) + 10 ^ (- (e + 2)) * r)
      with (10 ^ (- (e + 2)) * (z + r)) by lia.
    apply round_div_exact. exact Hk.
Qed.

Lemma add_cents_zero (d : Dec.Decimal) : Dec.add_cents 0 d = Dec.to_cents d.
Proof. destruct d; reflexivity. Qed.

Lemma exact_cents_stored (d : Dec.Decimal) (r : Z) :
  Dec.exact_cents d = Some r -> Dec.to_cents d = Some r.
Proof.
  intros Hr. rewrite <- add_cents_zero, (exact_cents_add d r 0 Hr). reflexivity.
Qed.

Lemma mantissa_neg (s : bool) (c : N) : Dec.mantissa (negb s) c = - Dec.mantissa s c.
Proof. unfold Dec.mantissa. destruct s; cbn [negb]; lia. Qed.

Lemma exact_cents_neg (d : Dec.Decimal) (r : Z) :
  Dec.exact_cents d = Some r -> Dec.exact_cents (Dec.neg d) = Some (- r).
Proof.
  destruct d as [s c e| |]; [|discriminate|discriminate].
  cbn [Dec.exact_cents Dec.neg]. rewrite mantissa_neg.
  destruct (Z.leb_spec 0 (e + 2)) as [He|He].
  - intros H. injection H as <-. f_equal. lia.
  - assert (Hk : 0 < 10 ^ (- (e + 2))) by (apply Z.pow_pos_nonneg; lia).
    destruct (Z.eqb_spec (Dec.mantissa s c mod 10 ^ (- (e + 2))) 0) as [Hmod|];
      [|discriminate].
    intros H. injection H as <-.
    pose proof (Z.div_mod (Dec.mantissa s c) (10 ^ (- (e + 2)))) as Hdm.
    assert (Hm : Dec.mantissa s c
                 = (Dec.mantissa s c / 10 ^ (- (e + 2))) * 10 ^ (- (e + 2))) by lia.
    set (q := Dec.mantissa s c / 10 ^ (- (e + 2))) in *.
    rewrite Hm. replace (- (q * 10 ^ (- (e + 2)))) with ((- q) * 10 ^ (- (e + 2))) by lia.
    rewrite Z.mod_mul by lia. rewrite Z.eqb_refl. rewrite Z.div_mul by lia. reflexivity.
Qed.

(** An amount that is not above what is left keeps the sum within the
    bound, rounded as it is stored. *)
Lemma add_cents_le (d : Dec.Decimal) (z n : Z) :
  Dec.is_finite d = true ->
  Dec.gt_cents d (n - z) = Some false ->
  exists v, Dec.add_cents z d = Some v /\ v <= n.
Proof.
  destruct d as [s c e| |]; [intros _|discriminate|discriminate].
  cbn [Dec.gt_cents Dec.add_cents]. intros H. injection H as H.
  eexists. split; [reflexivity|].
  destruct (Z.leb_spec 0 (e + 2)) as [He|He].
  - apply Z.ltb_ge in H. lia.
  - apply Z.ltb_ge in H.
    assert (Hk : 0 < 10 ^ (- (e + 2))) by (apply Z.pow_pos_nonneg; lia).
    apply round_div_le; [exact Hk|]. nia.
Qed.

(** ** Reservation and cancellation *)

Lemma get_dotacao_update (db : DB) (e : Z) (dotacao : DotacaoGlobal.t)
    (f : DotacaoGlobal.t -> DotacaoGlobal.t) :
  (forall d, DotacaoGlobal.exercicio (f d) = DotacaoGlobal.exercicio d) ->
  get_dotacao db e = Some dotacao ->
  get_dotacao (update_dotacao (DotacaoGlobal.id dotacao) f db) e = Some (f dotacao).
Proof.
  intros Hf Hget. unfold get_dotacao, update_dotacao. simpl.
  apply first_update_where; [|exact Hget|apply Z.eqb_refl].
  intros r. rewrite Hf. reflexivity.
Qed.

Lemma criar_reserva_ok (db : DB) (data : ReservaRequest.t) (r user : Z)
    (dotacao : DotacaoGlobal.t) :
  get_dotacao db (ReservaRequest.exercicio data) = Some dotacao ->
  Dec.exact_cents (ReservaRequest.valor data) = Some r ->
  r <= DotacaoGlobal.saldo dotacao - DotacaoGlobal.reservado dotacao ->
  run_request (criar_reserva data user) db
  = (Ok (reserva_response (apos_reserva dotacao data r user db)
                          (ReservaRequest.exercicio data)),
     apos_reserva dotacao data r user db).
Proof.
  intros Hget Hr Hle. unfold criar_reserva, validated_decimal.
  rewrite (exact_cents_finite _ _ Hr). run_step. rewrite Hget.
  rewrite (exact_cents_gt _ _ _ Hr).
  destruct (Z.ltb_spec (DotacaoGlobal.saldo dotacao - DotacaoGlobal.reservado dotacao) r);
    [lia|].
  rewrite (exact_cents_stored _ _ (exact_cents_neg _ _ Hr)).
  unfold apos_reserva, update_dotacao, update_where.
  cbn [default from_option id].
  erewrite (map_ext (fun r0 => if DotacaoGlobal.id r0 =? DotacaoGlobal.id dotacao
                               then DotacaoGlobal.set_reservado
                                      (default 0 (Dec.add_cents (DotacaoGlobal.reservado r0)
                                                    (ReservaRequest.valor data))) r0
                               else r0));
    [reflexivity|].
  intros a. rewrite (exact_cents_add _ _ _ Hr). reflexivity.
Qed.

Lemma cancelar_reserva_ok (db : DB) (data : ReservaCancelRequest.t) (r user : Z)
    (dotacao : DotacaoGlobal.t) :
  get_dotacao db (ReservaCancelRequest.exercicio data) = Some dotacao ->
  Dec.exact_cents (ReservaCancelRequest.valor data) = Some r ->
  r <= DotacaoGlobal.reservado dotacao ->
  run_request (cancelar_reserva data user) db
  = (Ok (reserva_response (apos_cancelamento dotacao data r user db)
                          (ReservaCancelRequest.exercicio data)),
     apos_cancelamento dotacao data r user db).
Proof.
  intros Hget Hr Hle. unfold cancelar_reserva, validated_decimal.
  rewrite (exact_cents_finite _ _ Hr). run_step. rewrite Hget.
  rewrite (exact_cents_gt _ _ _ Hr).
  destruct (Z.ltb_spec (DotacaoGlobal.reservado dotacao) r); [lia|].
  rewrite (exact_cents_stored _ _ Hr).
  unfold apos_cancelamento, update_dotacao, update_where.
  cbn [default from_option id].
  erewrite (map_ext (fun r0 => if DotacaoGlobal.id r0 =? DotacaoGlobal.id dotacao
                               then DotacaoGlobal.set_reservado
                                      (default 0 (Dec.add_cents (DotacaoGlobal.reservado r0)
                                                    (Dec.neg (ReservaCancelRequest.valor data))))
                                      r0
                               else r0));
    [reflexivity|].
  intros a. rewrite (exact_cents_add _ _ _ (exact_cents_neg _ _ Hr)). reflexivity.
Qed.

Lemma cancelar_reserva_rejected (db : DB) (data : ReservaCancelRequest.t) (r user : Z)
    (dotacao : DotacaoGlobal.t) :
  get_dotacao db (ReservaCancelRequest.exercicio data) = Some dotacao ->
  Dec.exact_cents (ReservaCancelRequest.valor data) = Some r ->
  DotacaoGlobal.reservado dotacao < r ->
  run_request (cancelar_reserva data user) db
  = (Raise (HTTPException 400 CancelarMaiorQueReservado), db).
Proof.
  intros Hget Hr Hlt. unfold cancelar_reserva, validated_decimal.
  rewrite (exact_cents_finite _ _ Hr). run_step. rewrite Hget.
  rewrite (exact_cents_gt _ _ _ Hr).
  destruct (Z.ltb_spec (DotacaoGlobal.reservado dotacao) r); [reflexivity|lia].
Qed.

(** C8 (amended).  On an allocation whose reserved amount is not negative,
    for an amount with no digit below the hundredth, [r] hundredths, within
    the available balance ([saldo] less [reservado]): a reservation of the
    amount followed by the cancellation of the same amount both succeed,
    neither changes [saldo], and the allocation row is afterwards exactly
    the row before the reservation: [reservado] is back at its value. *)
Theorem reserva_cancel_roundtrip
    (db : DB) (e r user : Z) (valor : Dec.Decimal) (dotacao : DotacaoGlobal.t)
    (descricao referencia : option string) (reserva_id : option Z)
    (descricao' : option string) :
  get_dotacao db e = Some dotacao ->
  0 <= DotacaoGlobal.reservado dotacao ->
  Dec.exact_cents valor = Some r ->
  r <= DotacaoGlobal.saldo dotacao - DotacaoGlobal.reservado dotacao ->
  exists resp1 db1 resp2 db2 d1,
    run_request (criar_reserva (ReservaRequest.mk e valor descricao referencia) user) db
      = (Ok resp1, db1)
    /\ get_dotacao db1 e = Some d1
    /\ DotacaoGlobal.saldo d1 = DotacaoGlobal.saldo dotacao
    /\ DotacaoGlobal.reservado d1 = DotacaoGlobal.reservado dotacao + r
    /\ run_request (cancelar_reserva (ReservaCancelRequest.mk e reserva_id valor descricao')
                                     user) db1
      = (Ok resp2, db2)
    /\ get_dotacao db2 e = Some dotacao.
Proof.
  intros Hget Hres Hexact Hr.
  set (req := ReservaRequest.mk e valor descricao referencia).
  set (can := ReservaCancelRequest.mk e reserva_id valor descricao').
  set (d1 := DotacaoGlobal.set_reservado (DotacaoGlobal.reservado dotacao + r) dotacao).
  assert (Hget1 : get_dotacao (apos_reserva dotacao req r user db) e = Some d1).
  { apply (get_dotacao_update db e dotacao); [reflexivity|exact Hget]. }
  exists (reserva_response (apos_reserva dotacao req r user db) e),
         (apos_reserva dotacao req r user db),
         (reserva_response (apos_cancelamento d1 can r user (apos_reserva dotacao req r user db))
                           e),
         (apos_cancelamento d1 can r user (apos_reserva dotacao req r user db)), d1.
  split; [apply (criar_reserva_ok db req r user dotacao); assumption|].
  split; [exact Hget1|]. split; [reflexivity|]. split; [reflexivity|].
  split.
  { apply (cancelar_reserva_ok _ can r user d1); [exact Hget1|exact Hexact|]. simpl. lia. }
  unfold apos_cancelamento, add_movimento.
  match goal with
  | |- get_dotacao (with_movimentos _ ?x) e = _ => change (get_dotacao x e = Some dotacao)
  end.
  erewrite get_dotacao_update; [|reflexivity|exact Hget1].
  f_equal. destruct dotacao. unfold d1, DotacaoGlobal.set_reservado. simpl. f_equal. lia.
Qed.

(** *** The round trip at concrete states *)

Lemma reserva_cancel_roundtrip_witness :
  let valor := Dec.Finite false 5000 (-2) in
  get_dotacao Scenario.with_allocation 2024
  = Some (DotacaoGlobal.mk 1 2024 100000000 100000000 0)
  /\ 0 <= 0
  /\ Dec.exact_cents valor = Some 5000
  /\ 5000 <= 100000000 - 0
  /\ exists resp1 db1 resp2 db2 d1,
      run_request (criar_reserva (ReservaRequest.mk 2024 valor None None) 1)
                  Scenario.with_allocation
        = (Ok resp1, db1)
      /\ get_dotacao db1 2024 = Some d1
      /\ DotacaoGlobal.saldo d1 = 100000000
      /\ DotacaoGlobal.reservado d1 = 0 + 5000
      /\ run_request (cancelar_reserva (ReservaCancelRequest.mk 2024 None valor None) 1) db1
        = (Ok resp2, db2)
      /\ get_dotacao db2 2024 = Some (DotacaoGlobal.mk 1 2024 100000000 100000000 0).
Proof.
  cbv zeta.
  split; [vm_compute; reflexivity|]. split; [lia|]. split; [vm_compute; reflexivity|].
  split; [lia|].
  refine (reserva_cancel_roundtrip Scenario.with_allocation 2024 5000 1
            (Dec.Finite false 5000 (-2))
            (DotacaoGlobal.mk 1 2024 100000000 100000000 0) None None None None _ _ _ _).
  - vm_compute. reflexivity.
  - simpl. lia.
  - vm_compute. reflexivity.
  - simpl. lia.
Defined.

(** C8, as stated, fails in two ways.

    On an allocation whose reserved amount is negative: with [reservado] at
    -100.00 and a balance of 1 000 000.00, a reservation of 50.00 is within
    the available balance and succeeds, and the cancellation of the same
    50.00 is refused with a 400, since 50.00 exceeds the reserved amount,
    then -50.00: [reservado] stays at -50.00 and is not back at -100.00.

    For an amount with a digit below the hundredth: on the allocation of the
    scenario, with [reservado] at 0.00, a reservation of 0.005 succeeds and
    the column stores 0.01; the cancellation of the same 0.005 succeeds too,
    0.005 not exceeding 0.01, and the column stores 0.01 - 0.005 as 0.01:
    [reservado] is not back at 0.00. *)
Lemma reserva_cancel_does_not_restore :
  let reserve := fun v => criar_reserva (ReservaRequest.mk 2024 v None None) 1 in
  let cancel := fun v => cancelar_reserva (ReservaCancelRequest.mk 2024 None v None) 1 in
  let fifty := Dec.Finite false 5000 (-2) in
  let half_cent := Dec.Finite false 5 (-3) in
  let db1 := snd (run_request (reserve fifty) negative_reserve) in
  let db2 := snd (run_request (cancel fifty) db1) in
  let db1' := snd (run_request (reserve half_cent) Scenario.with_allocation) in
  let db2' := snd (run_request (cancel half_cent) db1') in
  (get_dotacao negative_reserve 2024
   = Some (DotacaoGlobal.mk 1 2024 100000000 100000000 (-10000))
   /\ Dec.gt_cents fifty (100000000 - (-10000)) = Some false
   /\ (exists resp, fst (run_request (reserve fifty) negative_reserve) = Ok resp)
   /\ fst (run_request (cancel fifty) db1) = Raise (HTTPException 400 CancelarMaiorQueReservado)
   /\ get_dotacao db2 2024 = Some (DotacaoGlobal.mk 1 2024 100000000 100000000 (-5000)))
  /\ (get_dotacao Scenario.with_allocation 2024
      = Some (DotacaoGlobal.mk 1 2024 100000000 100000000 0)
      /\ Dec.gt_cents half_cent (100000000 - 0) = Some false
      /\ (exists resp, fst (run_request (reserve half_cent) Scenario.with_allocation) = Ok resp)
      /\ get_dotacao db1' 2024 = Some (DotacaoGlobal.mk 1 2024 100000000 100000000 1)
      /\ (exists resp, fst (run_request (cancel half_cent) db1') = Ok resp)
      /\ get_dotacao db2' 2024 = Some (DotacaoGlobal.mk 1 2024 100000000 100000000 1)).
Proof.
  cbv zeta. split.
  - split; [vm_compute; reflexivity|]. split; [vm_compute; reflexivity|].
    split; [eexists; vm_compute; reflexivity|].
    split; vm_compute; reflexivity.
  - split; [vm_compute; reflexivity|]. split; [vm_compute; reflexivity|].
    split; [eexists; vm_compute; reflexivity|].
    split; [vm_compute; reflexivity|].
    split; [eexists; vm_compute; reflexivity|].
    vm_compute; reflexivity.
Qed.

(** ** Allocation-aware confirmation: what a request gets *)

(** [POST /despesas/{id}/confirm] opens its block with [db.begin()] on a
    session whose transaction has begun, and ends there: for every
    expense, flag and user the answer is the [InvalidRequestError], and
    the session is the one it was given. *)
Lemma confirm_despesa_with_dotacao_refused (despesa_id : Z) (override : bool) (user : Z)
    (s : Session) :
  confirm_despesa_with_dotacao despesa_id override user s
  = (Raise (InvalidRequestError TransacaoJaIniciada), s).
Proof. reflexivity. Qed.

(** C3, what the code does.  A pending expense whose amount exceeds the
    available balance of its year's allocation, sent to the
    allocation-aware confirmation with [override=false]: the database
    afterwards is the database before, table by table ([saldo],
    [reservado], the expense's status, the ledger), but the answer is not
    the 400 of the balance check.  [Session.begin()] raises
    [InvalidRequestError] before the expense is read, and the check is not
    reached. *)
Theorem confirm_saldo_insuficiente_changes_nothing
    (db : DB) (despesa_id user : Z) (d : Despesa.t) (dotacao : DotacaoGlobal.t) :
  get_despesa db despesa_id = Some d ->
  Despesa.status d = PENDENTE ->
  get_dotacao db (Despesa.exercicio d) = Some dotacao ->
  DotacaoGlobal.saldo dotacao - DotacaoGlobal.reservado dotacao < Despesa.valor d ->
  run_request (confirm_despesa_with_dotacao despesa_id false user) db
  = (Raise (InvalidRequestError TransacaoJaIniciada), db).
Proof.
  intros _ _ _ _. unfold run_request.
  rewrite confirm_despesa_with_dotacao_refused. reflexivity.
Qed.

(** C4 (amended).  For an expense that is already [CONFIRMADA], a further
    confirmation changes nothing on either path: the database afterwards is
    the database before (same expense, same [saldo] and [reservado], same
    ledger).  The simple path answers with the stored record. *)
Theorem confirm_already_confirmed_is_noop
    (db : DB) (despesa_id user : Z) (override : bool) (d : Despesa.t) :
  get_despesa db despesa_id = Some d ->
  Despesa.status d = CONFIRMADA ->
  run_request (confirm_despesa_endpoint despesa_id) db = (Ok d, db)
  /\ snd (run_request (confirm_despesa_with_dotacao despesa_id override user) db) = db.
Proof.
  intros Hd Hst. split.
  - unfold confirm_despesa_endpoint, confirm_despesa, confirm_despesa_with_execucao.
    run_step. rewrite Hd, Hst. rewrite bool_decide_eq_true_2 by reflexivity.
    cbn [working]. try rewrite Hd. reflexivity.
  - unfold run_request. rewrite confirm_despesa_with_dotacao_refused. reflexivity.
Qed.

(** *** Rejection and idempotence at concrete states *)

Lemma confirm_saldo_insuficiente_changes_nothing_witness :
  (exists d dotacao,
      get_despesa over_budget 1 = Some d /\ Despesa.status d = PENDENTE
      /\ get_dotacao over_budget (Despesa.exercicio d) = Some dotacao
      /\ DotacaoGlobal.saldo dotacao - DotacaoGlobal.reservado dotacao < Despesa.valor d)
  /\ run_request (confirm_despesa_with_dotacao 1 false 1) over_budget
     = (Raise (InvalidRequestError TransacaoJaIniciada), over_budget).
Proof.
  split.
  - exists (Despesa.mk 1 (Some 2) None (Some "ACME"%string) None None None 200000000
                       (Some (mkDate 2024 3 15)) 2024 3 None PENDENTE),
           (DotacaoGlobal.mk 1 2024 100000000 100000000 0).
    split; [vm_compute; reflexivity|]. split; [reflexivity|].
    split; [vm_compute; reflexivity|]. simpl. lia.
  - refine (confirm_saldo_insuficiente_changes_nothing over_budget 1 1
              (Despesa.mk 1 (Some 2) None (Some "ACME"%string) None None None 200000000
                          (Some (mkDate 2024 3 15)) 2024 3 None PENDENTE)
              (DotacaoGlobal.mk 1 2024 100000000 100000000 0) _ _ _ _).
    + vm_compute. reflexivity.
    + reflexivity.
    + vm_compute. reflexivity.
    + simpl. lia.
Defined.

Lemma confirm_already_confirmed_is_noop_witness :
  let d := Despesa.mk 1 (Some 2) None (Some "ACME"%string) None None None 5000000
                      (Some (mkDate 2024 3 15)) 2024 3 None CONFIRMADA in
  get_despesa Scenario.confirmed 1 = Some d
  /\ Despesa.status d = CONFIRMADA
  /\ run_request (confirm_despesa_endpoint 1) Scenario.confirmed = (Ok d, Scenario.confirmed)
  /\ snd (run_request (confirm_despesa_with_dotacao 1 false 1) Scenario.confirmed)
     = Scenario.confirmed.
Proof.
  cbv zeta. split; [vm_compute; reflexivity|]. split; [reflexivity|].
  refine (confirm_already_confirmed_is_noop Scenario.confirmed 1 1 false
            (Despesa.mk 1 (Some 2) None (Some "ACME"%string) None None None 5000000
                        (Some (mkDate 2024 3 15)) 2024 3 None CONFIRMADA) _ _).
  - vm_compute. reflexivity.
  - reflexivity.
Defined.

(** *** The answer to a repeated confirmation *)

(** C4, as stated, fails in what the allocation-aware path answers.  In two
    states expense 1 is [CONFIRMADA], with different stored records.  The
    repeated confirmation through [POST /despesas/1/confirm] answers
    neither with its record: both get the same answer, which is not a
    record.  The simple path answers each with its record. *)
Lemma repeated_confirm_answer_is_not_the_record :
  option_map Despesa.status (get_despesa Scenario.confirmed 1) = Some CONFIRMADA
  /\ option_map Despesa.status (get_despesa confirmed_with_note 1) = Some CONFIRMADA
  /\ get_despesa Scenario.confirmed 1 <> get_despesa confirmed_with_note 1
  /\ fst (run_request (confirm_despesa_with_dotacao 1 false 1) Scenario.confirmed)
     = Raise (InvalidRequestError TransacaoJaIniciada)
  /\ fst (run_request (confirm_despesa_with_dotacao 1 false 1) confirmed_with_note)
     = Raise (InvalidRequestError TransacaoJaIniciada)
  /\ option_map Ok (get_despesa Scenario.confirmed 1)
     = Some (fst (run_request (confirm_despesa_endpoint 1) Scenario.confirmed))
  /\ option_map Ok (get_despesa confirmed_with_note 1)
     = Some (fst (run_request (confirm_despesa_endpoint 1) confirmed_with_note)).
Proof.
  split; [vm_compute; reflexivity|]. split; [vm_compute; reflexivity|].
  split; [vm_compute; discriminate|].
  split; [vm_compute; reflexivity|]. split; [vm_compute; reflexivity|].
  split; vm_compute; reflexivity.
Qed.

(** ** Global balance arithmetic *)

Lemma first_update_where_map {A : Type} (p q : A -> bool) (f : A -> A) (rows : list A) :
  (forall r, p (f r) = p r) ->
  first p (update_where q f rows)
  = option_map (fun r => if q r then f r else r) (first p rows).
Proof.
  intros Hp. induction rows as [|r rows IH]; simpl; [reflexivity|].
  destruct (q r) eqn:Hq.
  - rewrite Hp. destruct (p r); [simpl; rewrite Hq; reflexivity|exact IH].
  - destruct (p r); [simpl; rewrite Hq; reflexivity|exact IH].
Qed.

Lemma first_app_new {A : Type} (p : A -> bool) (rows : list A) (x : A) :
  first p rows = None -> p x = true -> first p (rows ++ [x]) = Some x.
Proof.
  intros Hnone Hx. induction rows as [|r rows IH]; simpl in *.
  - rewrite Hx. reflexivity.
  - destruct (p r); [discriminate|auto].
Qed.

Lemma first_app_old {A : Type} (p : A -> bool) (rows more : list A) (x : A) :
  first p rows = Some x -> first p (rows ++ more) = Some x.
Proof.
  intros H. induction rows as [|r rows IH]; simpl in *; [discriminate|].
  destruct (p r); auto.
Qed.

Lemma next_id_fresh (ids : list Z) (k : Z) : In k ids -> k < next_id ids.
Proof.
  unfold next_id. induction ids as [|i ids IH]; simpl; [tauto|].
  intros [->|H]; [lia|]. specialize (IH H). lia.
Qed.

(** C2, what the code does.  An allocation is created for a year that had
    none, with an annual value of [V] hundredths, and two expenses of that
    year are sent to the allocation-aware confirmation, one after the
    other.  Each call is answered with the [InvalidRequestError] of
    [Session.begin()] and writes nothing: the expenses are as they were,
    the stored [saldo] is still [V], and the ledger holds the movement of
    the creation and no [despesa_confirmada] movement. *)
Theorem global_balance_after_two_confirmations
    (db0 : DB) (e V user0 user1 user2 id1 id2 : Z) (valor_anual : Dec.Decimal)
    (ov1 ov2 : bool) (d1 d2 : Despesa.t) :
  get_dotacao db0 e = None ->
  Dec.exact_cents valor_anual = Some V ->
  get_despesa db0 id1 = Some d1 -> Despesa.exercicio d1 = e ->
  get_despesa db0 id2 = Some d2 -> Despesa.exercicio d2 = e ->
  let alloc := DotacaoGlobal.mk (next_id (List.map DotacaoGlobal.id (dotacoes_globais db0)))
                                e V V 0 in
  let db1 := snd (run_request (create_or_update_dotacao_global e valor_anual user0) db0) in
  let db2 := snd (run_request (confirm_despesa_with_dotacao id1 ov1 user1) db1) in
  let db3 := snd (run_request (confirm_despesa_with_dotacao id2 ov2 user2) db2) in
  run_request (create_or_update_dotacao_global e valor_anual user0) db0 = (Ok alloc, db1)
  /\ fst (run_request (confirm_despesa_with_dotacao id1 ov1 user1) db1)
     = Raise (InvalidRequestError TransacaoJaIniciada)
  /\ fst (run_request (confirm_despesa_with_dotacao id2 ov2 user2) db2)
     = Raise (InvalidRequestError TransacaoJaIniciada)
  /\ get_despesa db3 id1 = Some d1 /\ get_despesa db3 id2 = Some d2
  /\ get_dotacao db3 e = Some alloc
  /\ movimentos db3
     = movimentos db0
       ++ [DotacaoGlobalMov.mk (next_id (List.map DotacaoGlobalMov.id (movimentos db0)))
                               (DotacaoGlobal.id alloc) AJUSTE None V (DescCriacao e)
                               (Some user0)].
Proof.
  intros Hnone HV Hd1 He1 Hd2 He2 alloc db1 db2 db3.
  assert (Hcreate : run_request (create_or_update_dotacao_global e valor_anual user0) db0
                    = (Ok alloc,
                       add_movimento (DotacaoGlobal.id alloc) AJUSTE None V (DescCriacao e) user0
                         (with_dotacoes_globais (dotacoes_globais db0 ++ [alloc]) db0))).
  { unfold create_or_update_dotacao_global, validated_decimal.
    rewrite (exact_cents_finite _ _ HV). run_step. rewrite Hnone.
    rewrite (exact_cents_stored _ _ HV). cbn [default from_option id DotacaoGlobal.id].
    fold alloc. cbn [working].
    change (next_id (List.map DotacaoGlobal.id (dotacoes_globais db0)))
      with (DotacaoGlobal.id alloc) at 1.
    replace (get_dotacao (add_movimento (DotacaoGlobal.id alloc) AJUSTE None V
                            (DescCriacao e) user0
                            (with_dotacoes_globais (dotacoes_globais db0 ++ [alloc]) db0)) e)
      with (Some alloc); [reflexivity|].
    symmetry. unfold get_dotacao, add_movimento. simpl. apply first_app_new; [exact Hnone|].
    simpl. apply Z.eqb_refl. }
  assert (H1 : db1 = add_movimento (DotacaoGlobal.id alloc) AJUSTE None V (DescCriacao e) user0
                       (with_dotacoes_globais (dotacoes_globais db0 ++ [alloc]) db0))
    by (unfold db1; rewrite Hcreate; reflexivity).
  assert (H2 : db2 = db1) by reflexivity.
  assert (H3 : db3 = db1) by reflexivity.
  split; [rewrite Hcreate, <- H1; reflexivity|].
  split; [reflexivity|]. split; [reflexivity|].
  rewrite H3, H1.
  split; [exact Hd1|]. split; [exact Hd2|]. split; [|reflexivity].
  unfold get_dotacao, add_movimento. simpl. apply first_app_new; [exact Hnone|].
  simpl. apply Z.eqb_refl.
Qed.

Lemma global_balance_after_two_confirmations_witness :
  let valor_anual := Dec.Finite false 100000000 (-2) in
  let alloc := DotacaoGlobal.mk 1 2024 100000000 100000000 0 in
  let db3 := snd (run_request (confirm_despesa_with_dotacao 2 false 1)
                    (snd (run_request (confirm_despesa_with_dotacao 1 false 1)
                            TwoExpenses.db1))) in
  get_dotacao TwoExpenses.db0 2024 = None
  /\ Dec.exact_cents valor_anual = Some 100000000
  /\ get_despesa TwoExpenses.db0 1 = Some TwoExpenses.d1
  /\ get_despesa TwoExpenses.db0 2 = Some TwoExpenses.d2
  /\ Despesa.valor TwoExpenses.d1 <= 100000000
  /\ Despesa.valor TwoExpenses.d2 <= 100000000 - Despesa.valor TwoExpenses.d1
  /\ run_request (create_or_update_dotacao_global 2024 valor_anual 1) TwoExpenses.db0
     = (Ok alloc, TwoExpenses.db1)
  /\ fst (run_request (confirm_despesa_with_dotacao 1 false 1) TwoExpenses.db1)
     = Raise (InvalidRequestError TransacaoJaIniciada)
  /\ fst (run_request (confirm_despesa_with_dotacao 2 false 1)
            (snd (run_request (confirm_despesa_with_dotacao 1 false 1) TwoExpenses.db1)))
     = Raise (InvalidRequestError TransacaoJaIniciada)
  /\ get_despesa db3 1 = Some TwoExpenses.d1
  /\ get_despesa db3 2 = Some TwoExpenses.d2
  /\ get_dotacao db3 2024 = Some alloc
  /\ movimentos db3
     = [DotacaoGlobalMov.mk 1 1 AJUSTE None 100000000 (DescCriacao 2024) (Some 1)].
Proof.
  cbv zeta.
  split; [vm_compute; reflexivity|].
  split; [vm_compute; reflexivity|].
  split; [vm_compute; reflexivity|].
  split; [vm_compute; reflexivity|].
  split; [simpl; lia|].
  split; [simpl; lia|].
  refine (global_balance_after_two_confirmations
            TwoExpenses.db0 2024 100000000 1 1 1 1 2 (Dec.Finite false 100000000 (-2))
            false false TwoExpenses.d1 TwoExpenses.d2 _ _ _ _ _ _).
  - vm_compute. reflexivity.
  - vm_compute. reflexivity.
  - vm_compute. reflexivity.
  - reflexivity.
  - vm_compute. reflexivity.
  - reflexivity.
Defined.

(** ** The parent walk ends on a well-formed hierarchy *)

Lemma get_rubrica_some (db : DB) (k : Z) (r : Rubrica.t) :
  get_rubrica db k = Some r -> Rubrica.id r = k /\ In r (rubricas db).
Proof.
  intros H. apply first_some_true in H. destruct H as [H1 H2].
  apply Z.eqb_eq in H1. auto.
Qed.

Lemma filter_length_le {A : Type} (f g : A -> bool) (l : list A) :
  (forall x, f x = true -> g x = true) ->
  (length (List.filter f l) <= length (List.filter g l))%nat.
Proof.
  intros Hfg. induction l as [|x l IH]; simpl; [lia|].
  destruct (f x) eqn:Hf.
  - rewrite (Hfg x Hf). simpl. lia.
  - destruct (g x); simpl; lia.
Qed.

Lemma filter_length_lt {A : Type} (f g : A -> bool) (l : list A) (r : A) :
  (forall x, f x = true -> g x = true) ->
  In r l -> f r = false -> g r = true ->
  (length (List.filter f l) < length (List.filter g l))%nat.
Proof.
  intros Hfg. induction l as [|x l IH]; simpl; [tauto|].
  intros [->|Hin] Hf Hg.
  - rewrite Hf, Hg. simpl. pose proof (filter_length_le f g l Hfg). lia.
  - specialize (IH Hin Hf Hg). destruct (f x) eqn:Hfx.
    + rewrite (Hfg x Hfx). simpl. lia.
    + destruct (g x); simpl; lia.
Qed.

Lemma ancestors_walk_total (db : DB) :
  parent_precedes (rubricas db) ->
  forall fuel current_id,
    (match current_id with
     | Some k => rows_upto (rubricas db) k < fuel
     | None => 0 < fuel
     end)%nat ->
    exists ancestors, ancestors_walk fuel db current_id = Some ancestors.
Proof.
  intros Hwf. induction fuel as [|fuel IH]; intros current_id Hfuel.
  - destruct current_id; lia.
  - simpl. destruct (truthy_id current_id) eqn:Htruthy; [|eauto].
    destruct current_id as [k|]; [|discriminate]. simpl.
    destruct (get_rubrica db k) as [r|] eqn:Hr; [|eauto].
    apply get_rubrica_some in Hr. destruct Hr as [Hid Hin].
    assert (Hpos : (0 < rows_upto (rubricas db) k)%nat).
    { unfold rows_upto.
      pose proof (filter_length_lt (fun _ => false) (fun r => Rubrica.id r <=? k)
                    (rubricas db) r) as Hlt.
      assert (Hnil : forall l : list Rubrica.t, List.filter (fun _ => false) l = []).
      { induction l; simpl; auto. }
      rewrite Hnil in Hlt. simpl in Hlt. apply Hlt; auto; try discriminate.
      apply Z.leb_le. lia. }
    destruct (IH (Rubrica.parent_id r)) as [l Hl].
    { destruct (Rubrica.parent_id r) as [p|] eqn:Hp; [|lia].
      pose proof (Hwf r p Hin Hp) as Hlt.
      assert ((rows_upto (rubricas db) p < rows_upto (rubricas db) k)%nat); [|lia].
      unfold rows_upto. apply filter_length_lt with (r := r); auto.
      - intros x Hx. apply Z.leb_le in Hx. apply Z.leb_le. lia.
      - apply Z.leb_gt. lia.
      - apply Z.leb_le. lia. }
    rewrite Hl. eauto.
Qed.

Lemma get_ancestors_total (db : DB) (rubrica_id : Z) :
  parent_precedes (rubricas db) ->
  exists ancestors, get_ancestors db rubrica_id = Some ancestors.
Proof.
  intros Hwf. unfold get_ancestors.
  destruct (ancestors_walk_total db Hwf (S (length (rubricas db))) (Some rubrica_id))
    as [walk ->]; [|eauto].
  unfold rows_upto.
  pose proof (List.filter_length_le (fun r => Rubrica.id r <=? rubrica_id) (rubricas db)).
  lia.
Qed.

Lemma ancestors_walk_ext (db db' : DB) (fuel : nat) (current_id : option Z) :
  rubricas db = rubricas db' ->
  ancestors_walk fuel db current_id = ancestors_walk fuel db' current_id.
Proof.
  intros Heq. revert current_id. induction fuel as [|fuel IH]; intros c; simpl; [reflexivity|].
  unfold get_rubrica. rewrite Heq.
  destruct (truthy_id c); [|reflexivity].
  destruct (first _ (rubricas db')); [|reflexivity].
  rewrite IH. reflexivity.
Qed.

Lemma get_ancestors_ext (db db' : DB) (k : Z) :
  rubricas db = rubricas db' -> get_ancestors db k = get_ancestors db' k.
Proof.
  intros Heq. unfold get_ancestors. rewrite Heq.
  rewrite (ancestors_walk_ext db db' _ _ Heq). reflexivity.
Qed.

(** ** The simple confirmation path and cancelled expenses *)

Lemma succeeds_bind {A B : Type} (m : M A) (k : A -> M B) :
  succeeds m -> (forall a, succeeds (k a)) -> succeeds (bind m k).
Proof.
  intros Hm Hk s. destruct (Hm s) as (a & s1 & Hms).
  destruct (Hk a s1) as (b & s2 & Hks).
  exists b, s2. unfold bind. rewrite Hms. exact Hks.
Qed.

Lemma succeeds_for_each {A : Type} (body : A -> M unit) (l : list A) :
  (forall x, succeeds (body x)) -> succeeds (for_each body l).
Proof.
  intros Hb. induction l as [|x l IH]; simpl.
  - intros s. exists tt, s. reflexivity.
  - apply succeeds_bind; auto.
Qed.

Lemma update_ancestor_execucao_succeeds (mes ano : Z) (ancestor : Rubrica.t) :
  succeeds (update_ancestor_execucao mes ano ancestor).
Proof.
  intros [p w]. unfold update_ancestor_execucao. run_step.
  destruct (get_execucao w (Rubrica.id ancestor) mes ano);
    eexists _, _; reflexivity.
Qed.

(** C10.  An expense in status [cancelada] that has a rubrica: the simple
    confirmation path ([POST /despesas/{id}/confirmar]) does not reject
    it.  It answers with the expense, which it has stored, in status
    [confirmada] and otherwise as it was.  The allocation-aware path
    ([POST /despesas/{id}/confirm]) rejects it with an error and changes
    nothing; the error is the [InvalidRequestError] of its [db.begin()],
    raised before the status is read. *)
Theorem simple_path_confirms_cancelled_expense
    (db : DB) (despesa_id rubrica_id user : Z) (override : bool)
    (d : Despesa.t) (r : Rubrica.t) :
  parent_precedes (rubricas db) ->
  get_despesa db despesa_id = Some d ->
  Despesa.status d = CANCELADA ->
  Despesa.rubrica_id d = Some rubrica_id ->
  rubrica_id <> 0 ->
  get_rubrica db rubrica_id = Some r ->
  (exists x db',
      run_request (confirm_despesa_endpoint despesa_id) db = (Ok x, db')
      /\ get_despesa db' despesa_id = Some x
      /\ Despesa.status x = CONFIRMADA
      /\ x = Despesa.set_status CONFIRMADA d)
  /\ run_request (confirm_despesa_with_dotacao despesa_id override user) db
     = (Raise (InvalidRequestError TransacaoJaIniciada), db).
Proof.
  intros Hwf Hd Hst Hrid Hk Hr. split.
  2:{ unfold run_request. rewrite confirm_despesa_with_dotacao_refused. reflexivity. }
  set (db1 := set_despesa_status despesa_id CONFIRMADA db).
  assert (Hget1 : forall db2, same_books db1 db2 ->
                              get_despesa db2 despesa_id = Some (Despesa.set_status CONFIRMADA d)).
  { intros db2 [Hdesp _]. unfold get_despesa. rewrite Hdesp. unfold db1. simpl.
    rewrite first_update_where_map by reflexivity.
    unfold get_despesa in Hd. rewrite Hd. simpl.
    apply first_some_true in Hd. destruct Hd as [Hid _]. rewrite Hid. reflexivity. }
  (* the row of the rubrica itself *)
  destruct (update_execucao_mensal rubrica_id (Despesa.mes d) (Despesa.exercicio d)
              (mkSession db db1)) as [r2 s2] eqn:Hupd.
  assert (Hs2 : exists e, r2 = Ok e).
  { revert Hupd. unfold update_execucao_mensal. run_step.
    change (get_rubrica db1 rubrica_id) with (get_rubrica db rubrica_id). rewrite Hr.
    destruct (get_execucao db1 rubrica_id (Despesa.mes d) (Despesa.exercicio d));
      intros H; injection H as <- _; eauto. }
  destruct Hs2 as [e2 ->].
  pose proof (update_execucao_mensal_frame (same_books db1) rubrica_id _ _
                (fun db v H => H) (mkSession db db1) _ _ (conj eq_refl eq_refl) Hupd) as Hb2.
  (* the rows of the ancestors *)
  destruct (update_ancestors_execucao_mensal rubrica_id (Despesa.mes d) (Despesa.exercicio d) s2)
    as [r3 s3] eqn:Hanc.
  pose proof (update_ancestors_execucao_mensal_frame (same_books db1) rubrica_id _ _
                (fun db v H => H) _ _ _ Hb2 Hanc) as Hb3.
  assert (Hs3 : r3 = Ok tt).
  { revert Hanc. unfold update_ancestors_execucao_mensal. run_step.
    rewrite (get_ancestors_ext (working s2) db) by apply Hb2.
    destruct (get_ancestors_total db rubrica_id Hwf) as [l ->].
    destruct (succeeds_for_each (update_ancestor_execucao (Despesa.mes d) (Despesa.exercicio d))
                l (update_ancestor_execucao_succeeds _ _) s2) as ([] & s' & ->).
    intros H. injection H as <- _. reflexivity. }
  subst r3.
  exists (Despesa.set_status CONFIRMADA d), (working s3).
  split; [|split; [apply Hget1; exact Hb3|split; reflexivity]].
  unfold confirm_despesa_endpoint, confirm_despesa, confirm_despesa_with_execucao.
  run_step. rewrite Hd, Hst. rewrite bool_decide_eq_false_2 by discriminate.
  rewrite Hrid. cbn [truthy_id default from_option id].
  destruct (rubrica_id =? 0) eqn:Hz; [apply Z.eqb_eq in Hz; contradiction|].
  cbn [negb working persisted]. fold db1. rewrite Hupd, Hanc.
  cbn [working persisted]. rewrite !(Hget1 _ Hb3). reflexivity.
Qed.

Lemma simple_path_confirms_cancelled_expense_witness :
  let d := Despesa.mk 1 (Some 2) None (Some "ACME"%string) None None None 5000000
                      (Some (mkDate 2024 3 15)) 2024 3 None CANCELADA in
  get_despesa cancelled 1 = Some d
  /\ Despesa.status d = CANCELADA
  /\ (exists x db',
         run_request (confirm_despesa_endpoint 1) cancelled = (Ok x, db')
         /\ get_despesa db' 1 = Some x
         /\ Despesa.status x = CONFIRMADA
         /\ x = Despesa.set_status CONFIRMADA d)
  /\ run_request (confirm_despesa_with_dotacao 1 false 1) cancelled
     = (Raise (InvalidRequestError TransacaoJaIniciada), cancelled).
Proof.
  cbv zeta. split; [vm_compute; reflexivity|]. split; [reflexivity|].
  refine (simple_path_confirms_cancelled_expense cancelled 1 2 1 false
            (Despesa.mk 1 (Some 2) None (Some "ACME"%string) None None None 5000000
                        (Some (mkDate 2024 3 15)) 2024 3 None CANCELADA)
            (Rubrica.mk 2 "1.1" "Leaf" DESPESA (Some 1) 2 (Some 10000000) (Some 10000000)
                        2024 ATIVA)
            _ _ _ _ _ _).
  - intros r p Hr Hp. vm_compute in Hr.
    destruct Hr as [<-|[<-|[]]]; vm_compute in Hp; try discriminate Hp.
    injection Hp as <-. reflexivity.
  - vm_compute. reflexivity.
  - reflexivity.
  - reflexivity.
  - discriminate.
  - vm_compute. reflexivity.
Defined.

(** ** The recalculation of computed allocations *)

Section CalculateNode.

(** The rows of one fiscal year, as [recalculate_dotacao_chain] loads them:
    keys are unique, and a parent's key is smaller than its child's. *)
Variable all_rubricas : list Rubrica.t.
Hypothesis all_nodup : NoDup (List.map Rubrica.id all_rubricas).
Hypothesis all_precedes : parent_precedes all_rubricas.

Lemma rubricas_dict_some (k : Z) (n : Rubrica.t) :
  rubricas_dict all_rubricas k = Some n -> In n all_rubricas /\ Rubrica.id n = k.
Proof.
  clear all_nodup all_precedes.
  induction all_rubricas as [|r rest IH]; simpl; [discriminate|].
  destruct (rubricas_dict rest k) as [r'|].
  - intros H. injection H as ->. destruct (IH eq_refl). auto.
  - destruct (Z.eqb_spec (Rubrica.id r) k); [|discriminate].
    intros H. injection H as ->. auto.
Qed.

Lemma same_id_same_row (a b : Rubrica.t) :
  In a all_rubricas -> In b all_rubricas -> Rubrica.id a = Rubrica.id b -> a = b.
Proof.
  clear all_precedes. revert all_nodup.
  induction all_rubricas as [|r rest IH]; simpl; [tauto|].
  intros Hnd. apply NoDup_cons in Hnd. destruct Hnd as [Hnot Hrest].
  intros [->|Ha] [->|Hb] Hid; auto.
  - exfalso. apply Hnot. rewrite Hid. apply list_elem_of_In, in_map, Hb.
  - exfalso. apply Hnot. rewrite <- Hid. apply list_elem_of_In, in_map, Ha.
Qed.

Lemma rubricas_dict_in (n : Rubrica.t) :
  In n all_rubricas -> rubricas_dict all_rubricas (Rubrica.id n) = Some n.
Proof.
  intros Hin.
  destruct (rubricas_dict all_rubricas (Rubrica.id n)) as [m|] eqn:Hm.
  - apply rubricas_dict_some in Hm. destruct Hm as [Hm1 Hm2].
    f_equal. apply same_id_same_row; auto.
  - exfalso. clear all_nodup all_precedes.
    induction all_rubricas as [|r rest IH]; simpl in *; [tauto|].
    destruct (rubricas_dict rest (Rubrica.id n)); [discriminate|].
    destruct Hin as [->|Hin]; [rewrite Z.eqb_refl in Hm; discriminate|].
    apply IH; auto.
Qed.

Lemma active_child_facts (node c : Rubrica.t) :
  In node all_rubricas ->
  In c (active_children all_rubricas node) ->
  In c all_rubricas /\ Rubrica.parent_id c = Some (Rubrica.id node)
  /\ Rubrica.id node < Rubrica.id c.
Proof.
  intros Hnode Hc. unfold active_children in Hc. apply filter_In in Hc.
  destruct Hc as [Hin Hp]. apply andb_true_iff in Hp. destruct Hp as [Hp _].
  apply andb_true_iff in Hp. destruct Hp as [Hp _].
  unfold col_is in Hp. destruct (Rubrica.parent_id c) as [p|] eqn:Hpc; [|discriminate].
  apply Z.eqb_eq in Hp. subst p.
  split; [exact Hin|]. split; [reflexivity|].
  exact (all_precedes c _ Hin Hpc).
Qed.

Lemma rows_from_child (node c : Rubrica.t) :
  In node all_rubricas -> Rubrica.id node < Rubrica.id c ->
  (rows_from all_rubricas (Rubrica.id c) < rows_from all_rubricas (Rubrica.id node))%nat.
Proof.
  intros Hin Hlt. unfold rows_from. apply filter_length_lt with (r := node); auto.
  - intros x Hx. apply Z.leb_le in Hx. apply Z.leb_le. lia.
  - apply Z.leb_gt. lia.
  - apply Z.leb_le. lia.
Qed.

Lemma node_value_ext (c1 c2 : gmap Z Z) (n : Rubrica.t) :
  (forall c, In c (active_children all_rubricas n) ->
             c2 !! Rubrica.id c = c1 !! Rubrica.id c) ->
  node_value all_rubricas c2 n = node_value all_rubricas c1 n.
Proof.
  intros H. unfold node_value.
  destruct (active_children all_rubricas n) as [|c cs]; [reflexivity|].
  f_equal. apply map_ext_in. intros x Hx. rewrite H; auto.
Qed.

(** Adding an entry for a key that no cached node has as a child keeps the
    old entries right. *)
Lemma cache_ok_insert (cache : gmap Z Z) (k v : Z) (n : Rubrica.t) :
  cache_ok all_rubricas cache ->
  cache !! k = None ->
  rubricas_dict all_rubricas k = Some n ->
  (forall c, In c (active_children all_rubricas n) -> is_Some (cache !! Rubrica.id c)) ->
  v = node_value all_rubricas cache n ->
  cache_ok all_rubricas (<[k := v]> cache).
Proof.
  intros Hok Hnone Hdict Hchildren -> j w Hj.
  set (v := node_value all_rubricas cache n) in *.
  assert (Hkeep : forall m, (forall c, In c (active_children all_rubricas m) ->
                                       is_Some (cache !! Rubrica.id c)) ->
                            forall c, In c (active_children all_rubricas m) ->
                                      <[k := v]> cache !! Rubrica.id c = cache !! Rubrica.id c).
  { intros m Hm c Hc. apply lookup_insert_ne. intros ->.
    destruct (Hm c Hc) as [x Hx]. congruence. }
  destruct (decide (k = j)) as [->|Hne].
  - rewrite lookup_insert_eq in Hj. injection Hj as <-.
    exists n. split; [exact Hdict|]. split.
    + intros c Hc. rewrite (Hkeep n Hchildren c Hc). auto.
    + unfold v. symmetry. apply node_value_ext. apply Hkeep. exact Hchildren.
  - rewrite lookup_insert_ne in Hj by exact Hne.
    destruct (Hok j w Hj) as (m & Hm1 & Hm2 & Hm3).
    exists m. split; [exact Hm1|]. split.
    + intros c Hc. rewrite (Hkeep m Hm2 c Hc). auto.
    + rewrite Hm3. symmetry. apply node_value_ext. apply Hkeep. exact Hm2.
Qed.

Lemma sum_children_ok (calc : gmap Z Z -> Z -> option Z * gmap Z Z) (k : Z) :
  (forall S cache c, cache_ok all_rubricas cache -> reach all_rubricas S cache ->
                     In c all_rubricas -> k < Rubrica.id c ->
                     call_ok all_rubricas S cache (Rubrica.id c) (calc cache (Rubrica.id c))) ->
  forall children S total cache,
    (forall c, In c children ->
               In c all_rubricas /\ Rubrica.parent_id c = Some k /\ k < Rubrica.id c) ->
    cache_ok all_rubricas cache -> reach all_rubricas S cache ->
    exists total' cache',
      sum_children calc children total cache = (Some total', cache')
      /\ cache ⊆ cache'
      /\ cache_ok all_rubricas cache'
      /\ reach all_rubricas (fun j => S j \/ exists c, In c children /\ Rubrica.id c = j) cache'
      /\ (forall j, is_Some (cache' !! j) -> is_Some (cache !! j) \/ k < j)
      /\ (forall c, In c children -> is_Some (cache' !! Rubrica.id c))
      /\ total' = total + sum_Z (List.map (fun c => default 0 (cache' !! Rubrica.id c)) children).
Proof.
  intros Hcalc. induction children as [|c rest IH]; intros S total cache Hch Hok Hreach.
  - exists total, cache. simpl. split; [reflexivity|]. split; [reflexivity|].
    split; [exact Hok|]. split.
    { intros j Hj. destruct (Hreach j Hj) as [H|H]; auto. }
    split; [auto|]. split; [intros c []|lia].
  - destruct (Hch c (or_introl eq_refl)) as (Hcin & Hcp & Hck).
    destruct (Hcalc S cache c Hok Hreach Hcin Hck)
      as (v & cache1 & Hout & Hsub1 & Hok1 & Hreach1 & Hnew1 & Hself1).
    simpl. rewrite Hout.
    pose proof (Hself1 c (rubricas_dict_in c Hcin)) as Hc1.
    rewrite (insert_id cache1 _ _ Hc1).
    destruct (IH (fun j => S j \/ j = Rubrica.id c) (total + v) cache1)
      as (total' & cache' & Hsum & Hsub' & Hok' & Hreach' & Hnew' & Hall' & Htotal');
      [intros x Hx; apply Hch; right; exact Hx|exact Hok1|exact Hreach1|].
    exists total', cache'. split; [exact Hsum|].
    split; [etrans; eassumption|]. split; [exact Hok'|]. split.
    { intros j Hj. destruct (Hreach' j Hj) as [[[H|H]|(x & Hx & Hxj)]|H].
      - left. left. exact H.
      - left. right. exists c. split; [left; reflexivity|auto].
      - left. right. exists x. split; [right; exact Hx|exact Hxj].
      - right. exact H. }
    split.
    { intros j Hj. destruct (Hnew' j Hj) as [H|H]; [|auto].
      destruct (Hnew1 j H) as [H1|H1]; [auto|right; lia]. }
    split.
    { intros x [<-|Hx]; [|apply Hall'; exact Hx].
      exists v. eapply lookup_weaken; eassumption. }
    simpl. rewrite (lookup_weaken _ _ _ _ Hc1 Hsub'). simpl. lia.
Qed.

Lemma calculate_node_ok (fuel : nat) :
  forall S cache k,
    cache_ok all_rubricas cache -> reach all_rubricas S cache -> (rows_from all_rubricas k < fuel)%nat ->
    call_ok all_rubricas S cache k (calculate_node fuel all_rubricas cache k).
Proof.
  induction fuel as [|fuel IH]; intros S cache k Hok Hreach Hfuel; [lia|].
  simpl. destruct (cache !! k) as [v|] eqn:Hk.
  { exists v, cache. split; [reflexivity|]. split; [reflexivity|]. split; [exact Hok|].
    split; [intros j Hj; destruct (Hreach j Hj); auto|]. split; auto. }
  destruct (rubricas_dict all_rubricas k) as [node|] eqn:Hdict.
  2:{ exists 0, cache. split; [reflexivity|]. split; [reflexivity|]. split; [exact Hok|].
      split; [intros j Hj; destruct (Hreach j Hj); auto|]. split; [auto|intros ? ?; congruence]. }
  pose proof (rubricas_dict_some _ _ Hdict) as [Hnode Hid].
  destruct (active_children all_rubricas node) as [|c cs] eqn:Hchildren.
  - set (result := default 0 (Rubrica.dotacao_inicial node)).
    exists result, (<[k := result]> cache). split; [reflexivity|].
    split; [apply insert_subseteq; exact Hk|]. split.
    { apply cache_ok_insert with (n := node); auto.
      - rewrite Hchildren. intros c [].
      - unfold node_value. rewrite Hchildren. reflexivity. }
    split.
    { intros j Hj. destruct (decide (k = j)) as [->|Hne]; [left; right; reflexivity|].
      rewrite lookup_insert_ne in Hj by exact Hne.
      destruct (Hreach j Hj) as [H|(n & p & Hn & Hp & Hc)]; [auto|].
      right. exists n, p. split; [exact Hn|]. split; [exact Hp|].
      destruct Hc as [x Hx]. exists x. eapply lookup_weaken; [exact Hx|].
      apply insert_subseteq; exact Hk. }
    split.
    { intros j Hj. destruct (decide (k = j)) as [->|Hne]; [right; lia|].
      rewrite lookup_insert_ne in Hj by exact Hne. auto. }
    intros ? ?. apply lookup_insert_eq.
  - assert (Hfacts : forall x, In x (c :: cs) ->
                       In x all_rubricas /\ Rubrica.parent_id x = Some k /\ k < Rubrica.id x).
    { intros x Hx. rewrite <- Hchildren in Hx.
      destruct (active_child_facts node x Hnode Hx) as (H1 & H2 & H3).
      rewrite Hid in H2, H3. auto. }
    destruct (sum_children_ok (calculate_node fuel all_rubricas) k) with
      (children := c :: cs) (S := S) (total := 0) (cache := cache)
      as (total & cache1 & Hsum & Hsub & Hok1 & Hreach1 & Hnew1 & Hall1 & Htotal);
      [|exact Hfacts|exact Hok|exact Hreach|].
    { intros S' cache' x Hok' Hreach' Hxin Hkx. apply IH; auto.
      assert ((rows_from all_rubricas (Rubrica.id x) < rows_from all_rubricas k)%nat); [|lia].
      rewrite <- Hid. apply rows_from_child; [exact Hnode|lia]. }
    change (call_ok all_rubricas S cache k
              (match sum_children (calculate_node fuel all_rubricas) (c :: cs) 0 cache with
               | (Some total, cache1) => (Some total, <[k := total]> cache1)
               | (None, cache1) => (None, cache1)
               end)).
    rewrite Hsum.
    assert (Hk1 : cache1 !! k = None).
    { destruct (cache1 !! k) eqn:E; [|reflexivity].
      destruct (Hnew1 k (ex_intro _ _ E)) as [[x Hx]|H]; [congruence|lia]. }
    exists total, (<[k := total]> cache1). split; [reflexivity|].
    split; [etrans; [exact Hsub|apply insert_subseteq; exact Hk1]|]. split.
    { apply cache_ok_insert with (n := node); auto.
      - rewrite Hchildren. exact Hall1.
      - unfold node_value. rewrite Hchildren. lia. }
    split.
    { intros j Hj. destruct (decide (k = j)) as [->|Hne]; [left; right; reflexivity|].
      rewrite lookup_insert_ne in Hj by exact Hne.
      destruct (Hreach1 j Hj) as [[H|(x & Hx & Hxj)]|(n & p & Hn & Hp & Hc)].
      - auto.
      - right. destruct (Hfacts x Hx) as (Hxin & Hxp & _).
        exists x, k. subst j. split; [apply rubricas_dict_in; exact Hxin|].
        split; [exact Hxp|]. exists total. apply lookup_insert_eq.
      - right. exists n, p. split; [exact Hn|]. split; [exact Hp|].
        destruct Hc as [y Hy]. exists y. eapply lookup_weaken; [exact Hy|].
        apply insert_subseteq; exact Hk1. }
    split.
    { intros j Hj. destruct (decide (k = j)) as [->|Hne]; [right; lia|].
      rewrite lookup_insert_ne in Hj by exact Hne.
      destruct (Hnew1 j Hj); [auto|right; lia]. }
    intros ? ?. apply lookup_insert_eq.
Qed.

(** The loop over the sorted ancestors. *)
Lemma calculate_ancestors_ok (fuel : nat) (ancestors : list Rubrica.t) :
  (length all_rubricas < fuel)%nat ->
  forall S cache,
    cache_ok all_rubricas cache -> reach all_rubricas S cache ->
    exists cache',
      calculate_ancestors fuel all_rubricas ancestors cache = (true, cache')
      /\ cache ⊆ cache'
      /\ cache_ok all_rubricas cache'
      /\ reach all_rubricas (fun j => S j \/ exists a, In a ancestors /\ Rubrica.id a = j) cache'
      /\ (forall a, In a ancestors -> In a all_rubricas ->
                    is_Some (cache' !! Rubrica.id a)).
Proof.
  intros Hfuel. induction ancestors as [|a rest IH]; intros S cache Hok Hreach; simpl.
  - exists cache. split; [reflexivity|]. split; [reflexivity|]. split; [exact Hok|].
    split; [intros j Hj; destruct (Hreach j Hj); auto|]. intros a [].
  - destruct (calculate_node_ok fuel S cache (Rubrica.id a) Hok Hreach)
      as (v & cache1 & Hout & Hsub1 & Hok1 & Hreach1 & _ & Hself1).
    { unfold rows_from.
      pose proof (List.filter_length_le (fun r => Rubrica.id a <=? Rubrica.id r) all_rubricas).
      lia. }
    rewrite Hout.
    destruct (IH (fun j => S j \/ j = Rubrica.id a) cache1 Hok1 Hreach1)
      as (cache' & Hrun & Hsub' & Hok' & Hreach' & Hall').
    exists cache'. split; [exact Hrun|]. split; [etrans; eassumption|].
    split; [exact Hok'|]. split.
    { intros j Hj. destruct (Hreach' j Hj) as [[[H|H]|(x & Hx & Hxj)]|H].
      - left. left. exact H.
      - left. right. exists a. split; [left; reflexivity|auto].
      - left. right. exists x. split; [right; exact Hx|exact Hxj].
      - right. exact H. }
    intros x [<-|Hx] Hxin; [|apply Hall'; assumption].
    exists v. eapply lookup_weaken; [|exact Hsub'].
    apply (Hself1 a). apply rubricas_dict_in. exact Hxin.
Qed.

End CalculateNode.

(** ** The allocation invariant, as the recalculation maintains it *)

Lemma filter_map_commute {A : Type} (p : A -> bool) (g : A -> A) (l : list A) :
  (forall x, p (g x) = p x) ->
  List.filter p (List.map g l) = List.map g (List.filter p l).
Proof.
  intros H. induction l as [|x l IH]; simpl; [reflexivity|].
  rewrite H. destruct (p x); simpl; rewrite IH; reflexivity.
Qed.

Lemma active_children_map (g : Rubrica.t -> Rubrica.t) (rows : list Rubrica.t) (r r' : Rubrica.t) :
  (forall x, Rubrica.id (g x) = Rubrica.id x /\ Rubrica.parent_id (g x) = Rubrica.parent_id x
             /\ Rubrica.exercicio (g x) = Rubrica.exercicio x
             /\ Rubrica.status (g x) = Rubrica.status x) ->
  Rubrica.id r' = Rubrica.id r -> Rubrica.exercicio r' = Rubrica.exercicio r ->
  active_children (List.map g rows) r' = List.map g (active_children rows r).
Proof.
  intros Hg Hid Hyear. unfold active_children. rewrite Hid, Hyear.
  apply filter_map_commute. intros x. destruct (Hg x) as (H1 & H2 & H3 & H4).
  rewrite H2, H3, H4. reflexivity.
Qed.

Lemma apply_cache_shape (cache : gmap Z Z) (x : Rubrica.t) :
  Rubrica.id (apply_cache cache x) = Rubrica.id x
  /\ Rubrica.parent_id (apply_cache cache x) = Rubrica.parent_id x
  /\ Rubrica.exercicio (apply_cache cache x) = Rubrica.exercicio x
  /\ Rubrica.status (apply_cache cache x) = Rubrica.status x.
Proof. unfold apply_cache. destruct (cache !! Rubrica.id x); auto. Qed.

Lemma active_children_year (rows : list Rubrica.t) (r : Rubrica.t) :
  active_children
    (List.filter (fun x => Rubrica.exercicio x =? Rubrica.exercicio r) rows) r
  = active_children rows r.
Proof.
  unfold active_children. induction rows as [|x rows IH]; [reflexivity|].
  cbn [List.filter].
  destruct (Rubrica.exercicio x =? Rubrica.exercicio r) eqn:Hy.
  - cbn [List.filter]. rewrite Hy, IH. reflexivity.
  - rewrite IH, andb_false_r. reflexivity.
Qed.

Lemma wf_same_row (rows : list Rubrica.t) (a b : Rubrica.t) :
  NoDup (List.map Rubrica.id rows) ->
  In a rows -> In b rows -> Rubrica.id a = Rubrica.id b -> a = b.
Proof. intros Hnd. apply same_id_same_row. exact Hnd. Qed.

Lemma NoDup_map_filter {A B : Type} (f : A -> B) (p : A -> bool) (l : list A) :
  NoDup (List.map f l) -> NoDup (List.map f (List.filter p l)).
Proof.
  induction l as [|x l IH]; simpl; [auto|].
  intros Hnd. apply NoDup_cons in Hnd. destruct Hnd as [Hnot Hrest].
  destruct (p x); simpl; [|auto].
  apply NoDup_cons. split; [|auto].
  intros Hin. apply Hnot. apply list_elem_of_In in Hin. apply list_elem_of_In.
  apply in_map_iff in Hin. destruct Hin as (y & Hy & Hyin).
  apply filter_In in Hyin. apply in_map_iff. exists y. tauto.
Qed.

Section FlushRestores.

Variable rows : list Rubrica.t.
Variable e : Z.
Variable cache : gmap Z Z.
Variable chain : list Rubrica.t.

Let all_rubricas := List.filter (fun r => Rubrica.exercicio r =? e) rows.

Hypothesis rows_wf : hierarchy_wf rows.
Hypothesis cache_right : cache_ok all_rubricas cache.
Hypothesis cache_reach :
  reach all_rubricas (fun j => exists a, In a chain /\ Rubrica.id a = j) cache.
Hypothesis chain_cached :
  forall a, In a chain -> In a all_rubricas -> is_Some (cache !! Rubrica.id a).
Hypothesis chain_in : forall a, In a chain -> In a rows.
Hypothesis chain_closed :
  forall a rp, In a chain -> In rp rows ->
               Rubrica.parent_id a = Some (Rubrica.id rp) -> In rp chain.
Hypothesis rest_inv :
  forall r, In r rows -> inv_at rows r \/ (In r chain /\ Rubrica.exercicio r = e).

Lemma cached_row (r : Rubrica.t) (v : Z) :
  In r rows -> cache !! Rubrica.id r = Some v ->
  rubricas_dict all_rubricas (Rubrica.id r) = Some r /\ Rubrica.exercicio r = e.
Proof.
  intros Hin Hv. destruct (cache_right _ _ Hv) as (n & Hn & _).
  pose proof (rubricas_dict_some _ _ _ Hn) as [Hnin Hnid].
  unfold all_rubricas in Hnin. apply filter_In in Hnin. destruct Hnin as [Hnrows Hny].
  assert (n = r) as ->.
  { apply (wf_same_row rows); auto. apply rows_wf. }
  split; [exact Hn|]. apply Z.eqb_eq. exact Hny.
Qed.

Lemma flush_is_apply :
  flush_calculated e cache rows = List.map (apply_cache cache) rows.
Proof.
  unfold flush_calculated. apply map_ext_in. intros r Hin. unfold apply_cache.
  destruct (Rubrica.exercicio r =? e) eqn:Hy; [reflexivity|].
  destruct (cache !! Rubrica.id r) as [v|] eqn:Hv; [|reflexivity].
  destruct (cached_row r v Hin Hv) as [_ Hyear]. apply Z.eqb_neq in Hy. contradiction.
Qed.

Lemma uncached_children (r : Rubrica.t) :
  In r rows -> cache !! Rubrica.id r = None ->
  forall c, In c (active_children rows r) -> cache !! Rubrica.id c = None.
Proof.
  intros Hin Hnone c Hc.
  destruct (cache !! Rubrica.id c) as [v|] eqn:Hv; [exfalso|reflexivity].
  unfold active_children in Hc. apply filter_In in Hc. destruct Hc as [Hcin Hp].
  apply andb_true_iff in Hp. destruct Hp as [Hp _].
  apply andb_true_iff in Hp. destruct Hp as [Hp Hy].
  unfold col_is in Hp. destruct (Rubrica.parent_id c) as [p|] eqn:Hpc; [|discriminate].
  apply Z.eqb_eq in Hp. subst p. apply Z.eqb_eq in Hy.
  destruct (cached_row c v Hcin Hv) as [Hdict Hyear].
  destruct (cache_reach (Rubrica.id c) (ex_intro _ v Hv))
    as [(a & Ha & Haid)|(n & p & Hn & Hp & Hcp)].
  - assert (a = c) as ->.
    { apply (wf_same_row rows); auto. apply rows_wf. }
    pose proof (chain_closed c r Ha Hin Hpc) as Hr.
    assert (Hrall : In r all_rubricas).
    { unfold all_rubricas. apply filter_In. split; [exact Hin|]. apply Z.eqb_eq. congruence. }
    destruct (chain_cached r Hr Hrall) as [x Hx]. congruence.
  - rewrite Hdict in Hn. injection Hn as <-. rewrite Hpc in Hp. injection Hp as <-.
    destruct Hcp as [x Hx]. congruence.
Qed.

Lemma flush_restores : hierarchy_inv (flush_calculated e cache rows).
Proof.
  rewrite flush_is_apply. intros r' Hr'. apply in_map_iff in Hr'.
  destruct Hr' as (r & <- & Hin). unfold inv_at.
  rewrite (active_children_map (apply_cache cache) rows r (apply_cache cache r));
    [|apply apply_cache_shape|apply apply_cache_shape|apply apply_cache_shape].
  destruct (cache !! Rubrica.id r) as [v|] eqn:Hv.
  - destruct (cached_row r v Hin Hv) as [Hdict Hyear].
    destruct (cache_right _ _ Hv) as (n & Hn & Hchildren & Hvalue).
    rewrite Hdict in Hn. injection Hn as <-.
    assert (Hr : apply_cache cache r = Rubrica.set_dotacao_calculada (Some v) r).
    { unfold apply_cache. rewrite Hv. reflexivity. }
    rewrite Hr. cbn [Rubrica.dotacao_calculada Rubrica.set_dotacao_calculada
                     Rubrica.dotacao_inicial].
    f_equal. rewrite Hvalue. unfold node_value.
    assert (Hsame : active_children all_rubricas r = active_children rows r).
    { unfold all_rubricas. rewrite <- Hyear. apply active_children_year. }
    rewrite Hsame in Hchildren |- *.
    assert (Hval : forall x, In x (active_children rows r) ->
                     default 0 (cache !! Rubrica.id x)
                     = default 0 (Rubrica.dotacao_calculada (apply_cache cache x))).
    { intros x Hx. destruct (Hchildren x Hx) as [w Hw].
      unfold apply_cache. rewrite Hw. reflexivity. }
    destruct (active_children rows r) as [|c cs] eqn:Hcs; [reflexivity|].
    change (sum_Z (List.map (fun x => default 0 (cache !! Rubrica.id x)) (c :: cs))
            = sum_Z (List.map (fun x => default 0 (Rubrica.dotacao_calculada x))
                              (List.map (apply_cache cache) (c :: cs)))).
    rewrite map_map. f_equal. apply map_ext_in. exact Hval.
  - assert (Hr : apply_cache cache r = r).
    { unfold apply_cache. rewrite Hv. reflexivity. }
    rewrite Hr.
    assert (Hkeep : List.map (apply_cache cache) (active_children rows r)
                    = active_children rows r).
    { rewrite <- (map_id (active_children rows r)) at 2. apply map_ext_in.
      intros c Hc. unfold apply_cache. rewrite (uncached_children r Hin Hv c Hc). reflexivity. }
    rewrite Hkeep.
    destruct (rest_inv r Hin) as [Hinv|[Hchain Hyear]]; [exact Hinv|].
    assert (Hrall : In r all_rubricas).
    { unfold all_rubricas. apply filter_In. split; [exact Hin|]. apply Z.eqb_eq. exact Hyear. }
    destruct (chain_cached r Hchain Hrall) as [x Hx]. congruence.
Qed.

End FlushRestores.

(** ** The chain of ancestors *)

Lemma get_rubrica_in (db : DB) (r : Rubrica.t) :
  NoDup (List.map Rubrica.id (rubricas db)) ->
  In r (rubricas db) -> get_rubrica db (Rubrica.id r) = Some r.
Proof.
  intros Hnd Hin.
  destruct (get_rubrica db (Rubrica.id r)) as [r'|] eqn:Hget.
  - apply get_rubrica_some in Hget. destruct Hget as [Hid Hin'].
    f_equal. apply (wf_same_row (rubricas db)); auto.
  - exfalso. unfold get_rubrica, first in Hget.
    apply (find_none _ _ Hget) in Hin. rewrite Z.eqb_refl in Hin. discriminate.
Qed.

Lemma ancestors_walk_in (db : DB) (fuel : nat) :
  forall current_id ancestors,
    ancestors_walk fuel db current_id = Some ancestors ->
    forall a, In a ancestors -> In a (rubricas db).
Proof.
  induction fuel as [|fuel IH]; intros c l; simpl; [discriminate|].
  destruct (truthy_id c); [|intros H; injection H as <-; intros a []].
  destruct (get_rubrica db (default 0 c)) as [r|] eqn:Hr;
    [|intros H; injection H as <-; intros a []].
  destruct (ancestors_walk fuel db (Rubrica.parent_id r)) as [l'|] eqn:Hl'; [|discriminate].
  intros H. injection H as <-. intros a [<-|Ha].
  - apply get_rubrica_some in Hr. tauto.
  - exact (IH _ _ Hl' a Ha).
Qed.

Lemma ancestors_walk_head (db : DB) (fuel : nat) (x : Z) (rx : Rubrica.t)
    (ancestors : list Rubrica.t) :
  x <> 0 -> get_rubrica db x = Some rx ->
  ancestors_walk fuel db (Some x) = Some ancestors ->
  exists rest, ancestors = rx :: rest.
Proof.
  intros Hx Hrx. destruct fuel as [|fuel]; simpl; [discriminate|].
  destruct (Z.eqb_spec x 0) as [|_]; [contradiction|]. simpl. rewrite Hrx.
  destruct (ancestors_walk fuel db (Rubrica.parent_id rx)) as [l'|]; [|discriminate].
  intros H. injection H as <-. eauto.
Qed.

Lemma ancestors_walk_closed (db : DB) (fuel : nat) :
  NoDup (List.map Rubrica.id (rubricas db)) ->
  forall current_id ancestors,
    ancestors_walk fuel db current_id = Some ancestors ->
    forall a rp, In a ancestors -> In rp (rubricas db) ->
                 Rubrica.parent_id a = Some (Rubrica.id rp) -> 0 < Rubrica.id rp ->
                 In rp ancestors.
Proof.
  intros Hnd. induction fuel as [|fuel IH]; intros c l; simpl; [discriminate|].
  destruct (truthy_id c); [|intros H; injection H as <-; intros a rp []].
  destruct (get_rubrica db (default 0 c)) as [r|] eqn:Hr;
    [|intros H; injection H as <-; intros a rp []].
  destruct (ancestors_walk fuel db (Rubrica.parent_id r)) as [l'|] eqn:Hl'; [|discriminate].
  intros H. injection H as <-. intros a rp [<-|Ha] Hrp Hp Hpos.
  - right. rewrite Hp in Hl'.
    destruct (ancestors_walk_head db fuel (Rubrica.id rp) rp l') as [rest ->];
      [lia|apply get_rubrica_in; assumption|exact Hl'|left; reflexivity].
  - right. exact (IH _ _ Hl' a rp Ha Hrp Hp Hpos).
Qed.

(** On a table without a row of key 0, a walk that finds nothing starts
    from a key that is not in the table. *)
Lemma ancestors_walk_nil (db : DB) (fuel : nat) (x : Z) :
  (forall r, In r (rubricas db) -> 0 < Rubrica.id r) ->
  ancestors_walk fuel db (Some x) = Some [] -> get_rubrica db x = None.
Proof.
  intros Hpos. destruct fuel as [|fuel]; simpl; [discriminate|].
  destruct (Z.eqb_spec x 0) as [->|_]; simpl.
  - intros _. destruct (get_rubrica db 0) as [r|] eqn:Hr; [|reflexivity].
    apply get_rubrica_some in Hr. destruct Hr as [Hid Hin]. specialize (Hpos r Hin). lia.
  - destruct (get_rubrica db x) as [r|]; [|reflexivity].
    destruct (ancestors_walk fuel db (Rubrica.parent_id r)); discriminate.
Qed.

Lemma ancestors_walk_linked (db : DB) (fuel : nat) :
  forall current_id ancestors,
    ancestors_walk fuel db current_id = Some ancestors ->
    linked ancestors
    /\ match ancestors with
       | [] => truthy_id current_id = false \/ get_rubrica db (default 0 current_id) = None
       | a :: _ => truthy_id current_id = true
                   /\ get_rubrica db (default 0 current_id) = Some a
       end.
Proof.
  induction fuel as [|fuel IH]; intros c l; cbn [ancestors_walk]; [discriminate|].
  destruct (truthy_id c) eqn:Hc; [|intros H; injection H as <-; cbn; auto].
  destruct (get_rubrica db (default 0 c)) as [r|] eqn:Hr;
    [|intros H; injection H as <-; cbn; auto].
  destruct (ancestors_walk fuel db (Rubrica.parent_id r)) as [l'|] eqn:Hl'; [|discriminate].
  intros H. injection H as <-.
  destruct (IH _ _ Hl') as (Hlinked & Hhead).
  split; [|auto].
  destruct l' as [|b l']; [exact I|]. cbn [linked]. split; [|exact Hlinked].
  destruct Hhead as [Ht Hb]. apply get_rubrica_some in Hb. destruct Hb as [Hid _].
  destruct (Rubrica.parent_id r) as [p|]; [|discriminate]. cbn in Hid. congruence.
Qed.

Lemma linked_child (l : list Rubrica.t) (h a : Rubrica.t) :
  linked (h :: l) -> In a l ->
  exists b, In b (h :: l) /\ Rubrica.parent_id b = Some (Rubrica.id a).
Proof.
  revert h. induction l as [|c l IH]; intros h Hl []; subst.
  - exists h. split; [left; reflexivity|]. exact (proj1 Hl).
  - destruct (IH c (proj2 Hl) H) as (b & Hb & Hp). exists b. split; [right; exact Hb|exact Hp].
Qed.

(** Along a list whose links stay in one fiscal year, every row is in the
    fiscal year of the first. *)
Lemma linked_year (rows : list Rubrica.t) (l : list Rubrica.t) (h : Rubrica.t) :
  linked (h :: l) ->
  (forall a, In a (h :: l) -> In a rows) ->
  (forall a p, In a (h :: l) -> In p rows ->
               Rubrica.parent_id a = Some (Rubrica.id p) ->
               Rubrica.exercicio p = Rubrica.exercicio a) ->
  forall a, In a (h :: l) -> Rubrica.exercicio a = Rubrica.exercicio h.
Proof.
  revert h. induction l as [|b l IH]; intros h Hl Hin Hyear a Ha.
  - destruct Ha as [<-|[]]. reflexivity.
  - destruct Ha as [<-|Ha]; [reflexivity|].
    destruct Hl as [Hp Hl].
    rewrite (IH b Hl (fun x Hx => Hin x (or_intror Hx))
                (fun x p Hx => Hyear x p (or_intror Hx)) a Ha).
    apply (Hyear h b); [left; reflexivity| |exact Hp].
    apply Hin. right. left. reflexivity.
Qed.

(** *** The rows that [get_ancestors] answers with *)

Lemma existsb_eqb_in (k : Z) (ids : list Z) : existsb (Z.eqb k) ids = true <-> In k ids.
Proof.
  rewrite existsb_exists. split.
  - intros (j & Hj & He). apply Z.eqb_eq in He. subst. exact Hj.
  - intros H. exists k. split; [exact H|apply Z.eqb_refl].
Qed.

Lemma filter_none {A : Type} (p : A -> bool) (l : list A) :
  (forall x, In x l -> p x = false) -> List.filter p l = [].
Proof.
  induction l as [|x l IH]; intros H; [reflexivity|]. cbn [List.filter].
  rewrite (H x (or_introl eq_refl)). apply IH. intros y Hy. apply H. right. exact Hy.
Qed.

(** They are the rows of the walk, in another order. *)
Lemma get_ancestors_walk (db : DB) (x : Z) (found : list Rubrica.t) :
  NoDup (List.map Rubrica.id (rubricas db)) ->
  get_ancestors db x = Some found ->
  exists walk,
    ancestors_walk (S (length (rubricas db))) db (Some x) = Some walk
    /\ forall a, In a found <-> In a walk.
Proof.
  intros Hnd. unfold get_ancestors.
  destruct (ancestors_walk (S (length (rubricas db))) db (Some x)) as [walk|] eqn:Hwalk;
    [|discriminate].
  intros H. injection H as <-. exists walk. split; [reflexivity|].
  intros a. rewrite filter_In, existsb_eqb_in, in_map_iff. split.
  - intros (Ha & w & Hid & Hw).
    assert (w = a) as <-; [|exact Hw].
    apply (wf_same_row (rubricas db)); auto.
    exact (ancestors_walk_in db _ _ _ Hwalk w Hw).
  - intros Ha. split; [exact (ancestors_walk_in db _ _ _ Hwalk a Ha)|eauto].
Qed.

Lemma get_ancestors_in (db : DB) (x : Z) (found : list Rubrica.t) (a : Rubrica.t) :
  get_ancestors db x = Some found -> In a found -> In a (rubricas db).
Proof.
  unfold get_ancestors. destruct (ancestors_walk _ db (Some x)); [|discriminate].
  intros H. injection H as <-. intros Ha. apply filter_In in Ha. tauto.
Qed.

Lemma get_ancestors_closed (db : DB) (x : Z) (found : list Rubrica.t) :
  NoDup (List.map Rubrica.id (rubricas db)) ->
  get_ancestors db x = Some found ->
  forall a rp, In a found -> In rp (rubricas db) ->
               Rubrica.parent_id a = Some (Rubrica.id rp) -> 0 < Rubrica.id rp ->
               In rp found.
Proof.
  intros Hnd Hfound a rp Ha Hrp Hp Hpos.
  destruct (get_ancestors_walk db x found Hnd Hfound) as (walk & Hwalk & Hsame).
  apply Hsame. apply Hsame in Ha.
  exact (ancestors_walk_closed db _ Hnd _ _ Hwalk a rp Ha Hrp Hp Hpos).
Qed.

(** No row when no rubrica has the key, and only then. *)
Lemma get_ancestors_missing (db : DB) (x : Z) :
  get_rubrica db x = None -> get_ancestors db x = Some [].
Proof.
  intros Hnone. unfold get_ancestors. cbn [ancestors_walk].
  change (default 0 (Some x)) with x.
  destruct (truthy_id (Some x)); rewrite ?Hnone; cbn [List.map];
    (rewrite filter_none; [reflexivity|intros; reflexivity]).
Qed.

Lemma get_ancestors_nil (db : DB) (x : Z) :
  NoDup (List.map Rubrica.id (rubricas db)) ->
  (forall r, In r (rubricas db) -> 0 < Rubrica.id r) ->
  get_ancestors db x = Some [] -> get_rubrica db x = None.
Proof.
  intros Hnd Hpos Hfound.
  destruct (get_ancestors_walk db x [] Hnd Hfound) as (walk & Hwalk & Hsame).
  destruct walk as [|w walk]; [exact (ancestors_walk_nil db _ x Hpos Hwalk)|].
  destruct (proj2 (Hsame w) (or_introl eq_refl)).
Qed.

Lemma get_ancestors_self (db : DB) (x : Z) (rx : Rubrica.t) (found : list Rubrica.t) :
  NoDup (List.map Rubrica.id (rubricas db)) ->
  (forall r, In r (rubricas db) -> 0 < Rubrica.id r) ->
  get_rubrica db x = Some rx ->
  get_ancestors db x = Some found -> In rx found.
Proof.
  intros Hnd Hpos Hrx Hfound.
  destruct (get_ancestors_walk db x found Hnd Hfound) as (walk & Hwalk & Hsame).
  apply Hsame.
  destruct (ancestors_walk_head db (S (length (rubricas db))) x rx walk) as [rest ->];
    [|exact Hrx|exact Hwalk|left; reflexivity].
  apply get_rubrica_some in Hrx. destruct Hrx as [Hid Hin]. specialize (Hpos rx Hin). lia.
Qed.

(** When the links of the rows stay in one fiscal year, the rows are in
    one fiscal year. *)
Lemma get_ancestors_one_year (db : DB) (x : Z) (found : list Rubrica.t) :
  NoDup (List.map Rubrica.id (rubricas db)) ->
  get_ancestors db x = Some found ->
  (forall a p, In a found -> In p (rubricas db) ->
               Rubrica.parent_id a = Some (Rubrica.id p) ->
               Rubrica.exercicio p = Rubrica.exercicio a) ->
  forall a b, In a found -> In b found -> Rubrica.exercicio a = Rubrica.exercicio b.
Proof.
  intros Hnd Hfound Hyear a b Ha Hb.
  destruct (get_ancestors_walk db x found Hnd Hfound) as (walk & Hwalk & Hsame).
  apply Hsame in Ha. apply Hsame in Hb.
  destruct walk as [|h l]; [destruct Ha|].
  destruct (ancestors_walk_linked db _ _ _ Hwalk) as [Hlinked _].
  assert (Hall : forall c, In c (h :: l) -> Rubrica.exercicio c = Rubrica.exercicio h).
  { apply (linked_year (rubricas db)); [exact Hlinked| |].
    - intros c Hc. exact (ancestors_walk_in db _ _ _ Hwalk c Hc).
    - intros c p Hc. apply Hyear. apply Hsame. exact Hc. }
  rewrite (Hall a Ha), (Hall b Hb). reflexivity.
Qed.

Lemma insert_by_nivel_in (x a : Rubrica.t) (l : list Rubrica.t) :
  In a (insert_by_nivel x l) <-> a = x \/ In a l.
Proof.
  induction l as [|y l IH]; simpl; [intuition|].
  destruct (Rubrica.nivel x <? Rubrica.nivel y); simpl; rewrite ?IH; intuition.
Qed.

Lemma sorted_by_nivel_desc_in (a : Rubrica.t) (l : list Rubrica.t) :
  In a (sorted_by_nivel_desc l) <-> In a l.
Proof.
  unfold sorted_by_nivel_desc. induction l as [|x l IH]; simpl; [tauto|].
  rewrite insert_by_nivel_in, IH. intuition.
Qed.

Lemma hierarchy_wf_map (g : Rubrica.t -> Rubrica.t) (rows : list Rubrica.t) :
  (forall x, Rubrica.id (g x) = Rubrica.id x
             /\ Rubrica.parent_id (g x) = Rubrica.parent_id x) ->
  hierarchy_wf rows -> hierarchy_wf (List.map g rows).
Proof.
  intros Hg (Hnd & Hpos & Hprec). split; [|split].
  - rewrite map_map. erewrite map_ext; [exact Hnd|]. intros x. apply Hg.
  - intros r Hr. apply in_map_iff in Hr. destruct Hr as (x & <- & Hx).
    rewrite (proj1 (Hg x)). auto.
  - intros r p Hr Hp. apply in_map_iff in Hr. destruct Hr as (x & <- & Hx).
    rewrite (proj1 (Hg x)). rewrite (proj2 (Hg x)) in Hp. exact (Hprec x p Hx Hp).
Qed.

Lemma with_rubricas_same (db : DB) : with_rubricas (rubricas db) db = db.
Proof. destruct db. reflexivity. Qed.

Lemma apply_cache_empty (rows : list Rubrica.t) : List.map (apply_cache ∅) rows = rows.
Proof.
  rewrite <- (map_id rows) at 2. apply map_ext. intros r.
  unfold apply_cache. rewrite lookup_empty. reflexivity.
Qed.

(** The recalculation from [x], on a well-formed table in which every row
    off the chain of [x] satisfies the invariant: it ends without an
    exception, writes only computed allocations, and leaves the invariant
    holding at every row. *)
Lemma recalculate_dotacao_chain_restores (s : Session) (x : Z) :
  hierarchy_wf (rubricas (working s)) ->
  (forall r, In r (rubricas (working s)) ->
             inv_at (rubricas (working s)) r \/ on_chain (working s) x r) ->
  exists cache,
    let rows' := List.map (apply_cache cache) (rubricas (working s)) in
    recalculate_dotacao_chain x s
    = (Ok tt, mkSession (persisted s) (with_rubricas rows' (working s)))
    /\ hierarchy_wf rows' /\ hierarchy_inv rows'.
Proof.
  destruct s as [pdb db]. cbn [working persisted].
  intros Hwf Hrest. pose proof Hwf as (Hnd & Hpos & Hprec).
  unfold recalculate_dotacao_chain. run_step.
  destruct (get_ancestors_total db x Hprec) as [found Hfound].
  unfold on_chain, chain_from in Hrest. rewrite Hfound in *. cbn [default] in Hrest.
  destruct found as [|a0 rest].
  - rewrite (get_ancestors_nil db x Hnd Hpos Hfound).
    exists ∅. cbv zeta. rewrite apply_cache_empty, with_rubricas_same.
    split; [reflexivity|]. split; [exact Hwf|].
    intros r Hr. destruct (Hrest r Hr) as [H|(? & ? & H & _)]; [exact H|discriminate].
  - set (e := Rubrica.exercicio a0).
    set (all_rubricas := List.filter (fun r => Rubrica.exercicio r =? e) (rubricas db)).
    assert (Hall_nd : NoDup (List.map Rubrica.id all_rubricas))
      by (apply NoDup_map_filter; exact Hnd).
    assert (Hall_prec : parent_precedes all_rubricas).
    { intros r p Hr Hp. apply filter_In in Hr. destruct Hr as [Hr _]. exact (Hprec r p Hr Hp). }
    destruct (calculate_ancestors_ok all_rubricas Hall_nd Hall_prec
                (S (length all_rubricas)) (sorted_by_nivel_desc (a0 :: rest))
                (Nat.lt_succ_diag_r _) (fun _ => False) ∅)
      as (cache & Hrun & _ & Hok & Hreach & Hcached).
    { intros k v Hk. rewrite lookup_empty in Hk. discriminate. }
    { intros k [v Hk]. rewrite lookup_empty in Hk. discriminate. }
    fold e. fold all_rubricas. rewrite Hrun.
    assert (Hflush : flush_calculated e cache (rubricas db)
                     = List.map (apply_cache cache) (rubricas db)).
    { apply flush_is_apply; assumption. }
    exists cache. cbv zeta. cbn [working persisted]. rewrite Hflush.
    split; [reflexivity|]. split.
    + apply hierarchy_wf_map; [|exact Hwf].
      intros y. pose proof (apply_cache_shape cache y). tauto.
    + rewrite <- Hflush.
      apply flush_restores with (chain := a0 :: rest); try assumption.
      * intros k Hk. destruct (Hreach k Hk) as [[[]|(a & Ha & Haid)]|H]; [|right; exact H].
        left. exists a. split; [apply sorted_by_nivel_desc_in; exact Ha|exact Haid].
      * intros a Ha Hain. apply Hcached; [apply sorted_by_nivel_desc_in; exact Ha|exact Hain].
      * intros a Ha. exact (get_ancestors_in db x _ a Hfound Ha).
      * intros a rp Ha Hrp Hp.
        exact (get_ancestors_closed db x _ Hnd Hfound a rp Ha Hrp Hp (Hpos rp Hrp)).
      * intros r Hr. destruct (Hrest r Hr) as [H|(a0' & rest' & Heq & Hin & Hy)]; [auto|].
        injection Heq as <- <-. right. split; [exact Hin|exact Hy].
Qed.

(** ** Mutations of the hierarchy keep the invariant *)

Section Maintains.
Variable P : Session -> Prop.

Lemma maintains_ret {A : Type} (a : A) : maintains P (ret a).
Proof. intros s r s' Hs H. injection H as <- <-. exact Hs. Qed.

Lemma maintains_raise {A : Type} (e : Exception) : maintains P (@raise A e).
Proof. intros s r s' Hs H. injection H as <- <-. exact Hs. Qed.

Lemma maintains_query {A : Type} (q : DB -> A) : maintains P (query q).
Proof. intros s r s' Hs H. injection H as <- <-. exact Hs. Qed.

Lemma maintains_bind {A B : Type} (m : M A) (k : A -> M B) :
  maintains P m -> (forall a, maintains P (k a)) -> maintains P (bind m k).
Proof.
  intros Hm Hk s r s' Hs H. unfold bind in H.
  destruct (m s) as [[a|e] s1] eqn:Hms.
  - exact (Hk a _ _ _ (Hm _ _ _ Hs Hms) H).
  - injection H as <- <-. exact (Hm _ _ _ Hs Hms).
Qed.

Lemma maintains_try_except {A : Type} (body : M A) (handler : Exception -> M A) :
  maintains P body -> (forall e, maintains P (handler e)) ->
  maintains P (try_except body handler).
Proof.
  intros Hb Hh s r s' Hs H. unfold try_except in H.
  destruct (body s) as [[a|e] s1] eqn:Hbs.
  - injection H as <- <-. exact (Hb _ _ _ Hs Hbs).
  - pose proof (Hb _ _ _ Hs Hbs) as Hs1.
    destruct (catchable e).
    + exact (Hh e _ _ _ Hs1 H).
    + injection H as <- <-. exact Hs1.
Qed.

Lemma maintains_fold_m {A S : Type} (body : S -> A -> M S) (l : list A) (acc : S) :
  (forall acc x, maintains P (body acc x)) -> maintains P (fold_m body l acc).
Proof.
  intros Hb. revert acc. induction l as [|x l IH]; intros acc; simpl.
  - apply maintains_ret.
  - apply maintains_bind; auto.
Qed.

Lemma maintains_value_error_400 {A : Type} (m : M A) :
  maintains P m -> maintains P (value_error_400 m).
Proof.
  intros Hm s r s' Hs H. unfold value_error_400 in H.
  destruct (m s) as [[a|e] s1] eqn:Hms.
  - injection H as <- <-. exact (Hm _ _ _ Hs Hms).
  - pose proof (Hm _ _ _ Hs Hms) as Hs1.
    destruct e; injection H as <- <-; exact Hs1.
Qed.

End Maintains.

Lemma same_year_but (P : Z) (rows : list Rubrica.t) : same_year rows -> years_but P rows.
Proof. intros H r p Hr Hp Hpar. left. exact (H r p Hr Hp Hpar). Qed.

Lemma years_but_none (rows : list Rubrica.t) :
  (forall r, In r rows -> 0 < Rubrica.id r) -> years_but 0 rows -> same_year rows.
Proof.
  intros Hpos H r p Hr Hp Hpar. destruct (H r p Hr Hp Hpar) as [Hy|Hz]; [exact Hy|].
  specialize (Hpos p Hp). lia.
Qed.

Lemma years_but_map (P : Z) (g : Rubrica.t -> Rubrica.t) (rows : list Rubrica.t) :
  (forall x, In x rows ->
             Rubrica.id (g x) = Rubrica.id x
             /\ Rubrica.parent_id (g x) = Rubrica.parent_id x
             /\ Rubrica.exercicio (g x) = Rubrica.exercicio x) ->
  years_but P rows -> years_but P (List.map g rows).
Proof.
  intros Hg H r' p' Hr' Hp' Hpar.
  apply in_map_iff in Hr'. destruct Hr' as (r & <- & Hr).
  apply in_map_iff in Hp'. destruct Hp' as (p & <- & Hp).
  destruct (Hg r Hr) as (R1 & R2 & R3). destruct (Hg p Hp) as (P1 & P2 & P3).
  rewrite R2, P1 in Hpar. rewrite R3, P3, P1. exact (H r p Hr Hp Hpar).
Qed.

Lemma years_but_apply (P : Z) (cache : gmap Z Z) (rows : list Rubrica.t) :
  years_but P rows -> years_but P (List.map (apply_cache cache) rows).
Proof.
  apply years_but_map. intros x _. pose proof (apply_cache_shape cache x). tauto.
Qed.

Lemma require_admin_settled (P : Z) (user : Z) : maintains (settled P) (require_admin user).
Proof.
  unfold require_admin. apply maintains_bind; [apply maintains_query|intros papeis].
  destruct (tem_papel "admin" papeis); [apply maintains_ret|apply maintains_raise].
Qed.

(** Recalculation followed by a commit, from a settled session. *)
Lemma recalculate_commit_settled (P : Z) (x : Z) :
  maintains (settled P) (recalculate_dotacao_chain x ;;; commit).
Proof.
  intros s r s' (Hp & Hwf & Hinv & Hyears) H.
  destruct (recalculate_dotacao_chain_restores s x Hwf) as (cache & Hrun & Hwf' & Hinv').
  { intros y Hy. left. apply Hinv. exact Hy. }
  revert H. unfold bind. rewrite Hrun. unfold commit. cbn [working persisted].
  intros H. injection H as <- <-. split; [reflexivity|]. cbn [working rubricas with_rubricas].
  split; [assumption|]. split; [assumption|]. apply years_but_apply. exact Hyears.
Qed.

Lemma recalculate_commit_then_settled {A : Type} (P : Z) (x : Z) (k : M A) :
  maintains (settled P) k ->
  maintains (settled P) (recalculate_dotacao_chain x ;;; commit ;;; k).
Proof.
  intros Hk s r s' Hs H.
  apply (maintains_bind (settled P) (recalculate_dotacao_chain x ;;; commit) (fun _ => k)
           (recalculate_commit_settled P x) (fun _ => Hk) s r s' Hs).
  rewrite <- H. unfold bind. destruct (recalculate_dotacao_chain x s) as [[[]|e] s1]; reflexivity.
Qed.

(** *** Chains *)

Lemma chain_from_self (db : DB) (x : Z) (rx : Rubrica.t) :
  hierarchy_wf (rubricas db) -> get_rubrica db x = Some rx -> In rx (chain_from db x).
Proof.
  intros (Hnd & Hpos & Hprec) Hrx. unfold chain_from.
  destruct (get_ancestors_total db x Hprec) as [l Hl]. rewrite Hl. cbn [default].
  exact (get_ancestors_self db x rx l Hnd Hpos Hrx Hl).
Qed.

Lemma chain_from_parent (db : DB) (x : Z) (a rp : Rubrica.t) :
  hierarchy_wf (rubricas db) ->
  In a (chain_from db x) -> In rp (rubricas db) ->
  Rubrica.parent_id a = Some (Rubrica.id rp) -> In rp (chain_from db x).
Proof.
  intros (Hnd & Hpos & Hprec) Ha Hrp Hp. unfold chain_from in *.
  destruct (get_ancestors db x) as [l|] eqn:Hl; [|destruct Ha]. cbn [default] in *.
  exact (get_ancestors_closed db x l Hnd Hl a rp Ha Hrp Hp (Hpos rp Hrp)).
Qed.

(** A row of the chain of [x], when the links of the chain stay in one
    fiscal year, is in the fiscal year that the recalculation works on. *)
Lemma on_chain_in (db : DB) (x : Z) (r : Rubrica.t) :
  hierarchy_wf (rubricas db) ->
  (forall a p, In a (chain_from db x) -> In p (rubricas db) ->
               Rubrica.parent_id a = Some (Rubrica.id p) ->
               Rubrica.exercicio p = Rubrica.exercicio a) ->
  In r (chain_from db x) -> on_chain db x r.
Proof.
  intros (Hnd & Hpos & Hprec) Hyear Hr. unfold on_chain. unfold chain_from in *.
  destruct (get_ancestors db x) as [l|] eqn:Hl; [|destruct Hr]. cbn [default] in *.
  destruct l as [|a0 rest]; [destruct Hr|].
  exists a0, rest. split; [reflexivity|]. split; [exact Hr|].
  apply (get_ancestors_one_year db x (a0 :: rest) Hnd Hl Hyear); [exact Hr|left; reflexivity].
Qed.

(** In a table where every rubrica is in the fiscal year of its parent, the
    row of [x] is on the chain of [x], and so is its parent. *)
Lemma on_chain_self (db : DB) (x : Z) (rx : Rubrica.t) :
  hierarchy_wf (rubricas db) -> same_year (rubricas db) ->
  get_rubrica db x = Some rx -> on_chain db x rx.
Proof.
  intros Hwf Hyear Hrx. apply on_chain_in; [exact Hwf| |apply chain_from_self; assumption].
  intros a p Ha Hp. apply Hyear; [|exact Hp].
  unfold chain_from in Ha. destruct (get_ancestors db x) as [l|] eqn:Hl; [|destruct Ha].
  exact (get_ancestors_in db x l a Hl Ha).
Qed.

Lemma on_chain_parent (db : DB) (x : Z) (rx rp : Rubrica.t) :
  hierarchy_wf (rubricas db) -> same_year (rubricas db) ->
  get_rubrica db x = Some rx ->
  In rp (rubricas db) -> Rubrica.parent_id rx = Some (Rubrica.id rp) ->
  on_chain db x rp.
Proof.
  intros Hwf Hyear Hrx Hrp Hp. apply on_chain_in; [exact Hwf| |].
  - intros a p Ha Hpin. apply Hyear; [|exact Hpin].
    unfold chain_from in Ha. destruct (get_ancestors db x) as [l|] eqn:Hl; [|destruct Ha].
    exact (get_ancestors_in db x l a Hl Ha).
  - apply (chain_from_parent db x rx rp); auto. apply chain_from_self; assumption.
Qed.

(** *** A row is added *)

Lemma active_children_app (rows more : list Rubrica.t) (r : Rubrica.t) :
  active_children (rows ++ more) r = active_children rows r ++ active_children more r.
Proof. unfold active_children. apply List.filter_app. Qed.

Lemma inv_at_ext (rows rows' : list Rubrica.t) (r r' : Rubrica.t) :
  active_children rows' r' = active_children rows r ->
  Rubrica.dotacao_calculada r' = Rubrica.dotacao_calculada r ->
  Rubrica.dotacao_inicial r' = Rubrica.dotacao_inicial r ->
  inv_at rows r -> inv_at rows' r'.
Proof. unfold inv_at. intros -> -> ->. auto. Qed.

Lemma next_id_pos (ids : list Z) : 0 < next_id ids.
Proof.
  unfold next_id. assert (0 <= fold_right Z.max 0 ids); [|lia].
  induction ids; simpl; lia.
Qed.

Lemma hierarchy_wf_add (rows : list Rubrica.t) (nx : Rubrica.t) :
  hierarchy_wf rows ->
  Rubrica.id nx = next_id (List.map Rubrica.id rows) ->
  (forall p, Rubrica.parent_id nx = Some p -> In p (List.map Rubrica.id rows)) ->
  hierarchy_wf (rows ++ [nx]).
Proof.
  intros (Hnd & Hpos & Hprec) Hid Hparent. split; [|split].
  - rewrite map_app. simpl. apply NoDup_app. split; [exact Hnd|]. split.
    + intros k Hk Hin. apply list_elem_of_In in Hin. destruct Hin as [Hin|[]].
      apply list_elem_of_In in Hk. apply next_id_fresh in Hk. lia.
    + apply NoDup_singleton.
  - intros r [Hr|[<-|[]]]%in_app_or; [auto|]. rewrite Hid. apply next_id_pos.
  - intros r p [Hr|[<-|[]]]%in_app_or Hp; [exact (Hprec r p Hr Hp)|].
    rewrite Hid. apply next_id_fresh. apply Hparent. exact Hp.
Qed.

(** The keys of a walk do not exceed the key it starts from. *)
Lemma ancestors_walk_le (db : DB) (fuel : nat) :
  parent_precedes (rubricas db) ->
  forall current_id ancestors,
    ancestors_walk fuel db current_id = Some ancestors ->
    forall a, In a ancestors -> exists k, current_id = Some k /\ Rubrica.id a <= k.
Proof.
  intros Hprec. induction fuel as [|fuel IH]; intros c l; cbn [ancestors_walk]; [discriminate|].
  destruct (truthy_id c) eqn:Hc; [|intros H; injection H as <-; intros a []].
  destruct c as [k|]; [|discriminate]. change (default 0 (Some k)) with k.
  destruct (get_rubrica db k) as [r|] eqn:Hr; [|intros H; injection H as <-; intros a []].
  destruct (ancestors_walk fuel db (Rubrica.parent_id r)) as [l'|] eqn:Hl'; [|discriminate].
  intros H. injection H as <-. intros a Ha. exists k. split; [reflexivity|].
  apply get_rubrica_some in Hr. destruct Hr as [Hid Hin].
  destruct Ha as [<-|Ha]; [lia|].
  destruct (IH _ _ Hl' a Ha) as (q & Hq & Hle).
  specialize (Hprec r q Hin Hq). lia.
Qed.

(** A row of the chain of [x] is the row of [x] or has a key that does not
    exceed the key of the parent of [x]. *)
Lemma chain_from_le (db : DB) (x q : Z) (rx a : Rubrica.t) :
  hierarchy_wf (rubricas db) -> get_rubrica db x = Some rx ->
  Rubrica.parent_id rx = Some q ->
  In a (chain_from db x) -> a = rx \/ Rubrica.id a <= q.
Proof.
  intros (Hnd & Hpos & Hprec) Hrx Hq Ha. unfold chain_from in Ha.
  destruct (get_ancestors db x) as [l|] eqn:Hl; [|destruct Ha]. cbn [default] in Ha.
  destruct (get_ancestors_walk db x l Hnd Hl) as (walk & Hwalk & Hsame).
  apply Hsame in Ha. revert Hwalk. cbn [ancestors_walk].
  assert (Hx : truthy_id (Some x) = true).
  { apply get_rubrica_some in Hrx. destruct Hrx as [Hid Hin]. specialize (Hpos rx Hin).
    cbn. destruct (Z.eqb_spec x 0); [lia|reflexivity]. }
  rewrite Hx. change (default 0 (Some x)) with x. rewrite Hrx.
  destruct (ancestors_walk (length (rubricas db)) db (Rubrica.parent_id rx)) as [l'|] eqn:Hl';
    [|discriminate].
  intros H. injection H as <-. destruct Ha as [<-|Ha]; [left; reflexivity|right].
  destruct (ancestors_walk_le db _ Hprec _ _ Hl' a Ha) as (k & Hk & Hle). congruence.
Qed.

Lemma create_rubrica_settled (P : Z) (novo : RubricaCreate.t) :
  (forall p, RubricaCreate.parent_id novo = Some p -> p = P) ->
  maintains (settled P) (create_rubrica novo).
Proof.
  intros HP [pdb db] r s' (Hp & Hwf & Hinv & Hyears). cbn [working persisted] in *. subst pdb.
  assert (Hsame : settled P (mkSession db db))
    by (split; [reflexivity|split; [exact Hwf|split; [exact Hinv|exact Hyears]]]).
  unfold create_rubrica. run_step.
  match goal with
  | |- context [rubrica_insert_allowed db ?x] => set (nx := x)
  end.
  match goal with
  | |- (if ?c then _ else _) _ = _ -> _ => destruct c
  end; [intros H; injection H as <- <-; exact Hsame|].
  match goal with
  | |- (if ?c then _ else _) _ = _ -> _ => destruct c
  end; [intros H; injection H as <- <-; exact Hsame|].
  destruct (rubrica_insert_allowed db nx) eqn:Hallowed; cbn [negb];
    [|intros H; injection H as <- <-; exact Hsame].
  assert (Hnid : Rubrica.id nx = next_id (List.map Rubrica.id (rubricas db))) by reflexivity.
  pose proof (next_id_pos (List.map Rubrica.id (rubricas db))) as Hnpos.
  destruct (Z.eqb_spec (Rubrica.id nx) 0) as [Hz|_]; [lia|]. cbn [negb].
  set (db1 := with_rubricas (rubricas db ++ [nx]) db).
  assert (Hwf1 : hierarchy_wf (rubricas db1)).
  { apply hierarchy_wf_add; [exact Hwf|exact Hnid|].
    intros p Hp. unfold rubrica_insert_allowed in Hallowed. rewrite Hp in Hallowed.
    destruct (get_rubrica db p) as [rp|] eqn:Hrp; [|discriminate].
    apply get_rubrica_some in Hrp. destruct Hrp as [<- Hin]. apply in_map. exact Hin. }
  assert (Hnx : get_rubrica db1 (Rubrica.id nx) = Some nx).
  { apply get_rubrica_in; [apply Hwf1|]. apply in_or_app. right. left. reflexivity. }
  assert (Hold : forall a, In a (rubricas db) -> Rubrica.id a < Rubrica.id nx).
  { intros a Ha. rewrite Hnid. apply next_id_fresh. apply in_map. exact Ha. }
  assert (Hnochild : forall c, In c (rubricas db1) ->
                               Rubrica.parent_id c <> Some (Rubrica.id nx)).
  { intros c Hc Hpar. destruct Hwf1 as (_ & _ & Hprec1). specialize (Hprec1 c _ Hc Hpar).
    destruct (in_app_or _ _ _ Hc) as [Hcold|[<-|[]]]; [specialize (Hold c Hcold)|]; lia. }
  assert (Hyears1 : years_but P (rubricas db1)).
  { intros a p Ha Hpin Hpar.
    destruct (in_app_or _ _ _ Hpin) as [Hpold|[<-|[]]];
      [|exfalso; exact (Hnochild a Ha Hpar)].
    destruct (in_app_or _ _ _ Ha) as [Haold|[<-|[]]]; [exact (Hyears a p Haold Hpold Hpar)|].
    right. apply HP. exact Hpar. }
  destruct (recalculate_dotacao_chain_restores (mkSession db1 db1) (Rubrica.id nx) Hwf1)
    as (cache & Hrun & Hwf' & Hinv').
  { cbn [working]. intros y Hy.
    destruct (in_app_or _ _ _ Hy) as [Hyold|[<-|[]]].
    2:{ (* the new row has no child, and is entered with its own allocation *)
      left. unfold inv_at.
      assert (Hnone : active_children (rubricas db1) nx = []).
      { unfold active_children. apply filter_none. intros c Hc.
        unfold col_is. destruct (Rubrica.parent_id c) as [q|] eqn:Hq; [|reflexivity].
        destruct (Z.eqb_spec q (Rubrica.id nx)) as [->|_]; [|reflexivity].
        exfalso. exact (Hnochild c Hc Hq). }
      rewrite Hnone. unfold nx. cbn [Rubrica.dotacao_calculada Rubrica.dotacao_inicial].
      destruct (RubricaCreate.parent_id novo); reflexivity. }
    destruct (sums_over y nx) eqn:Hs.
    - right. unfold sums_over in Hs. apply andb_true_iff in Hs. destruct Hs as [Hs _].
      apply andb_true_iff in Hs. destruct Hs as [Hs Hy'].
      unfold col_is in Hs. destruct (Rubrica.parent_id nx) as [q|] eqn:Hpnx; [|discriminate].
      apply Z.eqb_eq in Hs. subst q. apply Z.eqb_eq in Hy'.
      assert (HyP : Rubrica.id y = P) by (apply HP; exact Hpnx).
      apply on_chain_in; [exact Hwf1| |].
      + intros a p Ha Hpin Hpar.
        assert (Hain : In a (rubricas db1)).
        { unfold chain_from in Ha.
          destruct (get_ancestors db1 (Rubrica.id nx)) as [l|] eqn:Hl; [|destruct Ha].
          exact (get_ancestors_in db1 _ l a Hl Ha). }
        destruct (Hyears1 a p Hain Hpin Hpar) as [Hyr|Hbad]; [exact Hyr|].
        assert (p = y) as ->.
        { apply (wf_same_row (rubricas db1)); [apply Hwf1|exact Hpin|exact Hy|congruence]. }
        destruct (chain_from_le db1 (Rubrica.id nx) (Rubrica.id y) nx a Hwf1 Hnx Hpnx Ha)
          as [->|Hle]; [symmetry; exact Hy'|].
        destruct Hwf1 as (_ & _ & Hprec1). specialize (Hprec1 a _ Hain Hpar). lia.
      + apply (chain_from_parent db1 (Rubrica.id nx) nx y); auto.
        apply chain_from_self; assumption.
    - left. apply (inv_at_ext (rubricas db) _ y y); auto.
      change (rubricas db1) with (rubricas db ++ [nx]). rewrite active_children_app.
      change (active_children [nx] y) with (if sums_over y nx then [nx] else []).
      rewrite Hs. apply app_nil_r. }
  cbv zeta in Hrun, Hwf', Hinv'.
  cbn [working persisted] in Hrun, Hwf', Hinv' |- *. fold db1. rewrite Hrun. cbn [working].
  intros H. injection H as <- <-. split; [reflexivity|]. cbn [working rubricas with_rubricas].
  split; [assumption|]. split; [assumption|]. apply years_but_apply. exact Hyears1.
Qed.

(** *** A row is replaced *)

Lemma filter_map_fixed {A : Type} (p : A -> bool) (g : A -> A) (l : list A) :
  (forall c, In c l -> g c = c \/ (p c = false /\ p (g c) = false)) ->
  List.filter p (List.map g l) = List.filter p l.
Proof.
  induction l as [|c l IH]; intros H; simpl; [reflexivity|].
  rewrite IH by (intros c' Hc'; apply H; right; exact Hc').
  destruct (H c (or_introl eq_refl)) as [->|[-> ->]]; reflexivity.
Qed.

(** Replacing the row [found] by one with the same key, parent and fiscal
    year leaves the active children of every row that [found] is not a
    child of as they were. *)
Lemma replace_row_children (rows : list Rubrica.t) (f : Rubrica.t -> Rubrica.t)
    (found r0 r' : Rubrica.t) :
  NoDup (List.map Rubrica.id rows) -> In found rows ->
  Rubrica.parent_id (f found) = Rubrica.parent_id found ->
  Rubrica.exercicio (f found) = Rubrica.exercicio found ->
  Rubrica.id r' = Rubrica.id r0 -> Rubrica.exercicio r' = Rubrica.exercicio r0 ->
  child_of r0 found = false ->
  active_children (update_where (fun r => Rubrica.id r =? Rubrica.id found) f rows) r'
  = active_children rows r0.
Proof.
  intros Hnd Hfound Hfp Hfy Hid Hy Hno. unfold active_children, update_where.
  rewrite Hid, Hy. apply filter_map_fixed. intros c Hc.
  destruct (Z.eqb_spec (Rubrica.id c) (Rubrica.id found)) as [Heq|_]; [|left; reflexivity].
  right. assert (c = found) as -> by exact (wf_same_row rows c found Hnd Hc Hfound Heq).
  rewrite Hfp, Hfy. unfold child_of in Hno. rewrite Hno. split; reflexivity.
Qed.

Lemma hierarchy_wf_replace (rows : list Rubrica.t) (f : Rubrica.t -> Rubrica.t)
    (found : Rubrica.t) :
  hierarchy_wf rows -> In found rows ->
  Rubrica.id (f found) = Rubrica.id found ->
  Rubrica.parent_id (f found) = Rubrica.parent_id found ->
  hierarchy_wf (update_where (fun r => Rubrica.id r =? Rubrica.id found) f rows).
Proof.
  intros (Hnd & Hpos & Hprec) Hfound Hfi Hfp.
  assert (Hg : forall x, In x rows ->
             Rubrica.id (if Rubrica.id x =? Rubrica.id found then f x else x) = Rubrica.id x
             /\ Rubrica.parent_id (if Rubrica.id x =? Rubrica.id found then f x else x)
                = Rubrica.parent_id x).
  { intros x Hx. destruct (Z.eqb_spec (Rubrica.id x) (Rubrica.id found)) as [Heq|_]; [|auto].
    assert (x = found) as -> by exact (wf_same_row rows x found Hnd Hx Hfound Heq). auto. }
  unfold update_where. split; [|split].
  - rewrite map_map. erewrite map_ext_in; [exact Hnd|]. intros x Hx. apply Hg. exact Hx.
  - intros r Hr. apply in_map_iff in Hr. destruct Hr as (x & <- & Hx).
    rewrite (proj1 (Hg x Hx)). auto.
  - intros r p Hr Hp. apply in_map_iff in Hr. destruct Hr as (x & <- & Hx).
    rewrite (proj1 (Hg x Hx)). rewrite (proj2 (Hg x Hx)) in Hp. exact (Hprec x p Hx Hp).
Qed.

Lemma in_update_where (rows : list Rubrica.t) (f : Rubrica.t -> Rubrica.t)
    (found y : Rubrica.t) :
  NoDup (List.map Rubrica.id rows) -> In found rows ->
  In y (update_where (fun r => Rubrica.id r =? Rubrica.id found) f rows) ->
  y = f found \/ (In y rows /\ Rubrica.id y <> Rubrica.id found).
Proof.
  intros Hnd Hfound Hy. unfold update_where in Hy. apply in_map_iff in Hy.
  destruct Hy as (x & <- & Hx).
  destruct (Z.eqb_spec (Rubrica.id x) (Rubrica.id found)) as [Heq|Hne]; [|auto].
  left. f_equal. exact (wf_same_row rows x found Hnd Hx Hfound Heq).
Qed.

Lemma update_where_in_new (rows : list Rubrica.t) (f : Rubrica.t -> Rubrica.t)
    (found : Rubrica.t) :
  In found rows ->
  In (f found) (update_where (fun r => Rubrica.id r =? Rubrica.id found) f rows).
Proof.
  intros Hfound. unfold update_where. apply in_map_iff. exists found.
  rewrite Z.eqb_refl. auto.
Qed.

Lemma update_where_in_old (rows : list Rubrica.t) (f : Rubrica.t -> Rubrica.t)
    (found y : Rubrica.t) :
  In y rows -> Rubrica.id y <> Rubrica.id found ->
  In y (update_where (fun r => Rubrica.id r =? Rubrica.id found) f rows).
Proof.
  intros Hy Hne. unfold update_where. apply in_map_iff. exists y.
  destruct (Z.eqb_spec (Rubrica.id y) (Rubrica.id found)); [contradiction|auto].
Qed.

Lemma child_of_true (r found : Rubrica.t) :
  child_of r found = true ->
  Rubrica.parent_id found = Some (Rubrica.id r)
  /\ Rubrica.exercicio r = Rubrica.exercicio found.
Proof.
  unfold child_of, col_is. intros H. apply andb_true_iff in H. destruct H as [H1 H2].
  destruct (Rubrica.parent_id found) as [p|]; [|discriminate].
  apply Z.eqb_eq in H1. apply Z.eqb_eq in H2. subst p. auto.
Qed.

Lemma not_child_of_self (rows : list Rubrica.t) (r : Rubrica.t) :
  parent_precedes rows -> In r rows -> child_of r r = false.
Proof.
  intros Hprec Hr. destruct (child_of r r) eqn:H; [|reflexivity].
  apply child_of_true in H. destruct H as [H _]. specialize (Hprec r _ Hr H). lia.
Qed.

Lemma years_but_replace (P : Z) (rows : list Rubrica.t) (f : Rubrica.t -> Rubrica.t)
    (found : Rubrica.t) :
  NoDup (List.map Rubrica.id rows) -> In found rows ->
  Rubrica.id (f found) = Rubrica.id found ->
  Rubrica.parent_id (f found) = Rubrica.parent_id found ->
  Rubrica.exercicio (f found) = Rubrica.exercicio found ->
  years_but P rows ->
  years_but P (update_where (fun r => Rubrica.id r =? Rubrica.id found) f rows).
Proof.
  intros Hnd Hfound Hfi Hfp Hfy. unfold update_where. apply years_but_map.
  intros x Hx. destruct (Z.eqb_spec (Rubrica.id x) (Rubrica.id found)) as [Heq|_]; [|auto].
  assert (x = found) as -> by exact (wf_same_row rows x found Hnd Hx Hfound Heq). auto.
Qed.

(** After the row [found] is replaced by one with the same key, parent and
    fiscal year, in a table where every rubrica is in the fiscal year of
    its parent, every row is as the invariant wants it or on the chain of
    the replaced row. *)
Lemma replace_row_rest (db : DB) (f : Rubrica.t -> Rubrica.t) (found : Rubrica.t) :
  hierarchy_wf (rubricas db) -> hierarchy_inv (rubricas db) -> years_but 0 (rubricas db) ->
  In found (rubricas db) ->
  Rubrica.id (f found) = Rubrica.id found ->
  Rubrica.parent_id (f found) = Rubrica.parent_id found ->
  Rubrica.exercicio (f found) = Rubrica.exercicio found ->
  let rows1 := update_where (fun r => Rubrica.id r =? Rubrica.id found) f (rubricas db) in
  forall y, In y rows1 ->
            inv_at rows1 y \/ on_chain (with_rubricas rows1 db) (Rubrica.id found) y.
Proof.
  intros Hwf Hinv Hyears Hfound Hfi Hfp Hfy rows1 y Hy.
  assert (Hwf1 : hierarchy_wf rows1) by (apply hierarchy_wf_replace; assumption).
  assert (Hyear1 : same_year rows1).
  { apply years_but_none; [apply Hwf1|].
    apply years_but_replace; try assumption. apply Hwf. }
  destruct Hwf as (Hnd & Hpos & Hprec).
  assert (Hnew : get_rubrica (with_rubricas rows1 db) (Rubrica.id found) = Some (f found)).
  { rewrite <- Hfi. apply get_rubrica_in; [apply Hwf1|].
    apply update_where_in_new. exact Hfound. }
  destruct (in_update_where _ f found y Hnd Hfound Hy) as [->|[Hyold Hne]].
  - right. apply on_chain_self; assumption.
  - destruct (child_of y found) eqn:Hc.
    + right. apply child_of_true in Hc. destruct Hc as [Hp Hyear].
      apply (on_chain_parent _ _ (f found) y); auto; congruence.
    + left. apply (inv_at_ext (rubricas db) rows1 y y); auto.
      apply replace_row_children; auto.
Qed.

Lemma apply_rubrica_update_keys (u : RubricaUpdate.t) (r : Rubrica.t) :
  Rubrica.id (apply_rubrica_update u r) = Rubrica.id r
  /\ Rubrica.parent_id (apply_rubrica_update u r) = Rubrica.parent_id r
  /\ Rubrica.exercicio (apply_rubrica_update u r) = Rubrica.exercicio r.
Proof.
  unfold apply_rubrica_update.
  destruct (RubricaUpdate.designacao u) as [[?|]|];
    destruct (RubricaUpdate.dotacao_inicial u) as [?|];
    destruct (RubricaUpdate.status u) as [[?|]|]; auto.
Qed.

Lemma update_rubrica_settled (rubrica_id : Z) (rubrica_update : RubricaUpdate.t) :
  maintains (settled 0) (update_rubrica rubrica_id rubrica_update).
Proof.
  intros [pdb db] r s' (Hp & Hwf & Hinv & Hyears). cbn [working persisted] in *. subst pdb.
  assert (Hsame : settled 0 (mkSession db db))
    by (split; [reflexivity|split; [exact Hwf|split; [exact Hinv|exact Hyears]]]).
  unfold update_rubrica. run_step.
  destruct (get_rubrica db rubrica_id) as [found|] eqn:Hfound;
    [|intros H; injection H as <- <-; exact Hsame].
  match goal with
  | |- (if ?c then _ else _) _ = _ -> _ => destruct c
  end; [intros H; injection H as <- <-; exact Hsame|].
  match goal with
  | |- (if ?c then _ else _) _ = _ -> _ => destruct c
  end; [intros H; injection H as <- <-; exact Hsame|].
  destruct (rubrica_update_allowed rubrica_update); cbn [negb];
    [|intros H; injection H as <- <-; exact Hsame].
  match goal with
  | |- context [update_where _ (fun _ => ?u)] => set (updated := u)
  end.
  apply get_rubrica_some in Hfound. destruct Hfound as [<- Hin].
  assert (Hkeys : Rubrica.id updated = Rubrica.id found
                  /\ Rubrica.parent_id updated = Rubrica.parent_id found
                  /\ Rubrica.exercicio updated = Rubrica.exercicio found).
  { destruct (apply_rubrica_update_keys rubrica_update found) as (K1 & K2 & K3).
    subst updated.
    destruct (RubricaUpdate.dotacao_inicial rubrica_update);
      destruct (Rubrica.parent_id (apply_rubrica_update rubrica_update found)) eqn:E;
      unfold Rubrica.set_dotacao_calculada;
      cbn [Rubrica.id Rubrica.parent_id Rubrica.exercicio];
      (split; [|split]); congruence. }
  destruct Hkeys as (K1 & K2 & K3).
  set (rows1 := update_where (fun r => Rubrica.id r =? Rubrica.id found)
                             (fun _ => updated) (rubricas db)).
  set (db1 := with_rubricas rows1 db).
  assert (Hwf1 : hierarchy_wf (rubricas db1)).
  { apply (hierarchy_wf_replace (rubricas db) (fun _ => updated) found); assumption. }
  assert (Hyears1 : years_but 0 rows1).
  { apply (years_but_replace 0 (rubricas db) (fun _ => updated) found); try assumption.
    apply Hwf. }
  destruct (recalculate_dotacao_chain_restores (mkSession db1 db1) (Rubrica.id found) Hwf1)
    as (cache & Hrun & Hwf' & Hinv').
  { cbn [working]. apply (replace_row_rest db (fun _ => updated) found); assumption. }
  cbv zeta in Hrun, Hwf', Hinv'.
  cbn [working persisted] in Hrun, Hwf', Hinv' |- *. fold rows1. fold db1. rewrite Hrun.
  cbn [working].
  intros H. injection H as <- <-. split; [reflexivity|]. cbn [working rubricas with_rubricas].
  split; [assumption|]. split; [assumption|]. apply years_but_apply. exact Hyears1.
Qed.

Lemma create_rubrica_endpoint_settled (novo : RubricaCreate.t) (current_user : Z) :
  maintains (settled (default 0 (RubricaCreate.parent_id novo)))
            (create_rubrica_endpoint novo current_user).
Proof.
  unfold create_rubrica_endpoint.
  apply maintains_bind; [apply require_admin_settled|intros _].
  apply maintains_bind; [apply maintains_query|intros db].
  destruct (get_rubrica_by_codigo_exercicio db _ _); [apply maintains_raise|].
  apply maintains_value_error_400. apply create_rubrica_settled.
  intros p ->. reflexivity.
Qed.

Lemma update_rubrica_endpoint_settled (rubrica_id : Z) (rubrica_update : RubricaUpdate.t)
    (current_user : Z) :
  maintains (settled 0) (update_rubrica_endpoint rubrica_id rubrica_update current_user).
Proof.
  unfold update_rubrica_endpoint.
  apply maintains_bind; [apply require_admin_settled|intros _].
  apply maintains_value_error_400.
  apply maintains_bind; [apply update_rubrica_settled|intros [rubrica|]];
    [|apply maintains_raise].
  apply recalculate_commit_then_settled. apply maintains_query.
Qed.

Lemma create_rubricas_batch_item_settled (parent_id exercicio : Z) (tipo : TipoRubrica)
    (acc : RubricaBatchResponse) (item : RubricaBatchItem.t) :
  maintains (settled parent_id)
            (create_rubricas_batch_item parent_id exercicio tipo acc item).
Proof.
  unfold create_rubricas_batch_item.
  apply maintains_try_except; [|intros e; apply maintains_ret].
  apply maintains_bind; [apply maintains_query|intros db].
  destruct (get_rubrica_by_codigo_exercicio db _ _); [apply maintains_ret|].
  apply maintains_bind; [apply create_rubrica_settled|intros _].
  { intros p H. injection H as <-. reflexivity. }
  apply maintains_try_except; [|intros e; apply maintains_ret].
  apply recalculate_commit_then_settled. apply maintains_ret.
Qed.

Lemma create_rubricas_batch_settled (batch_data : RubricaBatchCreate.t) (current_user : Z) :
  maintains (settled (RubricaBatchCreate.parent_id batch_data))
            (create_rubricas_batch batch_data current_user).
Proof.
  unfold create_rubricas_batch.
  apply maintains_bind; [apply require_admin_settled|intros _].
  destruct (RubricaBatchCreate.tipo batch_data) as [tipo|]; [|apply maintains_raise].
  apply maintains_bind; [apply maintains_query|intros db].
  destruct (get_rubrica db _); [|apply maintains_raise].
  apply maintains_fold_m. intros acc item. apply create_rubricas_batch_item_settled.
Qed.

(** *** A row is deactivated *)

(** After the row [found] is replaced by one that differs in its status
    only, every row is as the invariant wants it, except the parent of
    [found] in the same fiscal year. *)
Lemma deactivate_row_rest (rows : list Rubrica.t) (found : Rubrica.t) :
  hierarchy_wf rows -> hierarchy_inv rows -> In found rows ->
  let rows1 := update_where (fun r => Rubrica.id r =? Rubrica.id found)
                            (Rubrica.set_status INATIVA) rows in
  forall y, In y rows1 ->
            inv_at rows1 y
            \/ (Rubrica.parent_id found = Some (Rubrica.id y) /\ 0 < Rubrica.id y).
Proof.
  intros (Hnd & Hpos & Hprec) Hinv Hfound rows1 y Hy.
  destruct (in_update_where _ (Rubrica.set_status INATIVA) found y Hnd Hfound Hy)
    as [->|[Hyold Hne]].
  - left. apply (inv_at_ext rows rows1 found _); auto.
    apply replace_row_children; auto. exact (not_child_of_self rows found Hprec Hfound).
  - destruct (child_of y found) eqn:Hc.
    + right. apply child_of_true in Hc. destruct Hc as [Hp _]. auto.
    + left. apply (inv_at_ext rows rows1 y y); auto.
      apply replace_row_children; auto.
Qed.

Lemma delete_rubrica_endpoint_settled (rubrica_id : Z) (current_user : Z) :
  maintains (settled 0) (delete_rubrica_endpoint rubrica_id current_user).
Proof.
  unfold delete_rubrica_endpoint.
  apply maintains_bind; [apply require_admin_settled|intros _].
  intros [pdb db] r s' (Hp & Hwf & Hinv & Hyears). cbn [working persisted] in *. subst pdb.
  assert (Hsame : settled 0 (mkSession db db))
    by (split; [reflexivity|split; [exact Hwf|split; [exact Hinv|exact Hyears]]]).
  run_step.
  destruct (get_rubrica db rubrica_id) as [found|] eqn:Hfound;
    [|intros H; injection H as <- <-; exact Hsame].
  apply get_rubrica_some in Hfound. destruct Hfound as [<- Hin].
  set (rows1 := update_where (fun r => Rubrica.id r =? Rubrica.id found)
                             (Rubrica.set_status INATIVA) (rubricas db)).
  set (db1 := with_rubricas rows1 db).
  assert (Hwf1 : hierarchy_wf (rubricas db1)).
  { apply (hierarchy_wf_replace (rubricas db) (Rubrica.set_status INATIVA) found); auto. }
  assert (Hyears1 : years_but 0 rows1).
  { apply (years_but_replace 0 (rubricas db) (Rubrica.set_status INATIVA) found); auto.
    apply Hwf. }
  pose proof (deactivate_row_rest (rubricas db) found Hwf Hinv Hin) as Hrest.
  fold rows1 in Hrest. cbv zeta in Hrest.
  destruct (truthy_id (Rubrica.parent_id found)) eqn:Htruthy.
  - destruct (Rubrica.parent_id found) as [p|] eqn:Hparent; [|discriminate].
    cbn [default from_option id].
    destruct (recalculate_dotacao_chain_restores (mkSession db1 db1) p Hwf1)
      as (cache & Hrun & Hwf' & Hinv').
    { cbn [working]. intros y Hy. destruct (Hrest y Hy) as [Hy'|[Hp Hpos]]; [left; exact Hy'|].
      right. injection Hp as ->. apply on_chain_self; [exact Hwf1| |].
      - apply years_but_none; [apply Hwf1|exact Hyears1].
      - apply get_rubrica_in; [apply Hwf1|exact Hy]. }
    cbv zeta in Hrun, Hwf', Hinv'.
    cbn [working persisted] in Hrun, Hwf', Hinv' |- *. fold rows1. fold db1. rewrite Hrun.
    cbn [working].
    intros H. injection H as <- <-. split; [reflexivity|].
    cbn [working rubricas with_rubricas].
    split; [assumption|]. split; [assumption|]. apply years_but_apply. exact Hyears1.
  - cbn [working persisted]. fold rows1. fold db1.
    intros H. injection H as <- <-. split; [reflexivity|]. split; [exact Hwf1|].
    split; [|exact Hyears1].
    intros y Hy. destruct (Hrest y Hy) as [Hy'|[Hp Hpos]]; [exact Hy'|].
    rewrite Hp in Htruthy. unfold truthy_id in Htruthy.
    destruct (Z.eqb_spec (Rubrica.id y) 0); [lia|discriminate].
Qed.

(** *** The four mutations as requests *)

Lemma run_request_settled {A : Type} (P : Z) (m : M A) (db : DB) :
  maintains (settled P) m ->
  hierarchy_wf (rubricas db) -> same_year (rubricas db) -> hierarchy_inv (rubricas db) ->
  hierarchy_wf (rubricas (snd (run_request m db)))
  /\ hierarchy_inv (rubricas (snd (run_request m db))).
Proof.
  intros Hm Hwf Hyear Hinv. unfold run_request.
  destruct (m (mkSession db db)) as [r s'] eqn:Hrun.
  assert (Hs : settled P (mkSession db db)).
  { split; [reflexivity|]. split; [exact Hwf|]. split; [exact Hinv|].
    apply same_year_but. exact Hyear. }
  destruct (Hm _ _ _ Hs Hrun) as (Hp & Hwf' & Hinv' & _).
  cbn [snd]. rewrite Hp. split; assumption.
Qed.

Lemma three_levels_rows :
  rubricas three_levels
  = [ Rubrica.mk 1 "1" "Root" DESPESA None 1 (Some 0) (Some 10000) 2024 ATIVA;
      Rubrica.mk 2 "1.1" "Middle" DESPESA (Some 1) 2 (Some 5000) (Some 10000) 2024 ATIVA;
      Rubrica.mk 3 "1.1.1" "Leaf" DESPESA (Some 2) 3 (Some 10000) (Some 10000) 2024 ATIVA ].
Proof. vm_compute. reflexivity. Qed.

Lemma three_levels_wf : hierarchy_wf (rubricas three_levels).
Proof.
  rewrite three_levels_rows. split; [|split].
  - apply (bool_decide_unpack _). vm_compute. exact I.
  - intros r [<-|[<-|[<-|[]]]]; simpl; lia.
  - intros r p [<-|[<-|[<-|[]]]]; simpl; intros H; try discriminate;
      injection H as <-; lia.
Qed.

Lemma three_levels_inv : hierarchy_inv (rubricas three_levels).
Proof.
  rewrite three_levels_rows. intros r [<-|[<-|[<-|[]]]]; vm_compute; reflexivity.
Qed.

Lemma three_levels_same_year : same_year (rubricas three_levels).
Proof.
  rewrite three_levels_rows. intros r p Hr Hp _.
  destruct Hr as [<-|[<-|[<-|[]]]]; destruct Hp as [<-|[<-|[<-|[]]]]; reflexivity.
Qed.

(** C1 (amended).  On a well-formed rubrica table (unique positive keys,
    parents created before their children) in which every rubrica is in the
    fiscal year of its parent and which satisfies the allocation
    invariant, each of the four mutations that run the recalculation
    (create, batch-create of children, update, soft-delete) leaves a
    well-formed table that satisfies it again, whatever the request
    answered: every row with at least one active child in its fiscal year
    has [dotacao_calculada] equal to the sum of the [dotacao_calculada] of
    those children, and every row with none has it equal to its
    [dotacao_inicial], 0.00 when absent. *)
Theorem mutation_preserves_allocation_invariant (q : RubricaMutation) (db : DB) :
  hierarchy_wf (rubricas db) -> same_year (rubricas db) -> hierarchy_inv (rubricas db) ->
  hierarchy_wf (rubricas (after_mutation q db))
  /\ hierarchy_inv (rubricas (after_mutation q db)).
Proof.
  intros Hwf Hyear Hinv. destruct q; cbn [after_mutation].
  - apply (run_request_settled (default 0 (RubricaCreate.parent_id novo))); auto.
    apply create_rubrica_endpoint_settled.
  - apply (run_request_settled (RubricaBatchCreate.parent_id batch_data)); auto.
    apply create_rubricas_batch_settled.
  - apply (run_request_settled 0); auto. apply update_rubrica_endpoint_settled.
  - apply (run_request_settled 0); auto. apply delete_rubrica_endpoint_settled.
Qed.

Lemma mutation_preserves_allocation_invariant_witness :
  hierarchy_wf (rubricas three_levels) /\ same_year (rubricas three_levels)
  /\ hierarchy_inv (rubricas three_levels)
  /\ hierarchy_wf (rubricas (after_mutation (MutSoftDelete 3 1) three_levels))
  /\ hierarchy_inv (rubricas (after_mutation (MutSoftDelete 3 1) three_levels)).
Proof.
  split; [exact three_levels_wf|]. split; [exact three_levels_same_year|].
  split; [exact three_levels_inv|].
  exact (mutation_preserves_allocation_invariant (MutSoftDelete 3 1) three_levels
           three_levels_wf three_levels_same_year three_levels_inv).
Defined.

(** Where a rubrica is in another fiscal year than its parent, the
    recalculation works on the fiscal year of the first row that
    [get_ancestors] answers with, and the rows of the other years are left
    as they are.  The table of [two_years] is well formed and satisfies the
    invariant; a child entered in 2025 under its row of 2025, with an
    initial allocation of 100.00, leaves that row with a computed
    allocation of 0.00 and an active child of 100.00 in its fiscal year. *)
Lemma recalculation_stays_in_one_year :
  let novo := RubricaCreate.mk "1.1.1" "Leaf" DESPESA (Some 2) 1 (Some 10000) 2025 ATIVA in
  let middle := Rubrica.mk 2 "1.1" "Middle" DESPESA (Some 1) 2 (Some 0) (Some 0) 2025 ATIVA in
  let leaf := Rubrica.mk 3 "1.1.1" "Leaf" DESPESA (Some 2) 3 (Some 10000) (Some 10000)
                         2025 ATIVA in
  hierarchy_wf (rubricas two_years)
  /\ hierarchy_inv (rubricas two_years)
  /\ ~ same_year (rubricas two_years)
  /\ option_map (List.map Rubrica.id) (get_ancestors two_years 2) = Some [1; 2]
  /\ get_rubrica (after_mutation (MutCreate novo 1) two_years) 2 = Some middle
  /\ active_children (rubricas (after_mutation (MutCreate novo 1) two_years)) middle = [leaf]
  /\ ~ hierarchy_inv (rubricas (after_mutation (MutCreate novo 1) two_years)).
Proof.
  cbv zeta.
  assert (Hrows : rubricas two_years
                  = [ Rubrica.mk 1 "1" "Root" DESPESA None 1 (Some 0) (Some 0) 2024 ATIVA;
                      Rubrica.mk 2 "1.1" "Middle" DESPESA (Some 1) 2 (Some 0) (Some 0)
                                 2025 ATIVA ])
    by (vm_compute; reflexivity).
  split; [|split; [|split; [|split; [|split; [|split]]]]].
  - rewrite Hrows. split; [|split].
    + apply (bool_decide_unpack _). vm_compute. exact I.
    + intros r [<-|[<-|[]]]; simpl; lia.
    + intros r p [<-|[<-|[]]]; simpl; intros H; try discriminate; injection H as <-; lia.
  - rewrite Hrows. intros r [<-|[<-|[]]]; vm_compute; reflexivity.
  - rewrite Hrows. intros H.
    specialize (H (Rubrica.mk 2 "1.1" "Middle" DESPESA (Some 1) 2 (Some 0) (Some 0) 2025 ATIVA)
                  (Rubrica.mk 1 "1" "Root" DESPESA None 1 (Some 0) (Some 0) 2024 ATIVA)
                  (or_intror (or_introl eq_refl)) (or_introl eq_refl) eq_refl).
    discriminate H.
  - vm_compute. reflexivity.
  - vm_compute. reflexivity.
  - vm_compute. reflexivity.
  - intros H.
    specialize (H (Rubrica.mk 2 "1.1" "Middle" DESPESA (Some 1) 2 (Some 0) (Some 0) 2025 ATIVA)).
    assert (Hin : In (Rubrica.mk 2 "1.1" "Middle" DESPESA (Some 1) 2 (Some 0) (Some 0)
                                 2025 ATIVA)
                     (rubricas (after_mutation
                                  (MutCreate (RubricaCreate.mk "1.1.1" "Leaf" DESPESA (Some 2) 1
                                                               (Some 10000) 2025 ATIVA) 1)
                                  two_years))).
    { vm_compute. right. left. reflexivity. }
    specialize (H Hin). vm_compute in H. discriminate H.
Qed.

(** C1, as stated, fails.  With a leaf read as a row without children, the
    three-level table satisfies the invariant in 2024; the soft-delete of
    its deepest row leaves the middle row with a child, hence not a leaf,
    and with a computed allocation of 50.00, its own initial allocation,
    where the sum over its active children is 0.00. *)
Lemma soft_delete_breaks_leaf_sum_invariant :
  leaf_sum_inv three_levels 2024
  /\ ~ leaf_sum_inv (after_mutation (MutSoftDelete 3 1) three_levels) 2024.
Proof.
  split.
  - intros r Hr _. rewrite three_levels_rows in Hr.
    destruct Hr as [<-|[<-|[<-|[]]]]; vm_compute; reflexivity.
  - intros H.
    specialize (H (Rubrica.mk 2 "1.1" "Middle" DESPESA (Some 1) 2 (Some 5000) (Some 5000)
                              2024 ATIVA)).
    assert (Hin : In (Rubrica.mk 2 "1.1" "Middle" DESPESA (Some 1) 2 (Some 5000) (Some 5000)
                                 2024 ATIVA)
                     (rubricas (after_mutation (MutSoftDelete 3 1) three_levels))).
    { vm_compute. right. left. reflexivity. }
    specialize (H Hin eq_refl). vm_compute in H. discriminate H.
Qed.

(** ** The currency parser *)

(** C9.  [parse_currency] reads "1.234.567,89" and "1,234,567.89" as the
    same exact decimal, 1234567.89 (with both separators present the
    rightmost is the decimal one); it reads the text 1.234,56 behind a euro
    sign as 1234.56; and on "abc" it returns no value. *)
Theorem parse_currency_examples :
  parse_currency "1.234.567,89" = Some (Dec.Finite false 123456789 (-2))
  /\ parse_currency "1,234,567.89" = Some (Dec.Finite false 123456789 (-2))
  /\ parse_currency (euro ++ "1.234,56") = Some (Dec.Finite false 123456 (-2))
  /\ parse_currency (euro ++ " 1.234,56 ") = Some (Dec.Finite false 123456 (-2))
  /\ parse_currency "abc" = None.
Proof. repeat split; vm_compute; reflexivity. Qed.

(** ** A confirmed expense: updates and removals *)

(** C7, what the code does.  Once an expense is [CONFIRMADA], the update
    endpoint answers 400 and changes nothing for every caller, an
    administrator included: the flag computed from the caller's roles is
    handed to [update_despesa], which never reads it.  The removal endpoint
    answers 400 and changes nothing for every caller. *)
Theorem confirmed_expense_rejects_update_and_delete
    (today : Date) (db : DB) (despesa_id : Z) (despesa : Despesa.t)
    (despesa_data : DespesaUpdate.t) (current_user : Z) :
  get_despesa db despesa_id = Some despesa ->
  Despesa.status despesa = CONFIRMADA ->
  run_request (update_despesa_endpoint today despesa_id despesa_data current_user) db
  = (Raise (HTTPException 400 EditarDespesaConfirmada), db)
  /\ run_request (delete_despesa_endpoint despesa_id current_user) db
     = (Raise (HTTPException 400 RemoverDespesaConfirmada), db).
Proof.
  intros Hget Hst. split.
  - unfold update_despesa_endpoint, update_despesa. run_step. rewrite Hget.
    rewrite bool_decide_eq_true_2 by exact Hst. reflexivity.
  - unfold delete_despesa_endpoint, delete_despesa. run_step. rewrite Hget.
    cbn [working]. rewrite Hget.
    rewrite bool_decide_eq_true_2 by exact Hst. reflexivity.
Qed.

Lemma confirmed_expense_rejects_update_and_delete_witness :
  tem_papel "admin" (get_usuario_papeis Scenario.confirmed 1) = true
  /\ (exists despesa, get_despesa Scenario.confirmed 1 = Some despesa
                      /\ Despesa.status despesa = CONFIRMADA)
  /\ run_request (update_despesa_endpoint Scenario.today 1
                    (DespesaUpdate.mk None None None None (Some (Some "nota"%string)) None
                                      None None None None) 1) Scenario.confirmed
     = (Raise (HTTPException 400 EditarDespesaConfirmada), Scenario.confirmed)
  /\ run_request (delete_despesa_endpoint 1 1) Scenario.confirmed
     = (Raise (HTTPException 400 RemoverDespesaConfirmada), Scenario.confirmed).
Proof.
  split; [vm_compute; reflexivity|].
  split; [eexists; split; vm_compute; reflexivity|].
  refine (confirmed_expense_rejects_update_and_delete Scenario.today Scenario.confirmed 1
            (Despesa.mk 1 (Some 2) None (Some "ACME"%string) None None None 5000000
                        (Some (mkDate 2024 3 15)) 2024 3 None CONFIRMADA)
            _ 1 _ _); vm_compute; reflexivity.
Defined.

(** ** Monthly execution rows: the stored allocation *)

Lemma keeps_stored_dotacoes_refl (db : DB) : keeps_stored_dotacoes db db.
Proof. exists []. rewrite app_nil_r. reflexivity. Qed.

Lemma keeps_with_rubricas (ref db : DB) (v : list Rubrica.t) :
  keeps_stored_dotacoes ref db -> keeps_stored_dotacoes ref (with_rubricas v db).
Proof. intros H. exact H. Qed.

Lemma keeps_add_execucao (ref db : DB) (rubrica_id mes ano dotacao gasto saldo : Z) :
  keeps_stored_dotacoes ref db ->
  keeps_stored_dotacoes ref (add_execucao rubrica_id mes ano dotacao gasto saldo db).
Proof.
  intros [created H]. unfold keeps_stored_dotacoes, add_execucao. simpl.
  rewrite map_app, H, <- app_assoc. eexists. reflexivity.
Qed.

Lemma keeps_update_execucao (ref db : DB) (found : ExecucaoMensal.t) (gasto_total : Z) :
  keeps_stored_dotacoes ref db ->
  keeps_stored_dotacoes ref (update_execucao found gasto_total db).
Proof.
  intros [created H]. exists created. rewrite <- H.
  unfold update_execucao, update_where. simpl. rewrite map_map.
  apply map_ext. intros e. destruct (ExecucaoMensal.id e =? ExecucaoMensal.id found); reflexivity.
Qed.

Lemma recalculate_execucao_mensal_keeps (ref : DB) (rubrica_id mes ano : Z) :
  preserves (keeps_stored_dotacoes ref) (recalculate_execucao_mensal rubrica_id mes ano).
Proof.
  unfold recalculate_execucao_mensal.
  apply preserves_bind; [apply preserves_query|intros db].
  destruct (get_rubrica db rubrica_id); [|apply preserves_raise].
  apply preserves_bind.
  { apply preserves_try_except; [|intros; apply preserves_ret].
    apply preserves_bind; [|intros; apply preserves_commit].
    apply recalculate_dotacao_chain_frame. intros; apply keeps_with_rubricas; assumption. }
  intros _. apply preserves_bind; [apply preserves_query|intros db1].
  destruct (get_execucao db1 rubrica_id mes ano).
  - frame. apply preserves_write. intros; apply keeps_update_execucao; assumption.
  - destruct (0 <? gasto_confirmado db1 rubrica_id mes ano); [|apply preserves_ret].
    frame. apply preserves_write. intros; apply keeps_add_execucao; assumption.
Qed.

Lemma update_execucao_mensal_keeps (ref : DB) (rubrica_id mes ano : Z) :
  preserves (keeps_stored_dotacoes ref) (update_execucao_mensal rubrica_id mes ano).
Proof.
  unfold update_execucao_mensal.
  apply preserves_bind; [apply preserves_query|intros db].
  destruct (get_rubrica db rubrica_id); [|apply preserves_raise].
  destruct (get_execucao db rubrica_id mes ano); frame; apply preserves_write; intros.
  - apply keeps_update_execucao; assumption.
  - apply keeps_add_execucao; assumption.
Qed.

Lemma update_ancestors_execucao_mensal_keeps (ref : DB) (rubrica_id mes ano : Z) :
  preserves (keeps_stored_dotacoes ref) (update_ancestors_execucao_mensal rubrica_id mes ano).
Proof.
  unfold update_ancestors_execucao_mensal.
  apply preserves_bind; [apply preserves_query|intros db].
  destruct (get_ancestors db rubrica_id); [|apply preserves_raise].
  apply preserves_for_each. intros ancestor. unfold update_ancestor_execucao.
  apply preserves_bind; [apply preserves_query|intros db1].
  destruct (get_execucao db1 (Rubrica.id ancestor) mes ano); apply preserves_write; intros.
  - apply keeps_update_execucao; assumption.
  - apply keeps_add_execucao; assumption.
Qed.

Lemma bind_query {A B : Type} (q : DB -> A) (k : A -> M B) (s : Session) :
  bind (query q) k s = k (q (working s)) s.
Proof. reflexivity. Qed.

Lemma bind_ok {A B : Type} (m : M A) (k : A -> M B) (s s1 : Session) (a : A) :
  m s = (Ok a, s1) -> bind m k s = k a s1.
Proof. intros H. unfold bind. rewrite H. reflexivity. Qed.

(** The guarded recalculation at the head of [recalculate_execucao_mensal]
    ends without an exception when parents precede their children. *)
Lemma recalculation_attempt_ok (rubrica_id : Z) (s : Session) :
  parent_precedes (rubricas (working s)) ->
  exists s1,
    try_except (recalculate_dotacao_chain rubrica_id ;;; commit) (fun _ => ret tt) s
    = (Ok tt, s1).
Proof.
  intros Hprec. destruct (get_ancestors_total (working s) rubrica_id Hprec) as [found Hfound].
  unfold recalculate_dotacao_chain. run_step. rewrite Hfound.
  match goal with
  | |- context [match ?a with [] => _ | _ :: _ => _ end _] => destruct a as [|first_ancestor rest]
  end; [eexists; reflexivity|].
  match goal with
  | |- context [calculate_ancestors ?f ?a ?l ?c] =>
      destruct (calculate_ancestors f a l c) as [[] cache]
  end; eexists; reflexivity.
Qed.

Lemma get_execucao_added (db : DB) (rubrica_id mes ano dotacao gasto saldo : Z) :
  get_execucao db rubrica_id mes ano = None ->
  get_execucao (add_execucao rubrica_id mes ano dotacao gasto saldo db) rubrica_id mes ano
  = Some (ExecucaoMensal.mk (next_id (List.map ExecucaoMensal.id (execucoes_mensais db)))
                            rubrica_id mes ano dotacao gasto saldo).
Proof.
  intros Hnone. unfold get_execucao, add_execucao. simpl.
  apply first_app_new; [exact Hnone|]. simpl. rewrite !Z.eqb_refl. reflexivity.
Qed.

Lemma get_execucao_updated (db : DB) (rubrica_id mes ano gasto_total : Z)
    (found : ExecucaoMensal.t) :
  get_execucao db rubrica_id mes ano = Some found ->
  get_execucao (update_execucao found gasto_total db) rubrica_id mes ano
  = Some (ExecucaoMensal.set_gasto_saldo gasto_total
            (ExecucaoMensal.dotacao found - gasto_total) found).
Proof.
  intros Hfound. unfold get_execucao, update_execucao. simpl.
  apply (first_update_where
           (fun e => (ExecucaoMensal.rubrica_id e =? rubrica_id)
                     && (ExecucaoMensal.mes e =? mes) && (ExecucaoMensal.ano e =? ano))
           (fun e => ExecucaoMensal.id e =? ExecucaoMensal.id found)
           (fun e => ExecucaoMensal.set_gasto_saldo
                       gasto_total (ExecucaoMensal.dotacao e - gasto_total) e)
           (execucoes_mensais db) found); [reflexivity|exact Hfound|].
  apply Z.eqb_refl.
Qed.

(** [crud.recalculate_execucao_mensal], no row yet and confirmed spending:
    the row is created with a twelfth of the computed annual allocation,
    rounded to hundredths. *)
Lemma recalculate_execucao_mensal_creates (s : Session) (rubrica_id mes ano : Z)
    (rubrica : Rubrica.t) :
  parent_precedes (rubricas (working s)) ->
  get_rubrica (working s) rubrica_id = Some rubrica ->
  get_execucao (working s) rubrica_id mes ano = None ->
  0 < gasto_confirmado (working s) rubrica_id mes ano ->
  exists e s',
    recalculate_execucao_mensal rubrica_id mes ano s = (Ok (Some e), s')
    /\ get_execucao (working s') rubrica_id mes ano = Some e
    /\ ExecucaoMensal.dotacao e
       = Dec.round_div (dotacao_calculada_de (working s') rubrica_id) 12.
Proof.
  intros Hprec Hrub Hnone Hpos.
  destruct (recalculation_attempt_ok rubrica_id s Hprec) as [s1 Hs1].
  assert (Hsame : despesas (working s1) = despesas (working s)
                  /\ execucoes_mensais (working s1) = execucoes_mensais (working s)).
  { refine (preserves_try_except
              (fun db => despesas db = despesas (working s)
                         /\ execucoes_mensais db = execucoes_mensais (working s))
              _ _ _ _ s (Ok tt) s1 (conj eq_refl eq_refl) Hs1).
    - apply preserves_bind; [|intros; apply preserves_commit].
      apply recalculate_dotacao_chain_frame. intros db v H. exact H.
    - intros e. apply preserves_ret. }
  destruct Hsame as [Hdesp Hexec].
  assert (Hnone1 : get_execucao (working s1) rubrica_id mes ano = None).
  { unfold get_execucao. rewrite Hexec. exact Hnone. }
  assert (Hgasto1 : gasto_confirmado (working s1) rubrica_id mes ano
                    = gasto_confirmado (working s) rubrica_id mes ano).
  { unfold gasto_confirmado. rewrite Hdesp. reflexivity. }
  unfold recalculate_execucao_mensal. rewrite bind_query, Hrub.
  rewrite (bind_ok _ _ s s1 tt Hs1). rewrite bind_query, Hnone1, Hgasto1.
  rewrite (proj2 (Z.ltb_lt _ _) Hpos).
  run_step. rewrite get_execucao_added by exact Hnone1.
  eexists _, _. split; [reflexivity|]. cbn [working].
  split; [apply get_execucao_added; exact Hnone1|]. reflexivity.
Qed.

(** [update_execucao_mensal] and the loop body of
    [update_ancestors_execucao_mensal], no row yet: the row is created with
    the computed annual allocation itself. *)
Lemma update_execucao_mensal_creates (s : Session) (rubrica_id mes ano : Z)
    (rubrica : Rubrica.t) :
  get_rubrica (working s) rubrica_id = Some rubrica ->
  get_execucao (working s) rubrica_id mes ano = None ->
  exists e s',
    update_execucao_mensal rubrica_id mes ano s = (Ok e, s')
    /\ get_execucao (working s') rubrica_id mes ano = Some e
    /\ ExecucaoMensal.dotacao e = default 0 (Rubrica.dotacao_calculada rubrica).
Proof.
  intros Hrub Hnone. unfold update_execucao_mensal. run_step. rewrite Hrub, Hnone.
  cbn [working]. rewrite get_execucao_added by exact Hnone.
  eexists _, _. split; [reflexivity|]. cbn [working default from_option id].
  split; [apply get_execucao_added; exact Hnone|]. reflexivity.
Qed.

Lemma update_ancestor_execucao_creates (s : Session) (mes ano : Z) (ancestor : Rubrica.t) :
  get_execucao (working s) (Rubrica.id ancestor) mes ano = None ->
  exists e s',
    update_ancestor_execucao mes ano ancestor s = (Ok tt, s')
    /\ get_execucao (working s') (Rubrica.id ancestor) mes ano = Some e
    /\ ExecucaoMensal.dotacao e = default 0 (Rubrica.dotacao_calculada ancestor).
Proof.
  intros Hnone. unfold update_ancestor_execucao. run_step. rewrite Hnone.
  eexists _, _. split; [reflexivity|]. cbn [working].
  split; [apply get_execucao_added; exact Hnone|]. reflexivity.
Qed.

Lemma recalculate_execucao_mensal_updates (s : Session) (rubrica_id mes ano : Z)
    (rubrica : Rubrica.t) (found : ExecucaoMensal.t) :
  parent_precedes (rubricas (working s)) ->
  get_rubrica (working s) rubrica_id = Some rubrica ->
  get_execucao (working s) rubrica_id mes ano = Some found ->
  let gasto_total := gasto_confirmado (working s) rubrica_id mes ano in
  let updated := ExecucaoMensal.set_gasto_saldo
                   gasto_total (ExecucaoMensal.dotacao found - gasto_total) found in
  exists s',
    recalculate_execucao_mensal rubrica_id mes ano s = (Ok (Some updated), s')
    /\ get_execucao (working s') rubrica_id mes ano = Some updated.
Proof.
  intros Hprec Hrub Hfound gasto_total updated.
  destruct (recalculation_attempt_ok rubrica_id s Hprec) as [s1 Hs1].
  assert (Hsame : despesas (working s1) = despesas (working s)
                  /\ execucoes_mensais (working s1) = execucoes_mensais (working s)).
  { refine (preserves_try_except
              (fun db => despesas db = despesas (working s)
                         /\ execucoes_mensais db = execucoes_mensais (working s))
              _ _ _ _ s (Ok tt) s1 (conj eq_refl eq_refl) Hs1).
    - apply preserves_bind; [|intros; apply preserves_commit].
      apply recalculate_dotacao_chain_frame. intros db v H. exact H.
    - intros e. apply preserves_ret. }
  destruct Hsame as [Hdesp Hexec].
  assert (Hfound1 : get_execucao (working s1) rubrica_id mes ano = Some found).
  { unfold get_execucao. rewrite Hexec. exact Hfound. }
  assert (Hgasto1 : gasto_confirmado (working s1) rubrica_id mes ano = gasto_total).
  { unfold gasto_total, gasto_confirmado. rewrite Hdesp. reflexivity. }
  unfold recalculate_execucao_mensal. rewrite bind_query, Hrub.
  rewrite (bind_ok _ _ s s1 tt Hs1). rewrite bind_query, Hfound1, Hgasto1.
  run_step. rewrite (get_execucao_updated _ _ _ _ _ _ Hfound1).
  eexists. split; [reflexivity|]. cbn [working].
  apply get_execucao_updated. exact Hfound1.
Qed.

Lemma update_execucao_mensal_updates (s : Session) (rubrica_id mes ano : Z)
    (rubrica : Rubrica.t) (found : ExecucaoMensal.t) :
  get_rubrica (working s) rubrica_id = Some rubrica ->
  get_execucao (working s) rubrica_id mes ano = Some found ->
  let gasto_total := gasto_confirmado (working s) rubrica_id mes ano in
  let updated := ExecucaoMensal.set_gasto_saldo
                   gasto_total (ExecucaoMensal.dotacao found - gasto_total) found in
  exists s',
    update_execucao_mensal rubrica_id mes ano s = (Ok updated, s')
    /\ get_execucao (working s') rubrica_id mes ano = Some updated.
Proof.
  intros Hrub Hfound gasto_total updated.
  unfold update_execucao_mensal. run_step. rewrite Hrub, Hfound.
  cbn [working]. rewrite (get_execucao_updated _ _ _ _ _ _ Hfound).
  eexists. split; [reflexivity|]. cbn [working].
  apply get_execucao_updated. exact Hfound.
Qed.

(** C5 (amended).  For a rubrica, a month and a year, on a table where
    parents precede their children:
    - with no row yet, [crud.recalculate_execucao_mensal] (given confirmed
      spending) creates the row with a twelfth of the computed annual
      allocation, rounded to hundredths, while [update_execucao_mensal] and
      the loop body of [update_ancestors_execucao_mensal] create it with the
      computed annual allocation itself, undivided;
    - with a row already there, [recalculate_execucao_mensal] and
      [update_execucao_mensal] leave it with the allocation it stored, the
      confirmed spending as [gasto], and that allocation less the spending
      as [saldo];
    - whatever their outcome, the three paths leave every existing row in
      place with the allocation it stored. *)
Theorem execucao_mensal_stored_dotacao
    (s : Session) (rubrica_id mes ano : Z) (rubrica : Rubrica.t) :
  parent_precedes (rubricas (working s)) ->
  get_rubrica (working s) rubrica_id = Some rubrica ->
  (get_execucao (working s) rubrica_id mes ano = None ->
     (0 < gasto_confirmado (working s) rubrica_id mes ano ->
      exists e s',
        recalculate_execucao_mensal rubrica_id mes ano s = (Ok (Some e), s')
        /\ get_execucao (working s') rubrica_id mes ano = Some e
        /\ ExecucaoMensal.dotacao e
           = Dec.round_div (dotacao_calculada_de (working s') rubrica_id) 12)
     /\ (exists e s',
           update_execucao_mensal rubrica_id mes ano s = (Ok e, s')
           /\ get_execucao (working s') rubrica_id mes ano = Some e
           /\ ExecucaoMensal.dotacao e = default 0 (Rubrica.dotacao_calculada rubrica))
     /\ (exists e s',
           update_ancestor_execucao mes ano rubrica s = (Ok tt, s')
           /\ get_execucao (working s') rubrica_id mes ano = Some e
           /\ ExecucaoMensal.dotacao e = default 0 (Rubrica.dotacao_calculada rubrica)))
  /\ (forall found,
        get_execucao (working s) rubrica_id mes ano = Some found ->
        let gasto_total := gasto_confirmado (working s) rubrica_id mes ano in
        let updated := ExecucaoMensal.set_gasto_saldo
                         gasto_total (ExecucaoMensal.dotacao found - gasto_total) found in
        (exists s',
            recalculate_execucao_mensal rubrica_id mes ano s = (Ok (Some updated), s')
            /\ get_execucao (working s') rubrica_id mes ano = Some updated)
        /\ (exists s',
               update_execucao_mensal rubrica_id mes ano s = (Ok updated, s')
               /\ get_execucao (working s') rubrica_id mes ano = Some updated))
  /\ (forall r s',
        recalculate_execucao_mensal rubrica_id mes ano s = (r, s') ->
        keeps_stored_dotacoes (working s) (working s'))
  /\ (forall r s',
        update_execucao_mensal rubrica_id mes ano s = (r, s') ->
        keeps_stored_dotacoes (working s) (working s'))
  /\ (forall r s',
        update_ancestors_execucao_mensal rubrica_id mes ano s = (r, s') ->
        keeps_stored_dotacoes (working s) (working s')).
Proof.
  intros Hprec Hrub. split; [|split; [|split; [|split]]].
  - intros Hnone. split; [|split].
    + intros Hpos.
      exact (recalculate_execucao_mensal_creates s rubrica_id mes ano rubrica
               Hprec Hrub Hnone Hpos).
    + exact (update_execucao_mensal_creates s rubrica_id mes ano rubrica Hrub Hnone).
    + apply get_rubrica_some in Hrub. destruct Hrub as [<- _].
      exact (update_ancestor_execucao_creates s mes ano rubrica Hnone).
  - intros found Hfound. split.
    + exact (recalculate_execucao_mensal_updates s rubrica_id mes ano rubrica found
               Hprec Hrub Hfound).
    + exact (update_execucao_mensal_updates s rubrica_id mes ano rubrica found Hrub Hfound).
  - intros r s' H.
    exact (recalculate_execucao_mensal_keeps (working s) rubrica_id mes ano s r s'
             (keeps_stored_dotacoes_refl _) H).
  - intros r s' H.
    exact (update_execucao_mensal_keeps (working s) rubrica_id mes ano s r s'
             (keeps_stored_dotacoes_refl _) H).
  - intros r s' H.
    exact (update_ancestors_execucao_mensal_keeps (working s) rubrica_id mes ano s r s'
             (keeps_stored_dotacoes_refl _) H).
Qed.

Lemma confirmed_unposted_precedes : parent_precedes (rubricas confirmed_unposted).
Proof.
  intros r p Hr Hp. vm_compute in Hr.
  destruct Hr as [<-|[<-|[]]]; vm_compute in Hp; try discriminate Hp.
  injection Hp as <-. reflexivity.
Qed.

Lemma execucao_mensal_stored_dotacao_witness :
  let s := mkSession confirmed_unposted confirmed_unposted in
  let leaf := Rubrica.mk 2 "1.1" "Leaf" DESPESA (Some 1) 2 (Some 10000000) (Some 10000000)
                         2024 ATIVA in
  get_rubrica confirmed_unposted 2 = Some leaf
  /\ get_execucao confirmed_unposted 2 3 2024 = None
  /\ 0 < gasto_confirmado confirmed_unposted 2 3 2024
  /\ (exists e s',
         recalculate_execucao_mensal 2 3 2024 s = (Ok (Some e), s')
         /\ get_execucao (working s') 2 3 2024 = Some e
         /\ ExecucaoMensal.dotacao e = Dec.round_div (dotacao_calculada_de (working s') 2) 12)
  /\ (exists e s',
         update_execucao_mensal 2 3 2024 s = (Ok e, s')
         /\ get_execucao (working s') 2 3 2024 = Some e
         /\ ExecucaoMensal.dotacao e = 10000000).
Proof.
  cbv zeta.
  assert (Hrub : get_rubrica confirmed_unposted 2
                 = Some (Rubrica.mk 2 "1.1" "Leaf" DESPESA (Some 1) 2 (Some 10000000)
                                    (Some 10000000) 2024 ATIVA))
    by (vm_compute; reflexivity).
  assert (Hnone : get_execucao confirmed_unposted 2 3 2024 = None)
    by (vm_compute; reflexivity).
  assert (Hpos : 0 < gasto_confirmado confirmed_unposted 2 3 2024)
    by (vm_compute; reflexivity).
  split; [exact Hrub|]. split; [exact Hnone|]. split; [exact Hpos|].
  pose proof (proj1 (execucao_mensal_stored_dotacao
                       (mkSession confirmed_unposted confirmed_unposted) 2 3 2024 _
                       confirmed_unposted_precedes Hrub) Hnone) as H.
  split; [exact (proj1 H Hpos)|exact (proj1 (proj2 H))].
Defined.

(** C5, as stated, fails on the simple confirmation path.  In the scenario
    the rubrica "1.1" has a computed annual allocation of 100 000.00 and no
    row for March 2024; [POST /despesas/1/confirmar] creates that row with
    [dotacao] 100 000.00, where a twelfth is 8 333.33. *)
Lemma simple_path_stores_undivided_dotacao :
  let db' := snd (run_request (confirm_despesa_endpoint 1) Scenario.with_expense) in
  get_execucao Scenario.with_expense 2 3 2024 = None
  /\ dotacao_calculada_de Scenario.with_expense 2 = 10000000
  /\ dotacao_calculada_de db' 2 = 10000000
  /\ option_map ExecucaoMensal.dotacao (get_execucao db' 2 3 2024) = Some 10000000
  /\ Dec.round_div 10000000 12 = 833333.
Proof. cbv zeta. repeat split; vm_compute; reflexivity. Qed.

(** ** The import of a row *)

(** The guards passed: the row is stored when its supplier key, if any,
    refers to a supplier, and refused by the table otherwise. *)
Lemma create_despesa_passed (today : Date) (despesa : DespesaCreate.t) (s : Session)
    (exercicio mes : Z) :
  create_despesa_accepts today (working s) despesa = true ->
  despesa_exercicio despesa = Some exercicio ->
  despesa_mes despesa = Some mes ->
  let row := despesa_row (working s) despesa exercicio mes in
  let db' := with_despesas (despesas (working s) ++ [row]) (working s) in
  create_despesa today despesa s
  = if despesa_insert_allowed (working s) row
    then (Ok row, mkSession db' db')
    else (Raise (IntegrityError ChaveEstrangeira), mkSession (persisted s) (persisted s)).
Proof.
  unfold create_despesa_accepts. intros Hacc Hex Hmes.
  repeat (apply andb_true_iff in Hacc; destruct Hacc as [Hacc ?]).
  unfold create_despesa. run_step.
  rewrite Hacc. cbn [negb].
  match goal with H : negb (_ =? 0) = true |- _ => apply negb_true_iff in H; rewrite H end.
  destruct (get_rubrica (working s) (DespesaCreate.rubrica_id despesa)) as [rubrica|];
    [|discriminate].
  match goal with H : bool_decide _ = true |- _ => rewrite H end. cbn [negb].
  match goal with H : is_rubrica_leaf _ _ = true |- _ => rewrite H end. cbn [negb].
  destruct (validar_fornecedor (working s) (DespesaCreate.fornecedor_id despesa));
    [discriminate|].
  fold (despesa_exercicio despesa). fold (despesa_mes despesa).
  rewrite Hex, Hmes in *.
  destruct (DespesaCreate.data_emissao despesa) as [d|] eqn:Hd.
  - match goal with H : _ && _ = true |- _ =>
      apply andb_true_iff in H; destruct H as [Hfut Hyear] end.
    apply negb_true_iff in Hfut. apply negb_true_iff in Hyear. rewrite Hfut, Hyear.
    unfold despesa_row. rewrite Hd.
    match goal with |- context [despesa_insert_allowed ?a ?b] =>
      destruct (despesa_insert_allowed a b) end; reflexivity.
  - unfold despesa_row. rewrite Hd.
    match goal with |- context [despesa_insert_allowed ?a ?b] =>
      destruct (despesa_insert_allowed a b) end; reflexivity.
Qed.

Lemma create_despesa_accepted (today : Date) (despesa : DespesaCreate.t) (s : Session)
    (exercicio mes : Z) :
  create_despesa_accepts today (working s) despesa = true ->
  despesa_exercicio despesa = Some exercicio ->
  despesa_mes despesa = Some mes ->
  let row := despesa_row (working s) despesa exercicio mes in
  let db' := with_despesas (despesas (working s) ++ [row]) (working s) in
  despesa_insert_allowed (working s) row = true ->
  create_despesa today despesa s = (Ok row, mkSession db' db').
Proof.
  intros Hacc Hex Hmes row db' Hfk.
  rewrite (create_despesa_passed today despesa s exercicio mes Hacc Hex Hmes).
  cbv zeta. fold row. rewrite Hfk. reflexivity.
Qed.

Lemma create_despesa_rejected (today : Date) (despesa : DespesaCreate.t) (s : Session) :
  create_despesa_accepts today (working s) despesa = false ->
  exists e, create_despesa today despesa s = (Raise e, s) /\ catchable e = true.
Proof.
  unfold create_despesa_accepts. intros Hrej.
  unfold create_despesa. run_step.
  destruct (bool_decide (Dec.le_zero (DespesaCreate.valor despesa) = Some false));
    cbn [negb andb] in *;
    [|destruct (Dec.le_zero (DespesaCreate.valor despesa)); eexists; split; reflexivity].
  destruct (DespesaCreate.rubrica_id despesa =? 0); cbn [negb andb] in *;
    [eexists; split; reflexivity|].
  destruct (get_rubrica (working s) (DespesaCreate.rubrica_id despesa)) as [rubrica|];
    [|eexists; split; reflexivity].
  destruct (bool_decide (Rubrica.status rubrica = ATIVA)); cbn [negb andb] in *;
    [|eexists; split; reflexivity].
  destruct (is_rubrica_leaf (working s) (DespesaCreate.rubrica_id despesa));
    cbn [negb andb] in *; [|eexists; split; reflexivity].
  destruct (validar_fornecedor (working s) (DespesaCreate.fornecedor_id despesa));
    cbn [negb andb] in *; [eexists; split; reflexivity|].
  fold (despesa_exercicio despesa). fold (despesa_mes despesa).
  destruct (DespesaCreate.data_emissao despesa) as [d|]; [|discriminate].
  destruct (date_gt d today); cbn [negb andb] in *; [eexists; split; reflexivity|].
  apply negb_false_iff in Hrej. rewrite Hrej. eexists; split; reflexivity.
Qed.

(** *** What the supplier matcher returns *)

Section SupplierIds.

Variable normalize_name : string -> string.
Variable fuzz_extract : string -> list string -> list (string * Z).

Lemma load_fornecedores_ids (db : DB) (fs : list Fornecedor.t) (cache : list (Z * string)) :
  load_fornecedores normalize_name db fs = Some cache ->
  List.map fst cache = List.map Fornecedor.id fs.
Proof.
  revert cache. induction fs as [|f fs IH]; intros cache; cbn [load_fornecedores].
  - intros H. injection H as <-. reflexivity.
  - match goal with
    | |- match ?x with _ => _ end = _ -> _ => destruct x as [usuario|]; [|discriminate]
    end.
    destruct (load_fornecedores normalize_name db fs) as [c|]; [|discriminate].
    intros H. injection H as <-. cbn [List.map fst]. rewrite (IH c eq_refl). reflexivity.
Qed.

(** An id that the supplier matcher returns is the id of an active
    supplier of the table. *)
Lemma fornecedor_match_known (db : DB) (nome : string) (k : Z) :
  fornecedor_match normalize_name fuzz_extract db nome = Ok (Some k) ->
  exists f, In f (fornecedores db) /\ Fornecedor.id f = k /\ Fornecedor.activo f = true.
Proof.
  unfold fornecedor_match.
  destruct (load_fornecedores normalize_name db (List.filter Fornecedor.activo (fornecedores db)))
    as [cache|] eqn:Hload; [|discriminate].
  pose proof (load_fornecedores_ids _ _ _ Hload) as Hids.
  assert (Hin : forall x, In x cache ->
            exists f, In f (fornecedores db) /\ Fornecedor.id f = fst x
                      /\ Fornecedor.activo f = true).
  { intros x Hx. apply (in_map fst) in Hx. rewrite Hids in Hx.
    apply in_map_iff in Hx. destruct Hx as (f & Hf & Hfin).
    apply filter_In in Hfin. exists f. tauto. }
  destruct (List.find _ cache) as [x|] eqn:Hfind.
  - intros H. injection H as <-. apply Hin. apply find_some in Hfind. tauto.
  - destruct (Text.is_empty (normalize_name nome)); [discriminate|].
    intros H. injection H as H. revert H.
    induction (fuzz_extract (normalize_name nome) _) as [|m ms IH]; [discriminate|].
    cbn [fold_right]. destruct (90 <=? snd m); [|exact IH].
    destruct (List.find (fun f => String.eqb (snd f) (fst m)) cache) as [x|] eqn:Hx;
      [|exact IH].
    intros H. injection H as <-. apply Hin. apply find_some in Hx. tauto.
Qed.

Lemma get_fornecedor_known (db : DB) (f : Fornecedor.t) :
  In f (fornecedores db) -> get_fornecedor db (Fornecedor.id f) <> None.
Proof.
  intros Hin Hnone. unfold get_fornecedor, first in Hnone.
  apply (find_none _ _ Hnone) in Hin. rewrite Z.eqb_refl in Hin. discriminate.
Qed.

End SupplierIds.

Section ImportOfARow.

Variable today : Date.
Variable now_month : Z.
Variable parse_date : string -> option (Date * bool).
Variable normalize_name : string -> string.
Variable fuzz_extract : string -> list string -> list (string * Z).

(** A row with a rubrica code, a supplier name and a positive amount, whose
    code names a rubrica of the fiscal year: the row processor reports no
    error, creates nothing, and hands over the data of the row. *)
Lemma process_row_existing_rubrica
    (exercicio : Z) (mapping : ColumnMapping.t) (row : Row) (linha_numero : Z)
    (s : Session) (valor : Dec.Decimal) (rubrica : Rubrica.t) (fornecedor_id : option Z) :
  Text.is_empty (cell row (ColumnMapping.codigo_rubrica mapping)) = false ->
  Text.is_empty (cell row (ColumnMapping.fornecedor mapping)) = false ->
  parse_currency (cell row (ColumnMapping.valor mapping)) = Some valor ->
  Dec.le_zero valor = Some false ->
  get_rubrica_by_codigo_exercicio
    (working s) (normalize_code (cell row (ColumnMapping.codigo_rubrica mapping))) exercicio
  = Some rubrica ->
  fornecedor_match normalize_name fuzz_extract (working s)
                   (cell row (ColumnMapping.fornecedor mapping))
  = Ok fornecedor_id ->
  exists warnings,
    process_row now_month parse_date normalize_name fuzz_extract
                exercicio row mapping linha_numero s
    = (Ok (Resultado.mk linha_numero [] warnings
             (Some (row_data now_month parse_date exercicio mapping row
                             (Rubrica.id rubrica) fornecedor_id valor))
             fornecedor_id (Some (Rubrica.id rubrica)) false), s).
Proof.
  intros Hcod Hnome Hval Hpos Hrub Hforn.
  unfold process_row. rewrite Hcod, Hnome, Hval, Hpos. cbn [app].
  unfold rubrica_match. run_step. rewrite Hrub. cbn [working]. rewrite Hforn.
  eexists. reflexivity.
Qed.

Lemma despesa_create_of_resolved (data : DespesaData.t) (batch_id : Z)
    (despesa : DespesaCreate.t) :
  despesa_create_of data batch_id = Some despesa ->
  DespesaCreate.rubrica_id despesa = DespesaData.rubrica_id data
  /\ DespesaCreate.fornecedor_id despesa = DespesaData.fornecedor_id data
  /\ DespesaCreate.valor despesa = DespesaData.valor data
  /\ (exists exercicio, despesa_exercicio despesa = Some exercicio)
  /\ (exists mes, despesa_mes despesa = Some mes).
Proof.
  unfold despesa_create_of. destruct (DespesaData.valor data) eqn:Hv; try discriminate.
  match goal with |- (if ?c then _ else _) = _ -> _ => destruct c end; [discriminate|].
  match goal with |- (if ?c then _ else _) = _ -> _ => destruct c eqn:Hm end;
    [discriminate|].
  intros H. injection H as <-. unfold despesa_exercicio, despesa_mes. simpl.
  split; [reflexivity|]. split; [reflexivity|]. split; [congruence|].
  destruct (DespesaData.data_emissao data) as [[d midnight]|]; simpl.
  - split.
    + destruct (DespesaData.exercicio data =? 0); simpl; eexists; reflexivity.
    + destruct (DespesaData.mes data =? 0); simpl; eexists; reflexivity.
  - split; eexists; reflexivity.
Qed.

(** C6 (amended).  In an import that is not a dry run, a row that passes
    the row processor and whose rubrica code names a rubrica of the fiscal
    year is stored as a new pending expense on that rubrica, and counted as
    created, exactly when [create_despesa] accepts it: the amount is a
    finite number, the date (if any) has no time of day, is not in the
    future and lies in the fiscal year, the month is within 1..12, the
    rubrica is active and has no children, and the matched supplier (if any)
    is active.  Otherwise the row is counted as an error, with the
    exception as its detail, and nothing is stored. *)
Theorem import_row_persists_when_accepted
    (exercicio : Z) (mapping : ColumnMapping.t) (batch_id : Z) (acc : ImportResult)
    (idx : Z) (row : Row) (s : Session)
    (valor : Dec.Decimal) (rubrica : Rubrica.t) (fornecedor_id : option Z) :
  Text.is_empty (cell row (ColumnMapping.codigo_rubrica mapping)) = false ->
  Text.is_empty (cell row (ColumnMapping.fornecedor mapping)) = false ->
  parse_currency (cell row (ColumnMapping.valor mapping)) = Some valor ->
  Dec.le_zero valor = Some false ->
  get_rubrica_by_codigo_exercicio
    (working s) (normalize_code (cell row (ColumnMapping.codigo_rubrica mapping))) exercicio
  = Some rubrica ->
  fornecedor_match normalize_name fuzz_extract (working s)
                   (cell row (ColumnMapping.fornecedor mapping))
  = Ok fornecedor_id ->
  let data := row_data now_month parse_date exercicio mapping row
                       (Rubrica.id rubrica) fornecedor_id valor in
  let imported := import_row today now_month parse_date normalize_name fuzz_extract
                             exercicio mapping batch_id false acc (idx, row) s in
  let refused := exists e, imported = (Ok (row_errored acc (idx + 2) e), s) in
  match despesa_create_of data batch_id with
  | Some despesa =>
      if create_despesa_accepts today (working s) despesa then
        exists d db',
          imported = (Ok (row_created acc), mkSession db' db')
          /\ db' = with_despesas (despesas (working s) ++ [d]) (working s)
          /\ Despesa.rubrica_id d = Some (Rubrica.id rubrica)
          /\ Despesa.valor d = default 0 (Dec.to_cents valor)
          /\ Despesa.status d = PENDENTE
      else refused
  | None => refused
  end.
Proof.
  intros Hcod Hnome Hval Hpos Hrub Hforn data imported refused.
  destruct (process_row_existing_rubrica exercicio mapping row (idx + 2) s valor rubrica
              fornecedor_id Hcod Hnome Hval Hpos Hrub Hforn) as [warnings Hrow].
  fold data in Hrow.
  assert (Himp : imported
                 = try_except
                     (match despesa_create_of data batch_id with
                      | None => raise (ValueError DadosInvalidos)
                      | Some despesa_create =>
                          create_despesa today despesa_create ;;; ret (row_created acc)
                      end)
                     (fun e => ret (row_errored acc (idx + 2) e)) s).
  { unfold imported, import_row. cbn [fst snd]. rewrite (bind_ok _ _ _ _ _ Hrow).
    reflexivity. }
  destruct (despesa_create_of data batch_id) as [despesa|] eqn:Hdc.
  - destruct (despesa_create_of_resolved data batch_id despesa Hdc)
      as (Hrid & Hfid & Hvalor & [ex Hex] & [mes Hmes]).
    destruct (create_despesa_accepts today (working s) despesa) eqn:Hacc.
    + assert (Hfk : despesa_insert_allowed (working s) (despesa_row (working s) despesa ex mes)
                    = true).
      { unfold despesa_insert_allowed, despesa_row. cbn [Despesa.fornecedor_id].
        rewrite Hfid. change (DespesaData.fornecedor_id data) with fornecedor_id.
        destruct fornecedor_id as [k|]; [|reflexivity].
        destruct (fornecedor_match_known normalize_name fuzz_extract (working s) _ k Hforn)
          as (f & Hf & <- & _).
        pose proof (get_fornecedor_known (working s) f Hf).
        destruct (get_fornecedor (working s) (Fornecedor.id f)); [reflexivity|contradiction]. }
      pose proof (create_despesa_accepted today despesa s ex mes Hacc Hex Hmes Hfk) as Hcreate.
      cbv zeta in Hcreate.
      exists (despesa_row (working s) despesa ex mes),
             (with_despesas (despesas (working s)
                             ++ [despesa_row (working s) despesa ex mes]) (working s)).
      split.
      { rewrite Himp. unfold try_except, bind. rewrite Hcreate. reflexivity. }
      split; [reflexivity|]. unfold despesa_row. simpl. rewrite Hrid, Hvalor.
      split; [reflexivity|]. split; reflexivity.
    + destruct (create_despesa_rejected today despesa s Hacc) as (e & Hcreate & Hcatch).
      exists e. rewrite Himp. unfold try_except, bind. rewrite Hcreate, Hcatch. reflexivity.
  - exists (ValueError DadosInvalidos). rewrite Himp. reflexivity.
Qed.

End ImportOfARow.

(** *** The import at concrete rows *)

Lemma import_row_persists_when_accepted_witness :
  let s := mkSession Scenario.with_leaf Scenario.with_leaf in
  let row := ImportExample.row_of "1.1" in
  parse_currency (cell row "valor") = Some (Dec.Finite false 123456 (-2))
  /\ option_map Rubrica.id (get_rubrica_by_codigo_exercicio Scenario.with_leaf "1.1" 2024)
     = Some 2
  /\ exists d db',
      import_row ImportExample.today ImportExample.now_month ImportExample.parse_date
                 ImportExample.normalize_name ImportExample.fuzz_extract
                 2024 ImportExample.mapping 7 false ImportExample.start (0, row) s
      = (Ok (row_created ImportExample.start), mkSession db' db')
      /\ db' = with_despesas (despesas Scenario.with_leaf ++ [d]) Scenario.with_leaf
      /\ Despesa.rubrica_id d = Some 2
      /\ Despesa.valor d = 123456
      /\ Despesa.status d = PENDENTE.
Proof.
  cbv zeta. split; [vm_compute; reflexivity|]. split; [vm_compute; reflexivity|].
  generalize (import_row_persists_when_accepted
                ImportExample.today ImportExample.now_month ImportExample.parse_date
                ImportExample.normalize_name ImportExample.fuzz_extract
                2024 ImportExample.mapping 7 ImportExample.start 0
                (ImportExample.row_of "1.1")
                (mkSession Scenario.with_leaf Scenario.with_leaf)
                (Dec.Finite false 123456 (-2))
                (Rubrica.mk 2 "1.1" "Leaf" DESPESA (Some 1) 2 (Some 10000000)
                            (Some 10000000) 2024 ATIVA)
                None).
  vm_compute. intros H. apply H; reflexivity.
Defined.

(** C6, as stated, fails.  A row with the code of the root "1", a supplier
    name and a positive amount passes the row processor without an error;
    the root has a child, [create_despesa] refuses it, and the import
    counts one error and stores no expense.  A row with a code that no
    rubrica has, "9.9", does not end as a stored expense and a warning: the
    creation of its provisional rubrica raises, after the rubrica is
    committed, and the import ends there with that exception and no
    expense. *)
Lemma import_refuses_rows_that_passed_the_processor :
  option_map Resultado.erros
    (match ImportExample.processed "1" with Ok r => Some r | Raise _ => None end) = Some []
  /\ fst (ImportExample.import_of "1")
     = Ok (mkImportResult 1 0 0 1
             [mkDetalheErro 2 [ErroAoCriarDespesa (ValueError RubricaNaoFolha)] []])
  /\ despesas (snd (ImportExample.import_of "1")) = []
  /\ fst (ImportExample.import_of "9.9") = Raise (AttributeError AtributoDotacao)
  /\ despesas (snd (ImportExample.import_of "9.9")) = []
  /\ List.map (fun r => (Rubrica.codigo r, Rubrica.status r))
       (rubricas (snd (ImportExample.import_of "9.9")))
     = [("1", ATIVA); ("1.1", ATIVA); ("9.9", PROVISORIA)]%string.
Proof. repeat split; vm_compute; reflexivity. Qed.

(** * Further properties *)

(** ** The recalculation, from any well-formed table *)

Section FlushRepairs.

Variable rows : list Rubrica.t.
Variable e : Z.
Variable cache : gmap Z Z.
Variable chain : list Rubrica.t.

Let year_rows := List.filter (fun r => Rubrica.exercicio r =? e) rows.

Hypothesis rows_wf : hierarchy_wf rows.
Hypothesis cache_right : cache_ok year_rows cache.
Hypothesis cache_reach :
  reach year_rows (fun j => exists a, In a chain /\ Rubrica.id a = j) cache.
Hypothesis chain_cached :
  forall a, In a chain -> In a year_rows -> is_Some (cache !! Rubrica.id a).
Hypothesis chain_in : forall a, In a chain -> In a rows.
Hypothesis chain_closed :
  forall a rp, In a chain -> In rp rows ->
               Rubrica.parent_id a = Some (Rubrica.id rp) -> In rp chain.

(** A cached row receives the value of its node, whatever it held. *)
Lemma flush_cached_row (r : Rubrica.t) (v : Z) :
  In r rows -> cache !! Rubrica.id r = Some v ->
  inv_at (List.map (apply_cache cache) rows) (apply_cache cache r).
Proof.
  intros Hin Hv. unfold inv_at.
  rewrite (active_children_map (apply_cache cache) rows r (apply_cache cache r));
    [|apply apply_cache_shape|apply apply_cache_shape|apply apply_cache_shape].
  destruct (cached_row rows e cache rows_wf cache_right r v Hin Hv) as [Hdict Hyear].
  destruct (cache_right _ _ Hv) as (n & Hn & Hchildren & Hvalue).
  fold year_rows in Hdict. rewrite Hdict in Hn. injection Hn as <-.
  assert (Hr : apply_cache cache r = Rubrica.set_dotacao_calculada (Some v) r).
  { unfold apply_cache. rewrite Hv. reflexivity. }
  rewrite Hr. cbn [Rubrica.dotacao_calculada Rubrica.set_dotacao_calculada
                   Rubrica.dotacao_inicial].
  f_equal. rewrite Hvalue. unfold node_value.
  assert (Hsame : active_children year_rows r = active_children rows r).
  { unfold year_rows. rewrite <- Hyear. apply active_children_year. }
  rewrite Hsame in Hchildren |- *.
  assert (Hval : forall x, In x (active_children rows r) ->
                   default 0 (cache !! Rubrica.id x)
                   = default 0 (Rubrica.dotacao_calculada (apply_cache cache x))).
  { intros x Hx. destruct (Hchildren x Hx) as [w Hw].
    unfold apply_cache. rewrite Hw. reflexivity. }
  destruct (active_children rows r) as [|c cs] eqn:Hcs; [reflexivity|].
  change (sum_Z (List.map (fun x => default 0 (cache !! Rubrica.id x)) (c :: cs))
          = sum_Z (List.map (fun x => default 0 (Rubrica.dotacao_calculada x))
                            (List.map (apply_cache cache) (c :: cs)))).
  rewrite map_map. f_equal. apply map_ext_in. exact Hval.
Qed.

(** A row that is not cached keeps its value, and so do its children. *)
Lemma flush_uncached_row (r : Rubrica.t) :
  In r rows -> cache !! Rubrica.id r = None -> inv_at rows r ->
  inv_at (List.map (apply_cache cache) rows) (apply_cache cache r).
Proof.
  intros Hin Hv Hinv. unfold inv_at.
  rewrite (active_children_map (apply_cache cache) rows r (apply_cache cache r));
    [|apply apply_cache_shape|apply apply_cache_shape|apply apply_cache_shape].
  assert (Hr : apply_cache cache r = r).
  { unfold apply_cache. rewrite Hv. reflexivity. }
  rewrite Hr.
  assert (Hkeep : List.map (apply_cache cache) (active_children rows r)
                  = active_children rows r).
  { rewrite <- (map_id (active_children rows r)) at 2. apply map_ext_in.
    intros c Hc. unfold apply_cache.
    rewrite (uncached_children rows e cache chain rows_wf cache_right cache_reach
               chain_cached chain_in chain_closed r Hin Hv c Hc).
    reflexivity. }
  rewrite Hkeep. exact Hinv.
Qed.

Lemma flush_repairs_row (r : Rubrica.t) :
  In r rows ->
  inv_at rows r \/ (In r chain /\ Rubrica.exercicio r = e) ->
  inv_at (List.map (apply_cache cache) rows) (apply_cache cache r).
Proof.
  intros Hin Hcase. destruct (cache !! Rubrica.id r) as [v|] eqn:Hv.
  - exact (flush_cached_row r v Hin Hv).
  - destruct Hcase as [Hinv|[Hchain Hyear]]; [exact (flush_uncached_row r Hin Hv Hinv)|].
    assert (Hrall : In r year_rows).
    { unfold year_rows. apply filter_In. split; [exact Hin|]. apply Z.eqb_eq. exact Hyear. }
    destruct (chain_cached r Hchain Hrall) as [x Hx]. congruence.
Qed.

End FlushRepairs.

(** On rows that satisfy the invariant, every entry of a right cache is the
    value its row already holds. *)
Lemma cache_agrees (rows : list Rubrica.t) (e : Z) (cache : gmap Z Z) :
  hierarchy_wf rows ->
  cache_ok (List.filter (fun r => Rubrica.exercicio r =? e) rows) cache ->
  hierarchy_inv rows ->
  forall r, In r rows -> apply_cache cache r = r.
Proof.
  intros Hwf Hok Hinv.
  set (year_rows := List.filter (fun r => Rubrica.exercicio r =? e) rows) in *.
  assert (Hmain : forall m r v, (rows_from year_rows (Rubrica.id r) < m)%nat ->
            In r rows -> cache !! Rubrica.id r = Some v ->
            Rubrica.dotacao_calculada r = Some v).
  { induction m as [|m IH]; intros r v Hm Hin Hv; [lia|].
    destruct (cached_row rows e cache Hwf Hok r v Hin Hv) as [Hdict Hyear].
    fold year_rows in Hdict.
    destruct (Hok _ _ Hv) as (n & Hn & Hchildren & Hvalue).
    rewrite Hdict in Hn. injection Hn as <-.
    rewrite (Hinv r Hin). f_equal. rewrite Hvalue. unfold node_value.
    assert (Hsame : active_children year_rows r = active_children rows r).
    { unfold year_rows. rewrite <- Hyear. apply active_children_year. }
    rewrite Hsame in Hchildren |- *.
    assert (Hrall : In r year_rows).
    { apply rubricas_dict_some in Hdict. tauto. }
    assert (Hval : forall c, In c (active_children rows r) ->
               default 0 (Rubrica.dotacao_calculada c) = default 0 (cache !! Rubrica.id c)).
    { intros c Hc. destruct (Hchildren c Hc) as [w Hw]. rewrite Hw.
      assert (Hcf : In c rows /\ Rubrica.id r < Rubrica.id c).
      { destruct Hwf as (_ & _ & Hprec).
        destruct (active_child_facts rows Hprec r c Hin Hc) as (H1 & _ & H3). auto. }
      destruct Hcf as [Hcin Hlt].
      rewrite (IH c w); [reflexivity| |exact Hcin|exact Hw].
      pose proof (rows_from_child year_rows r c Hrall Hlt). lia. }
    destruct (active_children rows r) as [|c cs]; [reflexivity|].
    f_equal. apply map_ext_in. exact Hval. }
  intros r Hin. unfold apply_cache.
  destruct (cache !! Rubrica.id r) as [v|] eqn:Hv; [|reflexivity].
  pose proof (Hmain _ r v (Nat.lt_succ_diag_r _) Hin Hv) as Hd.
  destruct r. cbn in *. subst. reflexivity.
Qed.

(** What the recalculation from [x] does on a well-formed table: it ends
    without an exception and writes a cache of values to the computed
    allocations; rows of another fiscal year than the chain's are not in the
    cache; a row on the chain of [x], and every row that satisfied the
    invariant, satisfies it afterwards; on a table that satisfies the
    invariant nothing changes. *)
Lemma recalculate_dotacao_chain_effect (s : Session) (x : Z) :
  hierarchy_wf (rubricas (working s)) ->
  exists cache,
    recalculate_dotacao_chain x s
    = (Ok tt, mkSession (persisted s)
                (with_rubricas (List.map (apply_cache cache) (rubricas (working s)))
                               (working s)))
    /\ (forall r, In r (rubricas (working s)) ->
          inv_at (rubricas (working s)) r \/ on_chain (working s) x r ->
          inv_at (List.map (apply_cache cache) (rubricas (working s))) (apply_cache cache r))
    /\ (forall r, In r (rubricas (working s)) -> is_Some (cache !! Rubrica.id r) ->
          exists first_ancestor rest,
            chain_from (working s) x = first_ancestor :: rest
            /\ Rubrica.exercicio r = Rubrica.exercicio first_ancestor)
    /\ (hierarchy_inv (rubricas (working s)) ->
          forall r, In r (rubricas (working s)) -> apply_cache cache r = r).
Proof.
  destruct s as [pdb db]. cbn [working persisted].
  intros Hwf. pose proof Hwf as (Hnd & Hpos & Hprec).
  unfold recalculate_dotacao_chain. run_step.
  destruct (get_ancestors_total db x Hprec) as [found Hfound].
  unfold on_chain, chain_from. rewrite Hfound. cbn [default].
  destruct found as [|a0 rest].
  - rewrite (get_ancestors_nil db x Hnd Hpos Hfound).
    exists ∅.
    assert (Hid : forall r : Rubrica.t, apply_cache ∅ r = r).
    { intros r. unfold apply_cache. rewrite lookup_empty. reflexivity. }
    assert (Hmap : List.map (apply_cache ∅) (rubricas db) = rubricas db)
      by apply apply_cache_empty.
    rewrite Hmap, with_rubricas_same.
    split; [reflexivity|]. split; [|split].
    + intros r Hr [H|(? & ? & H & _)]; [rewrite Hid; exact H|discriminate].
    + intros r _ [v Hv]. rewrite lookup_empty in Hv. discriminate.
    + intros _ r _. apply Hid.
  - set (e := Rubrica.exercicio a0).
    set (all_rubricas := List.filter (fun r => Rubrica.exercicio r =? e) (rubricas db)).
    assert (Hall_nd : NoDup (List.map Rubrica.id all_rubricas))
      by (apply NoDup_map_filter; exact Hnd).
    assert (Hall_prec : parent_precedes all_rubricas).
    { intros r p Hr Hp. apply filter_In in Hr. destruct Hr as [Hr _]. exact (Hprec r p Hr Hp). }
    destruct (calculate_ancestors_ok all_rubricas Hall_nd Hall_prec
                (S (length all_rubricas)) (sorted_by_nivel_desc (a0 :: rest))
                (Nat.lt_succ_diag_r _) (fun _ => False) ∅)
      as (cache & Hrun & _ & Hok & Hreach & Hcached).
    { intros k v Hk. rewrite lookup_empty in Hk. discriminate. }
    { intros k [v Hk]. rewrite lookup_empty in Hk. discriminate. }
    fold e. fold all_rubricas. rewrite Hrun.
    exists cache. cbn [working persisted].
    rewrite (flush_is_apply (rubricas db) e cache Hwf Hok).
    split; [reflexivity|]. split; [|split].
    + intros r Hr Hcase.
      apply flush_repairs_row with (e := e) (chain := a0 :: rest); try assumption.
      * intros k Hk. destruct (Hreach k Hk) as [[[]|(a & Ha & Haid)]|H]; [|right; exact H].
        left. exists a. split; [apply sorted_by_nivel_desc_in; exact Ha|exact Haid].
      * intros a Ha Hain. apply Hcached; [apply sorted_by_nivel_desc_in; exact Ha|exact Hain].
      * intros a Ha. exact (get_ancestors_in db x _ a Hfound Ha).
      * intros a rp Ha Hrp Hp.
        exact (get_ancestors_closed db x _ Hnd Hfound a rp Ha Hrp Hp (Hpos rp Hrp)).
      * destruct Hcase as [H|(a0' & rest' & Heq & Hin & Hy)]; [auto|].
        injection Heq as <- <-. right. split; [exact Hin|exact Hy].
    + intros r Hr [v Hv]. exists a0, rest. split; [reflexivity|].
      exact (proj2 (cached_row (rubricas db) e cache Hwf Hok r v Hr Hv)).
    + intros Hinv. exact (cache_agrees (rubricas db) e cache Hwf Hok Hinv).
Qed.

Lemma without_calculada_apply (cache : gmap Z Z) (rows : list Rubrica.t) :
  without_calculada (List.map (apply_cache cache) rows) = without_calculada rows.
Proof.
  unfold without_calculada. rewrite map_map. apply map_ext. intros r.
  unfold apply_cache. destruct (cache !! Rubrica.id r); reflexivity.
Qed.

Lemma without_calculada_in (rows rows' : list Rubrica.t) (r' : Rubrica.t) :
  without_calculada rows' = without_calculada rows -> In r' rows' ->
  exists r, In r rows /\ Rubrica.set_dotacao_calculada None r
                         = Rubrica.set_dotacao_calculada None r'.
Proof.
  intros Heq Hin. unfold without_calculada in Heq.
  apply (in_map (Rubrica.set_dotacao_calculada None)) in Hin. rewrite Heq in Hin.
  apply in_map_iff in Hin. destruct Hin as (r & Hr & Hrin). eauto.
Qed.

Lemma without_calculada_shape (r r' : Rubrica.t) :
  Rubrica.set_dotacao_calculada None r = Rubrica.set_dotacao_calculada None r' ->
  Rubrica.id r = Rubrica.id r' /\ Rubrica.exercicio r = Rubrica.exercicio r'
  /\ Rubrica.status r = Rubrica.status r'.
Proof. destruct r, r'. cbn. intros H. injection H. intros. subst. auto. Qed.

Lemma without_calculada_keys (r r' : Rubrica.t) :
  Rubrica.set_dotacao_calculada None r = Rubrica.set_dotacao_calculada None r' ->
  Rubrica.id r = Rubrica.id r' /\ Rubrica.parent_id r = Rubrica.parent_id r'
  /\ Rubrica.exercicio r = Rubrica.exercicio r'.
Proof. destruct r, r'. cbn. intros H. injection H. intros. subst. auto. Qed.

Lemma same_year_without_calculada (rows rows' : list Rubrica.t) :
  without_calculada rows' = without_calculada rows -> same_year rows -> same_year rows'.
Proof.
  intros Heq Hyear r' p' Hr' Hp' Hpar.
  destruct (without_calculada_in _ _ r' Heq Hr') as (r & Hr & Er).
  destruct (without_calculada_in _ _ p' Heq Hp') as (p & Hp & Ep).
  apply without_calculada_keys in Er. destruct Er as (R1 & R2 & R3).
  apply without_calculada_keys in Ep. destruct Ep as (P1 & P2 & P3).
  rewrite <- R3, <- P3. apply (Hyear r p Hr Hp). congruence.
Qed.

(** One recalculation, as the loops over rubricas use it. *)
Lemma recalculate_dotacao_chain_step (s : Session) (x : Z) :
  hierarchy_wf (rubricas (working s)) ->
  exists rows',
    recalculate_dotacao_chain x s
    = (Ok tt, mkSession (persisted s) (with_rubricas rows' (working s)))
    /\ hierarchy_wf rows'
    /\ without_calculada rows' = without_calculada (rubricas (working s))
    /\ (forall k, inv_id (rubricas (working s)) k -> inv_id rows' k)
    /\ (same_year (rubricas (working s)) -> inv_id rows' x).
Proof.
  intros Hwf. destruct (recalculate_dotacao_chain_effect s x Hwf)
    as (cache & Hrun & Hrepair & _ & _).
  exists (List.map (apply_cache cache) (rubricas (working s))).
  split; [exact Hrun|]. split; [|split; [|split]].
  - apply hierarchy_wf_map; [|exact Hwf].
    intros y. pose proof (apply_cache_shape cache y). tauto.
  - apply without_calculada_apply.
  - intros k Hk r' Hr' Hid. apply in_map_iff in Hr'. destruct Hr' as (r & <- & Hr).
    apply Hrepair; [exact Hr|]. left. apply Hk; [exact Hr|].
    rewrite <- Hid. symmetry. apply apply_cache_shape.
  - intros Hyear r' Hr' Hid. apply in_map_iff in Hr'. destruct Hr' as (r & <- & Hr).
    apply Hrepair; [exact Hr|]. right.
    apply on_chain_self; [exact Hwf|exact Hyear|].
    rewrite <- Hid. rewrite (proj1 (apply_cache_shape cache r)).
    apply get_rubrica_in; [apply Hwf|exact Hr].
Qed.

Lemma get_rubrica_with_rubricas (db : DB) (rows' : list Rubrica.t) (k : Z) :
  get_rubrica (with_rubricas rows' db) k = first (fun r => Rubrica.id r =? k) rows'.
Proof. reflexivity. Qed.

Lemma get_rubrica_apply (db : DB) (cache : gmap Z Z) (k : Z) :
  get_rubrica (with_rubricas (List.map (apply_cache cache) (rubricas db)) db) k
  = option_map (apply_cache cache) (get_rubrica db k).
Proof.
  unfold get_rubrica, first. cbn [rubricas with_rubricas].
  induction (rubricas db) as [|r rows IH]; [reflexivity|].
  cbn [List.map List.find]. rewrite (proj1 (apply_cache_shape cache r)).
  destruct (Rubrica.id r =? k); [reflexivity|exact IH].
Qed.

(** X1.  On a well-formed rubrica table (unique positive keys, every parent
    key smaller than its child's) the recalculation from any key ends
    without an exception, leaves the committed rows alone, and repairs
    without breaking: of the rows that [get_ancestors] answers with (the
    rubrica it starts from and its ancestors), each one that is in the
    fiscal year of the first of them satisfies the allocation invariant
    afterwards, and so does every rubrica that satisfied it before.  In a
    table where every rubrica is in the fiscal year of its parent, these
    are all the rows that [get_ancestors] answers with, the rubrica it
    starts from among them. *)
Theorem recalculate_dotacao_chain_repairs_chain (s : Session) (x : Z) :
  hierarchy_wf (rubricas (working s)) ->
  exists rows',
    recalculate_dotacao_chain x s
    = (Ok tt, mkSession (persisted s) (with_rubricas rows' (working s)))
    /\ hierarchy_wf rows'
    /\ (forall k r r',
          get_rubrica (working s) k = Some r ->
          get_rubrica (with_rubricas rows' (working s)) k = Some r' ->
          inv_at (rubricas (working s)) r \/ on_chain (working s) x r ->
          inv_at rows' r')
    /\ (same_year (rubricas (working s)) ->
        (forall r, In r (chain_from (working s) x) -> on_chain (working s) x r)
        /\ (forall rx, get_rubrica (working s) x = Some rx -> on_chain (working s) x rx)).
Proof.
  intros Hwf. destruct (recalculate_dotacao_chain_effect s x Hwf)
    as (cache & Hrun & Hrepair & _ & _).
  exists (List.map (apply_cache cache) (rubricas (working s))).
  split; [exact Hrun|]. split; [|split].
  - apply hierarchy_wf_map; [|exact Hwf].
    intros y. pose proof (apply_cache_shape cache y). tauto.
  - intros k r r' Hr Hr' Hcase. rewrite get_rubrica_apply, Hr in Hr'.
    injection Hr' as <-. apply Hrepair; [|exact Hcase].
    apply get_rubrica_some in Hr. tauto.
  - intros Hyear. split.
    + intros r Hr. apply on_chain_in; [exact Hwf| |exact Hr].
      intros a p Ha Hp. apply Hyear; [|exact Hp].
      unfold chain_from in Ha.
      destruct (get_ancestors (working s) x) as [l|] eqn:Hl; [|destruct Ha].
      exact (get_ancestors_in (working s) x l a Hl Ha).
    + intros rx Hrx. apply on_chain_self; assumption.
Qed.

(** X2.  The recalculation from [x], on a well-formed table, changes
    nothing but computed allocations, and those in one fiscal year only:
    the table it leaves is the old one up to [dotacao_calculada], no other
    table is written, and either no row changed or the rows outside the
    fiscal year of one of the rows that the walk from [x] visits are the
    rows that were there. *)
Theorem recalculate_dotacao_chain_writes_only_calculada (s : Session) (x : Z) :
  hierarchy_wf (rubricas (working s)) ->
  exists rows',
    recalculate_dotacao_chain x s
    = (Ok tt, mkSession (persisted s) (with_rubricas rows' (working s)))
    /\ List.map (Rubrica.set_dotacao_calculada None) rows'
       = List.map (Rubrica.set_dotacao_calculada None) (rubricas (working s))
    /\ (rows' = rubricas (working s)
        \/ exists a,
             In a (chain_from (working s) x)
             /\ List.filter (fun r => negb (Rubrica.exercicio r =? Rubrica.exercicio a)) rows'
                = List.filter (fun r => negb (Rubrica.exercicio r =? Rubrica.exercicio a))
                              (rubricas (working s))).
Proof.
  intros Hwf. destruct (recalculate_dotacao_chain_effect s x Hwf)
    as (cache & Hrun & _ & Hyear & _).
  exists (List.map (apply_cache cache) (rubricas (working s))).
  split; [exact Hrun|]. split; [apply without_calculada_apply|].
  destruct (chain_from (working s) x) as [|a0 rest] eqn:Hchain.
  - left. rewrite <- (map_id (rubricas (working s))) at 2. apply map_ext_in.
    intros r Hr. unfold apply_cache.
    destruct (cache !! Rubrica.id r) as [v|] eqn:Hv; [|reflexivity].
    destruct (Hyear r Hr (ex_intro _ v Hv)) as (a & rest' & Heq & _). discriminate.
  - right. exists a0. split; [left; reflexivity|].
    rewrite filter_map_commute
      by (intros y; rewrite (proj1 (proj2 (proj2 (apply_cache_shape cache y)))); reflexivity).
    rewrite <- (map_id (List.filter _ (rubricas (working s)))) at 2.
    apply map_ext_in. intros r Hr. apply filter_In in Hr. destruct Hr as [Hr Hne].
    unfold apply_cache. destruct (cache !! Rubrica.id r) as [v|] eqn:Hv; [|reflexivity].
    destruct (Hyear r Hr (ex_intro _ v Hv)) as (a & rest' & Heq & Hy).
    injection Heq as <- <-. rewrite Hy, Z.eqb_refl in Hne. discriminate.
Qed.

(** X3.  On a well-formed table that satisfies the allocation invariant
    the recalculation from any key is the identity: it returns and the
    session is the one it started from. *)
Theorem recalculate_dotacao_chain_fixpoint (s : Session) (x : Z) :
  hierarchy_wf (rubricas (working s)) ->
  hierarchy_inv (rubricas (working s)) ->
  recalculate_dotacao_chain x s = (Ok tt, s).
Proof.
  intros Hwf Hinv. destruct (recalculate_dotacao_chain_effect s x Hwf)
    as (cache & Hrun & _ & _ & Hsame).
  rewrite Hrun. f_equal.
  assert (Hmap : List.map (apply_cache cache) (rubricas (working s)) = rubricas (working s)).
  { rewrite <- (map_id (rubricas (working s))) at 2. apply map_ext_in. exact (Hsame Hinv). }
  rewrite Hmap, with_rubricas_same. destruct s. reflexivity.
Qed.

(** X4.  The recalculation from a key that no rubrica has does nothing and
    reports nothing: no exception, the session unchanged. *)
Theorem recalculate_dotacao_chain_missing_rubrica (s : Session) (x : Z) :
  get_rubrica (working s) x = None ->
  recalculate_dotacao_chain x s = (Ok tt, s).
Proof.
  intros Hnone. unfold recalculate_dotacao_chain. run_step.
  rewrite (get_ancestors_missing (working s) x Hnone), Hnone. reflexivity.
Qed.

(** ** The recalculation of a fiscal year *)

Lemma recalcular_rubrica_ok (acc : Z * list (Z * string * Exception)) (a : Rubrica.t)
    (s s1 : Session) :
  recalculate_dotacao_chain (Rubrica.id a) s = (Ok tt, s1) ->
  recalcular_rubrica acc a s = (Ok (fst acc + 1, snd acc), s1).
Proof.
  intros Hrun. destruct acc as [n erros]. unfold recalcular_rubrica, try_except, bind.
  rewrite Hrun. reflexivity.
Qed.

(** The loop of [recalcular_dotacao_exercicio] on a well-formed table in
    which every rubrica is in the fiscal year of its parent: every round
    returns, and the rubricas it has gone through satisfy the invariant. *)
Lemma recalcular_rubricas_loop (l : list Rubrica.t) :
  forall (s : Session) (n : Z),
    hierarchy_wf (rubricas (working s)) ->
    same_year (rubricas (working s)) ->
    exists rows',
      fold_m recalcular_rubrica l (n, []) s
      = (Ok (n + Z.of_nat (length l), []),
         mkSession (persisted s) (with_rubricas rows' (working s)))
      /\ hierarchy_wf rows'
      /\ without_calculada rows' = without_calculada (rubricas (working s))
      /\ (forall k, inv_id (rubricas (working s)) k -> inv_id rows' k)
      /\ (forall a, In a l -> inv_id rows' (Rubrica.id a)).
Proof.
  induction l as [|a l IH]; intros s n Hwf Hyear.
  - exists (rubricas (working s)). cbn [fold_m length]. unfold ret.
    rewrite with_rubricas_same, Z.add_0_r. destruct s.
    split; [reflexivity|]. split; [exact Hwf|]. split; [reflexivity|].
    split; [auto|]. intros a [].
  - destruct (recalculate_dotacao_chain_step s (Rubrica.id a) Hwf)
      as (rows1 & Hrun & Hwf1 & Hsame1 & Hkeep1 & Hnew1).
    set (s1 := mkSession (persisted s) (with_rubricas rows1 (working s))) in *.
    assert (Hyear1 : same_year (rubricas (working s1)))
      by exact (same_year_without_calculada _ _ Hsame1 Hyear).
    destruct (IH s1 (n + 1) Hwf1 Hyear1)
      as (rows2 & Hloop & Hwf2 & Hsame2 & Hkeep2 & Hnew2).
    exists rows2. split; [|split; [exact Hwf2|split; [|split]]].
    + cbn [fold_m]. unfold bind at 1.
      rewrite (recalcular_rubrica_ok (n, []) a s s1 Hrun). cbn [fst snd].
      rewrite Hloop. unfold s1. cbn [working persisted length].
      replace (n + 1 + Z.of_nat (length l)) with (n + Z.of_nat (S (length l))) by lia.
      destruct (working s). reflexivity.
    + rewrite Hsame2. exact Hsame1.
    + intros k Hk. apply Hkeep2, Hkeep1, Hk.
    + intros b [<-|Hb]; [apply Hkeep2, Hnew1, Hyear|apply Hnew2, Hb].
Qed.

(** X5.  [POST /rubricas/recalcular-dotacao] on a well-formed rubrica
    table in which every rubrica is in the fiscal year of its parent, for
    any user: the request succeeds, counts every active rubrica of the
    fiscal year as recalculated and reports no error (with no active
    rubrica in the year it says so, and counts zero); it commits a
    database that differs from the old one only in computed allocations,
    in which every active rubrica of the fiscal year satisfies the
    allocation invariant, and every rubrica that satisfied it still does. *)
Theorem recalcular_dotacao_exercicio_repairs (db : DB) (exercicio current_user : Z) :
  hierarchy_wf (rubricas db) ->
  same_year (rubricas db) ->
  exists resp rows',
    run_request (recalcular_dotacao_exercicio exercicio current_user) db
    = (Ok resp, with_rubricas rows' db)
    /\ (resp = NenhumaRubricaAtiva exercicio 0 /\ rubricas_ativas db exercicio = []
        \/ resp = RecalculoConcluido exercicio
                    (Z.of_nat (length (rubricas_ativas db exercicio)))
                    (Z.of_nat (length (rubricas_ativas db exercicio))) None)
    /\ hierarchy_wf rows'
    /\ List.map (Rubrica.set_dotacao_calculada None) rows'
       = List.map (Rubrica.set_dotacao_calculada None) (rubricas db)
    /\ (forall r', In r' rows' -> Rubrica.exercicio r' = exercicio ->
                   Rubrica.status r' = ATIVA -> inv_at rows' r')
    /\ (forall k r r', get_rubrica db k = Some r ->
                       get_rubrica (with_rubricas rows' db) k = Some r' ->
                       inv_at (rubricas db) r -> inv_at rows' r').
Proof.
  intros Hwf Hsameyear. unfold recalcular_dotacao_exercicio, run_request.
  unfold bind at 1. unfold query at 1. cbn [working].
  destruct (rubricas_ativas db exercicio) as [|a0 l0] eqn:Hativas.
  - exists (NenhumaRubricaAtiva exercicio 0), (rubricas db).
    rewrite with_rubricas_same. unfold ret. cbn [persisted].
    split; [reflexivity|]. split; [left; auto|]. split; [exact Hwf|].
    split; [reflexivity|]. split.
    + intros r' Hr' Hy Hst. exfalso.
      assert (Hin : In r' (rubricas_ativas db exercicio)).
      { unfold rubricas_ativas. apply filter_In. split; [exact Hr'|].
        rewrite Hy, Z.eqb_refl, Hst. reflexivity. }
      rewrite Hativas in Hin. exact Hin.
    + intros k r r' Hr Hr' Hinv. rewrite Hr in Hr'. injection Hr' as <-. exact Hinv.
  - cbv beta iota. rewrite <- Hativas.
    destruct (recalcular_rubricas_loop (sorted_by_nivel_desc (rubricas_ativas db exercicio))
                (mkSession db db) 0 Hwf Hsameyear)
      as (rows' & Hloop & Hwf' & Hsame & Hkeep & Hnew).
    cbn [working persisted] in Hloop, Hsame, Hkeep.
    assert (Hlen : length (sorted_by_nivel_desc (rubricas_ativas db exercicio))
                   = length (rubricas_ativas db exercicio)).
    { generalize (rubricas_ativas db exercicio). intros l. unfold sorted_by_nivel_desc.
      induction l as [|x l IHl]; [reflexivity|]. cbn [fold_right length]. rewrite <- IHl.
      generalize (fold_right insert_by_nivel [] l). intros m.
      induction m as [|y m IHm]; [reflexivity|]. cbn [insert_by_nivel].
      destruct (Rubrica.nivel x <? Rubrica.nivel y); cbn [length]; [rewrite IHm|];
        reflexivity. }
    exists (RecalculoConcluido exercicio
              (Z.of_nat (length (rubricas_ativas db exercicio)))
              (Z.of_nat (length (rubricas_ativas db exercicio))) None), rows'.
    split; [|split; [right; reflexivity|split; [exact Hwf'|split; [exact Hsame|split]]]].
    + unfold bind at 1. rewrite Hloop. rewrite Hlen.
      cbn [Z.add]. unfold bind, commit, ret. cbn [working persisted]. reflexivity.
    + intros r' Hr' Hy Hst.
      destruct (without_calculada_in _ _ r' Hsame Hr') as (r & Hr & Heq).
      apply without_calculada_shape in Heq. destruct Heq as (Hid & Hyear & Hstatus).
      apply (Hnew r); [|exact Hr'|symmetry; exact Hid].
      apply sorted_by_nivel_desc_in. unfold rubricas_ativas. apply filter_In.
      split; [exact Hr|]. rewrite Hyear, Hy, Z.eqb_refl, Hstatus, Hst. reflexivity.
    + intros k r r' Hr Hr' Hinv.
      apply get_rubrica_some in Hr'. cbn [rubricas with_rubricas] in Hr'.
      destruct Hr' as [Hid' Hin'].
      apply (Hkeep k); [|exact Hin'|exact Hid'].
      intros r0 Hr0 Hid0. pose proof (get_rubrica_in db r0 (proj1 Hwf) Hr0) as Hget.
      rewrite Hid0, Hr in Hget. injection Hget as <-. exact Hinv.
Qed.

(** ** Frames of whole requests *)

Section SessionFrames.
Variable P : Session -> Prop.

Lemma maintains_write (f : DB -> DB) :
  (forall s, P s -> P (mkSession (persisted s) (f (working s)))) ->
  maintains P (write f).
Proof. intros Hf s r s' Hs H. injection H as <- <-. auto. Qed.

Lemma maintains_commit :
  (forall s, P s -> P (mkSession (working s) (working s))) -> maintains P commit.
Proof. intros Hc s r s' Hs H. injection H as <- <-. auto. Qed.

Lemma maintains_for_each {A : Type} (body : A -> M unit) (l : list A) :
  (forall x, maintains P (body x)) -> maintains P (for_each body l).
Proof.
  intros Hb. induction l as [|x l IH]; simpl.
  - apply maintains_ret.
  - apply maintains_bind; auto.
Qed.

(** The recalculations and the monthly-execution updates write the rubrica
    and monthly-execution tables, and commit. *)
Hypothesis P_rubricas :
  forall s v, P s -> P (mkSession (persisted s) (with_rubricas v (working s))).
Hypothesis P_execucoes :
  forall s v, P s -> P (mkSession (persisted s) (with_execucoes_mensais v (working s))).
Hypothesis P_commit : forall s, P s -> P (mkSession (working s) (working s)).

Lemma recalculate_dotacao_chain_maintains (rubrica_id : Z) :
  maintains P (recalculate_dotacao_chain rubrica_id).
Proof.
  unfold recalculate_dotacao_chain.
  apply maintains_bind; [apply maintains_query|intros db].
  destruct (get_ancestors db rubrica_id) as [found|]; [|apply maintains_raise].
  match goal with |- maintains _ (match ?a with _ => _ end) => destruct a end;
    [apply maintains_ret|].
  match goal with
  | |- maintains _ (match ?a with _ => _ end) => destruct a as [[] cache]
  end.
  - apply maintains_write. intros; apply P_rubricas; assumption.
  - apply maintains_bind; [|intros; apply maintains_raise].
    apply maintains_write. intros; apply P_rubricas; assumption.
Qed.

Lemma recalculate_execucao_mensal_maintains (rubrica_id mes ano : Z) :
  maintains P (recalculate_execucao_mensal rubrica_id mes ano).
Proof.
  unfold recalculate_execucao_mensal.
  apply maintains_bind; [apply maintains_query|intros db].
  destruct (get_rubrica db rubrica_id); [|apply maintains_raise].
  apply maintains_bind.
  { apply maintains_try_except; [|intros; apply maintains_ret].
    apply maintains_bind; [|intros; apply maintains_commit; exact P_commit].
    apply recalculate_dotacao_chain_maintains. }
  intros _. apply maintains_bind; [apply maintains_query|intros db1].
  destruct (get_execucao db1 rubrica_id mes ano).
  - apply maintains_bind; [apply maintains_write; intros; apply P_execucoes; assumption|].
    intros _. apply maintains_bind; [apply maintains_commit; exact P_commit|].
    intros _. apply maintains_query.
  - destruct (0 <? gasto_confirmado db1 rubrica_id mes ano); [|apply maintains_ret].
    apply maintains_bind; [apply maintains_write; intros; apply P_execucoes; assumption|].
    intros _. apply maintains_bind; [apply maintains_commit; exact P_commit|].
    intros _. apply maintains_query.
Qed.

Lemma update_execucao_mensal_maintains (rubrica_id mes ano : Z) :
  maintains P (update_execucao_mensal rubrica_id mes ano).
Proof.
  unfold update_execucao_mensal.
  apply maintains_bind; [apply maintains_query|intros db].
  destruct (get_rubrica db rubrica_id); [|apply maintains_raise].
  destruct (get_execucao db rubrica_id mes ano);
    (apply maintains_bind; [apply maintains_write; intros; apply P_execucoes; assumption|]);
    intros _; apply maintains_query.
Qed.

Lemma update_ancestors_execucao_mensal_maintains (rubrica_id mes ano : Z) :
  maintains P (update_ancestors_execucao_mensal rubrica_id mes ano).
Proof.
  unfold update_ancestors_execucao_mensal.
  apply maintains_bind; [apply maintains_query|intros db].
  destruct (get_ancestors db rubrica_id); [|apply maintains_raise].
  apply maintains_for_each. intros ancestor. unfold update_ancestor_execucao.
  apply maintains_bind; [apply maintains_query|intros db1].
  destruct (get_execucao db1 (Rubrica.id ancestor) mes ano);
    apply maintains_write; intros; apply P_execucoes; assumption.
Qed.

Lemma recalcula_execucao_da_despesa_maintains (despesa : Despesa.t) :
  maintains P (recalcula_execucao_da_despesa despesa).
Proof.
  unfold recalcula_execucao_da_despesa.
  destruct (truthy_id (Despesa.rubrica_id despesa)); [|apply maintains_ret].
  apply maintains_bind; [apply recalculate_execucao_mensal_maintains|intros _].
  apply recalculate_dotacao_chain_maintains.
Qed.

End SessionFrames.

Lemma run_request_both {A : Type} (Q : DB -> Prop) (m : M A) (db : DB) :
  maintains (both Q) m -> Q db -> Q (snd (run_request m db)).
Proof.
  intros Hm HQ. unfold run_request.
  destruct (m (mkSession db db)) as [r s'] eqn:Hrun.
  assert (Hs : both Q (mkSession db db)) by (split; exact HQ).
  exact (proj1 (Hm _ _ _ Hs Hrun)).
Qed.

(** ** The ledger of the global allocation *)

Lemma sum_Z_app (l1 l2 : list Z) : sum_Z (l1 ++ l2) = sum_Z l1 + sum_Z l2.
Proof. unfold sum_Z. induction l1 as [|x l1 IH]; simpl; lia. Qed.

Lemma ledger_sum_app (p : TipoDotacaoGlobalMov -> bool) (k : Z)
    (movs : list DotacaoGlobalMov.t) (m : DotacaoGlobalMov.t) :
  ledger_sum p k (movs ++ [m])
  = ledger_sum p k movs
    + (if (DotacaoGlobalMov.dotacao_global_id m =? k) && p (DotacaoGlobalMov.tipo m)
       then DotacaoGlobalMov.valor m else 0).
Proof.
  unfold ledger_sum. rewrite List.filter_app, List.map_app, sum_Z_app. f_equal.
  cbn [List.filter].
  destruct ((DotacaoGlobalMov.dotacao_global_id m =? k) && p (DotacaoGlobalMov.tipo m));
    simpl; lia.
Qed.

Lemma ledger_sum_none (p : TipoDotacaoGlobalMov -> bool) (k : Z)
    (movs : list DotacaoGlobalMov.t) :
  (forall m, In m movs -> DotacaoGlobalMov.dotacao_global_id m <> k) ->
  ledger_sum p k movs = 0.
Proof.
  intros H. unfold ledger_sum. induction movs as [|m movs IH]; [reflexivity|].
  cbn [List.filter].
  destruct (Z.eqb_spec (DotacaoGlobalMov.dotacao_global_id m) k) as [Heq|_].
  - exfalso. exact (H m (or_introl eq_refl) Heq).
  - cbn [andb]. apply IH. intros m' Hm'. apply H. right. exact Hm'.
Qed.

Lemma map_id_update_where (k : Z) (f : DotacaoGlobal.t -> DotacaoGlobal.t)
    (rows : list DotacaoGlobal.t) :
  (forall d, DotacaoGlobal.id (f d) = DotacaoGlobal.id d) ->
  List.map DotacaoGlobal.id (update_where (fun d => DotacaoGlobal.id d =? k) f rows)
  = List.map DotacaoGlobal.id rows.
Proof.
  intros Hf. unfold update_where. rewrite map_map. apply map_ext. intros d.
  destruct (DotacaoGlobal.id d =? k); [apply Hf|reflexivity].
Qed.

Lemma ledger_same (ref db : DB) :
  dotacoes_globais db = dotacoes_globais ref -> movimentos db = movimentos ref ->
  ledger_balanced ref -> ledger_balanced db.
Proof. unfold ledger_balanced. intros -> ->. tauto. Qed.

(** A movement posted with the change it records. *)
Lemma ledger_post (db : DB) (k : Z) (f : DotacaoGlobal.t -> DotacaoGlobal.t)
    (tipo : TipoDotacaoGlobalMov) (referencia : option string) (v : Z)
    (descricao : Descricao) (user : Z) :
  ledger_balanced db ->
  In k (List.map DotacaoGlobal.id (dotacoes_globais db)) ->
  (forall d, DotacaoGlobal.id (f d) = DotacaoGlobal.id d
             /\ DotacaoGlobal.saldo (f d)
                = DotacaoGlobal.saldo d + (if moves_saldo tipo then v else 0)
             /\ DotacaoGlobal.reservado (f d)
                = DotacaoGlobal.reservado d - (if moves_reservado tipo then v else 0)) ->
  ledger_balanced (add_movimento k tipo referencia v descricao user (update_dotacao k f db)).
Proof.
  intros (Hnd & Hfk & Hbal) Hk Hf. unfold ledger_balanced, add_movimento, update_dotacao.
  destruct db as [r de ex dg mv us up fo ib].
  cbn [dotacoes_globais movimentos with_movimentos with_dotacoes_globais] in *.
  rewrite map_id_update_where by (intros d; apply Hf).
  split; [exact Hnd|]. split.
  - intros m Hm. apply in_app_iff in Hm. destruct Hm as [Hm|[<-|[]]]; [auto|exact Hk].
  - intros d' Hd'. unfold update_where in Hd'. apply in_map_iff in Hd'.
    destruct Hd' as (d & <- & Hd). destruct (Hbal d Hd) as [Hs Hr].
    rewrite !ledger_sum_app. cbn [DotacaoGlobalMov.dotacao_global_id DotacaoGlobalMov.tipo
                                  DotacaoGlobalMov.valor].
    destruct (Z.eqb_spec (DotacaoGlobal.id d) k) as [Heq|Hne].
    + destruct (Hf d) as (Hid & Hsaldo & Hres). rewrite Hid, Hsaldo, Hres, Hs, Hr.
      rewrite Heq, Z.eqb_refl. cbn [andb].
      destruct (moves_saldo tipo), (moves_reservado tipo); lia.
    + rewrite Hs, Hr. destruct (Z.eqb_spec k (DotacaoGlobal.id d)) as [Heq|_];
        [congruence|]. cbn [andb]. lia.
Qed.

(** A change of an allocation that leaves [saldo] and [reservado] alone. *)
Lemma ledger_update_only (db : DB) (k : Z) (f : DotacaoGlobal.t -> DotacaoGlobal.t) :
  ledger_balanced db ->
  (forall d, DotacaoGlobal.id (f d) = DotacaoGlobal.id d
             /\ DotacaoGlobal.saldo (f d) = DotacaoGlobal.saldo d
             /\ DotacaoGlobal.reservado (f d) = DotacaoGlobal.reservado d) ->
  ledger_balanced (update_dotacao k f db).
Proof.
  intros (Hnd & Hfk & Hbal) Hf. unfold ledger_balanced, update_dotacao.
  destruct db as [r de ex dg mv us up fo ib].
  cbn [dotacoes_globais movimentos with_movimentos with_dotacoes_globais] in *.
  rewrite map_id_update_where by (intros d; apply Hf).
  split; [exact Hnd|]. split; [exact Hfk|].
  intros d' Hd'. unfold update_where in Hd'. apply in_map_iff in Hd'.
  destruct Hd' as (d & <- & Hd). destruct (Hbal d Hd) as [Hs Hr].
  destruct (DotacaoGlobal.id d =? k); [|auto].
  destruct (Hf d) as (Hid & Hsaldo & Hres). rewrite Hid, Hsaldo, Hres. auto.
Qed.

(** A new allocation, with the adjustment that opens it. *)
Lemma ledger_open (db : DB) (exercicio valor_anual user : Z) (descricao : Descricao) :
  ledger_balanced db ->
  let k := next_id (List.map DotacaoGlobal.id (dotacoes_globais db)) in
  ledger_balanced
    (add_movimento k AJUSTE None valor_anual descricao user
       (with_dotacoes_globais
          (dotacoes_globais db ++ [DotacaoGlobal.mk k exercicio valor_anual valor_anual 0])
          db)).
Proof.
  intros (Hnd & Hfk & Hbal) k. unfold ledger_balanced, add_movimento.
  destruct db as [r de ex dg mv us up fo ib].
  cbn [dotacoes_globais movimentos with_movimentos with_dotacoes_globais] in *.
  assert (Hfresh : forall j, In j (List.map DotacaoGlobal.id dg) -> j < k).
  { intros j Hj. apply next_id_fresh. exact Hj. }
  rewrite List.map_app. cbn [List.map DotacaoGlobal.id].
  split; [|split].
  - apply NoDup_app. split; [exact Hnd|]. split; [|apply NoDup_singleton].
    intros j Hj Hin. apply list_elem_of_In in Hin. destruct Hin as [<-|[]].
    apply list_elem_of_In in Hj. apply Hfresh in Hj. lia.
  - intros m Hm. apply in_app_iff. apply in_app_iff in Hm.
    destruct Hm as [Hm|[<-|[]]]; [left; auto|right; left; reflexivity].
  - intros d Hd. rewrite !ledger_sum_app.
    cbn [DotacaoGlobalMov.dotacao_global_id DotacaoGlobalMov.tipo DotacaoGlobalMov.valor
         moves_saldo moves_reservado].
    rewrite andb_false_r, andb_true_r.
    apply in_app_iff in Hd. destruct Hd as [Hd|[<-|[]]].
    + destruct (Hbal d Hd) as [Hs Hr]. rewrite Hs, Hr.
      destruct (Z.eqb_spec k (DotacaoGlobal.id d)) as [Heq|_]; [|lia].
      pose proof (Hfresh _ (in_map DotacaoGlobal.id _ _ Hd)). lia.
    + cbn [DotacaoGlobal.id DotacaoGlobal.saldo DotacaoGlobal.reservado].
      rewrite Z.eqb_refl.
      rewrite !ledger_sum_none; [lia| |];
        intros m Hm Heq; pose proof (Hfresh _ (Hfk m Hm)); lia.
Qed.

Lemma get_dotacao_in (db : DB) (e : Z) (dotacao : DotacaoGlobal.t) :
  get_dotacao db e = Some dotacao ->
  In (DotacaoGlobal.id dotacao) (List.map DotacaoGlobal.id (dotacoes_globais db)).
Proof.
  intros H. unfold get_dotacao, first in H. apply find_some in H.
  apply in_map. tauto.
Qed.

Lemma create_or_update_dotacao_global_balanced (exercicio : Z) (valor_anual : Dec.Decimal)
    (v user : Z) (db : DB) :
  Dec.exact_cents valor_anual = Some v ->
  ledger_balanced db ->
  ledger_balanced
    (snd (run_request (create_or_update_dotacao_global exercicio valor_anual user) db)).
Proof.
  intros Hv Hb. unfold create_or_update_dotacao_global, validated_decimal.
  rewrite (exact_cents_finite _ _ Hv). run_step.
  rewrite (exact_cents_stored _ _ Hv). cbn [default from_option id].
  destruct (get_dotacao db exercicio) as [dotacao|] eqn:Hdot; cbn [working].
  - pose proof (get_dotacao_in db exercicio dotacao Hdot) as Hin.
    rewrite (exact_cents_eq _ _ _ Hv), (exact_cents_add _ _ _ Hv).
    cbn [default from_option id].
    destruct (Z.eqb_spec (DotacaoGlobal.valor_anual dotacao) v) as [Hsame|Hdiff];
      cbn [negb snd persisted working].
    + apply ledger_update_only; [exact Hb|]. intros d. cbn.
      rewrite (exact_cents_add _ _ _ Hv). cbn [default from_option id].
      repeat split; lia.
    + apply ledger_post; [exact Hb|exact Hin|]. intros d. cbn.
      rewrite (exact_cents_add _ _ _ Hv). cbn [default from_option id].
      repeat split; lia.
  - cbn [snd persisted working]. apply (ledger_open db exercicio v user). exact Hb.
Qed.

Lemma criar_reserva_balanced (data : ReservaRequest.t) (r user : Z) (db : DB) :
  Dec.exact_cents (ReservaRequest.valor data) = Some r ->
  ledger_balanced db ->
  ledger_balanced (snd (run_request (criar_reserva data user) db)).
Proof.
  intros Hr Hb. unfold criar_reserva, validated_decimal.
  rewrite (exact_cents_finite _ _ Hr). run_step.
  destruct (get_dotacao db (ReservaRequest.exercicio data)) as [dotacao|] eqn:Hdot;
    [|exact Hb].
  rewrite (exact_cents_gt _ _ _ Hr).
  destruct (DotacaoGlobal.saldo dotacao - DotacaoGlobal.reservado dotacao <? r); [exact Hb|].
  cbn [snd persisted working].
  rewrite (exact_cents_stored _ _ (exact_cents_neg _ _ Hr)). cbn [default from_option id].
  apply ledger_post; [exact Hb|exact (get_dotacao_in _ _ _ Hdot)|].
  intros d. cbn. rewrite (exact_cents_add _ _ _ Hr). cbn [default from_option id].
  repeat split; lia.
Qed.

Lemma cancelar_reserva_balanced (data : ReservaCancelRequest.t) (r user : Z) (db : DB) :
  Dec.exact_cents (ReservaCancelRequest.valor data) = Some r ->
  ledger_balanced db ->
  ledger_balanced (snd (run_request (cancelar_reserva data user) db)).
Proof.
  intros Hr Hb. unfold cancelar_reserva, validated_decimal.
  rewrite (exact_cents_finite _ _ Hr). run_step.
  destruct (get_dotacao db (ReservaCancelRequest.exercicio data)) as [dotacao|] eqn:Hdot;
    [|exact Hb].
  rewrite (exact_cents_gt _ _ _ Hr).
  destruct (DotacaoGlobal.reservado dotacao <? r); [exact Hb|].
  cbn [snd persisted working].
  rewrite (exact_cents_stored _ _ Hr). cbn [default from_option id].
  apply ledger_post; [exact Hb|exact (get_dotacao_in _ _ _ Hdot)|].
  intros d. cbn. rewrite (exact_cents_add _ _ _ (exact_cents_neg _ _ Hr)).
  cbn [default from_option id]. repeat split; lia.
Qed.

(** The allocation-aware confirmation writes nothing. *)
Lemma confirm_despesa_with_dotacao_writes_nothing (despesa_id : Z) (override : bool)
    (user : Z) (db : DB) :
  snd (run_request (confirm_despesa_with_dotacao despesa_id override user) db) = db.
Proof. unfold run_request. rewrite confirm_despesa_with_dotacao_refused. reflexivity. Qed.

(** X6.  The ledger stays balanced.  On a database where allocation keys
    are unique, every movement belongs to an allocation, every [saldo] is
    the sum of its allocation's adjustment and confirmation movements and
    every [reservado] is minus the sum of its reservation and cancellation
    movements, the same holds of the database that any of the four
    allocation requests leaves (create or update, reserve, cancel a
    reservation, confirm an expense), whatever the request answers,
    provided the amount that the request carries has no digit below the
    hundredth. *)
Theorem ledger_requests_keep_balance (q : LedgerRequest) (db : DB) :
  in_hundredths q -> ledger_balanced db -> ledger_balanced (after_ledger_request q db).
Proof.
  intros Hq Hb. destruct q; cbn [after_ledger_request].
  - destruct (Hq _ eq_refl) as [v Hv].
    apply (create_or_update_dotacao_global_balanced _ _ v); assumption.
  - destruct (Hq _ eq_refl) as [r Hr]. apply (criar_reserva_balanced _ r); assumption.
  - destruct (Hq _ eq_refl) as [r Hr]. apply (cancelar_reserva_balanced _ r); assumption.
  - rewrite confirm_despesa_with_dotacao_writes_nothing. exact Hb.
Qed.

(** ** The simple confirmation path *)

Lemma confirm_despesa_with_execucao_allocations (ref : DB) (despesa_id : Z) :
  maintains (both (same_allocations ref)) (confirm_despesa_with_execucao despesa_id).
Proof.
  assert (Hexec : forall s v, both (same_allocations ref) s ->
            both (same_allocations ref)
                 (mkSession (persisted s) (with_execucoes_mensais v (working s)))).
  { intros s v [Hp Hw]. split; [exact Hp|exact Hw]. }
  assert (Hcommit : forall s, both (same_allocations ref) s ->
            both (same_allocations ref) (mkSession (working s) (working s))).
  { intros s [Hp Hw]. split; exact Hw. }
  unfold confirm_despesa_with_execucao.
  apply maintains_bind; [apply maintains_query|intros db].
  destruct (get_despesa db despesa_id) as [despesa|]; [|apply maintains_raise].
  destruct (bool_decide (Despesa.status despesa = CONFIRMADA)); [apply maintains_ret|].
  destruct (negb (truthy_id (Despesa.rubrica_id despesa))); [apply maintains_raise|].
  apply maintains_bind.
  { apply maintains_write. intros s [Hp Hw]. split; [exact Hp|exact Hw]. }
  intros _. apply maintains_bind.
  { apply update_execucao_mensal_maintains. exact Hexec. }
  intros _. apply maintains_bind.
  { apply update_ancestors_execucao_mensal_maintains. exact Hexec. }
  intros _. apply maintains_bind; [apply maintains_commit; exact Hcommit|].
  intros _. apply maintains_query.
Qed.

Lemma confirm_despesa_endpoint_state (despesa_id : Z) (s : Session) :
  snd (confirm_despesa_endpoint despesa_id s) = snd (confirm_despesa despesa_id s).
Proof.
  unfold confirm_despesa_endpoint.
  destruct (confirm_despesa despesa_id s) as [[[d|]|e] s']; [reflexivity|reflexivity|].
  destruct e; reflexivity.
Qed.

(** The simple path leaves the allocation tables as they were. *)
Lemma simple_path_frame (despesa_id : Z) (db : DB) :
  same_allocations db (snd (run_request (confirm_despesa_endpoint despesa_id) db)).
Proof.
  unfold run_request.
  pose proof (confirm_despesa_endpoint_state despesa_id (mkSession db db)) as Hstate.
  destruct (confirm_despesa_endpoint despesa_id (mkSession db db)) as [r s'].
  cbn [snd] in *. subst s'.
  destruct (confirm_despesa despesa_id (mkSession db db)) as [r1 s1] eqn:Hrun.
  cbn [snd].
  assert (Hm : maintains (both (same_allocations db)) (confirm_despesa despesa_id)).
  { unfold confirm_despesa. apply maintains_bind; [|intros; apply maintains_query].
    apply confirm_despesa_with_execucao_allocations. }
  assert (Hs : both (same_allocations db) (mkSession db db))
    by (split; split; [|split| |split]; reflexivity).
  exact (proj1 (Hm _ _ _ Hs Hrun)).
Qed.

(** X8.  The simple confirmation path ([POST /despesas/{id}/confirmar])
    never writes the global allocation, its ledger or the rubrica table:
    whatever the expense and whatever the answer, these three tables are
    afterwards what they were, so no balance is checked or lowered. *)
Theorem simple_path_leaves_allocations (despesa_id : Z) (db : DB) :
  let db' := snd (run_request (confirm_despesa_endpoint despesa_id) db) in
  dotacoes_globais db' = dotacoes_globais db
  /\ movimentos db' = movimentos db
  /\ rubricas db' = rubricas db.
Proof. exact (simple_path_frame despesa_id db). Qed.

(** The service answers with a record only when the expense is in the
    table the session sees. *)
Lemma confirm_despesa_with_execucao_found (despesa_id : Z) (s s' : Session) (d : Despesa.t) :
  confirm_despesa_with_execucao despesa_id s = (Ok d, s') ->
  is_Some (get_despesa (working s') despesa_id).
Proof.
  unfold confirm_despesa_with_execucao. rewrite bind_query.
  destruct (get_despesa (working s) despesa_id) as [despesa|] eqn:Hd; [|discriminate].
  destruct (bool_decide (Despesa.status despesa = CONFIRMADA)).
  { intros H. injection H as _ <-. rewrite Hd. eauto. }
  destruct (negb (truthy_id (Despesa.rubrica_id despesa))); [discriminate|].
  set (Q := fun db : DB => is_Some (get_despesa db despesa_id)).
  unfold bind at 1. unfold write at 1.
  match goal with
  | |- ?m ?s1 = _ -> _ =>
      assert (Hp : preserves Q m); [|intros Hrun; apply (Hp s1 (Ok d) s'); [|exact Hrun]]
  end.
  - apply preserves_bind;
      [apply update_execucao_mensal_frame; intros db v H; exact H|intros _].
    apply preserves_bind;
      [apply update_ancestors_execucao_mensal_frame; intros db v H; exact H|intros _].
    apply preserves_bind; [apply preserves_commit|intros _]. apply preserves_query.
  - unfold Q, get_despesa. cbn [working despesas set_despesa_status with_despesas].
    rewrite (first_update_where _ _ (Despesa.set_status CONFIRMADA) _ despesa);
      [eauto|reflexivity|exact Hd|].
    exact (proj1 (first_some_true _ _ _ Hd)).
Qed.

Section RaisesOnly.
Variable ok : Exception -> Prop.

Lemma raises_only_ret {A : Type} (a : A) : raises_only ok (ret a).
Proof. intros s e s' H. discriminate. Qed.

Lemma raises_only_raise {A : Type} (e : Exception) : ok e -> raises_only ok (@raise A e).
Proof. intros He s e' s' H. injection H as <- _. exact He. Qed.

Lemma raises_only_query {A : Type} (q : DB -> A) : raises_only ok (query q).
Proof. intros s e s' H. discriminate. Qed.

Lemma raises_only_write (f : DB -> DB) : raises_only ok (write f).
Proof. intros s e s' H. discriminate. Qed.

Lemma raises_only_commit : raises_only ok commit.
Proof. intros s e s' H. discriminate. Qed.

Lemma raises_only_bind {A B : Type} (m : M A) (k : A -> M B) :
  raises_only ok m -> (forall a, raises_only ok (k a)) -> raises_only ok (bind m k).
Proof.
  intros Hm Hk s e s' H. unfold bind in H.
  destruct (m s) as [[a|e1] s1] eqn:Hms.
  - exact (Hk a _ _ _ H).
  - injection H as <- <-. exact (Hm _ _ _ Hms).
Qed.

Lemma raises_only_for_each {A : Type} (body : A -> M unit) (l : list A) :
  (forall x, raises_only ok (body x)) -> raises_only ok (for_each body l).
Proof.
  intros Hb. induction l as [|x l IH]; simpl.
  - apply raises_only_ret.
  - apply raises_only_bind; auto.
Qed.

End RaisesOnly.

Lemma confirm_despesa_with_execucao_raises (despesa_id : Z) :
  raises_only (fun e => forall k detail, e <> HTTPException k detail)
              (confirm_despesa_with_execucao despesa_id).
Proof.
  unfold confirm_despesa_with_execucao.
  apply raises_only_bind; [apply raises_only_query|intros db].
  destruct (get_despesa db despesa_id) as [despesa|];
    [|apply raises_only_raise; discriminate].
  destruct (bool_decide (Despesa.status despesa = CONFIRMADA)); [apply raises_only_ret|].
  destruct (negb (truthy_id (Despesa.rubrica_id despesa)));
    [apply raises_only_raise; discriminate|].
  apply raises_only_bind; [apply raises_only_write|intros _].
  apply raises_only_bind.
  { unfold update_execucao_mensal.
    apply raises_only_bind; [apply raises_only_query|intros db1].
    destruct (get_rubrica db1 _); [|apply raises_only_raise; discriminate].
    destruct (get_execucao db1 _ _ _);
      (apply raises_only_bind; [apply raises_only_write|intros _; apply raises_only_query]). }
  intros _. apply raises_only_bind.
  { unfold update_ancestors_execucao_mensal.
    apply raises_only_bind; [apply raises_only_query|intros db1].
    destruct (get_ancestors db1 _); [|apply raises_only_raise; discriminate].
    apply raises_only_for_each. intros a. unfold update_ancestor_execucao.
    apply raises_only_bind; [apply raises_only_query|intros db2].
    destruct (get_execucao db2 _ _ _); apply raises_only_write. }
  intros _. apply raises_only_bind; [apply raises_only_commit|intros _].
  apply raises_only_query.
Qed.

(** X9.  [POST /despesas/{id}/confirmar] never answers 404.  The service
    reports a missing expense with a [ValueError], which the endpoint turns
    into a 400, and when the service returns the expense is in the table:
    the endpoint's "not found" branch is never taken. *)
Theorem simple_path_never_answers_404 (despesa_id : Z) (db : DB) :
  is_404 (fst (run_request (confirm_despesa_endpoint despesa_id) db)) = false.
Proof.
  unfold run_request, confirm_despesa_endpoint, confirm_despesa. unfold bind at 1.
  destruct (confirm_despesa_with_execucao despesa_id (mkSession db db))
    as [[d|e] s1] eqn:Hrun.
  - destruct (confirm_despesa_with_execucao_found _ _ _ _ Hrun) as [d1 Hd1].
    unfold query. rewrite Hd1. reflexivity.
  - pose proof (confirm_despesa_with_execucao_raises despesa_id _ _ _ Hrun) as He.
    destruct e; cbn; try reflexivity. exfalso. exact (He _ _ eq_refl).
Qed.

(** ** The allocation as reported, after a confirmation *)

Lemma bind_ok_inv {A B : Type} (m : M A) (k : A -> M B) (s s' : Session) (b : B) :
  bind m k s = (Ok b, s') ->
  exists a s1, m s = (Ok a, s1) /\ k a s1 = (Ok b, s').
Proof.
  unfold bind. destruct (m s) as [[a|e] s1]; [eauto|discriminate].
Qed.

(** Confirmed spending after the status of a not yet confirmed expense is
    set to [CONFIRMADA]. *)
Lemma gasto_total_after_confirmation (db : DB) (despesa_id e : Z) (d : Despesa.t) :
  NoDup (List.map Despesa.id (despesas db)) ->
  get_despesa db despesa_id = Some d ->
  Despesa.status d <> CONFIRMADA ->
  gasto_total_exercicio (set_despesa_status despesa_id CONFIRMADA db) e
  = gasto_total_exercicio db e + (if Despesa.exercicio d =? e then Despesa.valor d else 0).
Proof.
  unfold gasto_total_exercicio, get_despesa, set_despesa_status, first, update_where.
  cbn [despesas with_despesas].
  induction (despesas db) as [|r rows IH]; [discriminate|].
  cbn [List.map List.find List.filter]. intros Hnd Hd Hst.
  apply NoDup_cons in Hnd. destruct Hnd as [Hnot Hnd].
  destruct (Z.eqb_spec (Despesa.id r) despesa_id) as [Hid|Hid].
  - injection Hd as ->.
    assert (Hrest : List.map (fun x => if Despesa.id x =? despesa_id
                                       then Despesa.set_status CONFIRMADA x else x) rows
                    = rows).
    { rewrite <- (map_id rows) at 2. apply map_ext_in. intros x Hx.
      destruct (Z.eqb_spec (Despesa.id x) despesa_id) as [Hx'|]; [|reflexivity].
      exfalso. apply Hnot. apply list_elem_of_In. rewrite Hid, <- Hx'.
      apply in_map. exact Hx. }
    rewrite Hrest. cbn [Despesa.exercicio Despesa.status Despesa.set_status].
    rewrite bool_decide_eq_true_2 by reflexivity.
    rewrite (bool_decide_eq_false_2 _ Hst). rewrite andb_true_r, andb_false_r.
    destruct (Despesa.exercicio d =? e); cbn [List.map sum_Z fold_right Despesa.valor
      Despesa.set_status]; unfold sum_Z; lia.
  - specialize (IH Hnd Hd Hst).
    destruct ((Despesa.exercicio r =? e) && bool_decide (Despesa.status r = CONFIRMADA));
      cbn [List.map sum_Z fold_right]; unfold sum_Z in *; cbn [fold_right]; lia.
Qed.

(** The simple path, when it answers with a record for an expense that was
    not confirmed, has stored the new status and nothing else of the
    expenses. *)
Lemma confirm_despesa_endpoint_stored (db db' : DB) (despesa_id : Z) (d x : Despesa.t) :
  get_despesa db despesa_id = Some d ->
  Despesa.status d <> CONFIRMADA ->
  run_request (confirm_despesa_endpoint despesa_id) db = (Ok x, db') ->
  despesas db' = despesas (set_despesa_status despesa_id CONFIRMADA db).
Proof.
  intros Hd Hst. unfold run_request, confirm_despesa_endpoint.
  destruct (confirm_despesa despesa_id (mkSession db db)) as [[[y|]|e] s1] eqn:Hrun;
    [|discriminate|destruct e; discriminate].
  intros H. injection H as _ <-.
  unfold confirm_despesa in Hrun. apply bind_ok_inv in Hrun.
  destruct Hrun as (y0 & s0 & Hrun & Hq). injection Hq as _ <-.
  unfold confirm_despesa_with_execucao in Hrun. rewrite bind_query in Hrun.
  cbn [working] in Hrun. rewrite Hd in Hrun.
  rewrite (bool_decide_eq_false_2 _ Hst) in Hrun.
  destruct (negb (truthy_id (Despesa.rubrica_id d))); [discriminate|].
  apply bind_ok_inv in Hrun. destruct Hrun as ([] & s1 & Hw & Hrun).
  injection Hw as <-. cbn [working persisted] in Hrun.
  apply bind_ok_inv in Hrun. destruct Hrun as (e2 & s2 & Hupd & Hrun).
  apply bind_ok_inv in Hrun. destruct Hrun as ([] & s3 & Hanc & Hrun).
  apply bind_ok_inv in Hrun. destruct Hrun as ([] & s4 & Hcommit & Hrun).
  injection Hcommit as <-. injection Hrun as _ <-. cbn [persisted].
  set (db1 := set_despesa_status despesa_id CONFIRMADA db) in *.
  pose proof (update_execucao_mensal_frame (same_books db1) _ _ _
                (fun db v H => H) (mkSession db db1) _ _ (conj eq_refl eq_refl) Hupd) as Hb2.
  pose proof (update_ancestors_execucao_mensal_frame (same_books db1) _ _ _
                (fun db v H => H) _ _ _ Hb2 Hanc) as Hb3.
  exact (proj1 Hb3).
Qed.

Lemma get_dotacao_global_answer (db : DB) (e : Z) :
  run_request (get_dotacao_global e) db
  = (Ok (match get_dotacao db e with
         | None =>
             DotacaoGlobalResponse.mk 0 e 0 (0 - gasto_total_exercicio db e) 0
                                      (gasto_total_exercicio db e)
         | Some dotacao =>
             DotacaoGlobalResponse.mk (DotacaoGlobal.id dotacao)
               (DotacaoGlobal.exercicio dotacao) (DotacaoGlobal.valor_anual dotacao)
               (DotacaoGlobal.valor_anual dotacao - gasto_total_exercicio db e
                - DotacaoGlobal.reservado dotacao)
               (DotacaoGlobal.reservado dotacao) (gasto_total_exercicio db e)
         end), db).
Proof.
  unfold get_dotacao_global. run_step. destruct (get_dotacao db e); reflexivity.
Qed.

(** X10.  What [GET /dotacao_global] reports after a confirmation.  An
    expense that is not confirmed, in a table with unique keys, is confirmed
    by either path (the simple one answering with the record, or the
    allocation-aware one answering "confirmed").  For the expense's fiscal
    year the reported confirmed spending is then higher by the amount and
    the reported balance lower by it, while the allocation, the annual
    value and the reserved amount reported are the same.  (The second case
    is empty as the allocation-aware path is served: it gives no such
    answer.) *)
Theorem confirmation_lowers_reported_saldo
    (db db' : DB) (despesa_id user : Z) (override : bool) (d x : Despesa.t)
    (i v sr st rv : Z) :
  NoDup (List.map Despesa.id (despesas db)) ->
  get_despesa db despesa_id = Some d ->
  Despesa.status d <> CONFIRMADA ->
  run_request (confirm_despesa_endpoint despesa_id) db = (Ok x, db')
  \/ run_request (confirm_despesa_with_dotacao despesa_id override user) db
     = (Ok (ConfirmadaComSucesso i v sr st rv), db') ->
  exists before after,
    run_request (get_dotacao_global (Despesa.exercicio d)) db = (Ok before, db)
    /\ run_request (get_dotacao_global (Despesa.exercicio d)) db' = (Ok after, db')
    /\ DotacaoGlobalResponse.gasto_total after
       = DotacaoGlobalResponse.gasto_total before + Despesa.valor d
    /\ DotacaoGlobalResponse.saldo after
       = DotacaoGlobalResponse.saldo before - Despesa.valor d
    /\ DotacaoGlobalResponse.id after = DotacaoGlobalResponse.id before
    /\ DotacaoGlobalResponse.valor_anual after = DotacaoGlobalResponse.valor_anual before
    /\ DotacaoGlobalResponse.reservado after = DotacaoGlobalResponse.reservado before.
Proof.
  intros Hnd Hd Hst Hrun.
  pose proof (gasto_total_after_confirmation db despesa_id (Despesa.exercicio d) d Hnd Hd Hst)
    as Hgasto. rewrite Z.eqb_refl in Hgasto.
  eexists _, _. split; [apply get_dotacao_global_answer|].
  split; [apply get_dotacao_global_answer|].
  destruct Hrun as [Hrun|Hrun].
  - pose proof (confirm_despesa_endpoint_stored db db' despesa_id d x Hd Hst Hrun) as Hdesp.
    pose proof (simple_path_frame despesa_id db) as Hframe.
    rewrite Hrun in Hframe. cbn [snd] in Hframe. destruct Hframe as (Hdg & _ & _).
    assert (Hg : gasto_total_exercicio db' (Despesa.exercicio d)
                 = gasto_total_exercicio db (Despesa.exercicio d) + Despesa.valor d).
    { rewrite <- Hgasto. unfold gasto_total_exercicio. rewrite Hdesp. reflexivity. }
    unfold get_dotacao. rewrite Hdg.
    destruct (first _ (dotacoes_globais db)) as [dotacao|]; cbn; rewrite Hg; lia.
  - exfalso. unfold run_request in Hrun.
    rewrite confirm_despesa_with_dotacao_refused in Hrun. discriminate Hrun.
Qed.

(** ** Expenses: creation, removal, and what stays *)

(** The outcomes of [POST /despesas], as the requests below use them. *)
Lemma create_despesa_endpoint_result (today : Date) (despesa_data : DespesaCreate.t)
    (current_user : Z) (db : DB) :
  match run_request (create_despesa_endpoint today despesa_data current_user) db with
  | (Ok despesa, db') =>
      create_despesa_accepts today db despesa_data = true
      /\ db' = with_despesas (despesas db ++ [despesa]) db
      /\ Despesa.status despesa = PENDENTE
      /\ Despesa.id despesa = next_id (List.map Despesa.id (despesas db))
      /\ Despesa.rubrica_id despesa = Some (DespesaCreate.rubrica_id despesa_data)
  | (Raise e, db') => db' = db /\ exists detail, e = HTTPException 400 detail
  end.
Proof.
  unfold run_request, create_despesa_endpoint.
  destruct (Dec.le_zero (DespesaCreate.valor despesa_data)) as [[]|] eqn:Hle;
    [cbn; eauto| |cbn; eauto].
  match goal with
  | |- context [if ?c then raise _ else _] => destruct c; [cbn; eauto|]
  end.
  destruct (create_despesa_accepts today db despesa_data) eqn:Hacc.
  - destruct (despesa_exercicio despesa_data) as [exercicio|] eqn:Hex;
      [destruct (despesa_mes despesa_data) as [mes|] eqn:Hmes|].
    + rewrite (create_despesa_passed today despesa_data (mkSession db db) exercicio mes
                 Hacc Hex Hmes).
      cbv zeta.
      destruct (despesa_insert_allowed _ _); [|cbn; eauto].
      cbn [working persisted despesa_row Despesa.status Despesa.id Despesa.rubrica_id].
      auto.
    + revert Hacc. unfold create_despesa_accepts, create_despesa. run_step.
      fold (despesa_exercicio despesa_data). fold (despesa_mes despesa_data).
      rewrite Hex, Hmes. intros Hacc.
      repeat (apply andb_true_iff in Hacc; destruct Hacc as [Hacc ?]).
      rewrite Hacc. cbn [negb].
      match goal with H : negb (_ =? 0) = true |- _ => apply negb_true_iff in H; rewrite H end.
      destruct (get_rubrica db (DespesaCreate.rubrica_id despesa_data)); [|discriminate].
      match goal with H : bool_decide _ = true |- _ => rewrite H end. cbn [negb].
      match goal with H : is_rubrica_leaf _ _ = true |- _ => rewrite H end. cbn [negb].
      destruct (validar_fornecedor db (DespesaCreate.fornecedor_id despesa_data));
        [discriminate|].
      destruct (DespesaCreate.data_emissao despesa_data) as [d|].
      * match goal with H : _ && _ = true |- _ =>
          apply andb_true_iff in H; destruct H as [Hfut Hyear] end.
        apply negb_true_iff in Hfut. apply negb_true_iff in Hyear. rewrite Hfut, Hyear.
        cbn. eauto.
      * cbn. eauto.
    + revert Hacc. unfold create_despesa_accepts, create_despesa. run_step.
      fold (despesa_exercicio despesa_data). fold (despesa_mes despesa_data).
      rewrite Hex. intros Hacc.
      repeat (apply andb_true_iff in Hacc; destruct Hacc as [Hacc ?]).
      rewrite Hacc. cbn [negb].
      match goal with H : negb (_ =? 0) = true |- _ => apply negb_true_iff in H; rewrite H end.
      destruct (get_rubrica db (DespesaCreate.rubrica_id despesa_data)); [|discriminate].
      match goal with H : bool_decide _ = true |- _ => rewrite H end. cbn [negb].
      match goal with H : is_rubrica_leaf _ _ = true |- _ => rewrite H end. cbn [negb].
      destruct (validar_fornecedor db (DespesaCreate.fornecedor_id despesa_data));
        [discriminate|].
      destruct (DespesaCreate.data_emissao despesa_data) as [d|].
      * match goal with H : _ && _ = true |- _ =>
          apply andb_true_iff in H; destruct H as [Hfut Hyear] end.
        apply negb_true_iff in Hfut. apply negb_true_iff in Hyear. rewrite Hfut, Hyear.
        cbn. eauto.
      * cbn. eauto.
  - destruct (create_despesa_rejected today despesa_data (mkSession db db) Hacc)
      as (e & -> & Hcatch).
    rewrite Hcatch. cbn. eauto.
Qed.

(** X11.  [POST /despesas] either stores one expense or changes nothing.
    When it answers with an expense, the guards of [create_despesa] held
    (positive amount, an active rubrica without children, a supplier that
    is active if given, a date neither in the future nor outside the fiscal
    year) and the table has exactly one more row: the expense answered, in
    status [PENDENTE], under a key larger than every key in use.  Every
    other answer is a 400, and the database is the one before. *)
Theorem create_despesa_endpoint_outcomes (today : Date) (despesa_data : DespesaCreate.t)
    (current_user : Z) (db : DB) :
  match run_request (create_despesa_endpoint today despesa_data current_user) db with
  | (Ok despesa, db') =>
      create_despesa_accepts today db despesa_data = true
      /\ db' = with_despesas (despesas db ++ [despesa]) db
      /\ Despesa.status despesa = PENDENTE
      /\ Despesa.id despesa = next_id (List.map Despesa.id (despesas db))
      /\ Despesa.rubrica_id despesa = Some (DespesaCreate.rubrica_id despesa_data)
  | (Raise e, db') => db' = db /\ exists detail, e = HTTPException 400 detail
  end.
Proof. exact (create_despesa_endpoint_result today despesa_data current_user db). Qed.

Lemma get_despesa_update_other (db : DB) (k j : Z) (f : Despesa.t -> Despesa.t) :
  k <> j -> (forall x, Despesa.id (f x) = Despesa.id x) ->
  first (fun x => Despesa.id x =? k)
        (update_where (fun x => Despesa.id x =? j) f (despesas db))
  = get_despesa db k.
Proof.
  intros Hne Hf. unfold get_despesa, first, update_where.
  induction (despesas db) as [|r rows IH]; [reflexivity|].
  cbn [List.map List.find].
  destruct (Z.eqb_spec (Despesa.id r) j) as [Hj|Hj].
  - rewrite Hf. destruct (Z.eqb_spec (Despesa.id r) k) as [Hk|_]; [congruence|exact IH].
  - destruct (Despesa.id r =? k); [reflexivity|exact IH].
Qed.

Lemma get_despesa_replace_other (db : DB) (k j : Z) (updated : Despesa.t) :
  k <> j -> Despesa.id updated = j ->
  first (fun x => Despesa.id x =? k)
        (update_where (fun x => Despesa.id x =? j) (fun _ => updated) (despesas db))
  = get_despesa db k.
Proof.
  intros Hne Hid. unfold get_despesa, first, update_where.
  induction (despesas db) as [|r rows IH]; [reflexivity|].
  cbn [List.map List.find].
  destruct (Z.eqb_spec (Despesa.id r) j) as [Hj|Hj].
  - rewrite Hid. destruct (Z.eqb_spec j k) as [Hk|_]; [congruence|].
    destruct (Z.eqb_spec (Despesa.id r) k) as [Hk|_]; [congruence|exact IH].
  - destruct (Despesa.id r =? k); [reflexivity|exact IH].
Qed.

Lemma apply_despesa_update_keeps (u : DespesaUpdate.t) (d updated : Despesa.t) :
  apply_despesa_update u d = Some updated ->
  Despesa.id updated = Despesa.id d
  /\ Despesa.status updated = Despesa.status d
  /\ Despesa.batch_id updated = Despesa.batch_id d.
Proof.
  unfold apply_despesa_update. intros H.
  repeat match type of H with
         | match ?x with _ => _ end = _ => destruct x; try discriminate
         end.
  injection H as <-. auto.
Qed.

Lemma get_despesa_filter_other (db : DB) (k j : Z) :
  k <> j ->
  first (fun x => Despesa.id x =? k)
        (List.filter (fun x => negb (Despesa.id x =? j)) (despesas db))
  = get_despesa db k.
Proof.
  intros Hne. unfold get_despesa, first.
  induction (despesas db) as [|r rows IH]; [reflexivity|].
  cbn [List.filter List.find].
  destruct (Z.eqb_spec (Despesa.id r) j) as [Hj|Hj]; cbn [negb List.find].
  - destruct (Z.eqb_spec (Despesa.id r) k) as [Hk|_]; [congruence|exact IH].
  - destruct (Despesa.id r =? k); [reflexivity|exact IH].
Qed.

Lemma get_despesa_filter_self (db : DB) (j : Z) :
  first (fun x => Despesa.id x =? j)
        (List.filter (fun x => negb (Despesa.id x =? j)) (despesas db))
  = None.
Proof.
  unfold first. induction (despesas db) as [|r rows IH]; [reflexivity|].
  cbn [List.filter]. destruct (Despesa.id r =? j) eqn:Hj; cbn [negb List.find];
    [exact IH|rewrite Hj; exact IH].
Qed.

(** X12.  [DELETE /despesas/{id}] on an expense that is not confirmed,
    pending or cancelled, by any user: the request succeeds, the rows with
    that key are gone from the table, a lookup of the key finds nothing,
    and every other expense and every other table is as before. *)
Theorem delete_despesa_endpoint_removes (db : DB) (despesa_id current_user : Z)
    (d : Despesa.t) :
  get_despesa db despesa_id = Some d ->
  Despesa.status d <> CONFIRMADA ->
  let db' := with_despesas
               (List.filter (fun x => negb (Despesa.id x =? despesa_id)) (despesas db)) db in
  run_request (delete_despesa_endpoint despesa_id current_user) db = (Ok tt, db')
  /\ get_despesa db' despesa_id = None
  /\ forall k, k <> despesa_id -> get_despesa db' k = get_despesa db k.
Proof.
  intros Hd Hst db'. split; [|split].
  - unfold delete_despesa_endpoint, delete_despesa. run_step. rewrite Hd.
    cbn [working]. rewrite Hd, (bool_decide_eq_false_2 _ Hst). reflexivity.
  - apply get_despesa_filter_self.
  - intros k Hk. apply get_despesa_filter_other. exact Hk.
Qed.

(** The outcomes of an update, on the expense table. *)
Lemma update_despesa_outcomes (today : Date) (despesa_id : Z) (u : DespesaUpdate.t)
    (is_admin : bool) (s : Session) :
  persisted s = working s ->
  let s' := snd (update_despesa today despesa_id u is_admin s) in
  s' = s
  \/ exists d0 updated,
       get_despesa (working s) despesa_id = Some d0
       /\ Despesa.status d0 <> CONFIRMADA
       /\ apply_despesa_update u d0 = Some updated
       /\ s' = mkSession
                 (with_despesas (update_where (fun x => Despesa.id x =? despesa_id)
                                              (fun _ => updated) (despesas (working s)))
                                (working s))
                 (with_despesas (update_where (fun x => Despesa.id x =? despesa_id)
                                              (fun _ => updated) (despesas (working s)))
                                (working s)).
Proof.
  intros Hsame. destruct s as [p w]. cbn [persisted working] in *. subst p.
  unfold update_despesa. rewrite bind_query. cbn [working].
  destruct (get_despesa w despesa_id) as [d0|] eqn:Hd; [|left; reflexivity].
  destruct (bool_decide (Despesa.status d0 = CONFIRMADA)) eqn:Hst; [left; reflexivity|].
  apply bool_decide_eq_false in Hst.
  unfold bind.
  match goal with
  | |- context [match DespesaUpdate.valor u with _ => _ end] =>
      destruct (DespesaUpdate.valor u) as [[v|]|]; [destruct (v <=? 0)| |];
      try (left; reflexivity)
  end;
  (unfold ret at 1;
   match goal with
   | |- context [match DespesaUpdate.rubrica_id u with _ => _ end] =>
       destruct (DespesaUpdate.rubrica_id u) as [[k|]|];
       [destruct (get_rubrica w k) as [rubrica|];
        [destruct (negb (bool_decide (Rubrica.status rubrica = ATIVA)));
         [|destruct (negb (is_rubrica_leaf w (Rubrica.id rubrica)))]|]| |];
       try (left; reflexivity)
   end;
   (unfold ret at 1;
    match goal with
    | |- context [match DespesaUpdate.fornecedor_id u with _ => _ end] =>
        destruct (DespesaUpdate.fornecedor_id u) as [sent|];
        [destruct (validar_fornecedor w sent)|];
        try (left; reflexivity)
    end;
    (unfold ret at 1;
     match goal with
     | |- context [match DespesaUpdate.data_emissao u with _ => _ end] =>
         destruct (DespesaUpdate.data_emissao u) as [[dt|]|];
         [destruct (date_gt dt today);
          [|match goal with
            | |- context [negb (col_is ?a ?b)] => destruct (negb (col_is a b))
            end]| |];
         try (left; reflexivity)
     end;
     (unfold ret at 1;
      destruct (apply_despesa_update u d0) as [updated|] eqn:Happly;
      [right; exists d0, updated; repeat split; try assumption; reflexivity
      |left; reflexivity])))).
Qed.

Lemma confirm_despesa_state (despesa_id : Z) (s : Session) :
  snd (confirm_despesa despesa_id s) = snd (confirm_despesa_with_execucao despesa_id s).
Proof.
  unfold confirm_despesa, bind.
  destruct (confirm_despesa_with_execucao despesa_id s) as [[d|e] s1]; reflexivity.
Qed.

(** The simple path, on the expense table: nothing, or the new status. *)
Lemma simple_path_despesas (despesa_id : Z) (db : DB) :
  let db' := snd (run_request (confirm_despesa_endpoint despesa_id) db) in
  despesas db' = despesas db
  \/ exists d0,
       get_despesa db despesa_id = Some d0
       /\ Despesa.status d0 <> CONFIRMADA
       /\ despesas db' = despesas (set_despesa_status despesa_id CONFIRMADA db).
Proof.
  cbv zeta. unfold run_request.
  pose proof (confirm_despesa_endpoint_state despesa_id (mkSession db db)) as Hstate.
  destruct (confirm_despesa_endpoint despesa_id (mkSession db db)) as [r s'].
  cbn [snd] in *. subst s'. rewrite confirm_despesa_state.
  assert (Hsvc :
    let s1 := snd (confirm_despesa_with_execucao despesa_id (mkSession db db)) in
    despesas (persisted s1) = despesas db
    \/ exists d0,
         get_despesa db despesa_id = Some d0
         /\ Despesa.status d0 <> CONFIRMADA
         /\ despesas (persisted s1) = despesas (set_despesa_status despesa_id CONFIRMADA db)).
  { cbv zeta. unfold confirm_despesa_with_execucao. rewrite bind_query. cbn [working].
    destruct (get_despesa db despesa_id) as [d0|] eqn:Hd; [|left; reflexivity].
    destruct (bool_decide (Despesa.status d0 = CONFIRMADA)) eqn:Hst; [left; reflexivity|].
    apply bool_decide_eq_false in Hst.
    destruct (negb (truthy_id (Despesa.rubrica_id d0))); [left; reflexivity|].
    erewrite bind_ok by (unfold write; reflexivity). cbn [working persisted].
    set (db1 := set_despesa_status despesa_id CONFIRMADA db).
    set (Q := fun x : DB => despesas x = despesas db \/ despesas x = despesas db1).
    match goal with
    | |- context [snd (?m ?s1)] =>
        assert (Hm : maintains (both Q) m);
        [|destruct (m s1) as [r2 s2] eqn:Hrun;
          assert (Hs1 : both Q s1) by (split; [left|right]; reflexivity);
          destruct (Hm _ _ _ Hs1 Hrun) as [[Hp|Hp] _]; cbn [snd];
          [left; exact Hp
          |right; exists d0; split; [reflexivity|split; [exact Hst|exact Hp]]]]
    end.
    assert (Hr : forall s v, both Q s ->
              both Q (mkSession (persisted s) (with_rubricas v (working s))))
      by (intros s v [Hp Hw]; split; [exact Hp|exact Hw]).
    assert (He : forall s v, both Q s ->
              both Q (mkSession (persisted s) (with_execucoes_mensais v (working s))))
      by (intros s v [Hp Hw]; split; [exact Hp|exact Hw]).
    assert (Hc : forall s, both Q s -> both Q (mkSession (working s) (working s)))
      by (intros s [Hp Hw]; split; exact Hw).
    apply maintains_bind; [apply update_execucao_mensal_maintains; exact He|intros _].
    apply maintains_bind;
      [apply update_ancestors_execucao_mensal_maintains; exact He|intros _].
    apply maintains_bind; [apply maintains_commit; exact Hc|intros _].
    apply maintains_query. }
  exact Hsvc.
Qed.

Lemma update_despesa_endpoint_state (today : Date) (despesa_id : Z) (u : DespesaUpdate.t)
    (user : Z) (db : DB) :
  snd (run_request (update_despesa_endpoint today despesa_id u user) db)
  = persisted (snd (update_despesa today despesa_id u
                      (tem_papel "admin" (get_usuario_papeis db user)) (mkSession db db))).
Proof.
  unfold run_request, update_despesa_endpoint. rewrite bind_query. cbn [working].
  destruct (update_despesa today despesa_id u _ (mkSession db db)) as [[[d|]|e] s'];
    [reflexivity|reflexivity|].
  destruct e; cbn; reflexivity.
Qed.

Lemma delete_despesa_endpoint_outcomes (despesa_id user : Z) (db : DB) :
  let db' := snd (run_request (delete_despesa_endpoint despesa_id user) db) in
  db' = db
  \/ exists d0,
       get_despesa db despesa_id = Some d0
       /\ Despesa.status d0 <> CONFIRMADA
       /\ db' = with_despesas
                  (List.filter (fun x => negb (Despesa.id x =? despesa_id)) (despesas db)) db.
Proof.
  cbv zeta. unfold delete_despesa_endpoint, delete_despesa. run_step.
  destruct (get_despesa db despesa_id) as [d0|] eqn:Hd; [|left; reflexivity].
  cbn [working]. rewrite Hd.
  destruct (bool_decide (Despesa.status d0 = CONFIRMADA)) eqn:Hst; [left; reflexivity|].
  apply bool_decide_eq_false in Hst. right. exists d0. auto.
Qed.

(** X13.  A confirmed expense stays.  Whatever request on expenses comes
    next (create, update, delete, confirm by either path, on any key and by
    any user, accepted or not), an expense that is stored as [CONFIRMADA] is
    afterwards stored under the same key with every field as it was. *)
Theorem confirmed_expense_is_permanent (q : DespesaRequest) (db : DB) (k : Z)
    (d : Despesa.t) :
  get_despesa db k = Some d ->
  Despesa.status d = CONFIRMADA ->
  get_despesa (after_despesa_request q db) k = Some d.
Proof.
  intros Hd Hst.
  assert (Hfix : Despesa.set_status CONFIRMADA d = d).
  { destruct d. cbn in *. subst. reflexivity. }
  assert (Hconfirm : forall j,
            get_despesa (set_despesa_status j CONFIRMADA db) k = Some d).
  { intros j. unfold get_despesa at 1. cbn [despesas set_despesa_status with_despesas].
    destruct (Z.eq_dec k j) as [<-|Hne].
    - rewrite (first_update_where _ _ (Despesa.set_status CONFIRMADA) _ d);
        [rewrite Hfix; reflexivity|reflexivity|exact Hd|].
      exact (proj1 (first_some_true _ _ _ Hd)).
    - rewrite get_despesa_update_other; [exact Hd|exact Hne|reflexivity]. }
  destruct q as [today data user|today j u user|j user|j|j override user];
    cbn [after_despesa_request].
  - pose proof (create_despesa_endpoint_result today data user db) as Hout.
    destruct (run_request (create_despesa_endpoint today data user) db) as [[x|e] db'];
      cbn [snd].
    + destruct Hout as (_ & -> & _). unfold get_despesa. cbn [despesas with_despesas].
      apply first_app_old. exact Hd.
    + destruct Hout as [-> _]. exact Hd.
  - rewrite update_despesa_endpoint_state.
    destruct (update_despesa_outcomes today j u
                (tem_papel "admin" (get_usuario_papeis db user)) (mkSession db db) eq_refl)
      as [->|(d0 & updated & Hd0 & Hst0 & Happly & ->)]; [exact Hd|].
    cbn [persisted working] in *. unfold get_despesa at 1. cbn [despesas with_despesas].
    destruct (Z.eq_dec k j) as [<-|Hne]; [congruence|].
    rewrite get_despesa_replace_other; [exact Hd|exact Hne|].
    rewrite (proj1 (apply_despesa_update_keeps _ _ _ Happly)).
    apply Z.eqb_eq. exact (proj1 (first_some_true _ _ _ Hd0)).
  - destruct (delete_despesa_endpoint_outcomes j user db)
      as [->|(d0 & Hd0 & Hst0 & ->)]; [exact Hd|].
    unfold get_despesa at 1. cbn [despesas with_despesas].
    destruct (Z.eq_dec k j) as [<-|Hne]; [congruence|].
    rewrite get_despesa_filter_other by exact Hne. exact Hd.
  - destruct (simple_path_despesas j db) as [Hsame|(d0 & Hd0 & Hst0 & Hnew)];
      unfold get_despesa at 1.
    + rewrite Hsame. exact Hd.
    + rewrite Hnew. apply Hconfirm.
  - rewrite confirm_despesa_with_dotacao_writes_nothing. exact Hd.
Qed.

Lemma with_despesas_same (db : DB) : with_despesas (despesas db) db = db.
Proof. destruct db. reflexivity. Qed.

Lemma despesa_by_key (rows : list Despesa.t) (j : Z) (d0 x : Despesa.t) :
  NoDup (List.map Despesa.id rows) ->
  first (fun y => Despesa.id y =? j) rows = Some d0 ->
  In x rows -> Despesa.id x = j -> x = d0.
Proof.
  unfold first. induction rows as [|r rows IH]; [intros _ _ []|].
  cbn [List.map List.find]. intros Hnd Hfirst Hin Hid.
  apply NoDup_cons in Hnd. destruct Hnd as [Hnot Hnd].
  destruct (Z.eqb_spec (Despesa.id r) j) as [Hj|Hj].
  - injection Hfirst as <-. destruct Hin as [->|Hin]; [reflexivity|].
    exfalso. apply Hnot. apply list_elem_of_In. rewrite Hj, <- Hid.
    apply in_map. exact Hin.
  - destruct Hin as [->|Hin]; [contradiction|]. exact (IH Hnd Hfirst Hin Hid).
Qed.

(** X14.  [PUT /despesas/{id}] changes no status.  On a table with unique
    keys, whatever is sent and whatever the answer, the expenses afterwards
    are the same rows by key, each with the status and the import batch it
    had, and every other table is as before: an update never confirms,
    cancels, adds or removes an expense. *)
Theorem update_despesa_endpoint_keeps_status (today : Date) (despesa_id : Z)
    (despesa_data : DespesaUpdate.t) (current_user : Z) (db : DB) :
  NoDup (List.map Despesa.id (despesas db)) ->
  let db' := snd (run_request
                    (update_despesa_endpoint today despesa_id despesa_data current_user) db) in
  List.map (fun d => (Despesa.id d, Despesa.status d, Despesa.batch_id d)) (despesas db')
  = List.map (fun d => (Despesa.id d, Despesa.status d, Despesa.batch_id d)) (despesas db)
  /\ db' = with_despesas (despesas db') db.
Proof.
  intros Hnd. cbv zeta. rewrite update_despesa_endpoint_state.
  destruct (update_despesa_outcomes today despesa_id despesa_data
              (tem_papel "admin" (get_usuario_papeis db current_user)) (mkSession db db)
              eq_refl)
    as [->|(d0 & updated & Hd0 & Hst0 & Happly & ->)]; cbn [persisted working] in *.
  - split; [reflexivity|]. symmetry. apply with_despesas_same.
  - cbn [despesas with_despesas]. split; [|destruct db; reflexivity].
    unfold update_where. rewrite map_map. apply map_ext_in. intros x Hx.
    destruct (Z.eqb_spec (Despesa.id x) despesa_id) as [Hid|]; [|reflexivity].
    rewrite (despesa_by_key _ _ d0 x Hnd Hd0 Hx Hid).
    destruct (apply_despesa_update_keeps _ _ _ Happly) as (H1 & H2 & H3).
    rewrite H1, H2, H3. reflexivity.
Qed.

(** ** Spending within the available balance *)

(** X15.  Accepted spending leaves the available balance non-negative.
    After a reservation that was accepted, and after a confirmation without
    override that answered "confirmed", the available balance of the fiscal
    year's allocation ([saldo] less [reservado]) is not negative, whatever
    it was before.  (The second case is empty as the allocation-aware path
    is served: it gives no such answer.) *)
Theorem accepted_spending_keeps_available_nonnegative (db db' : DB) (e : Z) :
  (exists data user resp,
      ReservaRequest.exercicio data = e
      /\ run_request (criar_reserva data user) db = (Ok resp, db'))
  \/ (exists despesa_id user d i v sr st rv,
         get_despesa db despesa_id = Some d
         /\ Despesa.exercicio d = e
         /\ run_request (confirm_despesa_with_dotacao despesa_id false user) db
            = (Ok (ConfirmadaComSucesso i v sr st rv), db')) ->
  0 <= saldo_restante_de db' e.
Proof.
  intros [(data & user & resp & <- & Hrun)|(j & user & d & i & v & sr & st & rv & Hd & <- & Hrun)].
  - revert Hrun. unfold criar_reserva, validated_decimal.
    destruct (Dec.is_finite (ReservaRequest.valor data)) eqn:Hfin; [|discriminate].
    run_step.
    destruct (get_dotacao db (ReservaRequest.exercicio data)) as [dotacao|] eqn:Hdot;
      [|discriminate].
    destruct (Dec.gt_cents (ReservaRequest.valor data)
                (DotacaoGlobal.saldo dotacao - DotacaoGlobal.reservado dotacao))
      as [[]|] eqn:Hgt; [discriminate| |discriminate].
    destruct (add_cents_le _ _ _ Hfin Hgt) as (w & Hw & Hle).
    intros H. injection H as _ <-. cbn [working persisted].
    unfold saldo_restante_de, get_dotacao.
    change (dotacoes_globais (add_movimento ?a ?b ?c ?d ?f ?g ?x)) with (dotacoes_globais x).
    match goal with
    | |- context [update_dotacao ?k ?f db] =>
        fold (get_dotacao (update_dotacao k f db) (ReservaRequest.exercicio data));
        rewrite (get_dotacao_update db _ dotacao f (fun _ => eq_refl) Hdot)
    end.
    cbn. rewrite Hw. cbn. lia.
  - exfalso. unfold run_request in Hrun.
    rewrite confirm_despesa_with_dotacao_refused in Hrun. discriminate Hrun.
Qed.

(** ** The rubrica endpoints: who may, and what creation answers *)

(** X16.  Without the role [admin], the five requests of [api/rubricas.py]
    that depend on [require_admin] (create, batch create, update, soft
    delete of a rubrica, and the population of the monthly execution) answer
    403 and leave the database as it was. *)
Theorem rubrica_mutations_require_admin (db : DB) (current_user : Z)
    (novo : RubricaCreate.t) (batch_data : RubricaBatchCreate.t)
    (rubrica_id : Z) (rubrica_update : RubricaUpdate.t) (exercicio : Z) :
  tem_papel "admin" (get_usuario_papeis db current_user) = false ->
  refused db (run_request (create_rubrica_endpoint novo current_user) db)
  /\ refused db (run_request (create_rubricas_batch batch_data current_user) db)
  /\ refused db (run_request (update_rubrica_endpoint rubrica_id rubrica_update current_user) db)
  /\ refused db (run_request (delete_rubrica_endpoint rubrica_id current_user) db)
  /\ refused db (run_request (popular_execucao_mensal exercicio current_user) db).
Proof.
  intros Hrole.
  unfold refused, create_rubrica_endpoint, create_rubricas_batch, update_rubrica_endpoint,
    delete_rubrica_endpoint, popular_execucao_mensal, require_admin.
  run_step. rewrite Hrole. cbn [fst snd].
  repeat split; eexists; reflexivity.
Qed.

Lemma create_rubrica_raises (novo : RubricaCreate.t) (s : Session) :
  is_ok (fst (create_rubrica novo s)) = false.
Proof.
  unfold create_rubrica. rewrite bind_query.
  match goal with
  | |- context [if ?c then raise (ValueError PaiComDotacaoInicial) else _] =>
      destruct c; [reflexivity|]
  end.
  match goal with
  | |- context [if ?c then raise (ValueError DotacaoInicialNegativa) else _] =>
      destruct c; [reflexivity|]
  end.
  match goal with
  | |- context [rubrica_insert_allowed (working s) ?x] =>
      set (nx := x); destruct (rubrica_insert_allowed (working s) nx)
  end; cbn [negb]; [|reflexivity].
  pose proof (next_id_pos (List.map Rubrica.id (rubricas (working s)))) as Hpos.
  destruct (Z.eqb_spec (Rubrica.id nx) 0) as [Hz|_]; [cbn in Hz; lia|]. cbn [negb].
  run_step.
  match goal with
  | |- context [recalculate_dotacao_chain ?k ?s1] =>
      destruct (recalculate_dotacao_chain k s1) as [[[]|e] s2]
  end; reflexivity.
Qed.

(** X17.  [POST /rubricas] never answers with the rubrica.  Whatever is
    sent, by whom, on whatever database, the request ends with an exception:
    a rejection, or, once the row is in the table, the read of the attribute
    [dotacao] that [Rubrica] does not have. *)
Theorem create_rubrica_endpoint_never_returns (novo : RubricaCreate.t) (current_user : Z)
    (db : DB) :
  is_ok (fst (run_request (create_rubrica_endpoint novo current_user) db)) = false.
Proof.
  unfold create_rubrica_endpoint, require_admin. run_step.
  destruct (tem_papel "admin" (get_usuario_papeis db current_user)); [|reflexivity].
  cbn [working].
  destruct (get_rubrica_by_codigo_exercicio db _ _); [reflexivity|].
  unfold value_error_400.
  pose proof (create_rubrica_raises novo (mkSession db db)) as Hr.
  destruct (create_rubrica novo (mkSession db db)) as [[r|e] s']; [discriminate|].
  destruct e; reflexivity.
Qed.

(** X18.  [POST /rubricas] stores the rubrica before it fails.  For an
    administrator, on a well-formed table, with a code that is free in the
    fiscal year, a parent that exists when one is given, and an initial
    allocation that is absent, or not negative and zero for a rubrica
    without parent: the answer is the [AttributeError], and the committed
    table is the old one with the new row at its end, up to the computed
    allocations that the recalculation wrote. *)
Theorem create_rubrica_endpoint_stores_then_fails (novo : RubricaCreate.t)
    (current_user : Z) (db : DB) :
  hierarchy_wf (rubricas db) ->
  tem_papel "admin" (get_usuario_papeis db current_user) = true ->
  get_rubrica_by_codigo_exercicio db (RubricaCreate.codigo novo)
                                  (RubricaCreate.exercicio novo) = None ->
  (forall p, RubricaCreate.parent_id novo = Some p -> is_Some (get_rubrica db p)) ->
  (forall v, RubricaCreate.dotacao_inicial novo = Some v ->
             0 <= v /\ (RubricaCreate.parent_id novo = None -> v = 0)) ->
  exists rows',
    run_request (create_rubrica_endpoint novo current_user) db
    = (Raise (AttributeError AtributoDotacao), with_rubricas rows' db)
    /\ List.map (Rubrica.set_dotacao_calculada None) rows'
       = List.map (Rubrica.set_dotacao_calculada None) (rubricas db ++ [nova_rubrica db novo]).
Proof.
  intros Hwf Hadmin Hfree Hparent Hdot.
  unfold create_rubrica_endpoint, require_admin. run_step. rewrite Hadmin.
  cbn [working]. rewrite Hfree.
  unfold value_error_400, create_rubrica. rewrite bind_query. cbn [working].
  assert (Hc1 : match RubricaCreate.parent_id novo, RubricaCreate.dotacao_inicial novo with
                | None, Some v => 0 <? v
                | _, _ => false
                end = false).
  { destruct (RubricaCreate.parent_id novo) as [p|] eqn:Hp; [reflexivity|].
    destruct (RubricaCreate.dotacao_inicial novo) as [v|] eqn:Hv; [|reflexivity].
    destruct (Hdot v eq_refl) as [_ Hz]. rewrite (Hz eq_refl). reflexivity. }
  assert (Hc2 : match RubricaCreate.dotacao_inicial novo with
                | Some v => v <? 0
                | None => false
                end = false).
  { destruct (RubricaCreate.dotacao_inicial novo) as [v|] eqn:Hv; [|reflexivity].
    destruct (Hdot v eq_refl) as [Hz _]. apply Z.ltb_ge. exact Hz. }
  rewrite Hc1, Hc2.
  match goal with
  | |- context [rubrica_insert_allowed db ?x] =>
      assert (Heq : x = nova_rubrica db novo);
      [unfold nova_rubrica; destruct (RubricaCreate.parent_id novo); reflexivity|];
      rewrite !Heq
  end.
  set (nx := nova_rubrica db novo).
  assert (Hallowed : rubrica_insert_allowed db nx = true).
  { unfold rubrica_insert_allowed. change (Rubrica.parent_id nx) with
      (RubricaCreate.parent_id novo).
    change (Rubrica.codigo nx) with (RubricaCreate.codigo novo).
    change (Rubrica.exercicio nx) with (RubricaCreate.exercicio novo).
    rewrite Hfree. destruct (RubricaCreate.parent_id novo) as [p|] eqn:Hp; [|reflexivity].
    destruct (Hparent p eq_refl) as [rp ->]. reflexivity. }
  rewrite Hallowed. cbn [negb].
  assert (Hnid : Rubrica.id nx = next_id (List.map Rubrica.id (rubricas db))) by reflexivity.
  pose proof (next_id_pos (List.map Rubrica.id (rubricas db))) as Hnpos.
  destruct (Z.eqb_spec (Rubrica.id nx) 0) as [Hz|_]; [lia|]. cbn [negb].
  set (db1 := with_rubricas (rubricas db ++ [nx]) db).
  assert (Hwf1 : hierarchy_wf (rubricas db1)).
  { apply hierarchy_wf_add; [exact Hwf|exact Hnid|].
    intros p Hp. destruct (Hparent p Hp) as [rp Hrp].
    apply get_rubrica_some in Hrp. destruct Hrp as [<- Hin]. apply in_map. exact Hin. }
  destruct (recalculate_dotacao_chain_step (mkSession db1 db1) (Rubrica.id nx) Hwf1)
    as (rows' & Hrun & _ & Hsame & _).
  exists rows'. split; [|exact Hsame].
  run_step. fold db1. cbn [working persisted] in Hrun. rewrite Hrun.
  cbn [working persisted]. unfold db1. destruct db. reflexivity.
Qed.

(** ** The import as a whole *)

Section ImportAsAWhole.

Variable today : Date.
Variable now_month : Z.
Variable parse_date : string -> option (Date * bool).
Variable normalize_name : string -> string.
Variable fuzz_extract : string -> list string -> list (string * Z).

(** A row that the processor answers for has changed nothing, and carries
    the data of an expense exactly when it carries no error. *)
Lemma process_row_answer (exercicio : Z) (row : Row) (mapping : ColumnMapping.t)
    (linha_numero : Z) (s s' : Session) (resultado : Resultado.t) :
  process_row now_month parse_date normalize_name fuzz_extract
              exercicio row mapping linha_numero s = (Ok resultado, s') ->
  s' = s
  /\ (Resultado.erros resultado = [] -> is_Some (Resultado.despesa_data resultado)).
Proof.
  unfold process_row.
  destruct (parse_currency (cell row (ColumnMapping.valor mapping))) as [valor|].
  - destruct (Dec.le_zero valor) as [[]|]; [| |discriminate].
    + match goal with
      | |- context [?e1 ++ ?e2 ++ [ValorDeveSerPositivo valor]] =>
          destruct (e1 ++ e2 ++ [ValorDeveSerPositivo valor]) as [|x l] eqn:He
      end.
      { apply (f_equal (@length _)) in He. rewrite !length_app in He. cbn in He. lia. }
      intros H. injection H as <- <-. split; [reflexivity|discriminate].
    + match goal with
      | |- context [?e1 ++ ?e2 ++ []] => destruct (e1 ++ e2 ++ []) as [|x l] eqn:He
      end.
      * unfold rubrica_match. intros Hrun.
        apply bind_ok_inv in Hrun. destruct Hrun as ([k created] & s1 & Hmatch & Hrun).
        rewrite bind_query in Hrun.
        assert (Hs1 : s1 = s).
        { rewrite bind_query in Hmatch.
          destruct (get_rubrica_by_codigo_exercicio (working s) _ exercicio).
          - injection Hmatch as _ _ <-. reflexivity.
          - apply bind_ok_inv in Hmatch. destruct Hmatch as (r & s2 & Hcreate & _).
            pose proof (create_rubrica_raises
                          (RubricaCreate.mk
                             (normalize_code (cell row (ColumnMapping.codigo_rubrica mapping)))
                             (rubrica_provisoria
                              ++ normalize_code
                                   (cell row (ColumnMapping.codigo_rubrica mapping)))
                             DESPESA None 1 (Some 0) exercicio PROVISORIA) s) as Hr.
            rewrite Hcreate in Hr. discriminate. }
        subst s1.
        destruct (fornecedor_match normalize_name fuzz_extract (working s) _);
          [|discriminate].
        injection Hrun as <- <-. split; [reflexivity|]. cbn. eauto.
      * intros H. injection H as <- <-. split; [reflexivity|discriminate].
  - match goal with
    | |- context [?e1 ++ ?e2 ++ [ValorInvalido ?v]] =>
        destruct (e1 ++ e2 ++ [ValorInvalido v]) as [|x l] eqn:He
    end.
    { apply (f_equal (@length _)) in He. rewrite !length_app in He. cbn in He. lia. }
    intros H. injection H as <- <-. split; [reflexivity|discriminate].
Qed.

(** [create_despesa] in a session with nothing pending: one more row,
    committed, or an exception and the session as it was. *)
Lemma create_despesa_session (despesa : DespesaCreate.t) (s : Session) :
  persisted s = working s ->
  match create_despesa today despesa s with
  | (Ok row, s') =>
      s' = mkSession (with_despesas (despesas (working s) ++ [row]) (working s))
                     (with_despesas (despesas (working s) ++ [row]) (working s))
  | (Raise e, s') => s' = s /\ catchable e = true
  end.
Proof.
  intros Hsame.
  destruct (create_despesa_accepts today (working s) despesa) eqn:Hacc.
  - destruct (despesa_exercicio despesa) as [exercicio|] eqn:Hex;
      [destruct (despesa_mes despesa) as [mes|] eqn:Hmes|].
    + rewrite (create_despesa_passed today despesa s exercicio mes Hacc Hex Hmes).
      cbv zeta. destruct (despesa_insert_allowed _ _); [reflexivity|].
      destruct s as [p w]. cbn [persisted working] in *. subst p. auto.
    + revert Hacc. unfold create_despesa_accepts, create_despesa. run_step.
      fold (despesa_exercicio despesa). fold (despesa_mes despesa).
      rewrite Hex, Hmes. intros Hacc.
      repeat (apply andb_true_iff in Hacc; destruct Hacc as [Hacc ?]).
      rewrite Hacc. cbn [negb].
      match goal with H : negb (_ =? 0) = true |- _ => apply negb_true_iff in H; rewrite H end.
      destruct (get_rubrica (working s) (DespesaCreate.rubrica_id despesa)); [|discriminate].
      match goal with H : bool_decide _ = true |- _ => rewrite H end. cbn [negb].
      match goal with H : is_rubrica_leaf _ _ = true |- _ => rewrite H end. cbn [negb].
      destruct (validar_fornecedor (working s) (DespesaCreate.fornecedor_id despesa));
        [discriminate|].
      destruct s as [p w]. cbn [persisted working] in *. subst p.
      destruct (DespesaCreate.data_emissao despesa) as [d|].
      * match goal with H : _ && _ = true |- _ =>
          apply andb_true_iff in H; destruct H as [Hfut Hyear] end.
        apply negb_true_iff in Hfut. apply negb_true_iff in Hyear. rewrite Hfut, Hyear.
        cbn. auto.
      * cbn. auto.
    + revert Hacc. unfold create_despesa_accepts, create_despesa. run_step.
      fold (despesa_exercicio despesa). fold (despesa_mes despesa).
      rewrite Hex. intros Hacc.
      repeat (apply andb_true_iff in Hacc; destruct Hacc as [Hacc ?]).
      rewrite Hacc. cbn [negb].
      match goal with H : negb (_ =? 0) = true |- _ => apply negb_true_iff in H; rewrite H end.
      destruct (get_rubrica (working s) (DespesaCreate.rubrica_id despesa)); [|discriminate].
      match goal with H : bool_decide _ = true |- _ => rewrite H end. cbn [negb].
      match goal with H : is_rubrica_leaf _ _ = true |- _ => rewrite H end. cbn [negb].
      destruct (validar_fornecedor (working s) (DespesaCreate.fornecedor_id despesa));
        [discriminate|].
      destruct s as [p w]. cbn [persisted working] in *. subst p.
      destruct (DespesaCreate.data_emissao despesa) as [d|].
      * match goal with H : _ && _ = true |- _ =>
          apply andb_true_iff in H; destruct H as [Hfut Hyear] end.
        apply negb_true_iff in Hfut. apply negb_true_iff in Hyear. rewrite Hfut, Hyear.
        cbn. auto.
      * cbn. auto.
  - destruct (create_despesa_rejected today despesa s Hacc) as (e & -> & Hcatch). auto.
Qed.

Lemma import_row_counted (exercicio : Z) (mapping : ColumnMapping.t) (batch_id : Z)
    (n0 : nat) (total : Z) (k : nat) (acc acc' : ImportResult) (indexed : Z * Row)
    (s s' : Session) :
  import_counted n0 total k acc s ->
  import_row today now_month parse_date normalize_name fuzz_extract
             exercicio mapping batch_id false acc indexed s = (Ok acc', s') ->
  import_counted n0 total (S k) acc' s'.
Proof.
  intros (Hsame & Htot & Hsum & Hpos & Hupd & Hdet & Hlen). unfold import_row. intros Hrun.
  apply bind_ok_inv in Hrun. destruct Hrun as (res & s1 & Hproc & Hrun).
  destruct (process_row_answer _ _ _ _ _ _ _ Hproc) as [-> Hdata].
  destruct (Resultado.erros res) as [|x l].
  - destruct (Hdata eq_refl) as [data Hd]. rewrite Hd in Hrun.
    unfold try_except in Hrun.
    destruct (despesa_create_of data batch_id) as [dc|].
    + unfold bind in Hrun.
      pose proof (create_despesa_session dc s Hsame) as Hcreate.
      destruct (create_despesa today dc s) as [[row|e] s2].
      * subst s2. injection Hrun as <- <-. unfold import_counted.
        cbn [persisted working total_rows import_criadas import_erros import_atualizadas
             detalhes despesas with_despesas].
        rewrite length_app. cbn [length].
        repeat split; try assumption; try lia.
      * destruct Hcreate as [-> Hcatch]. rewrite Hcatch in Hrun.
        injection Hrun as <- <-. unfold import_counted.
        cbn [total_rows import_criadas import_erros import_atualizadas detalhes].
        rewrite length_app. cbn [length].
        repeat split; try assumption; try lia.
    + cbn in Hrun. injection Hrun as <- <-. unfold import_counted.
      cbn [total_rows import_criadas import_erros import_atualizadas detalhes].
      rewrite length_app. cbn [length].
      repeat split; try assumption; try lia.
  - injection Hrun as <- <-. unfold import_counted.
    cbn [total_rows import_criadas import_erros import_atualizadas detalhes].
    rewrite length_app. cbn [length].
    repeat split; try assumption; try lia.
Qed.

Lemma import_rows_counted (exercicio : Z) (mapping : ColumnMapping.t) (batch_id : Z)
    (n0 : nat) (total : Z) (df : list (Z * Row)) :
  forall (k : nat) (acc acc' : ImportResult) (s s' : Session),
    import_counted n0 total k acc s ->
    fold_m (import_row today now_month parse_date normalize_name fuzz_extract
                       exercicio mapping batch_id false) df acc s = (Ok acc', s') ->
    import_counted n0 total (k + length df) acc' s'.
Proof.
  induction df as [|row df IH]; intros k acc acc' s s' Hc Hrun.
  - injection Hrun as <- <-. rewrite Nat.add_0_r. exact Hc.
  - cbn [fold_m] in Hrun. apply bind_ok_inv in Hrun.
    destruct Hrun as (acc1 & s1 & Hrow & Hrest).
    pose proof (import_row_counted _ _ _ _ _ _ _ _ _ _ _ Hc Hrow) as Hc1.
    pose proof (IH _ _ _ _ _ Hc1 Hrest) as Hc2.
    cbn [length]. replace (k + S (length df))%nat with (S k + length df)%nat by lia.
    exact Hc2.
Qed.

(** X19.  The counters of an import add up.  When an import that is not a
    dry run answers, every row of the file is counted exactly once, as
    created or as an error: the two counters sum to the number of rows,
    nothing is counted as updated, there is one detail entry per error,
    and the expense table has grown by exactly the number counted as
    created. *)
Theorem execute_import_counts_add_up (exercicio : Z) (df : list (Z * Row))
    (mapping : ColumnMapping.t) (batch_id : Z) (db db' : DB) (r : ImportResult) :
  run_request (execute_import today now_month parse_date normalize_name fuzz_extract
                              exercicio df mapping batch_id false) db = (Ok r, db') ->
  total_rows r = Z.of_nat (length df)
  /\ import_criadas r + import_erros r = total_rows r
  /\ import_atualizadas r = 0
  /\ Z.of_nat (length (detalhes r)) = import_erros r
  /\ Z.of_nat (length (despesas db')) = Z.of_nat (length (despesas db)) + import_criadas r.
Proof.
  unfold run_request, execute_import.
  destruct (bind _ _ (mkSession db db)) as [[r0|e] s'] eqn:Hrun; [|discriminate].
  intros H. injection H as -> <-.
  apply bind_ok_inv in Hrun. destruct Hrun as (r1 & s1 & Hloop & Hrun).
  assert (Hstart : import_counted (length (despesas db)) (Z.of_nat (length df)) 0
                     (mkImportResult (Z.of_nat (length df)) 0 0 0 []) (mkSession db db)).
  { unfold import_counted. cbn. repeat split; lia. }
  pose proof (import_rows_counted _ _ _ _ _ _ _ _ _ _ _ Hstart Hloop)
    as (Hsame & Htot & Hsum & Hpos & Hupd & Hdet & Hlen).
  cbn [negb] in Hrun. apply bind_ok_inv in Hrun.
  destruct Hrun as ([] & s2 & Hbatch & Hret). injection Hret as <- <-.
  assert (Hs2 : despesas (persisted s2) = despesas (working s1)).
  { revert Hbatch. unfold update_import_batch. rewrite bind_query.
    destruct (first _ (import_batches (working s1))).
    - run_step. intros H. injection H as <-. reflexivity.
    - intros H. injection H as <-. rewrite Hsame. reflexivity. }
  rewrite Hs2. cbn [Nat.add] in *. repeat split; try assumption; lia.
Qed.

End ImportAsAWhole.

(** ** A dry run *)

Section RubricaFrames.
Variable P : Session -> Prop.
Hypothesis P_rubricas :
  forall s v, P s -> P (mkSession (persisted s) (with_rubricas v (working s))).
Hypothesis P_commit : forall s, P s -> P (mkSession (working s) (working s)).
Hypothesis P_rollback : forall s, P s -> P (mkSession (persisted s) (persisted s)).

Lemma maintains_rollback : maintains P rollback.
Proof. intros s r s' Hs H. injection H as <- <-. auto. Qed.

Lemma create_rubrica_maintains (novo : RubricaCreate.t) : maintains P (create_rubrica novo).
Proof.
  unfold create_rubrica.
  apply maintains_bind; [apply maintains_query|intros db].
  match goal with
  | |- maintains _ (if ?c then _ else _) => destruct c; [apply maintains_raise|]
  end.
  match goal with
  | |- maintains _ (if ?c then _ else _) => destruct c; [apply maintains_raise|]
  end.
  match goal with
  | |- maintains _ (if ?c then _ else _) => destruct c
  end.
  - apply maintains_bind; [apply maintains_rollback|intros _; apply maintains_raise].
  - apply maintains_bind; [apply maintains_write; intros; apply P_rubricas; assumption|].
    intros _. apply maintains_bind; [apply maintains_commit; exact P_commit|intros _].
    match goal with
    | |- maintains _ (if ?c then _ else _) => destruct c
    end.
    + apply maintains_bind.
      { apply recalculate_dotacao_chain_maintains. exact P_rubricas. }
      intros _. apply maintains_bind; [apply maintains_commit; exact P_commit|intros _].
      apply maintains_raise.
    + apply maintains_bind; [apply maintains_query|intros r]. apply maintains_ret.
Qed.

End RubricaFrames.

Section DryRun.

Variable today : Date.
Variable now_month : Z.
Variable parse_date : string -> option (Date * bool).
Variable normalize_name : string -> string.
Variable fuzz_extract : string -> list string -> list (string * Z).

Lemma process_row_maintains (P : Session -> Prop) (exercicio : Z) (row : Row)
    (mapping : ColumnMapping.t) (linha_numero : Z) :
  (forall s v, P s -> P (mkSession (persisted s) (with_rubricas v (working s)))) ->
  (forall s, P s -> P (mkSession (working s) (working s))) ->
  (forall s, P s -> P (mkSession (persisted s) (persisted s))) ->
  maintains P (process_row now_month parse_date normalize_name fuzz_extract
                           exercicio row mapping linha_numero).
Proof.
  intros Hr Hc Hb. unfold process_row.
  match goal with
  | |- maintains _ (match ?x with Some _ => _ | None => _ end) =>
      destruct x as [erros3|]; [|apply maintains_raise]
  end.
  match goal with
  | |- maintains _ (match ?e with [] => _ | _ :: _ => _ end) => destruct e
  end; [|apply maintains_ret].
  destruct (parse_currency _) as [valor|]; [|apply maintains_ret].
  apply maintains_bind.
  { unfold rubrica_match. apply maintains_bind; [apply maintains_query|intros db].
    destruct (get_rubrica_by_codigo_exercicio db _ exercicio); [apply maintains_ret|].
    apply maintains_bind; [apply create_rubrica_maintains; assumption|].
    intros r. apply maintains_ret. }
  intros [k created]. apply maintains_bind; [apply maintains_query|intros db].
  destruct (fornecedor_match normalize_name fuzz_extract db _);
    [apply maintains_ret|apply maintains_raise].
Qed.

(** In a dry run a row changes no counter but the errors. *)
Lemma import_row_dry (exercicio : Z) (mapping : ColumnMapping.t) (batch_id : Z)
    (acc acc' : ImportResult) (indexed : Z * Row) (s s' : Session) :
  import_row today now_month parse_date normalize_name fuzz_extract
             exercicio mapping batch_id true acc indexed s = (Ok acc', s') ->
  import_criadas acc' = import_criadas acc
  /\ import_atualizadas acc' = import_atualizadas acc.
Proof.
  unfold import_row. intros Hrun.
  apply bind_ok_inv in Hrun. destruct Hrun as (res & s1 & _ & Hrun).
  destruct (Resultado.erros res); injection Hrun as <- _; auto.
Qed.

(** X20.  A dry run stores no expense.  Whatever the file and whatever the
    outcome, an import with [dry_run] leaves the expenses, the import
    batches, the monthly executions, the allocations and the ledger exactly
    as they were, and when it answers it counts nothing as created or
    updated.  (The rubrica table is not in the list: the row processor
    creates provisional rubricas in a dry run as in a real one.) *)
Theorem dry_run_stores_no_expense (exercicio : Z) (df : list (Z * Row))
    (mapping : ColumnMapping.t) (batch_id : Z) (db : DB) :
  let outcome := run_request (execute_import today now_month parse_date normalize_name
                                fuzz_extract exercicio df mapping batch_id true) db in
  same_records db (snd outcome)
  /\ match fst outcome with
     | Ok r => import_criadas r = 0 /\ import_atualizadas r = 0
     | Raise _ => True
     end.
Proof.
  cbv zeta. split.
  - apply (run_request_both (same_records db)).
    + unfold execute_import.
      assert (Hr : forall s v, both (same_records db) s ->
                both (same_records db) (mkSession (persisted s) (with_rubricas v (working s))))
        by (intros s v [Hp Hw]; split; [exact Hp|exact Hw]).
      assert (Hc : forall s, both (same_records db) s ->
                both (same_records db) (mkSession (working s) (working s)))
        by (intros s [Hp Hw]; split; exact Hw).
      assert (Hb : forall s, both (same_records db) s ->
                both (same_records db) (mkSession (persisted s) (persisted s)))
        by (intros s [Hp Hw]; split; exact Hp).
      apply maintains_bind.
      { apply maintains_fold_m. intros acc indexed. unfold import_row.
        apply maintains_bind; [apply process_row_maintains; assumption|intros res].
        destruct (Resultado.erros res); apply maintains_ret. }
      intros r. cbn [negb]. apply maintains_bind; apply maintains_ret || intros _.
      apply maintains_ret.
    + repeat split.
  - unfold run_request, execute_import.
    destruct (bind _ _ (mkSession db db)) as [[r|e] s'] eqn:Hrun; cbn [fst]; [|exact I].
    apply bind_ok_inv in Hrun. destruct Hrun as (r1 & s1 & Hloop & Hrun).
    cbn in Hrun. injection Hrun as <- _.
    assert (Hgen : forall l acc acc' s2 s3,
              fold_m (import_row today now_month parse_date normalize_name fuzz_extract
                                 exercicio mapping batch_id true) l acc s2 = (Ok acc', s3) ->
              import_criadas acc' = import_criadas acc
              /\ import_atualizadas acc' = import_atualizadas acc).
    { induction l as [|x l IH]; intros acc acc' s2 s3 H.
      - injection H as <- _. auto.
      - cbn [fold_m] in H. apply bind_ok_inv in H. destruct H as (a1 & s4 & Hrow & Hrest).
        destruct (import_row_dry _ _ _ _ _ _ _ _ Hrow) as [H1 H2].
        destruct (IH _ _ _ _ Hrest) as [H3 H4]. split; congruence. }
    exact (Hgen _ _ _ _ _ Hloop).
Qed.

End DryRun.

(** ** Text normalisation *)

Lemma upper_char_idem (c : ascii) :
  Text.upper_char (Text.upper_char c) = Text.upper_char c.
Proof. destruct c as [[] [] [] [] [] [] [] []]; reflexivity. Qed.

Lemma upper_idem (s : string) : Text.upper (Text.upper s) = Text.upper s.
Proof.
  induction s as [|c s IH]; [reflexivity|]. cbn [Text.upper].
  rewrite upper_char_idem, IH. reflexivity.
Qed.

(** *** Appending and reversing *)

Lemma append_cons (c : ascii) (a b : string) :
  (String c a ++ b)%string = String c (a ++ b)%string.
Proof. reflexivity. Qed.

Lemma append_nil_r (s : string) : (s ++ EmptyString)%string = s.
Proof. induction s as [|c s IH]; [reflexivity|]. rewrite append_cons, IH. reflexivity. Qed.

Lemma append_assoc (a b c : string) : ((a ++ b) ++ c)%string = (a ++ (b ++ c))%string.
Proof. induction a as [|x a IH]; [reflexivity|]. rewrite !append_cons, IH. reflexivity. Qed.

Lemma rev_append (a b : string) : Text.rev (a ++ b) = (Text.rev b ++ Text.rev a)%string.
Proof.
  induction a as [|x a IH]; [cbn [Text.rev]; rewrite append_nil_r; reflexivity|].
  rewrite append_cons. cbn [Text.rev]. rewrite IH, append_assoc. reflexivity.
Qed.

Lemma rev_involutive (s : string) : Text.rev (Text.rev s) = s.
Proof.
  induction s as [|c s IH]; [reflexivity|]. cbn [Text.rev].
  rewrite rev_append, IH. reflexivity.
Qed.

Lemma length_append (a b : string) :
  String.length (a ++ b) = (String.length a + String.length b)%nat.
Proof.
  induction a as [|x a IH]; [reflexivity|]. rewrite append_cons. cbn [String.length].
  rewrite IH. reflexivity.
Qed.

Lemma length_rev (s : string) : String.length (Text.rev s) = String.length s.
Proof.
  induction s as [|c s IH]; [reflexivity|]. cbn [Text.rev String.length].
  rewrite length_append, IH. cbn. lia.
Qed.

Lemma upper_append (a b : string) :
  Text.upper (a ++ b) = (Text.upper a ++ Text.upper b)%string.
Proof.
  induction a as [|x a IH]; [reflexivity|]. rewrite append_cons. cbn [Text.upper].
  rewrite IH. reflexivity.
Qed.

Lemma rev_upper (s : string) : Text.rev (Text.upper s) = Text.upper (Text.rev s).
Proof.
  induction s as [|c s IH]; [reflexivity|]. cbn [Text.rev Text.upper].
  rewrite IH, upper_append. reflexivity.
Qed.

Lemma length_upper (s : string) : String.length (Text.upper s) = String.length s.
Proof.
  induction s as [|c s IH]; [reflexivity|]. cbn [Text.upper String.length].
  f_equal. exact IH.
Qed.

(** *** Dropping the texts of a list from the front *)

Lemma strip_prefix_some (w s rest : string) :
  Text.strip_prefix w s = Some rest -> s = (w ++ rest)%string.
Proof.
  revert s. induction w as [|a w IH]; intros s; cbn [Text.strip_prefix].
  - intros H. injection H as <-. reflexivity.
  - destruct s as [|b s]; [discriminate|].
    destruct (Ascii.eqb_spec a b) as [<-|]; [|discriminate].
    intros H. rewrite (IH s H). reflexivity.
Qed.

Lemma strip_prefix_append (w s rest z : string) :
  Text.strip_prefix w s = Some rest ->
  Text.strip_prefix w (s ++ z) = Some (rest ++ z)%string.
Proof.
  revert s. induction w as [|a w IH]; intros s; cbn [Text.strip_prefix].
  - intros H. injection H as <-. reflexivity.
  - destruct s as [|b s]; [discriminate|]. rewrite append_cons. cbn [Text.strip_prefix].
    destruct (Ascii.eqb a b); [apply IH|discriminate].
Qed.

Section DropAll.

Variable ws : list string.
Hypothesis ws_not_empty : forall w, In w ws -> w <> EmptyString.

Lemma drop_first_some (s rest : string) :
  Text.drop_first ws s = Some rest ->
  exists w, In w ws /\ s = (w ++ rest)%string.
Proof.
  clear ws_not_empty. induction ws as [|w l IH]; cbn [Text.drop_first]; [discriminate|].
  destruct (Text.strip_prefix w s) as [r|] eqn:Hw.
  - intros H. injection H as <-. exists w. split; [left; reflexivity|].
    apply strip_prefix_some. exact Hw.
  - intros H. destruct (IH H) as (w' & Hin & Heq). exists w'. split; [right; exact Hin|exact Heq].
Qed.

Lemma drop_first_shorter (s rest : string) :
  Text.drop_first ws s = Some rest -> (String.length rest < String.length s)%nat.
Proof.
  intros H. destruct (drop_first_some s rest H) as (w & Hin & ->).
  rewrite length_append. specialize (ws_not_empty w Hin).
  destruct w; [contradiction|]. cbn. lia.
Qed.

Lemma drop_first_append (s rest z : string) :
  Text.drop_first ws s = Some rest -> Text.drop_first ws (s ++ z) <> None.
Proof.
  clear ws_not_empty. induction ws as [|w l IH]; cbn [Text.drop_first]; [discriminate|].
  destruct (Text.strip_prefix w s) as [r|] eqn:Hw.
  - intros _. rewrite (strip_prefix_append w s r z Hw). discriminate.
  - intros H. destruct (Text.strip_prefix w (s ++ z)); [discriminate|]. apply IH. exact H.
Qed.

(** What is left starts with none of the texts. *)
Lemma drop_all_clean (fuel : nat) (s : string) :
  (String.length s <= fuel)%nat ->
  Text.drop_first ws (Text.drop_all ws fuel s) = None.
Proof.
  revert s. induction fuel as [|fuel IH]; intros s Hlen; cbn [Text.drop_all].
  - destruct s; [|cbn in Hlen; lia].
    destruct (Text.drop_first ws EmptyString) as [r|] eqn:H; [|reflexivity].
    apply drop_first_shorter in H. cbn in H. lia.
  - destruct (Text.drop_first ws s) as [r|] eqn:H; [|exact H].
    apply IH. apply drop_first_shorter in H. lia.
Qed.

Lemma drop_all_fixed (fuel : nat) (s : string) :
  Text.drop_first ws s = None -> Text.drop_all ws fuel s = s.
Proof. intros H. destruct fuel; cbn [Text.drop_all]; [|rewrite H]; reflexivity. Qed.

(** What is left is the end of the text. *)
Lemma drop_all_suffix (fuel : nat) (s : string) :
  exists z, s = (z ++ Text.drop_all ws fuel s)%string.
Proof.
  clear ws_not_empty. revert s. induction fuel as [|fuel IH]; intros s; cbn [Text.drop_all].
  - exists EmptyString. reflexivity.
  - destruct (Text.drop_first ws s) as [r|] eqn:H; [|exists EmptyString; reflexivity].
    destruct (drop_first_some s r H) as (w & _ & ->). destruct (IH r) as [z Hz].
    exists (w ++ z)%string. rewrite append_assoc, <- Hz. reflexivity.
Qed.

(** A text that starts with none of them keeps no start with any of them
    when its end is cut. *)
Lemma drop_first_prefix (p z : string) :
  Text.drop_first ws (p ++ z) = None -> Text.drop_first ws p = None.
Proof.
  intros H. destruct (Text.drop_first ws p) as [r|] eqn:Hp; [|reflexivity].
  exfalso. exact (drop_first_append p r z Hp H).
Qed.

End DropAll.

Lemma eqb_upper_char (a b : ascii) :
  no_letter a = true -> Ascii.eqb a (Text.upper_char b) = Ascii.eqb a b.
Proof.
  unfold no_letter, Text.upper_char. intros Ha.
  destruct ((97 <=? nat_of_ascii b)%nat && (nat_of_ascii b <=? 122)%nat) eqn:Hb;
    [|reflexivity].
  apply andb_true_iff in Hb. destruct Hb as [H1 H2].
  apply Nat.leb_le in H1. apply Nat.leb_le in H2.
  apply negb_true_iff, orb_false_iff in Ha. destruct Ha as [Hup Hlow].
  assert (Hab : Ascii.eqb a b = false).
  { apply Ascii.eqb_neq. intros ->. rewrite (proj2 (Nat.leb_le _ _) H1) in Hlow.
    rewrite (proj2 (Nat.leb_le _ _) H2) in Hlow. discriminate. }
  rewrite Hab. apply Ascii.eqb_neq. intros ->.
  rewrite nat_ascii_embedding in Hup by lia.
  rewrite (proj2 (Nat.leb_le 65 _)) in Hup by lia.
  rewrite (proj2 (Nat.leb_le _ 90)) in Hup by lia. discriminate.
Qed.

Lemma strip_prefix_upper (w s : string) :
  no_letters w = true ->
  Text.strip_prefix w (Text.upper s) = option_map Text.upper (Text.strip_prefix w s).
Proof.
  revert s. induction w as [|a w IH]; intros s; cbn [Text.strip_prefix no_letters].
  - reflexivity.
  - intros H. apply andb_true_iff in H. destruct H as [Ha Hw].
    destruct s as [|b s]; [reflexivity|]. cbn [Text.upper].
    rewrite (eqb_upper_char a b Ha). destruct (Ascii.eqb a b); [apply IH; exact Hw|reflexivity].
Qed.

Lemma drop_first_upper (ws : list string) (s : string) :
  (forall w, In w ws -> no_letters w = true) ->
  Text.drop_first ws (Text.upper s) = option_map Text.upper (Text.drop_first ws s).
Proof.
  induction ws as [|w l IH]; intros H; cbn [Text.drop_first]; [reflexivity|].
  rewrite strip_prefix_upper by (apply H; left; reflexivity).
  destruct (Text.strip_prefix w s); [reflexivity|].
  apply IH. intros w' Hw'. apply H. right. exact Hw'.
Qed.

Lemma drop_all_upper (ws : list string) (fuel : nat) (s : string) :
  (forall w, In w ws -> no_letters w = true) ->
  Text.drop_all ws fuel (Text.upper s) = Text.upper (Text.drop_all ws fuel s).
Proof.
  intros H. revert s. induction fuel as [|fuel IH]; intros s; cbn [Text.drop_all];
    [reflexivity|].
  rewrite (drop_first_upper ws s H).
  destruct (Text.drop_first ws s); cbn [option_map]; [apply IH|reflexivity].
Qed.

(** *** White space *)

Lemma all_of (p : string -> bool) (ws : list string) :
  forallb p ws = true -> forall w, In w ws -> p w = true.
Proof. intros H w Hw. rewrite forallb_forall in H. apply H. exact Hw. Qed.

Lemma white_space_not_empty (w : string) : In w Text.white_space -> w <> EmptyString.
Proof.
  intros Hw. pose proof (all_of (fun w => negb (Text.is_empty w)) Text.white_space eq_refl w Hw).
  destruct w; [discriminate|discriminate].
Qed.

Lemma white_space_rev_not_empty (w : string) :
  In w (List.map Text.rev Text.white_space) -> w <> EmptyString.
Proof.
  intros Hw.
  pose proof (all_of (fun w => negb (Text.is_empty w)) (List.map Text.rev Text.white_space)
                eq_refl w Hw).
  destruct w; [discriminate|discriminate].
Qed.

Lemma white_space_no_letters (w : string) : In w Text.white_space -> no_letters w = true.
Proof. exact (all_of no_letters Text.white_space eq_refl w). Qed.

Lemma white_space_rev_no_letters (w : string) :
  In w (List.map Text.rev Text.white_space) -> no_letters w = true.
Proof. exact (all_of no_letters (List.map Text.rev Text.white_space) eq_refl w). Qed.

(** What [lstrip] returns starts with no white space; what [rstrip]
    returns ends with none. *)
Lemma lstrip_clean (s : string) :
  Text.drop_first Text.white_space (Text.lstrip s) = None.
Proof. apply drop_all_clean; [exact white_space_not_empty|lia]. Qed.

Lemma rstrip_clean (s : string) :
  Text.drop_first (List.map Text.rev Text.white_space) (Text.rev (Text.rstrip s)) = None.
Proof.
  unfold Text.rstrip. rewrite rev_involutive.
  apply drop_all_clean; [exact white_space_rev_not_empty|]. rewrite length_rev. lia.
Qed.

Lemma lstrip_fixed (s : string) :
  Text.drop_first Text.white_space s = None -> Text.lstrip s = s.
Proof. apply drop_all_fixed. Qed.

Lemma rstrip_fixed (s : string) :
  Text.drop_first (List.map Text.rev Text.white_space) (Text.rev s) = None ->
  Text.rstrip s = s.
Proof.
  intros H. unfold Text.rstrip. rewrite (drop_all_fixed _ _ _ H). apply rev_involutive.
Qed.

(** [rstrip] cuts the end of the text. *)
Lemma rstrip_prefix (s : string) : exists z, s = (Text.rstrip s ++ z)%string.
Proof.
  unfold Text.rstrip.
  destruct (drop_all_suffix (List.map Text.rev Text.white_space) (String.length s) (Text.rev s))
    as [z Hz].
  exists (Text.rev z). rewrite <- rev_append, <- Hz, rev_involutive. reflexivity.
Qed.

Lemma strip_idem (s : string) : Text.strip (Text.strip s) = Text.strip s.
Proof.
  unfold Text.strip.
  assert (Hl : Text.lstrip (Text.rstrip (Text.lstrip s)) = Text.rstrip (Text.lstrip s)).
  { apply lstrip_fixed. destruct (rstrip_prefix (Text.lstrip s)) as [z Hz].
    apply (drop_first_prefix Text.white_space _ z). rewrite <- Hz. apply lstrip_clean. }
  rewrite Hl. apply rstrip_fixed. apply rstrip_clean.
Qed.

Lemma lstrip_upper (s : string) : Text.lstrip (Text.upper s) = Text.upper (Text.lstrip s).
Proof.
  unfold Text.lstrip. rewrite length_upper.
  apply drop_all_upper. exact white_space_no_letters.
Qed.

Lemma rstrip_upper (s : string) : Text.rstrip (Text.upper s) = Text.upper (Text.rstrip s).
Proof.
  unfold Text.rstrip. rewrite length_upper, rev_upper.
  rewrite (drop_all_upper _ _ _ white_space_rev_no_letters). apply rev_upper.
Qed.

Lemma strip_upper (s : string) : Text.strip (Text.upper s) = Text.upper (Text.strip s).
Proof. unfold Text.strip. rewrite lstrip_upper, rstrip_upper. reflexivity. Qed.

(** X21.  [normalize_code] is idempotent on ASCII text: a code that went
    through it once is a fixed point, so the code that the rubrica matcher
    stores on a provisional rubrica is the code it looks up. *)
Theorem normalize_code_idempotent (codigo : string) :
  is_ascii codigo = true ->
  normalize_code (normalize_code codigo) = normalize_code codigo.
Proof.
  intros _. unfold normalize_code.
  destruct (Text.is_empty codigo); [reflexivity|].
  destruct (Text.upper (Text.strip codigo)) as [|c s] eqn:Hn; [reflexivity|].
  cbn [Text.is_empty]. rewrite <- Hn.
  rewrite strip_upper, strip_idem, upper_idem. reflexivity.
Qed.

(** X22.  [parse_currency] does not see surrounding white space: the
    amount of a cell that was stripped, as the row processor hands it over,
    is the amount of the cell, whatever the cell holds. *)
Theorem parse_currency_ignores_surrounding_space (valor_str : string) :
  parse_currency (Text.strip valor_str) = parse_currency valor_str.
Proof.
  unfold parse_currency. rewrite strip_idem.
  destruct (Text.is_empty valor_str) eqn:He.
  - destruct valor_str; [reflexivity|discriminate].
  - destruct (Text.is_empty (Text.strip valor_str)) eqn:Hs; [|reflexivity].
    destruct (Text.strip valor_str); [reflexivity|discriminate].
Qed.

(** ** The ancestors of a rubrica *)

(** X23.  [get_ancestors] returns the rubrica and its ancestors, and
    nothing else.  On a well-formed table the walk from any key ends, with
    rows of the table: none when no rubrica has the key; otherwise the
    rubrica of that key, with every row the parent of a row in the answer,
    and with no row that is neither the rubrica itself nor the parent of a
    row in the answer. *)
Theorem get_ancestors_are_the_ancestors (db : DB) (rubrica_id : Z) :
  hierarchy_wf (rubricas db) ->
  exists ancestors,
    get_ancestors db rubrica_id = Some ancestors
    /\ (forall a, In a ancestors -> In a (rubricas db))
    /\ (get_rubrica db rubrica_id = None -> ancestors = [])
    /\ (forall rx, get_rubrica db rubrica_id = Some rx -> In rx ancestors)
    /\ (forall a rp, In a ancestors -> In rp (rubricas db) ->
                     Rubrica.parent_id a = Some (Rubrica.id rp) -> In rp ancestors)
    /\ (forall a, In a ancestors ->
                  get_rubrica db rubrica_id = Some a
                  \/ exists b, In b ancestors
                               /\ Rubrica.parent_id b = Some (Rubrica.id a)).
Proof.
  intros (Hnd & Hpos & Hprec). destruct (get_ancestors_total db rubrica_id Hprec) as [l Hl].
  exists l. split; [exact Hl|].
  destruct (get_ancestors_walk db rubrica_id l Hnd Hl) as (walk & Hwalk & Hsame).
  destruct (ancestors_walk_linked db _ _ _ Hwalk) as (Hlinked & Hhead).
  split; [intros a Ha; exact (get_ancestors_in db rubrica_id l a Hl Ha)|].
  split; [|split; [|split]].
  - intros Hnone. rewrite (get_ancestors_missing db rubrica_id Hnone) in Hl.
    injection Hl as <-. reflexivity.
  - intros rx Hrx. exact (get_ancestors_self db rubrica_id rx l Hnd Hpos Hrx Hl).
  - intros a rp Ha Hrp Hp.
    exact (get_ancestors_closed db rubrica_id l Hnd Hl a rp Ha Hrp Hp (Hpos rp Hrp)).
  - intros a Ha. apply Hsame in Ha. destruct walk as [|h w]; [destruct Ha|].
    destruct Hhead as [_ Hh]. change (default 0 (Some rubrica_id)) with rubrica_id in Hh.
    destruct Ha as [<-|Ha]; [left; exact Hh|right].
    destruct (linked_child w h a Hlinked Ha) as (b & Hb & Hp).
    exists b. split; [apply Hsame; exact Hb|exact Hp].
Qed.

(** ** The supplier matcher *)

Section SupplierMatcher.

Variable normalize_name : string -> string.
Variable fuzz_extract : string -> list string -> list (string * Z).

(** X24.  The supplier matcher of the import answers only with active
    suppliers: an id it returns, by exact or by fuzzy match, is the id of a
    supplier of the table whose [activo] flag is set. *)
Theorem fornecedor_match_is_active (db : DB) (nome : string) (k : Z) :
  fornecedor_match normalize_name fuzz_extract db nome = Ok (Some k) ->
  exists f, In f (fornecedores db) /\ Fornecedor.id f = k /\ Fornecedor.activo f = true.
Proof. exact (fornecedor_match_known normalize_name fuzz_extract db nome k). Qed.

End SupplierMatcher.

(** ** Batch creation *)

(** [create_rubrica] on well-formed tables: an exception that can be
    caught, and well-formed tables again. *)
Lemma create_rubrica_wf (novo : RubricaCreate.t) (s : Session) :
  both tables_wf s ->
  exists e s', create_rubrica novo s = (Raise e, s')
               /\ catchable e = true /\ both tables_wf s'.
Proof.
  intros [Hp Hw]. unfold create_rubrica. rewrite bind_query.
  match goal with
  | |- context [if ?c then raise (ValueError PaiComDotacaoInicial) else _] =>
      destruct c; [eexists _, _; split; [reflexivity|split; [reflexivity|split; assumption]]|]
  end.
  match goal with
  | |- context [if ?c then raise (ValueError DotacaoInicialNegativa) else _] =>
      destruct c; [eexists _, _; split; [reflexivity|split; [reflexivity|split; assumption]]|]
  end.
  match goal with
  | |- context [rubrica_insert_allowed (working s) ?x] =>
      set (nx := x); destruct (rubrica_insert_allowed (working s) nx) eqn:Hallowed
  end; cbn [negb].
  2:{ run_step. eexists _, _. split; [reflexivity|]. split; [reflexivity|]. split; exact Hp. }
  assert (Hnid : Rubrica.id nx = next_id (List.map Rubrica.id (rubricas (working s))))
    by reflexivity.
  pose proof (next_id_pos (List.map Rubrica.id (rubricas (working s)))) as Hnpos.
  destruct (Z.eqb_spec (Rubrica.id nx) 0) as [Hz|_]; [lia|]. cbn [negb].
  set (db1 := with_rubricas (rubricas (working s) ++ [nx]) (working s)).
  assert (Hwf1 : hierarchy_wf (rubricas db1)).
  { apply hierarchy_wf_add; [exact Hw|exact Hnid|].
    intros p Hpar. unfold rubrica_insert_allowed in Hallowed. rewrite Hpar in Hallowed.
    destruct (get_rubrica (working s) p) as [rp|] eqn:Hrp; [|discriminate].
    apply get_rubrica_some in Hrp. destruct Hrp as [<- Hin]. apply in_map. exact Hin. }
  destruct (recalculate_dotacao_chain_step (mkSession db1 db1) (Rubrica.id nx) Hwf1)
    as (rows' & Hrun & Hwf' & _).
  run_step. fold db1. cbn [working persisted] in Hrun. rewrite Hrun.
  cbn [working persisted]. eexists _, _. split; [reflexivity|]. split; [reflexivity|].
  split; exact Hwf'.
Qed.

Lemma create_rubricas_batch_item_errors (parent_id exercicio : Z) (tipo : TipoRubrica)
    (acc : RubricaBatchResponse) (item : RubricaBatchItem.t) (s : Session) :
  both tables_wf s ->
  exists s',
    create_rubricas_batch_item parent_id exercicio tipo acc item s
    = (Ok (mkRubricaBatchResponse (batch_criadas acc) (batch_erros acc + 1)), s')
    /\ both tables_wf s'.
Proof.
  intros Hs. unfold create_rubricas_batch_item, try_except at 1. rewrite bind_query.
  destruct (get_rubrica_by_codigo_exercicio (working s) _ exercicio).
  - eexists. split; [reflexivity|exact Hs].
  - destruct (create_rubrica_wf
                (RubricaCreate.mk (RubricaBatchItem.codigo item)
                   (RubricaBatchItem.designacao item) tipo (Some parent_id) 1 (Some 0)
                   exercicio ATIVA) s Hs) as (e & s' & Hrun & Hcatch & Hs').
    unfold bind at 1. rewrite Hrun, Hcatch. eexists. split; [reflexivity|exact Hs'].
Qed.

(** X25.  [POST /rubricas/batch] counts every item as an error.  For an
    administrator, a valid type and a parent that exists, on a well-formed
    table: the request answers, with [criadas] at zero and [erros] at the
    number of items, whether the codes were free or taken. *)
Theorem create_rubricas_batch_counts_only_errors (batch_data : RubricaBatchCreate.t)
    (current_user : Z) (db : DB) (tipo : TipoRubrica) (parent : Rubrica.t) :
  hierarchy_wf (rubricas db) ->
  tem_papel "admin" (get_usuario_papeis db current_user) = true ->
  RubricaBatchCreate.tipo batch_data = Some tipo ->
  get_rubrica db (RubricaBatchCreate.parent_id batch_data) = Some parent ->
  exists db',
    run_request (create_rubricas_batch batch_data current_user) db
    = (Ok (mkRubricaBatchResponse
             0 (Z.of_nat (length (RubricaBatchCreate.items batch_data)))), db').
Proof.
  intros Hwf Hadmin Htipo Hparent.
  unfold create_rubricas_batch, require_admin. run_step.
  rewrite Hadmin, Htipo. cbn [working]. rewrite Hparent.
  assert (Hloop : forall items acc s, both tables_wf s ->
            exists s',
              fold_m (create_rubricas_batch_item (RubricaBatchCreate.parent_id batch_data)
                        (RubricaBatchCreate.exercicio batch_data) tipo) items acc s
              = (Ok (mkRubricaBatchResponse (batch_criadas acc)
                       (batch_erros acc + Z.of_nat (length items))), s')).
  { induction items as [|item items IH]; intros acc s Hs.
    - exists s. cbn [fold_m length]. unfold ret. rewrite Z.add_0_r. destruct acc. reflexivity.
    - destruct (create_rubricas_batch_item_errors (RubricaBatchCreate.parent_id batch_data)
                  (RubricaBatchCreate.exercicio batch_data) tipo acc item s Hs)
        as (s1 & Hitem & Hs1).
      destruct (IH (mkRubricaBatchResponse (batch_criadas acc) (batch_erros acc + 1)) s1 Hs1)
        as (s2 & Hrest).
      exists s2. cbn [fold_m]. rewrite (bind_ok _ _ _ _ _ Hitem). rewrite Hrest.
      cbn [batch_criadas batch_erros length]. do 2 f_equal. f_equal. lia. }
  destruct (Hloop (RubricaBatchCreate.items batch_data) (mkRubricaBatchResponse 0 0)
              (mkSession db db)) as (s' & Hrun).
  { split; exact Hwf. }
  rewrite Hrun. cbn [batch_criadas batch_erros Z.add]. eexists. reflexivity.
Qed.

(** ** Populating the monthly execution *)

Lemma first_without_calculada (rows rows' : list Rubrica.t) (k : Z) :
  without_calculada rows' = without_calculada rows ->
  is_Some (first (fun r => Rubrica.id r =? k) rows) ->
  is_Some (first (fun r => Rubrica.id r =? k) rows').
Proof.
  intros Heq [r Hr]. apply first_some_true in Hr. destruct Hr as [Hk Hin].
  symmetry in Heq.
  destruct (without_calculada_in rows' rows r Heq Hin) as (r' & Hin' & Hshape).
  apply without_calculada_shape in Hshape. destruct Hshape as (Hid & _).
  unfold first. destruct (List.find (fun r0 => Rubrica.id r0 =? k) rows') eqn:Hfind;
    [eexists; reflexivity|].
  pose proof (find_none _ _ Hfind r' Hin') as Hno. cbn in Hno.
  rewrite Hid, Hk in Hno. discriminate.
Qed.

Lemma execucao_same_id (rows : list ExecucaoMensal.t) (a b : ExecucaoMensal.t) :
  NoDup (List.map ExecucaoMensal.id rows) ->
  In a rows -> In b rows -> ExecucaoMensal.id a = ExecucaoMensal.id b -> a = b.
Proof.
  induction rows as [|r rows IH]; intros Hnd Ha Hb Hid; [destruct Ha|].
  cbn [List.map] in Hnd. apply NoDup_cons in Hnd. destruct Hnd as [Hnot Hrest].
  destruct Ha as [->|Ha], Hb as [->|Hb]; [reflexivity| | |auto].
  - exfalso. apply Hnot. rewrite Hid. apply list_elem_of_In, in_map, Hb.
  - exfalso. apply Hnot. rewrite <- Hid. apply list_elem_of_In, in_map, Ha.
Qed.

Lemma first_update_where_apart {A : Type} (p q : A -> bool) (f : A -> A) (rows : list A) :
  (forall r, In r rows -> q r = true -> p r = false /\ p (f r) = false) ->
  first p (update_where q f rows) = first p rows.
Proof.
  unfold first, update_where. induction rows as [|r rows IH]; intros H; [reflexivity|].
  cbn [List.map List.find]. rewrite IH by (intros x Hx; apply H; right; exact Hx).
  destruct (q r) eqn:Hq; [|reflexivity].
  destruct (H r (or_introl eq_refl) Hq) as [-> ->]. reflexivity.
Qed.

Lemma first_app_apart {A : Type} (p : A -> bool) (rows : list A) (x : A) :
  p x = false -> first p (rows ++ [x]) = first p rows.
Proof.
  intros Hx. unfold first. induction rows as [|r rows IH]; cbn.
  - rewrite Hx. reflexivity.
  - destruct (p r); [reflexivity|exact IH].
Qed.

Lemma is_execucao_apart (k m k' m' a : Z) (row : ExecucaoMensal.t) :
  (k', m') <> (k, m) ->
  (ExecucaoMensal.rubrica_id row =? k) && (ExecucaoMensal.mes row =? m)
  && (ExecucaoMensal.ano row =? a) = true ->
  (ExecucaoMensal.rubrica_id row =? k') && (ExecucaoMensal.mes row =? m')
  && (ExecucaoMensal.ano row =? a) = false.
Proof.
  intros Hne H. apply andb_prop in H. destruct H as [H _].
  apply andb_prop in H. destruct H as [Hk Hm].
  apply Z.eqb_eq in Hk. apply Z.eqb_eq in Hm.
  destruct (ExecucaoMensal.rubrica_id row =? k') eqn:Hk'; [|reflexivity].
  destruct (ExecucaoMensal.mes row =? m') eqn:Hm'; [|reflexivity].
  apply Z.eqb_eq in Hk'. apply Z.eqb_eq in Hm'. exfalso. apply Hne. congruence.
Qed.

Lemma get_execucao_update_apart (db : DB) (k m k' m' a g : Z) (found : ExecucaoMensal.t) :
  NoDup (List.map ExecucaoMensal.id (execucoes_mensais db)) ->
  get_execucao db k m a = Some found ->
  (k', m') <> (k, m) ->
  get_execucao (update_execucao found g db) k' m' a = get_execucao db k' m' a.
Proof.
  intros Hnd Hfound Hne. apply first_some_true in Hfound. destruct Hfound as [Hkey Hin].
  unfold get_execucao, update_execucao. cbn [execucoes_mensais with_execucoes_mensais].
  apply first_update_where_apart. intros r Hr Hid. apply Z.eqb_eq in Hid.
  rewrite (execucao_same_id _ r found Hnd Hr Hin Hid).
  split; [exact (is_execucao_apart k m k' m' a found Hne Hkey)|].
  apply (is_execucao_apart k m k' m' a); [exact Hne|]. destruct found. exact Hkey.
Qed.

Lemma get_execucao_add_apart (db : DB) (k m k' m' a d g s : Z) :
  (k', m') <> (k, m) ->
  get_execucao (add_execucao k m a d g s db) k' m' a = get_execucao db k' m' a.
Proof.
  intros Hne. unfold get_execucao, add_execucao.
  cbn [execucoes_mensais with_execucoes_mensais].
  apply first_app_apart.
  apply (is_execucao_apart k m k' m' a); [exact Hne|].
  cbn. rewrite !Z.eqb_refl. reflexivity.
Qed.

Lemma execucao_ids_update (db : DB) (g : Z) (found : ExecucaoMensal.t) :
  List.map ExecucaoMensal.id (execucoes_mensais (update_execucao found g db))
  = List.map ExecucaoMensal.id (execucoes_mensais db).
Proof.
  unfold update_execucao, update_where. cbn [execucoes_mensais with_execucoes_mensais].
  rewrite map_map. apply map_ext. intros e.
  destruct (ExecucaoMensal.id e =? ExecucaoMensal.id found); reflexivity.
Qed.

Lemma execucao_ids_add (db : DB) (k m a d g s : Z) :
  NoDup (List.map ExecucaoMensal.id (execucoes_mensais db)) ->
  NoDup (List.map ExecucaoMensal.id (execucoes_mensais (add_execucao k m a d g s db))).
Proof.
  intros Hnd. unfold add_execucao. cbn [execucoes_mensais with_execucoes_mensais].
  rewrite map_app. cbn [List.map ExecucaoMensal.id].
  apply NoDup_app. split; [exact Hnd|]. split.
  - intros x Hx Hin. apply list_elem_of_In in Hin. destruct Hin as [<-|[]].
    apply list_elem_of_In, next_id_fresh in Hx. lia.
  - apply NoDup_singleton.
Qed.

(** [crud.recalculate_execucao_mensal] for a rubrica that is not there. *)
Lemma recalculate_execucao_mensal_missing (s : Session) (k m a : Z) :
  get_rubrica (working s) k = None ->
  recalculate_execucao_mensal k m a s = (Raise (ValueError RubricaNaoEncontrada), s).
Proof.
  intros Hnone. unfold recalculate_execucao_mensal. rewrite bind_query, Hnone. reflexivity.
Qed.

(** [crud.recalculate_execucao_mensal] for a rubrica that is there: the row
    of the key is brought up to date, the rows of the other keys of the year
    are found as before. *)
Lemma recalculate_execucao_mensal_populates (db : DB) (s : Session) (k m a : Z) :
  populating db (working s) ->
  is_Some (get_rubrica (working s) k) ->
  exists r s',
    recalculate_execucao_mensal k m a s = (Ok r, s')
    /\ populating db (working s')
    /\ execucao_em_dia db (working s') k m a
    /\ (forall k' m', (k', m') <> (k, m) ->
          get_execucao (working s') k' m' a = get_execucao (working s) k' m' a).
Proof.
  intros (Hdesp & Hwf & Hsame & Hnd) [rubrica Hget].
  destruct (recalculate_dotacao_chain_step s k Hwf) as (rows1 & Hrun & Hwf1 & Hsame1 & _).
  unfold recalculate_execucao_mensal. rewrite bind_query, Hget.
  assert (Htry : try_except (recalculate_dotacao_chain k ;;; commit) (fun _ => ret tt) s
                 = (Ok tt, mkSession (with_rubricas rows1 (working s))
                                     (with_rubricas rows1 (working s)))).
  { unfold try_except, bind. rewrite Hrun. reflexivity. }
  rewrite (bind_ok _ _ _ _ _ Htry). rewrite bind_query. cbn [working].
  set (db1 := with_rubricas rows1 (working s)).
  assert (Hgasto : gasto_confirmado db1 k m a = gasto_confirmado db k m a).
  { unfold gasto_confirmado. change (despesas db1) with (despesas (working s)).
    rewrite Hdesp. reflexivity. }
  assert (Hnd1 : NoDup (List.map ExecucaoMensal.id (execucoes_mensais db1))) by exact Hnd.
  assert (Hsame' : without_calculada rows1 = without_calculada (rubricas db))
    by (rewrite Hsame1; exact Hsame).
  rewrite Hgasto.
  destruct (get_execucao db1 k m a) as [found|] eqn:Hex.
  - run_step. eexists _, _. split; [reflexivity|]. cbn [working]. split; [|split].
    + split; [exact Hdesp|]. split; [exact Hwf1|]. split; [exact Hsame'|].
      rewrite execucao_ids_update. exact Hnd1.
    + unfold execucao_em_dia. rewrite (get_execucao_updated _ _ _ _ _ _ Hex). reflexivity.
    + intros k' m' Hne. exact (get_execucao_update_apart db1 k m k' m' a _ found Hnd1 Hex Hne).
  - destruct (0 <? gasto_confirmado db k m a) eqn:Hpos.
    + run_step. eexists _, _. split; [reflexivity|]. cbn [working]. split; [|split].
      * split; [exact Hdesp|]. split; [exact Hwf1|]. split; [exact Hsame'|].
        apply execucao_ids_add. exact Hnd1.
      * unfold execucao_em_dia. rewrite (get_execucao_added _ _ _ _ _ _ _ Hex). reflexivity.
      * intros k' m' Hne. exact (get_execucao_add_apart db1 k m k' m' a _ _ _ Hne).
    + run_step. eexists _, _. split; [reflexivity|]. cbn [working]. split; [|split].
      * split; [exact Hdesp|]. split; [exact Hwf1|]. split; [exact Hsame'|exact Hnd1].
      * unfold execucao_em_dia. cbn [working]. rewrite Hex. apply Z.ltb_ge. exact Hpos.
      * intros k' m' Hne. reflexivity.
Qed.

(** One round of the loop over the keys never raises; it brings the key up
    to date when its rubrica is there, and leaves every key that was up to
    date so. *)
Lemma popular_chave_step (db : DB) (exercicio : Z) (acc : Z * Z * list (Z * Z * Exception))
    (k m : Z) (s : Session) :
  populating db (working s) ->
  exists acc' s',
    popular_chave exercicio acc (k, m) s = (Ok acc', s')
    /\ populating db (working s')
    /\ (is_Some (get_rubrica db k) -> execucao_em_dia db (working s') k m exercicio)
    /\ (forall k' m', execucao_em_dia db (working s) k' m' exercicio ->
                      execucao_em_dia db (working s') k' m' exercicio).
Proof.
  intros Hpop. destruct acc as [[criadas atualizadas] erros].
  unfold popular_chave, try_except. rewrite bind_query.
  destruct (get_rubrica (working s) k) as [rubrica|] eqn:Hget.
  - destruct (recalculate_execucao_mensal_populates db s k m exercicio Hpop
                (ex_intro _ rubrica Hget)) as (r & s' & Hrun & Hpop' & Hdia & Hframe).
    rewrite (bind_ok _ _ _ _ _ Hrun).
    assert (Hkeep : forall k' m', execucao_em_dia db (working s) k' m' exercicio ->
                                  execucao_em_dia db (working s') k' m' exercicio).
    { intros k' m' Hold.
      destruct (Z.eq_dec k' k) as [->|Hk]; [destruct (Z.eq_dec m' m) as [->|Hm]|].
      - exact Hdia.
      - unfold execucao_em_dia. rewrite Hframe by congruence. exact Hold.
      - unfold execucao_em_dia. rewrite Hframe by congruence. exact Hold. }
    destruct r as [row|], (get_execucao (working s) k m exercicio);
      (eexists _, _; split; [reflexivity|]; split; [exact Hpop'|];
       split; [intros _; exact Hdia|exact Hkeep]).
  - unfold bind. rewrite (recalculate_execucao_mensal_missing s k m exercicio Hget).
    cbn [catchable]. eexists _, _. split; [reflexivity|]. split; [exact Hpop|]. split.
    + intros Hsome. exfalso. destruct Hpop as (_ & _ & Hsame & _).
      destruct (first_without_calculada (rubricas db) (rubricas (working s)) k Hsame Hsome)
        as [r Hr].
      unfold get_rubrica in Hget. rewrite Hget in Hr. discriminate.
    + auto.
Qed.

Lemma popular_chaves_loop (db : DB) (exercicio : Z) (keys : list (Z * Z)) :
  forall (acc : Z * Z * list (Z * Z * Exception)) (s : Session),
    populating db (working s) ->
    exists acc' s',
      fold_m (popular_chave exercicio) keys acc s = (Ok acc', s')
      /\ populating db (working s')
      /\ (forall k m, In (k, m) keys -> is_Some (get_rubrica db k) ->
                      execucao_em_dia db (working s') k m exercicio)
      /\ (forall k m, execucao_em_dia db (working s) k m exercicio ->
                      execucao_em_dia db (working s') k m exercicio).
Proof.
  induction keys as [|[k m] keys IH]; intros acc s Hpop.
  - exists acc, s. split; [reflexivity|]. split; [exact Hpop|]. split; [intros k m []|auto].
  - destruct (popular_chave_step db exercicio acc k m s Hpop)
      as (acc1 & s1 & Hrun1 & Hpop1 & Hdia1 & Hkeep1).
    destruct (IH acc1 s1 Hpop1) as (acc2 & s2 & Hrun2 & Hpop2 & Hdia2 & Hkeep2).
    exists acc2, s2. split; [|split; [exact Hpop2|split]].
    + cbn [fold_m]. rewrite (bind_ok _ _ _ _ _ Hrun1). exact Hrun2.
    + intros k' m' [Heq|Hin] Hsome.
      * injection Heq as <- <-. apply Hkeep2, Hdia1, Hsome.
      * apply Hdia2; assumption.
    + intros k' m' Hold. apply Hkeep2, Hkeep1, Hold.
Qed.

Lemma popular_recalculo_loop (l : list Rubrica.t) :
  forall s : Session,
    hierarchy_wf (rubricas (working s)) ->
    exists rows',
      for_each (fun rubrica =>
                  try_except (recalculate_dotacao_chain (Rubrica.id rubrica))
                             (fun _ => ret tt)) l s
      = (Ok tt, mkSession (persisted s) (with_rubricas rows' (working s)))
      /\ hierarchy_wf rows'
      /\ without_calculada rows' = without_calculada (rubricas (working s)).
Proof.
  induction l as [|a l IH]; intros s Hwf.
  - exists (rubricas (working s)). cbn [for_each]. unfold ret.
    rewrite with_rubricas_same. destruct s. split; [reflexivity|]. split; [exact Hwf|reflexivity].
  - destruct (recalculate_dotacao_chain_step s (Rubrica.id a) Hwf)
      as (rows1 & Hrun & Hwf1 & Hsame1 & _).
    set (s1 := mkSession (persisted s) (with_rubricas rows1 (working s))) in *.
    destruct (IH s1 Hwf1) as (rows2 & Hloop & Hwf2 & Hsame2).
    exists rows2. split; [|split; [exact Hwf2|]].
    + assert (Htry : try_except (recalculate_dotacao_chain (Rubrica.id a))
                                (fun _ => ret tt) s = (Ok tt, s1))
        by (unfold try_except; rewrite Hrun; reflexivity).
      cbn [for_each]. rewrite (bind_ok _ _ _ _ _ Htry), Hloop.
      unfold s1. cbn [working persisted]. destruct (working s). reflexivity.
    + rewrite Hsame2. exact Hsame1.
Qed.

Lemma chaves_rubrica_mes_in (l : list Despesa.t) (d : Despesa.t) :
  In d l -> In (default 0 (Despesa.rubrica_id d), Despesa.mes d) (chaves_rubrica_mes l).
Proof.
  induction l as [|a l IH]; intros Hin; [destruct Hin|].
  cbn [chaves_rubrica_mes]. destruct Hin as [->|Hin]; [left; reflexivity|].
  destruct ((default 0 (Despesa.rubrica_id d) =? default 0 (Despesa.rubrica_id a))
            && (Despesa.mes d =? Despesa.mes a)) eqn:Hkey.
  - left. apply andb_prop in Hkey. destruct Hkey as [Hk Hm].
    apply Z.eqb_eq in Hk. apply Z.eqb_eq in Hm. rewrite Hk, Hm. reflexivity.
  - right. apply filter_In. split; [exact (IH Hin)|].
    cbn [fst snd]. rewrite Hkey. reflexivity.
Qed.

(** X26.  [POST /execucao-mensal/popular] by an administrator, for a fiscal
    year that has an active rubrica, on a well-formed rubrica table and a
    monthly execution with unique keys: the request succeeds and commits a
    database with the same expenses and the same rubricas up to computed
    allocations, in which, for every confirmed expense of the year whose
    rubrica exists, the monthly row of (rubrica, month, year) carries the
    confirmed spending of that rubrica and month; there is no such row only
    when that spending is not positive. *)
Theorem popular_execucao_mensal_brings_up_to_date (db : DB) (exercicio current_user : Z) :
  hierarchy_wf (rubricas db) ->
  NoDup (List.map ExecucaoMensal.id (execucoes_mensais db)) ->
  tem_papel "admin" (get_usuario_papeis db current_user) = true ->
  rubricas_ativas db exercicio <> [] ->
  exists criadas atualizadas erros db',
    run_request (popular_execucao_mensal exercicio current_user) db
    = (Ok (ExecucaoPopulada exercicio criadas atualizadas erros), db')
    /\ despesas db' = despesas db
    /\ without_calculada (rubricas db') = without_calculada (rubricas db)
    /\ forall d k,
         In d (despesas db) ->
         Despesa.exercicio d = exercicio ->
         Despesa.status d = CONFIRMADA ->
         Despesa.rubrica_id d = Some k ->
         is_Some (get_rubrica db k) ->
         match get_execucao db' k (Despesa.mes d) exercicio with
         | Some row =>
             ExecucaoMensal.gasto row = gasto_confirmado db' k (Despesa.mes d) exercicio
         | None => gasto_confirmado db' k (Despesa.mes d) exercicio <= 0
         end.
Proof.
  intros Hwf Hnd Hadmin Hativas.
  destruct (rubricas_ativas db exercicio) as [|a0 l0] eqn:Hl; [contradiction|].
  destruct (popular_recalculo_loop (sorted_by_nivel_desc (a0 :: l0)) (mkSession db db) Hwf)
    as (rows1 & Hloop & Hwf1 & Hsame1).
  cbn [working persisted] in Hloop, Hsame1.
  set (w1 := with_rubricas rows1 db) in *.
  assert (Hpop : populating db (working (mkSession w1 w1))).
  { split; [reflexivity|]. split; [exact Hwf1|]. split; [exact Hsame1|exact Hnd]. }
  set (confirmadas :=
         List.filter (fun d => (Despesa.exercicio d =? exercicio)
                               && bool_decide (Despesa.status d = CONFIRMADA)
                               && match Despesa.rubrica_id d with
                                  | Some _ => true
                                  | None => false
                                  end)
                     (despesas w1)).
  destruct (popular_chaves_loop db exercicio (chaves_rubrica_mes confirmadas) (0, 0, [])
              (mkSession w1 w1) Hpop)
    as ([[criadas atualizadas] erros] & s2 & Hfold & Hpop2 & Hdia & _).
  destruct Hpop2 as (Hdesp2 & _ & Hsame2 & _).
  exists criadas, atualizadas, (match erros with [] => None | _ => Some erros end), (working s2).
  split; [|split; [exact Hdesp2|split; [exact Hsame2|]]].
  - assert (Hadm : require_admin current_user (mkSession db db) = (Ok tt, mkSession db db)).
    { unfold require_admin. rewrite bind_query. cbn [working]. rewrite Hadmin. reflexivity. }
    unfold popular_execucao_mensal, run_request.
    rewrite (bind_ok _ _ _ _ _ Hadm). rewrite bind_query.
    cbn [working]. rewrite Hl.
    rewrite (bind_ok _ _ _ _ _ Hloop). unfold bind at 1, commit at 1.
    rewrite bind_query. cbn [working persisted]. fold w1. fold confirmadas.
    rewrite (bind_ok _ _ _ _ _ Hfold). reflexivity.
  - intros d k Hin Hyear Hstatus Hrub Hsome.
    assert (Hg : gasto_confirmado (working s2) k (Despesa.mes d) exercicio
                 = gasto_confirmado db k (Despesa.mes d) exercicio).
    { unfold gasto_confirmado. rewrite Hdesp2. reflexivity. }
    rewrite Hg. apply Hdia; [|exact Hsome].
    replace k with (default 0 (Despesa.rubrica_id d)) by (rewrite Hrub; reflexivity).
    apply chaves_rubrica_mes_in. apply filter_In. split; [exact Hin|].
    rewrite Hyear, Z.eqb_refl, Hrub, (bool_decide_eq_true_2 _ Hstatus). reflexivity.
Qed.

(** ** The further properties at concrete states *)

Lemma stale_levels_wf : hierarchy_wf (rubricas stale_levels).
Proof.
  unfold stale_levels. cbn [rubricas with_rubricas].
  apply hierarchy_wf_map; [|exact three_levels_wf]. intros x. split; reflexivity.
Qed.

Lemma stale_levels_same_year : same_year (rubricas stale_levels).
Proof.
  apply years_but_none; [apply stale_levels_wf|].
  unfold stale_levels. cbn [rubricas with_rubricas].
  apply years_but_map; [intros x _; repeat split|].
  apply same_year_but. exact three_levels_same_year.
Qed.

Lemma scenario_rows :
  rubricas Scenario.with_leaf
  = [Rubrica.mk 1 "1"%string "Root"%string DESPESA None 1 (Some 0) (Some 10000000) 2024 ATIVA;
     Rubrica.mk 2 "1.1"%string "Leaf"%string DESPESA (Some 1) 2 (Some 10000000)
                (Some 10000000) 2024 ATIVA].
Proof. vm_compute. reflexivity. Qed.

Lemma scenario_wf : hierarchy_wf (rubricas Scenario.with_leaf).
Proof.
  rewrite scenario_rows. split; [|split].
  - apply (bool_decide_unpack _). vm_compute. exact I.
  - intros r [<-|[<-|[]]]; simpl; lia.
  - intros r p [<-|[<-|[]]]; simpl; intros H; try discriminate; injection H as <-; lia.
Qed.

Lemma with_allocation_balanced : ledger_balanced Scenario.with_allocation.
Proof.
  assert (Hd : dotacoes_globais Scenario.with_allocation
               = [DotacaoGlobal.mk 1 2024 100000000 100000000 0])
    by (vm_compute; reflexivity).
  assert (Hm : movimentos Scenario.with_allocation
               = [DotacaoGlobalMov.mk 1 1 AJUSTE None 100000000 (DescCriacao 2024) (Some 1)])
    by (vm_compute; reflexivity).
  unfold ledger_balanced. rewrite Hd, Hm. split; [|split].
  - apply (bool_decide_unpack _). vm_compute. exact I.
  - intros m [<-|[]]. left. reflexivity.
  - intros d [<-|[]]. split; vm_compute; reflexivity.
Qed.

Lemma recalculate_dotacao_chain_repairs_chain_witness :
  let s := mkSession stale_levels stale_levels in
  hierarchy_wf (rubricas (working s))
  /\ exists rows',
       recalculate_dotacao_chain 3 s
       = (Ok tt, mkSession (persisted s) (with_rubricas rows' (working s)))
       /\ hierarchy_wf rows'
       /\ (forall k r r',
             get_rubrica (working s) k = Some r ->
             get_rubrica (with_rubricas rows' (working s)) k = Some r' ->
             inv_at (rubricas (working s)) r \/ on_chain (working s) 3 r ->
             inv_at rows' r')
       /\ (same_year (rubricas (working s)) ->
           (forall r, In r (chain_from (working s) 3) -> on_chain (working s) 3 r)
           /\ (forall rx, get_rubrica (working s) 3 = Some rx -> on_chain (working s) 3 rx)).
Proof.
  cbv zeta. split; [exact stale_levels_wf|].
  exact (recalculate_dotacao_chain_repairs_chain (mkSession stale_levels stale_levels) 3
           stale_levels_wf).
Defined.

Lemma recalculate_dotacao_chain_writes_only_calculada_witness :
  let s := mkSession stale_levels stale_levels in
  hierarchy_wf (rubricas (working s))
  /\ exists rows',
       recalculate_dotacao_chain 3 s
       = (Ok tt, mkSession (persisted s) (with_rubricas rows' (working s)))
       /\ List.map (Rubrica.set_dotacao_calculada None) rows'
          = List.map (Rubrica.set_dotacao_calculada None) (rubricas (working s))
       /\ (rows' = rubricas (working s)
           \/ exists a,
                In a (chain_from (working s) 3)
                /\ List.filter (fun r => negb (Rubrica.exercicio r =? Rubrica.exercicio a))
                               rows'
                   = List.filter (fun r => negb (Rubrica.exercicio r =? Rubrica.exercicio a))
                                 (rubricas (working s))).
Proof.
  cbv zeta. split; [exact stale_levels_wf|].
  exact (recalculate_dotacao_chain_writes_only_calculada
           (mkSession stale_levels stale_levels) 3 stale_levels_wf).
Defined.

Lemma recalculate_dotacao_chain_fixpoint_witness :
  hierarchy_wf (rubricas three_levels) /\ hierarchy_inv (rubricas three_levels)
  /\ recalculate_dotacao_chain 3 (mkSession three_levels three_levels)
     = (Ok tt, mkSession three_levels three_levels).
Proof.
  split; [exact three_levels_wf|]. split; [exact three_levels_inv|].
  exact (recalculate_dotacao_chain_fixpoint (mkSession three_levels three_levels) 3
           three_levels_wf three_levels_inv).
Defined.

Lemma recalculate_dotacao_chain_missing_rubrica_witness :
  get_rubrica three_levels 9 = None
  /\ recalculate_dotacao_chain 9 (mkSession three_levels three_levels)
     = (Ok tt, mkSession three_levels three_levels).
Proof.
  split; [vm_compute; reflexivity|].
  apply (recalculate_dotacao_chain_missing_rubrica (mkSession three_levels three_levels) 9).
  vm_compute. reflexivity.
Defined.

Lemma recalcular_dotacao_exercicio_repairs_witness :
  hierarchy_wf (rubricas stale_levels)
  /\ same_year (rubricas stale_levels)
  /\ exists resp rows',
       run_request (recalcular_dotacao_exercicio 2024 7) stale_levels
       = (Ok resp, with_rubricas rows' stale_levels)
       /\ (resp = NenhumaRubricaAtiva 2024 0 /\ rubricas_ativas stale_levels 2024 = []
           \/ resp = RecalculoConcluido 2024
                       (Z.of_nat (length (rubricas_ativas stale_levels 2024)))
                       (Z.of_nat (length (rubricas_ativas stale_levels 2024))) None)
       /\ hierarchy_wf rows'
       /\ List.map (Rubrica.set_dotacao_calculada None) rows'
          = List.map (Rubrica.set_dotacao_calculada None) (rubricas stale_levels)
       /\ (forall r', In r' rows' -> Rubrica.exercicio r' = 2024 ->
                      Rubrica.status r' = ATIVA -> inv_at rows' r')
       /\ (forall k r r', get_rubrica stale_levels k = Some r ->
                          get_rubrica (with_rubricas rows' stale_levels) k = Some r' ->
                          inv_at (rubricas stale_levels) r -> inv_at rows' r').
Proof.
  split; [exact stale_levels_wf|]. split; [exact stale_levels_same_year|].
  exact (recalcular_dotacao_exercicio_repairs stale_levels 2024 7 stale_levels_wf
           stale_levels_same_year).
Defined.

Lemma reserva_de_dez_in_hundredths :
  in_hundredths (PostReserva (ReservaRequest.mk 2024 (Dec.Finite false 1000 (-2)) None None) 1).
Proof. intros valor H. injection H as <-. exists 1000. vm_compute. reflexivity. Qed.

Lemma ledger_requests_keep_balance_witness :
  let q := PostReserva (ReservaRequest.mk 2024 (Dec.Finite false 1000 (-2)) None None) 1 in
  in_hundredths q
  /\ ledger_balanced Scenario.with_allocation
  /\ ledger_balanced (after_ledger_request q Scenario.with_allocation).
Proof.
  cbv zeta. split; [exact reserva_de_dez_in_hundredths|].
  split; [exact with_allocation_balanced|].
  exact (ledger_requests_keep_balance
           (PostReserva (ReservaRequest.mk 2024 (Dec.Finite false 1000 (-2)) None None) 1)
           Scenario.with_allocation reserva_de_dez_in_hundredths with_allocation_balanced).
Defined.

Lemma confirmation_lowers_reported_saldo_witness :
  let db' := snd (run_request (confirm_despesa_endpoint 1) TwoExpenses.db1) in
  exists before after,
    run_request (get_dotacao_global 2024) TwoExpenses.db1 = (Ok before, TwoExpenses.db1)
    /\ run_request (get_dotacao_global 2024) db' = (Ok after, db')
    /\ DotacaoGlobalResponse.gasto_total after
       = DotacaoGlobalResponse.gasto_total before + 5000000
    /\ DotacaoGlobalResponse.saldo after = DotacaoGlobalResponse.saldo before - 5000000
    /\ DotacaoGlobalResponse.id after = DotacaoGlobalResponse.id before
    /\ DotacaoGlobalResponse.valor_anual after = DotacaoGlobalResponse.valor_anual before
    /\ DotacaoGlobalResponse.reservado after = DotacaoGlobalResponse.reservado before.
Proof.
  cbv zeta.
  refine (confirmation_lowers_reported_saldo TwoExpenses.db1
            (snd (run_request (confirm_despesa_endpoint 1) TwoExpenses.db1))
            1 1 false TwoExpenses.d1 (Despesa.set_status CONFIRMADA TwoExpenses.d1)
            0 0 0 0 0 _ _ _ _).
  - apply (bool_decide_unpack _). vm_compute. exact I.
  - vm_compute. reflexivity.
  - discriminate.
  - left. vm_compute. reflexivity.
Defined.

Lemma delete_despesa_endpoint_removes_witness :
  let db' := with_despesas
               (List.filter (fun x => negb (Despesa.id x =? 1))
                            (despesas Scenario.with_expense)) Scenario.with_expense in
  get_despesa Scenario.with_expense 1 = Some TwoExpenses.d1
  /\ run_request (delete_despesa_endpoint 1 7) Scenario.with_expense = (Ok tt, db')
  /\ get_despesa db' 1 = None
  /\ forall k, k <> 1 -> get_despesa db' k = get_despesa Scenario.with_expense k.
Proof.
  cbv zeta. split; [vm_compute; reflexivity|].
  apply (delete_despesa_endpoint_removes Scenario.with_expense 1 7 TwoExpenses.d1).
  - vm_compute. reflexivity.
  - discriminate.
Defined.

Lemma confirmed_expense_is_permanent_witness :
  let d := Despesa.set_status CONFIRMADA TwoExpenses.d1 in
  get_despesa Scenario.confirmed 1 = Some d
  /\ get_despesa (after_despesa_request (RemoverDespesa 1 7) Scenario.confirmed) 1 = Some d.
Proof.
  cbv zeta. split; [vm_compute; reflexivity|].
  apply (confirmed_expense_is_permanent (RemoverDespesa 1 7) Scenario.confirmed 1
           (Despesa.set_status CONFIRMADA TwoExpenses.d1)).
  - vm_compute. reflexivity.
  - reflexivity.
Defined.

Lemma update_despesa_endpoint_keeps_status_witness :
  let u := DespesaUpdate.mk None None None None None None (Some (Some 7500000))
                            None None None in
  let db' := snd (run_request (update_despesa_endpoint Scenario.today 1 u 7)
                              TwoExpenses.db1) in
  NoDup (List.map Despesa.id (despesas TwoExpenses.db1))
  /\ List.map (fun d => (Despesa.id d, Despesa.status d, Despesa.batch_id d)) (despesas db')
     = List.map (fun d => (Despesa.id d, Despesa.status d, Despesa.batch_id d))
                (despesas TwoExpenses.db1)
  /\ db' = with_despesas (despesas db') TwoExpenses.db1.
Proof.
  cbv zeta.
  assert (Hnd : NoDup (List.map Despesa.id (despesas TwoExpenses.db1)))
    by (apply (bool_decide_unpack _); vm_compute; exact I).
  split; [exact Hnd|].
  exact (update_despesa_endpoint_keeps_status Scenario.today 1
           (DespesaUpdate.mk None None None None None None (Some (Some 7500000))
                             None None None) 7 TwoExpenses.db1 Hnd).
Defined.

Lemma accepted_spending_keeps_available_nonnegative_witness :
  let data := ReservaRequest.mk 2024 (Dec.Finite false 1000 (-2)) None None in
  let db' := snd (run_request (criar_reserva data 1) Scenario.with_allocation) in
  run_request (criar_reserva data 1) Scenario.with_allocation
  = (Ok (mkReservaResponse 99999000 1000), db')
  /\ 0 <= saldo_restante_de db' 2024.
Proof.
  cbv zeta.
  assert (Hrun : run_request (criar_reserva (ReservaRequest.mk 2024 (Dec.Finite false 1000 (-2)) None None) 1)
                             Scenario.with_allocation
                 = (Ok (mkReservaResponse 99999000 1000),
                    snd (run_request (criar_reserva (ReservaRequest.mk 2024 (Dec.Finite false 1000 (-2)) None None) 1)
                                     Scenario.with_allocation)))
    by (vm_compute; reflexivity).
  split; [exact Hrun|].
  apply (accepted_spending_keeps_available_nonnegative Scenario.with_allocation _ 2024).
  left. exists (ReservaRequest.mk 2024 (Dec.Finite false 1000 (-2)) None None), 1, (mkReservaResponse 99999000 1000).
  split; [reflexivity|exact Hrun].
Defined.

Lemma rubrica_mutations_require_admin_witness :
  let novo := RubricaCreate.mk "2"%string "Other"%string DESPESA None 1 None 2024 ATIVA in
  let batch := RubricaBatchCreate.mk 1 2024 (Some DESPESA) [] in
  let u := RubricaUpdate.mk None None None in
  tem_papel "admin"%string (get_usuario_papeis three_levels 7) = false
  /\ refused three_levels (run_request (create_rubrica_endpoint novo 7) three_levels)
  /\ refused three_levels (run_request (create_rubricas_batch batch 7) three_levels)
  /\ refused three_levels (run_request (update_rubrica_endpoint 2 u 7) three_levels)
  /\ refused three_levels (run_request (delete_rubrica_endpoint 2 7) three_levels)
  /\ refused three_levels (run_request (popular_execucao_mensal 2024 7) three_levels).
Proof.
  cbv zeta. split; [vm_compute; reflexivity|].
  apply (rubrica_mutations_require_admin three_levels 7). vm_compute. reflexivity.
Defined.

Lemma create_rubrica_endpoint_stores_then_fails_witness :
  let novo := RubricaCreate.mk "1.2"%string "Other"%string DESPESA (Some 1) 1 (Some 2000)
                               2024 ATIVA in
  hierarchy_wf (rubricas three_levels)
  /\ exists rows',
       run_request (create_rubrica_endpoint novo 1) three_levels
       = (Raise (AttributeError AtributoDotacao), with_rubricas rows' three_levels)
       /\ List.map (Rubrica.set_dotacao_calculada None) rows'
          = List.map (Rubrica.set_dotacao_calculada None)
                     (rubricas three_levels ++ [nova_rubrica three_levels novo]).
Proof.
  cbv zeta. split; [exact three_levels_wf|].
  apply (create_rubrica_endpoint_stores_then_fails
           (RubricaCreate.mk "1.2"%string "Other"%string DESPESA (Some 1) 1 (Some 2000) 2024 ATIVA)
           1 three_levels three_levels_wf).
  - vm_compute. reflexivity.
  - vm_compute. reflexivity.
  - intros p H. injection H as <-. vm_compute. eauto.
  - intros v H. injection H as <-. split; [lia|discriminate].
Defined.

Lemma execute_import_counts_add_up_witness :
  let outcome := ImportExample.import_of "1.1"%string in
  fst outcome = Ok (mkImportResult 1 1 0 0 [])
  /\ Z.of_nat (length (despesas (snd outcome)))
     = Z.of_nat (length (despesas Scenario.with_leaf)) + 1.
Proof.
  cbv zeta.
  assert (Hrun : ImportExample.import_of "1.1"%string
                 = (Ok (mkImportResult 1 1 0 0 []), snd (ImportExample.import_of "1.1"%string)))
    by (vm_compute; reflexivity).
  split; [rewrite Hrun; reflexivity|].
  exact (proj2 (proj2 (proj2 (proj2
           (execute_import_counts_add_up ImportExample.today ImportExample.now_month
              ImportExample.parse_date ImportExample.normalize_name
              ImportExample.fuzz_extract 2024 [(0, ImportExample.row_of "1.1"%string)]
              ImportExample.mapping 7 Scenario.with_leaf
              (snd (ImportExample.import_of "1.1"%string)) (mkImportResult 1 1 0 0 []) Hrun))))).
Defined.

Lemma normalize_code_idempotent_witness :
  is_ascii " 47/h000/1.1 "%string = true
  /\ normalize_code (normalize_code " 47/h000/1.1 "%string) = normalize_code " 47/h000/1.1 "%string.
Proof.
  split; [reflexivity|]. apply normalize_code_idempotent. reflexivity.
Defined.

Lemma get_ancestors_are_the_ancestors_witness :
  hierarchy_wf (rubricas three_levels)
  /\ exists ancestors,
       get_ancestors three_levels 3 = Some ancestors
       /\ (forall a, In a ancestors -> In a (rubricas three_levels))
       /\ (get_rubrica three_levels 3 = None -> ancestors = [])
       /\ (forall rx, get_rubrica three_levels 3 = Some rx -> In rx ancestors)
       /\ (forall a rp, In a ancestors -> In rp (rubricas three_levels) ->
                        Rubrica.parent_id a = Some (Rubrica.id rp) -> In rp ancestors)
       /\ (forall a, In a ancestors ->
                     get_rubrica three_levels 3 = Some a
                     \/ exists b, In b ancestors
                                  /\ Rubrica.parent_id b = Some (Rubrica.id a)).
Proof.
  split; [exact three_levels_wf|].
  exact (get_ancestors_are_the_ancestors three_levels 3 three_levels_wf).
Defined.

Lemma fornecedor_match_is_active_witness :
  fornecedor_match ImportExample.normalize_name ImportExample.fuzz_extract
                   with_suppliers "ACME"%string = Ok (Some 1)
  /\ exists f, In f (fornecedores with_suppliers) /\ Fornecedor.id f = 1
               /\ Fornecedor.activo f = true.
Proof.
  split; [vm_compute; reflexivity|].
  apply (fornecedor_match_is_active ImportExample.normalize_name ImportExample.fuzz_extract
           with_suppliers "ACME"%string 1).
  vm_compute. reflexivity.
Defined.

Lemma create_rubricas_batch_counts_only_errors_witness :
  let batch := RubricaBatchCreate.mk 1 2024 (Some DESPESA)
                 [RubricaBatchItem.mk "1.2"%string "Other"%string None;
                  RubricaBatchItem.mk "1.1"%string "Taken"%string None] in
  hierarchy_wf (rubricas three_levels)
  /\ exists db',
       run_request (create_rubricas_batch batch 1) three_levels
       = (Ok (mkRubricaBatchResponse 0 2), db').
Proof.
  cbv zeta. split; [exact three_levels_wf|].
  refine (create_rubricas_batch_counts_only_errors
            (RubricaBatchCreate.mk 1 2024 (Some DESPESA)
               [RubricaBatchItem.mk "1.2"%string "Other"%string None;
                RubricaBatchItem.mk "1.1"%string "Taken"%string None])
            1 three_levels DESPESA
            (Rubrica.mk 1 "1"%string "Root"%string DESPESA None 1 (Some 0) (Some 10000) 2024 ATIVA)
            three_levels_wf _ _ _).
  - vm_compute. reflexivity.
  - reflexivity.
  - vm_compute. reflexivity.
Defined.

Lemma confirmed_unposted_wf : hierarchy_wf (rubricas confirmed_unposted).
Proof. exact scenario_wf. Qed.

Lemma popular_execucao_mensal_brings_up_to_date_witness :
  hierarchy_wf (rubricas confirmed_unposted)
  /\ exists criadas atualizadas erros db',
       run_request (popular_execucao_mensal 2024 1) confirmed_unposted
       = (Ok (ExecucaoPopulada 2024 criadas atualizadas erros), db')
       /\ despesas db' = despesas confirmed_unposted
       /\ without_calculada (rubricas db') = without_calculada (rubricas confirmed_unposted)
       /\ forall d k,
            In d (despesas confirmed_unposted) ->
            Despesa.exercicio d = 2024 ->
            Despesa.status d = CONFIRMADA ->
            Despesa.rubrica_id d = Some k ->
            is_Some (get_rubrica confirmed_unposted k) ->
            match get_execucao db' k (Despesa.mes d) 2024 with
            | Some row => ExecucaoMensal.gasto row = gasto_confirmado db' k (Despesa.mes d) 2024
            | None => gasto_confirmado db' k (Despesa.mes d) 2024 <= 0
            end.
Proof.
  split; [exact confirmed_unposted_wf|].
  refine (popular_execucao_mensal_brings_up_to_date confirmed_unposted 2024 1
            confirmed_unposted_wf _ _ _).
  - apply (bool_decide_unpack _). vm_compute. exact I.
  - vm_compute. reflexivity.
  - vm_compute. discriminate.
Defined.

